(** * gmux: session model, project/subtab lifecycle, sort engine and tab reorder

    A shallow embedding of the state-carrying part of [src/main.c]: the
    [AppState] / [Project] / [SubTab] records, [save_session] and
    [load_session], the three sidebar comparators with [apply_sort], the
    subtab lifecycle ([create_subtab], [close_subtab], the add-tab and
    project-selection handlers) and the gesture handlers that reorder the tab
    strip.

    C pointers are addresses ([nat]); a [Project] or [SubTab] is found again
    through its address.  The toolkit objects the handlers read back (the
    sidebar list box with its selected row and sort function, each project's
    [tabs_box] with its children and its ["drag-..."] data) are part of the
    state.  What the program only receives from outside (the wall clock, the
    directory a terminal reports, widget bounds, the widget under the pointer,
    the files on disk) is an input of the operation that reads it. *)

From Stdlib Require Import List ZArith String Ascii Bool Arith Lia.
From Stdlib Require Import Permutation Sorted DecimalString SpecFloat.
Import ListNotations.

Set Warnings "-register-all".

Local Open Scope string_scope.
Local Open Scope list_scope.
Local Open Scope Z_scope.

(** ** C integers *)

(** [(int) x]: the value kept by a conversion to a 32-bit signed integer. *)
Definition to_int (z : Z) : Z :=
  (z + 2147483648) mod 4294967296 - 2147483648.

(** [(guint) x]: an [int] passed where GLib expects an unsigned position. *)
Definition to_guint (z : Z) : Z := z mod 4294967296.

Definition G_MAXINT64 : Z := 9223372036854775807.
Definition G_MININT64 : Z := -9223372036854775808.

Definition in_int (z : Z) : Prop := -2147483648 <= z <= 2147483647.

(** ** C doubles *)

(** A [double] is an IEEE 754 binary64 number ([prec = 53], [emax = 1024])
    with the arithmetic of the Standard Library's [SpecFloat]: a sum or a
    quotient is the exact result rounded to the nearest double, ties to
    even; a comparison with a NaN is false.  [valid_double] holds of the
    values that are doubles (mantissa and exponent in canonical form); the
    operations map doubles to doubles. *)
Definition double : Type := spec_float.

Definition valid_double (x : double) : bool := valid_binary 53 1024 x.

Definition double_add (x y : double) : double := SFadd 53 1024 x y.

Definition double_div (x y : double) : double := SFdiv 53 1024 x y.

(** [x < y] *)
Definition double_lt (x y : double) : bool := SFltb x y.

Definition fabs (x : double) : double := SFabs x.

(** The double an integer constant or an [int] converts to. *)
Definition double_of_Z (z : Z) : double := binary_normalize 53 1024 z 0 false.

(** ** The GLib functions the program calls *)

Module GLib.

(** [g_list_length]; a [GList] never holds 2^32 cells, so the [guint]
    result is the length itself. *)
Definition g_list_length {A : Type} (l : list A) : Z := Z.of_nat (List.length l).

(** [g_list_index]: position of the first cell holding [d], or -1. *)
Fixpoint g_list_index (l : list nat) (d : nat) : Z :=
  match l with
  | [] => -1
  | x :: t =>
      if Nat.eqb x d then 0
      else let i := g_list_index t d in
           if i <? 0 then -1 else i + 1
  end.

(** [g_list_nth (l, n)] with [n] a [guint]: the cell at position [n], or
    NULL past the end. *)
Definition g_list_nth {A : Type} (l : list A) (n : Z) : option A :=
  if n <? 0 then None else nth_error l (Z.to_nat n).

(** [g_list_remove]: drops the first cell whose data is [d]. *)
Fixpoint g_list_remove (l : list nat) (d : nat) : list nat :=
  match l with
  | [] => []
  | x :: t => if Nat.eqb x d then t else x :: g_list_remove t d
  end.

(** [g_ascii_tolower] on one byte. *)
Definition g_ascii_tolower (c : ascii) : N :=
  let n := N_of_ascii c in
  if ((65 <=? n) && (n <=? 90))%N then (n + 32)%N else n.

(** [g_ascii_strcasecmp]: the difference of the first two bytes that
    differ once ASCII letters are lowered; at the end of either string, the
    difference of the bytes there (0 for the terminator). *)
Fixpoint g_ascii_strcasecmp (s1 s2 : string) : Z :=
  match s1, s2 with
  | String c1 t1, String c2 t2 =>
      let l1 := g_ascii_tolower c1 in
      let l2 := g_ascii_tolower c2 in
      if N.eqb l1 l2 then g_ascii_strcasecmp t1 t2
      else Z.of_N l1 - Z.of_N l2
  | String c1 _, EmptyString => Z.of_N (N_of_ascii c1)
  | EmptyString, String c2 _ => - Z.of_N (N_of_ascii c2)
  | EmptyString, EmptyString => 0
  end.

(** [strcmp (a, b) == 0]. *)
Definition streq (a b : string) : bool := String.eqb a b.

(** [g_strcmp0 (a, b) == 0], where [a] may be NULL. *)
Definition g_strcmp0_eq (a : option string) (b : string) : bool :=
  match a with
  | Some s => String.eqb s b
  | None => false
  end.

Definition is_space (c : ascii) : bool :=
  let n := N_of_ascii c in
  ((n =? 32) || ((9 <=? n) && (n <=? 13)))%N.

Definition digit_of (c : ascii) : option Z :=
  let n := N_of_ascii c in
  if ((48 <=? n) && (n <=? 57))%N then Some (Z.of_N n - 48) else None.

Fixpoint skip_spaces (s : string) : string :=
  match s with
  | String c t => if is_space c then skip_spaces t else s
  | EmptyString => s
  end.

Fixpoint read_digits (acc : Z) (s : string) : Z :=
  match s with
  | String c t =>
      match digit_of c with
      | Some d => read_digits (acc * 10 + d) t
      | None => acc
      end
  | EmptyString => acc
  end.

(** [g_ascii_strtoll (s, NULL, 10)]: optional white space, an optional
    sign, the longest run of decimal digits; 0 without digits; clamped to
    the [gint64] range. *)
Definition g_ascii_strtoll (s : string) : Z :=
  let body := skip_spaces s in
  let '(neg, digits) :=
    match body with
    | String "-" t => (true, t)
    | String "+" t => (false, t)
    | _ => (false, body)
    end in
  let v := read_digits 0 digits in
  let v := if neg then - v else v in
  Z.max G_MININT64 (Z.min G_MAXINT64 v).

Definition is_slash (c : ascii) : bool := Ascii.eqb c "/".

Fixpoint drop_slashes (l : list ascii) : list ascii :=
  match l with
  | c :: t => if is_slash c then drop_slashes t else l
  | [] => []
  end.

Fixpoint take_component (l : list ascii) : list ascii :=
  match l with
  | c :: t => if is_slash c then [] else c :: take_component t
  | [] => []
  end.

(** [g_path_get_basename]: "." for the empty string, "/" for a string of
    slashes only, otherwise the last component without trailing slashes. *)
Definition g_path_get_basename (file_name : string) : string :=
  match file_name with
  | EmptyString => "."
  | _ =>
      match drop_slashes (rev (list_ascii_of_string file_name)) with
      | [] => "/"
      | r => string_of_list_ascii (rev (take_component r))
      end
  end.

(** The text [snprintf] writes for ["%d"]. *)
Definition format_d (z : Z) : string :=
  NilZero.string_of_int (Z.to_int z).

End GLib.
Import GLib.

(** ** json-glib documents and accessors *)

Module Json.

(** A parsed document.  A real number only ever reaches the program through
    [json_object_get_int_member], which truncates it, so [JsonDouble]
    carries that truncation. *)
Inductive JsonNode : Type :=
| JsonNull
| JsonInt (v : Z)
| JsonDouble (truncated : Z)
| JsonBoolean (b : bool)
| JsonString (s : string)
| JsonArray (elements : list JsonNode)
| JsonObject (members : list (string * JsonNode)).

Definition JsonObjectT : Type := list (string * JsonNode).

Fixpoint json_object_get_member (o : JsonObjectT) (k : string)
  : option JsonNode :=
  match o with
  | [] => None
  | (k', v) :: t => if String.eqb k' k then Some v else json_object_get_member t k
  end.

Definition json_object_has_member (o : JsonObjectT) (k : string) : bool :=
  match json_object_get_member o k with Some _ => true | None => false end.

(** NULL unless the member holds a string. *)
Definition json_object_get_string_member (o : JsonObjectT) (k : string)
  : option string :=
  match json_object_get_member o k with
  | Some (JsonString s) => Some s
  | _ => None
  end.

(** The integer of an integer member, the truncation of a real one, 0 or 1
    for a boolean, 0 for anything else. *)
Definition json_object_get_int_member (o : JsonObjectT) (k : string) : Z :=
  match json_object_get_member o k with
  | Some (JsonInt v) => v
  | Some (JsonDouble v) => v
  | Some (JsonBoolean b) => if b then 1 else 0
  | _ => 0
  end.

(** The elements of an array member.  For a member that is no array
    json-glib returns NULL, and [json_array_get_length (NULL)] is 0: the
    loop over it runs no iteration. *)
Definition json_object_get_array_member (o : JsonObjectT) (k : string)
  : list JsonNode :=
  match json_object_get_member o k with
  | Some (JsonArray l) => l
  | _ => []
  end.

(** [json_array_get_object_element]: NULL unless the element is an
    object. *)
Definition json_array_get_object_element (n : JsonNode)
  : option JsonObjectT :=
  match n with
  | JsonObject o => Some o
  | _ => None
  end.

End Json.
Import Json.

(** ** Data model *)

Inductive SortMode : Type := SORT_NONE | SORT_ALPHA | SORT_MRU.

Definition SortMode_eqb (a b : SortMode) : bool :=
  match a, b with
  | SORT_NONE, SORT_NONE | SORT_ALPHA, SORT_ALPHA | SORT_MRU, SORT_MRU => true
  | _, _ => false
  end.

Record SavedSubTab : Type := mkSavedSubTab {
  saved_name : string;
  working_dir : string
}.

(** A [SubTab] lives at address [subtab_ptr]; its [tab_widget] is the child
    of the project's [tabs_box] that carries this address as ["subtab"] data,
    and is designated by the same address.  [current_directory] is what
    [g_filename_from_uri (vte_terminal_get_current_directory_uri (terminal))]
    gives for its terminal: [None] until the shell has reported a directory. *)
Record SubTab : Type := mkSubTab {
  subtab_ptr : nat;
  current_directory : option string;
  subtab_name : string;
  parent_tab : nat;
  closing : bool
}.

(** The [tabs_box] of a project: its children in strip order, the
    ["drag-tab"], ["drag-active"] and ["drag-start-x"] data the gesture
    handlers keep on it, and the children that bear the
    ["gmux-tab-dragging"] style class. *)
Record TabsBox : Type := mkTabsBox {
  children : list nat;
  drag_tab : option nat;
  drag_active : bool;
  drag_start_x : option double;
  tab_dragging : list nat
}.

Record Project : Type := mkProject {
  project_ptr : nat;
  tabs_box : TabsBox;
  subtabs : list SubTab;
  active_subtab : option nat;
  subtab_counter : Z;
  project_name : string;
  project_path : string;
  initialized : bool;
  last_used : Z;
  insert_order : Z;
  saved_subtabs : list SavedSubTab;
  saved_active_subtab : Z
}.

(** The three comparators a [GtkListBox] can be given. *)
Inductive SortFunc : Type :=
| sort_func_insertion_cb
| sort_func_alpha_cb
| sort_func_mru_cb.

(** The sidebar [GtkListBox]: one row per project (a row is designated by the
    address of the project stored as its ["project"] data), in display order;
    the selected row; the sort function installed by [apply_sort]. *)
Record ListBox : Type := mkListBox {
  rows : list nat;
  selected_row : option nat;
  sort_func : option SortFunc
}.

Record AppState : Type := mkAppState {
  sidebar : ListBox;
  projects : list Project;
  active_project : option nat;
  sort_mode : SortMode
}.

(** What [json_parser_load_from_file] makes of [session.json]: a failure, or
    a root node (NULL for an empty document). *)
Inductive SessionFile : Type :=
| Unparsable
| Parsed (root : option JsonNode).

(** The files of the data directory.  [projects_conf] is the sequence of
    buffers [fgets] returns on the legacy project list, [sort_conf] the first
    buffer read from the legacy sort file (if it has one). *)
Record Files : Type := mkFiles {
  session_json : option SessionFile;
  projects_conf : option (list string);
  sort_conf : option (option string)
}.

(** The program state together with what it does to the outside: the files,
    the next free address, the shells spawned so far (address of the subtab,
    working directory), the number of times [save_session] wrote the session,
    and the subtabs passed to [g_free].  [clock] is what [g_get_real_time]
    returns. *)
Record World : Type := mkWorld {
  app : AppState;
  files : Files;
  clock : Z;
  next_ptr : nat;
  spawned : list (nat * string);
  saves : nat;
  freed : list nat
}.

(** *** Field updates *)

Definition set_children (v : list nat) (b : TabsBox) : TabsBox :=
  mkTabsBox v (drag_tab b) (drag_active b) (drag_start_x b) (tab_dragging b).
Definition set_drag_tab (v : option nat) (b : TabsBox) : TabsBox :=
  mkTabsBox (children b) v (drag_active b) (drag_start_x b) (tab_dragging b).
Definition set_drag_active (v : bool) (b : TabsBox) : TabsBox :=
  mkTabsBox (children b) (drag_tab b) v (drag_start_x b) (tab_dragging b).
Definition set_drag_start_x (v : option double) (b : TabsBox) : TabsBox :=
  mkTabsBox (children b) (drag_tab b) (drag_active b) v (tab_dragging b).
Definition set_tab_dragging (v : list nat) (b : TabsBox) : TabsBox :=
  mkTabsBox (children b) (drag_tab b) (drag_active b) (drag_start_x b) v.

Definition set_tabs_box (v : TabsBox) (p : Project) : Project :=
  mkProject (project_ptr p) v (subtabs p) (active_subtab p) (subtab_counter p)
    (project_name p) (project_path p) (initialized p) (last_used p)
    (insert_order p) (saved_subtabs p) (saved_active_subtab p).
Definition set_subtabs (v : list SubTab) (p : Project) : Project :=
  mkProject (project_ptr p) (tabs_box p) v (active_subtab p) (subtab_counter p)
    (project_name p) (project_path p) (initialized p) (last_used p)
    (insert_order p) (saved_subtabs p) (saved_active_subtab p).
Definition set_active_subtab (v : option nat) (p : Project) : Project :=
  mkProject (project_ptr p) (tabs_box p) (subtabs p) v (subtab_counter p)
    (project_name p) (project_path p) (initialized p) (last_used p)
    (insert_order p) (saved_subtabs p) (saved_active_subtab p).
Definition set_subtab_counter (v : Z) (p : Project) : Project :=
  mkProject (project_ptr p) (tabs_box p) (subtabs p) (active_subtab p) v
    (project_name p) (project_path p) (initialized p) (last_used p)
    (insert_order p) (saved_subtabs p) (saved_active_subtab p).
Definition set_initialized (v : bool) (p : Project) : Project :=
  mkProject (project_ptr p) (tabs_box p) (subtabs p) (active_subtab p)
    (subtab_counter p) (project_name p) (project_path p) v (last_used p)
    (insert_order p) (saved_subtabs p) (saved_active_subtab p).
Definition set_last_used (v : Z) (p : Project) : Project :=
  mkProject (project_ptr p) (tabs_box p) (subtabs p) (active_subtab p)
    (subtab_counter p) (project_name p) (project_path p) (initialized p) v
    (insert_order p) (saved_subtabs p) (saved_active_subtab p).
Definition set_insert_order (v : Z) (p : Project) : Project :=
  mkProject (project_ptr p) (tabs_box p) (subtabs p) (active_subtab p)
    (subtab_counter p) (project_name p) (project_path p) (initialized p)
    (last_used p) v (saved_subtabs p) (saved_active_subtab p).
Definition set_saved_subtabs (v : list SavedSubTab) (p : Project) : Project :=
  mkProject (project_ptr p) (tabs_box p) (subtabs p) (active_subtab p)
    (subtab_counter p) (project_name p) (project_path p) (initialized p)
    (last_used p) (insert_order p) v (saved_active_subtab p).
Definition set_saved_active_subtab (v : Z) (p : Project) : Project :=
  mkProject (project_ptr p) (tabs_box p) (subtabs p) (active_subtab p)
    (subtab_counter p) (project_name p) (project_path p) (initialized p)
    (last_used p) (insert_order p) (saved_subtabs p) v.

Definition set_sidebar (v : ListBox) (a : AppState) : AppState :=
  mkAppState v (projects a) (active_project a) (sort_mode a).
Definition set_projects (v : list Project) (a : AppState) : AppState :=
  mkAppState (sidebar a) v (active_project a) (sort_mode a).
Definition set_active_project (v : option nat) (a : AppState) : AppState :=
  mkAppState (sidebar a) (projects a) v (sort_mode a).
Definition set_sort_mode (v : SortMode) (a : AppState) : AppState :=
  mkAppState (sidebar a) (projects a) (active_project a) v.

Definition set_app (v : AppState) (w : World) : World :=
  mkWorld v (files w) (clock w) (next_ptr w) (spawned w) (saves w) (freed w).
Definition set_files (v : Files) (w : World) : World :=
  mkWorld (app w) v (clock w) (next_ptr w) (spawned w) (saves w) (freed w).
Definition set_clock (v : Z) (w : World) : World :=
  mkWorld (app w) (files w) v (next_ptr w) (spawned w) (saves w) (freed w).

(** Running [f] on the application state only. *)
Definition on_app (f : AppState -> AppState) (w : World) : World :=
  set_app (f (app w)) w.

(** *** Dereferencing *)

(** The [Project] at address [ptr]. *)
Definition find_project (a : AppState) (ptr : nat) : option Project :=
  find (fun p => Nat.eqb (project_ptr p) ptr) (projects a).

(** A write through a [Project *]. *)
Definition update_project (ptr : nat) (f : Project -> Project) (a : AppState)
  : AppState :=
  set_projects
    (map (fun p => if Nat.eqb (project_ptr p) ptr then f p else p) (projects a))
    a.

(** The [SubTab] at address [s]: subtabs are allocated by [create_subtab],
    which links them into their project at once, and freed when unlinked. *)
Definition find_subtab (a : AppState) (s : nat) : option SubTab :=
  find (fun st => Nat.eqb (subtab_ptr st) s) (flat_map subtabs (projects a)).

(** A write through a [SubTab *]. *)
Definition update_subtab (s : nat) (f : SubTab -> SubTab) (p : Project)
  : Project :=
  set_subtabs
    (map (fun st => if Nat.eqb (subtab_ptr st) s then f st else st) (subtabs p))
    p.

Definition set_closing (v : bool) (st : SubTab) : SubTab :=
  mkSubTab (subtab_ptr st) (current_directory st) (subtab_name st)
    (parent_tab st) v.
Definition set_subtab_name (v : string) (st : SubTab) : SubTab :=
  mkSubTab (subtab_ptr st) (current_directory st) v (parent_tab st)
    (closing st).
Definition set_current_directory (v : option string) (st : SubTab) : SubTab :=
  mkSubTab (subtab_ptr st) v (subtab_name st) (parent_tab st) (closing st).

(** ** Session store: [save_session] *)

(** The index [save_session] writes for the pointer [active] in the list of
    addresses [l]: its position, or 0 when it is NULL or absent. *)
Definition saved_index (l : list nat) (active : option nat) : Z :=
  match active with
  | Some ptr => let idx := g_list_index l ptr in if idx >=? 0 then idx else 0
  | None => 0
  end.

Definition sort_mode_string (m : SortMode) : string :=
  match m with
  | SORT_ALPHA => "alpha"
  | SORT_MRU => "mru"
  | SORT_NONE => "none"
  end.

(** One live subtab: its name, and the directory its terminal reports or,
    failing that, the project's path. *)
Definition subtab_json (project : Project) (subtab : SubTab) : JsonNode :=
  JsonObject
    [("name", JsonString (subtab_name subtab));
     ("working_dir",
       JsonString match current_directory subtab with
                  | Some path => path
                  | None => project_path project
                  end)].

Definition saved_subtab_json (saved : SavedSubTab) : JsonNode :=
  JsonObject
    [("name", JsonString (saved_name saved));
     ("working_dir", JsonString (working_dir saved))].

Definition project_json (project : Project) : JsonNode :=
  JsonObject
    ([("name", JsonString (project_name project));
      ("path", JsonString (project_path project));
      ("last_used", JsonInt (last_used project))]
     ++
     if initialized project then
       [("active_subtab_index",
          JsonInt (saved_index (map subtab_ptr (subtabs project))
                               (active_subtab project)));
        ("subtabs", JsonArray (map (subtab_json project) (subtabs project)))]
     else
       match saved_subtabs project with
       | _ :: _ =>
           [("active_subtab_index", JsonInt (saved_active_subtab project));
            ("subtabs",
              JsonArray (map saved_subtab_json (saved_subtabs project)))]
       | [] =>
           [("active_subtab_index", JsonInt 0);
            ("subtabs", JsonArray [])]
       end).

(** The root node [save_session] builds: projects in the order of
    [app->projects], not in the order the sidebar displays. *)
Definition session_root (a : AppState) : JsonNode :=
  JsonObject
    [("active_project_index",
       JsonInt (saved_index (map project_ptr (projects a)) (active_project a)));
     ("sort_mode", JsonString (sort_mode_string (sort_mode a)));
     ("projects", JsonArray (map project_json (projects a)))].

(** [save_session]: the document replaces [session.json]; what the parser
    reads back from the written file is the tree that was generated. *)
Definition save_session (w : World) : World :=
  mkWorld (app w)
    (mkFiles (Some (Parsed (Some (session_root (app w)))))
             (projects_conf (files w)) (sort_conf (files w)))
    (clock w) (next_ptr w) (spawned w) (S (saves w)) (freed w).

(** ** Sort engine *)

(** The comparators read the projects through the ["project"] data of the
    two rows; [deref] is the heap they read. *)
Section Comparators.

Variable deref : nat -> option Project.

Definition sort_func_insertion (row1 row2 : nat) : Z :=
  match deref row1, deref row2 with
  | Some p1, Some p2 => to_int (insert_order p1 - insert_order p2)
  | _, _ => 0
  end.

Definition sort_func_alpha (row1 row2 : nat) : Z :=
  match deref row1, deref row2 with
  | Some p1, Some p2 =>
      g_ascii_strcasecmp (project_name p1) (project_name p2)
  | _, _ => 0
  end.

(** Descending: most recent first. *)
Definition sort_func_mru (row1 row2 : nat) : Z :=
  match deref row1, deref row2 with
  | Some p1, Some p2 =>
      if last_used p2 >? last_used p1 then 1
      else if last_used p2 <? last_used p1 then -1
      else 0
  | _, _ => 0
  end.

Definition do_sort (f : SortFunc) : nat -> nat -> Z :=
  match f with
  | sort_func_insertion_cb => sort_func_insertion
  | sort_func_alpha_cb => sort_func_alpha
  | sort_func_mru_cb => sort_func_mru
  end.

End Comparators.

(** [g_sequence_insert_sorted]: the new element goes after the last element
    that does not compare greater than it. *)
Fixpoint g_sequence_insert_sorted (cmp : nat -> nat -> Z) (x : nat)
  (l : list nat) : list nat :=
  match l with
  | [] => [x]
  | y :: t =>
      if cmp y x >? 0 then x :: l else y :: g_sequence_insert_sorted cmp x t
  end.

(** [g_sequence_sort]: the elements are taken out and inserted again one by
    one, from the first to the last. *)
Definition g_sequence_sort (cmp : nat -> nat -> Z) (l : list nat) : list nat :=
  fold_left (fun acc x => g_sequence_insert_sorted cmp x acc) l [].

(** [gtk_list_box_invalidate_sort]: nothing without a sort function. *)
Definition gtk_list_box_invalidate_sort (deref : nat -> option Project)
  (box : ListBox) : ListBox :=
  match sort_func box with
  | Some f =>
      mkListBox (g_sequence_sort (do_sort deref f) (rows box))
        (selected_row box) (sort_func box)
  | None => box
  end.

(** [gtk_list_box_set_sort_func] installs the function and sorts. *)
Definition gtk_list_box_set_sort_func (deref : nat -> option Project)
  (f : SortFunc) (box : ListBox) : ListBox :=
  gtk_list_box_invalidate_sort deref
    (mkListBox (rows box) (selected_row box) (Some f)).

(** [gtk_list_box_append]: at the end, or at its sorted position when a sort
    function is installed. *)
Definition gtk_list_box_append (deref : nat -> option Project) (row : nat)
  (box : ListBox) : ListBox :=
  mkListBox
    match sort_func box with
    | Some f => g_sequence_insert_sorted (do_sort deref f) row (rows box)
    | None => rows box ++ [row]
    end
    (selected_row box) (sort_func box).

(** [apply_sort]: only the sidebar changes. *)
Definition apply_sort (a : AppState) : AppState :=
  let f := match sort_mode a with
           | SORT_ALPHA => sort_func_alpha_cb
           | SORT_MRU => sort_func_mru_cb
           | SORT_NONE => sort_func_insertion_cb
           end in
  let box := gtk_list_box_set_sort_func (find_project a) f (sidebar a) in
  set_sidebar (gtk_list_box_invalidate_sort (find_project a) box) a.

(** The projects in the order the sidebar shows them. *)
Definition displayed (a : AppState) : list Project :=
  flat_map (fun row => match find_project a row with
                       | Some p => [p]
                       | None => []
                       end) (rows (sidebar a)).

(** [on_sort_clicked]: NONE -> ALPHA -> MRU -> NONE. *)
Definition on_sort_clicked (w : World) : World :=
  let a := app w in
  let a := set_sort_mode match sort_mode a with
                         | SORT_NONE => SORT_ALPHA
                         | SORT_ALPHA => SORT_MRU
                         | SORT_MRU => SORT_NONE
                         end a in
  save_session (set_app (apply_sort a) w).

(** ** Subtab lifecycle *)

(** [on_subtab_button_clicked]: the subtab becomes the active one of its
    parent (the stack's visible child and the ["gmux-tab-item-active"] class
    follow [active_subtab]). *)
Definition on_subtab_button_clicked (subtab : SubTab) (a : AppState)
  : AppState :=
  update_project (parent_tab subtab)
    (set_active_subtab (Some (subtab_ptr subtab))) a.

(** [create_subtab]: a new [SubTab] with its terminal and tab widget; the
    widget is appended to [tabs_box], a shell is spawned in [working_dir],
    the subtab is appended to [project->subtabs] and made active. *)
Definition create_subtab (project : nat) (name dir : string) (w : World)
  : World * SubTab :=
  let s := next_ptr w in
  let subtab := mkSubTab s None name project false in
  let a1 :=
    update_project project
      (fun p =>
         set_subtabs (subtabs p ++ [subtab])
           (set_tabs_box
              (set_children (children (tabs_box p) ++ [s]) (tabs_box p)) p))
      (app w) in
  let a2 := on_subtab_button_clicked subtab a1 in
  (mkWorld a2 (files w) (clock w) (S s) (spawned w ++ [(s, dir)]) (saves w)
     (freed w),
   subtab).

(** [link->next ? link->next : link->prev] for the first link holding [s]. *)
Fixpoint adjacent_link (prev : option SubTab) (l : list SubTab) (s : nat)
  : option SubTab :=
  match l with
  | [] => None
  | x :: t =>
      if Nat.eqb (subtab_ptr x) s then
        match t with
        | y :: _ => Some y
        | [] => prev
        end
      else adjacent_link (Some x) t s
  end.

(** [g_list_remove (project->subtabs, subtab)]. *)
Fixpoint remove_subtab (l : list SubTab) (s : nat) : list SubTab :=
  match l with
  | [] => []
  | x :: t => if Nat.eqb (subtab_ptr x) s then t else x :: remove_subtab t s
  end.

Definition is_active_subtab (p : Project) (s : nat) : bool :=
  match active_subtab p with
  | Some s' => Nat.eqb s' s
  | None => false
  end.

(** The guard of [close_subtab]: the subtab it is to close (with its
    parent), unless the pointer is NULL or names no subtab, or the subtab is
    already closing. *)
Definition close_subtab_guard (subtab : option nat) (w : World)
  : option (SubTab * Project) :=
  match subtab with
  | None => None
  | Some s =>
      match find_subtab (app w) s with
      | None => None
      | Some st =>
          if closing st then None
          else match find_project (app w) (parent_tab st) with
               | Some project => Some (st, project)
               | None => None
               end
      end
  end.

(** [subtab->closing = TRUE]. *)
Definition close_subtab_mark (st : SubTab) (w : World) : World :=
  on_app (update_project (parent_tab st)
            (update_subtab (subtab_ptr st) (set_closing true))) w.

(** What [close_subtab] does to [project] itself once an adjacent subtab has
    been activated: the tab widget leaves [tabs_box], the subtab leaves
    [project->subtabs], [active_subtab] is cleared if it still is this
    subtab, and the project is uninitialized again if this was its last
    subtab. *)
Definition unlink_subtab (s : nat) (was_last : bool) (p : Project) : Project :=
  let p := set_tabs_box
             (set_children (g_list_remove (children (tabs_box p)) s)
                (tabs_box p)) p in
  let p := set_subtabs (remove_subtab (subtabs p) s) p in
  let p := if is_active_subtab p s then set_active_subtab None p else p in
  if was_last then set_initialized false p else p.

(** The rest of [close_subtab], from the line after [closing = TRUE];
    [project] is the parent as it was on entry. *)
Definition close_subtab_rest (st : SubTab) (project : Project) (w : World)
  : World :=
  let s := subtab_ptr st in
  let was_last := g_list_length (subtabs project) =? 1 in
  let a := app w in
  let a :=
    if is_active_subtab project s && negb was_last then
      match adjacent_link None (subtabs project) s with
      | Some new_active => on_subtab_button_clicked new_active a
      | None => a
      end
    else a in
  let a := update_project (parent_tab st) (unlink_subtab s was_last) a in
  save_session
    (mkWorld a (files w) (clock w) (next_ptr w) (spawned w) (saves w)
       (freed w ++ [s])).

Definition close_subtab (subtab : option nat) (w : World) : World :=
  match close_subtab_guard subtab w with
  | None => w
  | Some (st, project) => close_subtab_rest st project (close_subtab_mark st w)
  end.

Definition on_close_subtab_clicked (subtab : nat) (w : World) : World :=
  close_subtab (Some subtab) w.

(** [on_terminal_child_exited]: closes the tab unless it is closing. *)
Definition on_terminal_child_exited (subtab : nat) (w : World) : World :=
  match find_subtab (app w) subtab with
  | Some st => if closing st then w else close_subtab (Some subtab) w
  | None => w
  end.

(** [on_terminal_title_changed]: a non-empty title becomes the name. *)
Definition on_terminal_title_changed (subtab : nat) (title : option string)
  (w : World) : World :=
  match title, find_subtab (app w) subtab with
  | Some (String c t), Some st =>
      on_app (update_project (parent_tab st)
                (update_subtab subtab (set_subtab_name (String c t)))) w
  | _, _ => w
  end.

Definition free_saved_subtabs (p : Project) : Project :=
  set_saved_subtabs [] p.

(** [on_add_subtab_clicked], and [on_sidebar_add_subtab_clicked] whose body
    is the same. *)
Definition on_add_subtab_clicked (project : nat) (w : World) : World :=
  match find_project (app w) project with
  | None => w
  | Some p =>
      if negb (initialized p) then
        let w := on_app (update_project project free_saved_subtabs) w in
        let w := fst (create_subtab project "Tab 1" (project_path p) w) in
        let w := on_app (update_project project (set_subtab_counter 1)) w in
        on_app (update_project project (set_initialized true)) w
      else
        let counter := to_int (subtab_counter p + 1) in
        let w := on_app (update_project project (set_subtab_counter counter)) w in
        let name := String.append "Tab " (format_d counter) in
        fst (create_subtab project name (project_path p) w)
  end.

Definition on_sidebar_add_subtab_clicked (project : nat) (w : World) : World :=
  on_add_subtab_clicked project w.

(** ** Project lifecycle *)

(** [on_project_selected], the handler of the sidebar's ["row-selected"]
    signal. *)
Definition on_project_selected (row : option nat) (w : World) : World :=
  match row with
  | None => w
  | Some project =>
      let page_num := g_list_index (map project_ptr (projects (app w))) project in
      match find_project (app w) project with
      | Some p =>
          if page_num >=? 0 then
            let w := on_app (set_active_project (Some project)) w in
            let w := on_app (update_project project (set_last_used (clock w))) w in
            if negb (initialized p) then
              let w :=
                match saved_subtabs p with
                | _ :: _ =>
                    let w :=
                      fold_left
                        (fun w saved =>
                           fst (create_subtab project (saved_name saved)
                                  (working_dir saved) w))
                        (saved_subtabs p) w in
                    let w :=
                      on_app (update_project project
                                (set_subtab_counter
                                   (to_int (g_list_length (saved_subtabs p))))) w in
                    let w :=
                      match find_project (app w) project with
                      | Some p' =>
                          match g_list_nth (subtabs p')
                                  (to_guint (saved_active_subtab p')) with
                          | Some active_sub =>
                              on_app (on_subtab_button_clicked active_sub) w
                          | None => w
                          end
                      | None => w
                      end in
                    on_app (update_project project free_saved_subtabs) w
                | [] =>
                    let w := fst (create_subtab project "Tab 1" (project_path p) w) in
                    on_app (update_project project (set_subtab_counter 1)) w
                end in
              on_app (update_project project (set_initialized true)) w
            else w
          else w
      | None => w
      end
  end.

(** [gtk_list_box_select_row] on a row that is not selected yet selects it
    and emits ["row-selected"]; [activate] has connected
    [on_project_selected] to that signal before it loads the session, so the
    handler runs inside the call.  [create_project] says as much: it selects
    the new row "only when actually initializing a terminal, otherwise
    load_session handles selection after all projects are loaded". *)
Definition gtk_list_box_select_row (row : nat) (w : World) : World :=
  let box := sidebar (app w) in
  match selected_row box with
  | Some r =>
      if Nat.eqb r row then w
      else on_project_selected (Some row)
             (on_app (set_sidebar
                        (mkListBox (rows box) (Some row) (sort_func box))) w)
  | None =>
      on_project_selected (Some row)
        (on_app (set_sidebar
                   (mkListBox (rows box) (Some row) (sort_func box))) w)
  end.

(** [gtk_list_box_remove]: removing the selected row clears the selection
    and emits ["row-selected"] with no row, on which [on_project_selected]
    returns at once. *)
Definition gtk_list_box_remove (row : nat) (w : World) : World :=
  let box := sidebar (app w) in
  let selected :=
    match selected_row box with
    | Some r => if Nat.eqb r row then None else Some r
    | None => None
    end in
  let w := on_app (set_sidebar
                     (mkListBox (g_list_remove (rows box) row) selected
                        (sort_func box))) w in
  match selected_row box, selected with
  | Some _, None => on_project_selected None w
  | _, _ => w
  end.

(** [create_project].  The project starts zeroed ([g_new0]); its row joins
    the sidebar before [insert_order] is assigned and before the project is
    linked into [app->projects]. *)
Definition create_project (name path : string) (init_terminal : bool)
  (w : World) : World * nat :=
  let ptr := next_ptr w in
  let project :=
    mkProject ptr (mkTabsBox [] None false None []) [] None 0 name path false
      0 0 [] 0 in
  let a := app w in
  let deref := fun r => if Nat.eqb r ptr then Some project
                        else find_project a r in
  let a := set_sidebar (gtk_list_box_append deref ptr (sidebar a)) a in
  let project := set_insert_order (to_int (g_list_length (projects a))) project in
  let a := set_projects (projects a ++ [project]) a in
  let a := set_active_project (Some ptr) a in
  let w := mkWorld a (files w) (clock w) (S ptr) (spawned w) (saves w)
             (freed w) in
  if init_terminal then
    let w := fst (create_subtab ptr "Tab 1" path w) in
    let w := on_app (update_project ptr (set_subtab_counter 1)) w in
    let w := on_app (update_project ptr (set_initialized true)) w in
    (gtk_list_box_select_row ptr w, ptr)
  else (w, ptr).

(** [on_folder_selected]: [folder] is the base name and the path of the
    chosen folder, or nothing when the dialog was dismissed. *)
Definition on_folder_selected (folder : option (string * string)) (w : World)
  : World :=
  match folder with
  | None => w
  | Some (basename, path) =>
      save_session (fst (create_project basename path true w))
  end.

(** [g_list_remove (app->projects, project)]. *)
Fixpoint remove_project (l : list Project) (ptr : nat) : list Project :=
  match l with
  | [] => []
  | p :: t =>
      if Nat.eqb (project_ptr p) ptr then t else p :: remove_project t ptr
  end.

(** [on_remove_project_clicked]: the session is saved while
    [app->active_project] still holds the address of the removed project;
    then the first remaining project is selected. *)
Definition on_remove_project_clicked (w : World) : World :=
  match active_project (app w) with
  | None => w
  | Some ptr =>
      match find_project (app w) ptr with
      | None => w
      | Some project =>
          let w := gtk_list_box_remove ptr w in
          let a := set_projects (remove_project (projects (app w)) ptr) (app w) in
          let w :=
            save_session
              (mkWorld a (files w) (clock w) (next_ptr w) (spawned w)
                 (saves w) (freed w ++ map subtab_ptr (subtabs project))) in
          match projects (app w) with
          | first :: _ =>
              gtk_list_box_select_row (project_ptr first)
                (on_app (set_active_project (Some (project_ptr first))) w)
          | [] => on_app (set_active_project None) w
          end
      end
  end.

(** ** Session store: [load_session] *)

Definition newline : ascii := "010"%char.

(** A buffer as [strlen], [strchr], [strcmp] and [g_strdup] see it: the
    characters before its first NUL byte. *)
Fixpoint before_nul (buffer : string) : string :=
  match buffer with
  | EmptyString => EmptyString
  | String c t =>
      if (N_of_ascii c =? 0)%N then EmptyString else String c (before_nul t)
  end.

(** [if (len > 0 && line[len - 1] == '\n') line[len - 1] = '\0';] *)
Fixpoint strip_newline (line : string) : string :=
  match line with
  | EmptyString => EmptyString
  | String c EmptyString =>
      if Ascii.eqb c newline then EmptyString else line
  | String c t => String c (strip_newline t)
  end.

(** [strchr (line, '|')]: the text before the first bar and the text after
    it. *)
Fixpoint split_at_pipe (line : string) : option (string * string) :=
  match line with
  | EmptyString => None
  | String c t =>
      if Ascii.eqb c "|" then Some (EmptyString, t)
      else match split_at_pipe t with
           | Some (before, after) => Some (String c before, after)
           | None => None
           end
  end.

(** One iteration of the loop over the legacy [projects.conf], on the
    buffer [fgets] has filled.  The program reads the buffer as a C string,
    that is, up to its first NUL byte. *)
Definition load_legacy_line (w : World) (buffer : string) : World :=
  match strip_newline (before_nul buffer) with
  | EmptyString => w
  | line =>
      let '(last, path) :=
        match split_at_pipe line with
        | Some (String c before, after) =>
            (g_ascii_strtoll (String c before), after)
        | _ => (0, line)
        end in
      let '(w, project) :=
        create_project (g_path_get_basename path) path false w in
      on_app (update_project project (set_last_used last)) w
  end.

(** The pending-restore descriptors read from a ["subtabs"] array. *)
Definition load_saved_subtabs (path : string) (subtabs_arr : list JsonNode)
  (pending : list SavedSubTab) : list SavedSubTab :=
  fold_left
    (fun pending node =>
       match json_array_get_object_element node with
       | None => pending
       | Some sub_obj =>
           let sub_name :=
             match json_object_get_string_member sub_obj "name" with
             | Some n => n
             | None => "Tab"
             end in
           let dir :=
             match json_object_get_string_member sub_obj "working_dir" with
             | Some d => d
             | None => path
             end in
           pending ++ [mkSavedSubTab sub_name dir]
       end)
    subtabs_arr pending.

(** One iteration of the loop over the ["projects"] array: an uninitialized
    project with its pending-restore descriptors; no terminal is created
    here. *)
Definition load_project (w : World) (node : JsonNode) : World :=
  match json_array_get_object_element node with
  | None => w
  | Some proj_obj =>
      match json_object_get_string_member proj_obj "name",
            json_object_get_string_member proj_obj "path" with
      | Some name, Some path =>
          let '(w, project) := create_project name path false w in
          let w :=
            if json_object_has_member proj_obj "last_used" then
              on_app (update_project project
                        (set_last_used
                           (json_object_get_int_member proj_obj "last_used"))) w
            else w in
          if json_object_has_member proj_obj "subtabs" then
            let subtabs_arr := json_object_get_array_member proj_obj "subtabs" in
            let w :=
              on_app (update_project project
                        (fun p => set_saved_subtabs
                                    (load_saved_subtabs path subtabs_arr
                                       (saved_subtabs p)) p)) w in
            let index :=
              if json_object_has_member proj_obj "active_subtab_index" then
                to_int (json_object_get_int_member proj_obj "active_subtab_index")
              else 0 in
            on_app (update_project project (set_saved_active_subtab index)) w
          else w
      | _, _ => w
      end
  end.

(** The part of [load_session] that reads a parsed [session.json]. *)
Definition load_session_root (root : option JsonNode) (w : World) : World :=
  match root with
  | Some (JsonObject root_obj) =>
      let w :=
        if json_object_has_member root_obj "sort_mode" then
          let mode_str := json_object_get_string_member root_obj "sort_mode" in
          on_app (set_sort_mode
                    (if g_strcmp0_eq mode_str "alpha" then SORT_ALPHA
                     else if g_strcmp0_eq mode_str "mru" then SORT_MRU
                     else SORT_NONE)) w
        else w in
      let active_project_index :=
        if json_object_has_member root_obj "active_project_index" then
          to_int (json_object_get_int_member root_obj "active_project_index")
        else 0 in
      if json_object_has_member root_obj "projects" then
        let projects_arr := json_object_get_array_member root_obj "projects" in
        let w := fold_left load_project projects_arr w in
        match g_list_nth (projects (app w)) (to_guint active_project_index) with
        | Some active_proj =>
            gtk_list_box_select_row (project_ptr active_proj)
              (on_app (set_active_project (Some (project_ptr active_proj))) w)
        | None => w
        end
      else w
  | _ => w
  end.

(** The migration of the legacy files, run when there is no [session.json]. *)
Definition load_legacy (w : World) : World :=
  match projects_conf (files w) with
  | None => w
  | Some buffers =>
      let w := fold_left load_legacy_line buffers w in
      let w :=
        match sort_conf (files w) with
        | Some (Some buffer) =>
            let sline := strip_newline (before_nul buffer) in
            if streq sline "alpha" then on_app (set_sort_mode SORT_ALPHA) w
            else if streq sline "mru" then on_app (set_sort_mode SORT_MRU) w
            else w
        | _ => w
        end in
      save_session w
  end.

Definition load_session (w : World) : World :=
  match session_json (files w) with
  | None => load_legacy w
  | Some Unparsable => w
  | Some (Parsed root) => load_session_root root w
  end.

(** The state [activate] starts from: [g_new0 (AppState, 1)], an empty
    sidebar without sort function, nothing spawned or saved yet. *)
Definition fresh_app : AppState :=
  mkAppState (mkListBox [] None None) [] None SORT_NONE.

Definition fresh_world (f : Files) (now : Z) : World :=
  mkWorld fresh_app f now 0 [] 0 [].

(** The end of [activate]: restore the session, then sort the sidebar. *)
Definition activate (f : Files) (now : Z) : World :=
  on_app apply_sort (load_session (fresh_world f now)).

(** ** Tab reorder controller *)

(** Pointer coordinates are doubles.  The bounds of a widget are the
    [origin.x] and the [size.width] of the [graphene_rect_t] that
    [gtk_widget_compute_bounds] fills: two [float]s, which the program
    converts to [double] (exactly) before it computes with them, and which
    are given here as these doubles. *)

(** What [gtk_widget_pick] found under the pointer: nothing inside a tab
    (NULL, or the strip itself), or a widget inside the tab [tab], which is
    or is not inside that tab's close button. *)
Inductive Picked : Type :=
| PickNothing
| PickTab (tab : nat) (close_button : bool).

Definition is_close_button_hit (picked : Picked) : bool :=
  match picked with
  | PickTab _ true => true
  | _ => false
  end.

Definition find_tab_button_ancestor (picked : Picked) : option nat :=
  match picked with
  | PickTab tab _ => Some tab
  | PickNothing => None
  end.

Definition mem (x : nat) (l : list nat) : bool := existsb (Nat.eqb x) l.

Fixpoint insert_after (sibling child : nat) (l : list nat) : list nat :=
  match l with
  | [] => []
  | x :: t =>
      if Nat.eqb x sibling then x :: child :: t
      else x :: insert_after sibling child t
  end.

(** [gtk_box_reorder_child_after]: [child] moves right after [sibling], or
    to the front for a NULL sibling; nothing happens when either is not a
    child of the box or when they are the same widget. *)
Definition gtk_box_reorder_child_after (l : list nat) (child : nat)
  (sibling : option nat) : list nat :=
  if negb (mem child l) then l
  else match sibling with
       | None => child :: g_list_remove l child
       | Some s =>
           if negb (mem s l) then l
           else if Nat.eqb s child then l
           else insert_after s child (g_list_remove l child)
       end.

(** The children of [tabs_box] that carry a subtab, read back into
    [project->subtabs]. *)
Definition rebuild_subtabs_list (a : AppState) (project : nat) : AppState :=
  update_project project
    (fun p =>
       set_subtabs
         (flat_map (fun child => match find_subtab a child with
                                 | Some st => [st]
                                 | None => []
                                 end) (children (tabs_box p))) p) a.

Definition on_tab_drag_begin (project : nat) (start_x : double) (picked : Picked)
  (w : World) : World :=
  if is_close_button_hit picked then w
  else match find_tab_button_ancestor picked with
       | None => w
       | Some tab_btn =>
           on_app (update_project project
                     (fun p =>
                        set_tabs_box
                          (set_drag_start_x (Some start_x)
                             (set_drag_active false
                                (set_drag_tab (Some tab_btn) (tabs_box p)))) p)) w
       end.

(** [bounds.origin.x + bounds.size.width / 2.0] *)
Definition midpoint (bounds : double * double) : double :=
  double_add (fst bounds) (double_div (snd bounds) (double_of_Z 2)).

(** The loop of [on_tab_drag_update] over the children still to visit:
    [all] is the strip, [prev] the sibling before the next child, [bounds]
    what [gtk_widget_compute_bounds] gives (origin and width, if any). *)
Fixpoint reorder_on_crossing (bounds : nat -> option (double * double))
  (dragged_btn : nat) (current_x : double) (all : list nat)
  (prev : option nat) (rest : list nat) : list nat :=
  match rest with
  | [] => all
  | child :: t =>
      if Nat.eqb child dragged_btn then
        reorder_on_crossing bounds dragged_btn current_x all (Some child) t
      else
        match bounds child, bounds dragged_btn with
        | Some child_bounds, Some dragged_bounds =>
            let child_mid := midpoint child_bounds in
            let dragged_mid := midpoint dragged_bounds in
            if double_lt child_mid dragged_mid
               && double_lt current_x child_mid then
              match prev with
              | Some pr =>
                  if Nat.eqb pr dragged_btn then all
                  else gtk_box_reorder_child_after all dragged_btn prev
              | None => gtk_box_reorder_child_after all dragged_btn prev
              end
            else if double_lt dragged_mid child_mid
                    && double_lt child_mid current_x then
              gtk_box_reorder_child_after all dragged_btn (Some child)
            else
              reorder_on_crossing bounds dragged_btn current_x all (Some child) t
        | _, _ =>
            reorder_on_crossing bounds dragged_btn current_x all (Some child) t
        end
  end.

Definition add_css_class (widget : nat) (l : list nat) : list nat :=
  if mem widget l then l else l ++ [widget].

Definition remove_css_class (widget : nat) (l : list nat) : list nat :=
  filter (fun x => negb (Nat.eqb x widget)) l.

Definition on_tab_drag_update (project : nat) (offset_x : double)
  (bounds : nat -> option (double * double)) (w : World) : World :=
  match find_project (app w) project with
  | None => w
  | Some p =>
      let box := tabs_box p in
      match drag_tab box, drag_start_x box with
      | Some dragged_btn, Some start_x =>
          if negb (drag_active box)
             && double_lt (fabs offset_x) (double_of_Z 6) then w
          else
            let box :=
              if drag_active box then box
              else set_tab_dragging (add_css_class dragged_btn (tab_dragging box))
                     (set_drag_active true box) in
            let current_x := double_add start_x offset_x in
            let box :=
              set_children
                (reorder_on_crossing bounds dragged_btn current_x
                   (children box) None (children box)) box in
            on_app (update_project project (set_tabs_box box)) w
      | _, _ => w
      end
  end.

Definition on_tab_drag_end (project : nat) (w : World) : World :=
  match find_project (app w) project with
  | None => w
  | Some p =>
      let box := tabs_box p in
      let w :=
        match drag_tab box with
        | Some dragged_btn =>
            if drag_active box then
              let w :=
                on_app (update_project project
                          (fun p =>
                             set_tabs_box
                               (set_tab_dragging
                                  (remove_css_class dragged_btn
                                     (tab_dragging (tabs_box p)))
                                  (tabs_box p)) p)) w in
              let w := on_app (fun a => rebuild_subtabs_list a project) w in
              save_session w
            else w
        | None => w
        end in
      on_app (update_project project
                (fun p =>
                   set_tabs_box
                     (set_drag_active false (set_drag_tab None (tabs_box p))) p)) w
  end.

(** ** The event loop *)

(** What the toolkit, the terminals and the user can do to the running
    program.  [EvRowClicked] is a click on a sidebar row, which selects it;
    [EvProjectSelected] is any delivery of ["row-selected"]. *)
Inductive Event : Type :=
| EvFolderSelected (folder : option (string * string))
| EvRemoveProjectClicked
| EvRowClicked (row : nat)
| EvProjectSelected (row : option nat)
| EvAddSubtabClicked (project : nat)
| EvSidebarAddSubtabClicked (project : nat)
| EvSubtabButtonClicked (subtab : nat)
| EvCloseSubtabClicked (subtab : nat)
| EvChildExited (subtab : nat)
| EvTitleChanged (subtab : nat) (title : option string)
| EvSortClicked
| EvDragBegin (project : nat) (start_x : double) (picked : Picked)
| EvDragUpdate (project : nat) (offset_x : double)
    (bounds : nat -> option (double * double))
| EvDragEnd (project : nat)
| EvClock (now : Z)
| EvDirectory (subtab : nat) (dir : option string).

Definition step (w : World) (e : Event) : World :=
  match e with
  | EvFolderSelected folder => on_folder_selected folder w
  | EvRemoveProjectClicked => on_remove_project_clicked w
  | EvRowClicked row =>
      if mem row (rows (sidebar (app w))) then gtk_list_box_select_row row w
      else w
  | EvProjectSelected row => on_project_selected row w
  | EvAddSubtabClicked project => on_add_subtab_clicked project w
  | EvSidebarAddSubtabClicked project => on_sidebar_add_subtab_clicked project w
  | EvSubtabButtonClicked subtab =>
      match find_subtab (app w) subtab with
      | Some st => on_app (on_subtab_button_clicked st) w
      | None => w
      end
  | EvCloseSubtabClicked subtab => on_close_subtab_clicked subtab w
  | EvChildExited subtab => on_terminal_child_exited subtab w
  | EvTitleChanged subtab title => on_terminal_title_changed subtab title w
  | EvSortClicked => on_sort_clicked w
  | EvDragBegin project start_x picked =>
      on_tab_drag_begin project start_x picked w
  | EvDragUpdate project offset_x bounds =>
      on_tab_drag_update project offset_x bounds w
  | EvDragEnd project => on_tab_drag_end project w
  | EvClock now => set_clock now w
  | EvDirectory subtab dir =>
      match find_subtab (app w) subtab with
      | Some st =>
          on_app (update_project (parent_tab st)
                    (update_subtab subtab (set_current_directory dir))) w
      | None => w
      end
  end.

(** The program after start-up and a sequence of events. *)
Definition run (f : Files) (now : Z) (events : list Event) : World :=
  fold_left step events (activate f now).

(** ** Properties of states *)

(** The two states of a project: initialized with at least one live subtab
    and no pending-restore descriptor, or uninitialized without live
    subtab. *)
Definition project_state_ok (p : Project) : Prop :=
  (initialized p = true /\ subtabs p <> [] /\ saved_subtabs p = [])
  \/ (initialized p = false /\ subtabs p = []).

(** The links between a project, its subtabs and its tab strip: the strip
    holds the tab widgets of exactly the project's subtabs, every subtab
    points back to the project, and every address has been allocated. *)
Definition project_linked (next : nat) (p : Project) : Prop :=
  Permutation (map subtab_ptr (subtabs p)) (children (tabs_box p))
  /\ Forall (fun x => x = project_ptr p) (map parent_tab (subtabs p))
  /\ Forall (fun x => (x < next)%nat) (map subtab_ptr (subtabs p))
  /\ (project_ptr p < next)%nat.

Definition all_subtabs (a : AppState) : list SubTab :=
  flat_map subtabs (projects a).

(** Distinct objects have distinct addresses. *)
Definition heap_ok (next : nat) (a : AppState) : Prop :=
  Forall (project_linked next) (projects a)
  /\ NoDup (map project_ptr (projects a))
  /\ NoDup (map subtab_ptr (all_subtabs a)).

(** The invariant of the event loop. *)
Definition Inv (w : World) : Prop :=
  heap_ok (next_ptr w) (app w)
  /\ Forall project_state_ok (projects (app w)).

(** [staged t R a]: every project is in one of its two states, except the
    one at address [t], of which [R] holds while a handler works on it. *)
Definition staged (t : nat) (R : Project -> Prop) (a : AppState) : Prop :=
  Forall (fun q => if Nat.eqb (project_ptr q) t then R q
                   else project_state_ok q) (projects a).


(** A session file that cannot be used: unparsable, a root that is no
    object, or an object without ["projects"] array. *)
Definition corrupt_session (sf : SessionFile) : Prop :=
  match sf with
  | Unparsable => True
  | Parsed (Some (JsonObject root_obj)) =>
      match json_object_get_member root_obj "projects" with
      | Some (JsonArray _) => False
      | _ => True
      end
  | Parsed _ => True
  end.

(** A name is a C string: it holds no NUL byte. *)
Fixpoint c_string (s : string) : Prop :=
  match s with
  | EmptyString => True
  | String c t => N_of_ascii c <> 0%N /\ c_string t
  end.

(** Every row of the sidebar carries a project of the collection. *)
Definition rows_ok (a : AppState) : Prop :=
  Forall (fun row => find_project a row <> None) (rows (sidebar a)).

(** A whole drag gesture on the strip of [project]. *)
Definition drag_updates (project : nat)
  (updates : list (double * (nat -> option (double * double)))) (w : World)
  : World :=
  fold_left (fun w u => on_tab_drag_update project (fst u) (snd u) w)
    updates w.

Definition drag_gesture (project : nat) (start_x : double) (picked : Picked)
  (updates : list (double * (nat -> option (double * double)))) (w : World)
  : World :=
  on_tab_drag_end project
    (drag_updates project updates
       (on_tab_drag_begin project start_x picked w)).





(** * Proofs *)

(** ** Lists *)

Lemma g_list_nth_nil : forall (A : Type) n, g_list_nth (@nil A) n = None.
Proof.
  intros A n. unfold g_list_nth.
  destruct (n <? 0); [reflexivity|].
  destruct (Z.to_nat n); reflexivity.
Qed.

Lemma mem_In : forall x l, mem x l = true <-> In x l.
Proof.
  intros x l. unfold mem. rewrite existsb_exists. split.
  - intros [y [Hy He]]. apply Nat.eqb_eq in He. subst. exact Hy.
  - intros H. exists x. split; [exact H|apply Nat.eqb_refl].
Qed.

Lemma g_list_remove_perm : forall l x,
  In x l -> Permutation l (x :: g_list_remove l x).
Proof.
  induction l as [|y t IH]; intros x H; [destruct H|].
  simpl. destruct (Nat.eqb y x) eqn:E.
  - apply Nat.eqb_eq in E. subst. reflexivity.
  - destruct H as [H|H]; [subst; rewrite Nat.eqb_refl in E; discriminate|].
    rewrite perm_swap. constructor. apply IH, H.
Qed.

Lemma g_list_remove_absent : forall l x, ~ In x l -> g_list_remove l x = l.
Proof.
  induction l as [|y t IH]; intros x H; [reflexivity|].
  simpl. destruct (Nat.eqb y x) eqn:E.
  - apply Nat.eqb_eq in E. subst. exfalso. apply H. left. reflexivity.
  - f_equal. apply IH. intros Hx. apply H. right. exact Hx.
Qed.

Lemma g_list_remove_In : forall l x y, In y (g_list_remove l x) -> In y l.
Proof.
  induction l as [|z t IH]; intros x y H; [exact H|].
  simpl in H. destruct (Nat.eqb z x).
  - right. exact H.
  - destruct H as [H|H]; [left; exact H|right; eapply IH, H].
Qed.

Lemma remove_subtab_ptrs : forall l s,
  map subtab_ptr (remove_subtab l s) = g_list_remove (map subtab_ptr l) s.
Proof.
  induction l as [|x t IH]; intros s; [reflexivity|].
  simpl. destruct (Nat.eqb (subtab_ptr x) s); [reflexivity|].
  simpl. f_equal. apply IH.
Qed.

Lemma remove_subtab_incl : forall l s st,
  In st (remove_subtab l s) -> In st l.
Proof.
  induction l as [|x t IH]; intros s st H; [exact H|].
  simpl in H. destruct (Nat.eqb (subtab_ptr x) s).
  - right. exact H.
  - destruct H as [H|H]; [left; exact H|right; eapply IH, H].
Qed.

Lemma insert_after_perm : forall l s c,
  In s l -> Permutation (c :: l) (insert_after s c l).
Proof.
  induction l as [|x t IH]; intros s c H; [destruct H|].
  simpl. destruct (Nat.eqb x s) eqn:E.
  - apply perm_swap.
  - destruct H as [H|H]; [subst; rewrite Nat.eqb_refl in E; discriminate|].
    rewrite perm_swap. constructor. apply IH, H.
Qed.

Lemma gtk_box_reorder_child_after_perm : forall l child sibling,
  Permutation l (gtk_box_reorder_child_after l child sibling).
Proof.
  intros l child sibling. unfold gtk_box_reorder_child_after.
  destruct (mem child l) eqn:Hc; simpl; [|reflexivity].
  apply mem_In in Hc.
  destruct sibling as [s|]; [|apply g_list_remove_perm, Hc].
  destruct (mem s l) eqn:Hs; simpl; [|reflexivity].
  apply mem_In in Hs.
  destruct (Nat.eqb s child) eqn:E; [reflexivity|].
  rewrite (g_list_remove_perm l child Hc) at 1.
  apply insert_after_perm.
  apply Permutation_in with (l' := child :: g_list_remove l child) in Hs;
    [|apply g_list_remove_perm, Hc].
  destruct Hs as [Hs|Hs]; [|exact Hs].
  subst. rewrite Nat.eqb_refl in E. discriminate.
Qed.

Lemma reorder_on_crossing_perm : forall bounds dragged x all rest prev,
  Permutation all (reorder_on_crossing bounds dragged x all prev rest).
Proof.
  intros bounds dragged x all rest.
  induction rest as [|child t IH]; intros prev; simpl; [reflexivity|].
  destruct (Nat.eqb child dragged); [apply IH|].
  destruct (bounds child) as [cb|]; [|apply IH].
  destruct (bounds dragged) as [db|]; [|apply IH].
  destruct (double_lt (midpoint cb) (midpoint db)
            && double_lt x (midpoint cb)).
  - destruct prev as [pr|].
    + destruct (Nat.eqb pr dragged); [reflexivity|].
      apply gtk_box_reorder_child_after_perm.
    + apply gtk_box_reorder_child_after_perm.
  - destruct (double_lt (midpoint db) (midpoint cb)
              && double_lt (midpoint cb) x).
    + apply gtk_box_reorder_child_after_perm.
    + apply IH.
Qed.

(** ** Reading and writing through addresses *)

Definition upd (t : nat) (f : Project -> Project) (p : Project) : Project :=
  if Nat.eqb (project_ptr p) t then f p else p.

Lemma projects_update : forall t f a,
  projects (update_project t f a) = map (upd t f) (projects a).
Proof. reflexivity. Qed.

Lemma sidebar_update : forall t f a,
  sidebar (update_project t f a) = sidebar a.
Proof. reflexivity. Qed.

Lemma active_project_update : forall t f a,
  active_project (update_project t f a) = active_project a.
Proof. reflexivity. Qed.

Lemma sort_mode_update : forall t f a,
  sort_mode (update_project t f a) = sort_mode a.
Proof. reflexivity. Qed.

Lemma upd_ptr : forall t f p,
  (forall q, project_ptr (f q) = project_ptr q) ->
  project_ptr (upd t f p) = project_ptr p.
Proof. intros t f p H. unfold upd. destruct (Nat.eqb _ _); auto. Qed.

Lemma map_upd_ptrs : forall t f l,
  (forall q, project_ptr (f q) = project_ptr q) ->
  map project_ptr (map (upd t f) l) = map project_ptr l.
Proof.
  intros t f l H. rewrite map_map. apply map_ext. intros p.
  apply upd_ptr, H.
Qed.

Lemma find_project_update : forall t f a t',
  (forall q, project_ptr (f q) = project_ptr q) ->
  find_project (update_project t f a) t' =
  if Nat.eqb t t' then option_map f (find_project a t')
  else find_project a t'.
Proof.
  intros t f a t' H. unfold find_project. rewrite projects_update.
  induction (projects a) as [|p l IH]; simpl.
  - destruct (Nat.eqb t t'); reflexivity.
  - rewrite (upd_ptr t f p H).
    destruct (Nat.eqb (project_ptr p) t') eqn:E.
    + unfold upd. apply Nat.eqb_eq in E. rewrite E.
      rewrite (Nat.eqb_sym t' t). destruct (Nat.eqb t t'); reflexivity.
    + exact IH.
Qed.

Lemma find_project_update_same : forall t f a,
  (forall q, project_ptr (f q) = project_ptr q) ->
  find_project (update_project t f a) t = option_map f (find_project a t).
Proof.
  intros. rewrite find_project_update by assumption.
  rewrite Nat.eqb_refl. reflexivity.
Qed.

Lemma find_project_In : forall a t p,
  find_project a t = Some p -> In p (projects a) /\ project_ptr p = t.
Proof.
  intros a t p H. apply find_some in H. destruct H as [H1 H2].
  apply Nat.eqb_eq in H2. auto.
Qed.

Lemma find_project_unique : forall a p,
  NoDup (map project_ptr (projects a)) -> In p (projects a) ->
  find_project a (project_ptr p) = Some p.
Proof.
  intros a p. unfold find_project.
  induction (projects a) as [|q l IH]; intros Hn Hi; [destruct Hi|].
  simpl in *. inversion Hn as [|x y Hx Hl]; subst.
  destruct (Nat.eqb (project_ptr q) (project_ptr p)) eqn:E.
  - destruct Hi as [Hi|Hi]; [subst; reflexivity|].
    apply Nat.eqb_eq in E. exfalso. apply Hx. rewrite E.
    apply in_map, Hi.
  - destruct Hi as [Hi|Hi]; [subst; rewrite Nat.eqb_refl in E; discriminate|].
    apply IH; assumption.
Qed.

Lemma find_project_index : forall a t,
  (g_list_index (map project_ptr (projects a)) t >=? 0) = true <->
  find_project a t <> None.
Proof.
  intros a t. unfold find_project.
  induction (projects a) as [|p l IH]; simpl.
  - split; [discriminate|intros H; exfalso; apply H; reflexivity].
  - destruct (Nat.eqb (project_ptr p) t); [split; [discriminate|reflexivity]|].
    destruct (g_list_index (map project_ptr l) t <? 0) eqn:E.
    + split; [discriminate|]. intros H. apply IH in H.
      apply Z.ltb_lt in E. apply Z.geb_le in H. lia.
    + split; [intros _|intros _; apply Z.geb_le; apply Z.ltb_ge in E; lia].
      apply IH. apply Z.geb_le. apply Z.ltb_ge in E. lia.
Qed.

(** A project at a unique address splits the collection around itself. *)
Lemma projects_split : forall l t p,
  NoDup (map project_ptr l) ->
  find (fun q => Nat.eqb (project_ptr q) t) l = Some p ->
  exists l1 l2,
    l = l1 ++ p :: l2 /\ project_ptr p = t
    /\ (forall f, map (upd t f) l = l1 ++ f p :: l2).
Proof.
  induction l as [|q l IH]; intros t p Hn Hf; [discriminate|].
  simpl in Hf. inversion Hn as [|x y Hx Hl]; subst.
  destruct (Nat.eqb (project_ptr q) t) eqn:E.
  - inversion Hf; subst. apply Nat.eqb_eq in E. subst t.
    exists [], l. repeat split; auto.
    intros f. simpl. unfold upd at 1. rewrite Nat.eqb_refl. f_equal.
    rewrite <- (map_id l) at 2. apply map_ext_in. intros r Hr.
    unfold upd. destruct (Nat.eqb (project_ptr r) (project_ptr p)) eqn:E2;
      [|reflexivity].
    apply Nat.eqb_eq in E2. exfalso. apply Hx. rewrite <- E2.
    apply in_map, Hr.
  - destruct (IH t p Hl Hf) as [l1 [l2 [H1 [H2 H3]]]].
    exists (q :: l1), l2. repeat split; auto.
    + simpl. f_equal. exact H1.
    + intros f. simpl. unfold upd at 1. rewrite E. f_equal. apply H3.
Qed.

Lemma update_project_absent : forall t f a,
  find_project a t = None -> projects (update_project t f a) = projects a.
Proof.
  intros t f a H. rewrite projects_update.
  rewrite <- (map_id (projects a)) at 2. apply map_ext_in.
  intros p Hp. unfold upd.
  rewrite (find_none _ _ H p Hp). reflexivity.
Qed.

Lemma Forall_update : forall (P Q : Project -> Prop) t f a,
  Forall P (projects a) ->
  (forall p, P p -> project_ptr p = t -> Q (f p)) ->
  (forall p, P p -> project_ptr p <> t -> Q p) ->
  Forall Q (projects (update_project t f a)).
Proof.
  intros P Q t f a H Hf Hn. rewrite projects_update.
  apply Forall_map. eapply Forall_impl; [|exact H].
  intros p Hp. unfold upd.
  destruct (Nat.eqb (project_ptr p) t) eqn:E.
  - apply Nat.eqb_eq in E. auto.
  - apply Nat.eqb_neq in E. auto.
Qed.

(** ** Updates that keep the links *)

Definition keeps_links (f : Project -> Project) : Prop :=
  forall p,
    project_ptr (f p) = project_ptr p
    /\ map subtab_ptr (subtabs (f p)) = map subtab_ptr (subtabs p)
    /\ map parent_tab (subtabs (f p)) = map parent_tab (subtabs p)
    /\ children (tabs_box (f p)) = children (tabs_box p).

Definition keeps_state (f : Project -> Project) : Prop :=
  forall p,
    initialized (f p) = initialized p
    /\ (subtabs (f p) = [] <-> subtabs p = [])
    /\ saved_subtabs (f p) = saved_subtabs p.

Lemma all_subtabs_keeps : forall t f l,
  keeps_links f ->
  map subtab_ptr (flat_map subtabs (map (upd t f) l)) =
  map subtab_ptr (flat_map subtabs l).
Proof.
  intros t f l H. induction l as [|p l IH]; [reflexivity|].
  simpl. rewrite !map_app, IH. f_equal.
  unfold upd. destruct (Nat.eqb _ _); [apply H|reflexivity].
Qed.

Lemma heap_ok_keeps : forall next t f a,
  keeps_links f -> heap_ok next a -> heap_ok next (update_project t f a).
Proof.
  intros next t f a Hk [H1 [H2 H3]]. repeat split.
  - eapply Forall_update; [exact H1| |auto].
    intros p [Ha [Hb [Hc Hd]]] _. destruct (Hk p) as [K1 [K2 [K3 K4]]].
    unfold project_linked. rewrite K1, K2, K3, K4. auto.
  - rewrite projects_update, map_upd_ptrs; [exact H2|apply Hk].
  - unfold all_subtabs. rewrite projects_update, all_subtabs_keeps; assumption.
Qed.

Lemma project_state_ok_keeps : forall f p,
  keeps_state f -> project_state_ok p -> project_state_ok (f p).
Proof.
  intros f p Hk H. destruct (Hk p) as [K1 [K2 K3]].
  unfold project_state_ok. rewrite K1, K3.
  destruct H as [[Ha [Hb Hc]]|[Ha Hb]]; [left|right]; repeat split; auto.
  - intros E. apply Hb, K2, E.
  - apply K2, Hb.
Qed.

Lemma staged_keeps : forall t R t' f a,
  keeps_state f -> (forall q, project_ptr (f q) = project_ptr q) ->
  (forall q, R q -> R (f q)) ->
  staged t R a -> staged t R (update_project t' f a).
Proof.
  intros t R t' f a Hk Hp HR H. unfold staged in *.
  rewrite projects_update. apply Forall_map.
  eapply Forall_impl; [|exact H]. intros q Hq. simpl in Hq.
  rewrite (upd_ptr t' f q Hp).
  unfold upd. destruct (Nat.eqb (project_ptr q) t'); [|exact Hq].
  destruct (Nat.eqb (project_ptr q) t); [apply HR, Hq|].
  apply project_state_ok_keeps; assumption.
Qed.

Lemma staged_update : forall t (R R' : Project -> Prop) f a,
  (forall q, project_ptr (f q) = project_ptr q) ->
  (forall q, R q -> R' (f q)) ->
  staged t R a -> staged t R' (update_project t f a).
Proof.
  intros t R R' f a Hp HR H. unfold staged in *.
  rewrite projects_update. apply Forall_map.
  eapply Forall_impl; [|exact H]. intros q Hq. simpl in Hq.
  rewrite (upd_ptr t f q Hp). unfold upd.
  destruct (Nat.eqb (project_ptr q) t); [apply HR, Hq|exact Hq].
Qed.

Lemma staged_enter : forall t a,
  Forall project_state_ok (projects a) -> staged t project_state_ok a.
Proof.
  intros t a H. unfold staged. eapply Forall_impl; [|exact H].
  intros q Hq. destruct (Nat.eqb _ _); exact Hq.
Qed.

Lemma staged_leave : forall t a,
  staged t project_state_ok a -> Forall project_state_ok (projects a).
Proof.
  intros t a H. unfold staged in H. eapply Forall_impl; [|exact H].
  intros q Hq. simpl in Hq. destruct (Nat.eqb _ _); exact Hq.
Qed.

Lemma staged_weaken : forall t (R R' : Project -> Prop) a,
  (forall q, R q -> R' q) -> staged t R a -> staged t R' a.
Proof.
  intros t R R' a HR H. unfold staged in *. eapply Forall_impl; [|exact H].
  intros q Hq. simpl in Hq. destruct (Nat.eqb _ _); auto.
Qed.

Ltac keeps := intros ?p; repeat split; try reflexivity; auto.

Lemma keeps_links_update_subtab : forall s g,
  (forall st, subtab_ptr (g st) = subtab_ptr st
              /\ parent_tab (g st) = parent_tab st) ->
  keeps_links (update_subtab s g).
Proof.
  intros s g H p. repeat split; simpl; try reflexivity;
    rewrite map_map; apply map_ext; intros st;
    destruct (Nat.eqb (subtab_ptr st) s); try reflexivity; apply H.
Qed.

Lemma keeps_state_update_subtab : forall s g, keeps_state (update_subtab s g).
Proof.
  intros s g p. repeat split; simpl; try reflexivity.
  - intros H. destruct (subtabs p); [reflexivity|discriminate].
  - intros H. rewrite H. reflexivity.
Qed.

Lemma NoDup_app_disjoint : forall (l1 l2 : list nat),
  NoDup (l1 ++ l2) -> forall a, In a l1 -> ~ In a l2.
Proof.
  induction l1 as [|x l1 IH]; intros l2 H a Ha; [destruct Ha|].
  simpl in H. inversion H as [|y z Hy Hz]; subst.
  destruct Ha as [Ha|Ha].
  - subst. intros Hb. apply Hy. apply in_or_app. right. exact Hb.
  - apply IH; assumption.
Qed.

Lemma NoDup_replace_middle : forall (A X X' B : list nat),
  NoDup (A ++ X ++ B) -> NoDup X' ->
  (forall x, In x X' -> In x X \/ (~ In x A /\ ~ In x B)) ->
  NoDup (A ++ X' ++ B).
Proof.
  intros A X X' B H HX' Hin.
  pose proof (NoDup_app_remove_r _ _ H) as HA.
  pose proof (NoDup_app_remove_l _ _ H) as HXB.
  pose proof (NoDup_app_remove_l _ _ HXB) as HB.
  pose proof (NoDup_app_disjoint _ _ H) as HAd.
  pose proof (NoDup_app_disjoint _ _ HXB) as HXd.
  apply NoDup_app; [exact HA| |].
  - apply NoDup_app; [exact HX'|exact HB|].
    intros x Hx. destruct (Hin x Hx) as [Hi|[_ Hi]]; auto.
  - intros a Ha Hb. apply in_app_or in Hb. destruct Hb as [Hb|Hb].
    + destruct (Hin a Hb) as [Hi|[Hi _]]; [|auto].
      apply (HAd a Ha). apply in_or_app. left. exact Hi.
    + apply (HAd a Ha). apply in_or_app. right. exact Hb.
Qed.

Lemma project_linked_mono : forall next next' p,
  (next <= next')%nat -> project_linked next p -> project_linked next' p.
Proof.
  intros next next' p Hle [H1 [H2 [H3 H4]]]. repeat split; auto.
  - eapply Forall_impl; [|exact H3]. intros x Hx. simpl in Hx. lia.
  - lia.
Qed.

Lemma heap_ok_mono : forall next next' a,
  (next <= next')%nat -> heap_ok next a -> heap_ok next' a.
Proof.
  intros next next' a Hle [H1 [H2 H3]]. repeat split; auto.
  eapply Forall_impl; [|exact H1]. intros p. apply project_linked_mono, Hle.
Qed.

Lemma linked_subtabs_bound : forall next l,
  Forall (project_linked next) l ->
  forall x, In x (map subtab_ptr (flat_map subtabs l)) -> (x < next)%nat.
Proof.
  intros next l H x Hx. induction H as [|p l Hp Hl IH]; [destruct Hx|].
  simpl in Hx. rewrite map_app in Hx. apply in_app_or in Hx.
  destruct Hx as [Hx|Hx]; [|apply IH, Hx].
  destruct Hp as [_ [_ [Hb _]]]. rewrite Forall_forall in Hb. apply Hb, Hx.
Qed.

(** A write to one project keeps the heap in order when the project stays
    linked and gains only fresh subtabs. *)
Lemma heap_ok_update_local : forall next next' t f a,
  heap_ok next a -> (next <= next')%nat ->
  (forall q, project_ptr (f q) = project_ptr q) ->
  (forall p, find_project a t = Some p -> project_linked next p ->
             NoDup (map subtab_ptr (subtabs p)) ->
             project_linked next' (f p)
             /\ NoDup (map subtab_ptr (subtabs (f p)))
             /\ (forall x, In x (map subtab_ptr (subtabs (f p))) ->
                           In x (map subtab_ptr (subtabs p)) \/ (next <= x)%nat)) ->
  heap_ok next' (update_project t f a).
Proof.
  intros next next' t f a [H1 [H2 H3]] Hle Hp Hf.
  destruct (find_project a t) as [p|] eqn:E.
  - destruct (projects_split _ _ _ H2 E) as [l1 [l2 [Hs [Ht Hm]]]].
    unfold heap_ok, all_subtabs in *. rewrite projects_update.
    rewrite map_upd_ptrs by exact Hp. rewrite Hm. rewrite Hs in H1, H3.
    apply Forall_app in H1. destruct H1 as [Ha Hb].
    inversion Hb as [|x y Hlp Hl2]; subst x y.
    assert (Hnp : NoDup (map subtab_ptr (subtabs p))).
    { rewrite flat_map_app, map_app in H3. apply NoDup_app_remove_l in H3.
      simpl in H3. rewrite map_app in H3. apply NoDup_app_remove_r in H3.
      exact H3. }
    destruct (Hf p eq_refl Hlp Hnp) as [F1 [F2 F3]].
    repeat split; [|exact H2|].
    + apply Forall_app. split; [|constructor; [exact F1|]];
        (eapply Forall_impl; [|eassumption]);
        intros q; apply project_linked_mono, Hle.
    + rewrite flat_map_app in *. simpl in *. rewrite !map_app in *.
      eapply NoDup_replace_middle; [exact H3|exact F2|].
      intros x Hx. destruct (F3 x Hx) as [Hi|Hi]; [left; exact Hi|right].
      split; intros Hc.
      * apply (linked_subtabs_bound _ _ Ha) in Hc. lia.
      * apply (linked_subtabs_bound _ _ Hl2) in Hc. lia.
  - assert (Hu := update_project_absent t f a E).
    unfold heap_ok, all_subtabs. rewrite Hu.
    apply (heap_ok_mono next next' a Hle). repeat split; assumption.
Qed.

(** ** The lifecycle keeps the heap in order *)

Lemma heap_ok_set_active_project : forall next v a,
  heap_ok next a -> heap_ok next (set_active_project v a).
Proof. intros next v a H. exact H. Qed.

Lemma heap_ok_on_subtab_button_clicked : forall next st a,
  heap_ok next a -> heap_ok next (on_subtab_button_clicked st a).
Proof. intros. apply heap_ok_keeps; [keeps|assumption]. Qed.

Lemma create_subtab_heap_ok : forall t name dir w,
  heap_ok (next_ptr w) (app w) ->
  heap_ok (next_ptr (fst (create_subtab t name dir w)))
          (app (fst (create_subtab t name dir w))).
Proof.
  intros t name dir w H. simpl.
  apply heap_ok_on_subtab_button_clicked.
  apply (heap_ok_update_local (next_ptr w)); auto.
  intros p Hf [L1 [L2 [L3 L4]]] Hn. apply find_project_In in Hf.
  destruct Hf as [_ Hp]. unfold project_linked. cbn. rewrite !map_app. cbn.
  repeat split.
  - apply Permutation_app_tail, L1.
  - apply Forall_app. split; [exact L2|]. constructor; [auto|constructor].
  - apply Forall_app. split.
    + eapply Forall_impl; [|exact L3]. intros x Hx. simpl in Hx. lia.
    + constructor; [lia|constructor].
  - lia.
  - apply NoDup_app.
    + exact Hn.
    + constructor; [intros []|constructor].
    + intros a Ha [Hb|[]]. subst. rewrite Forall_forall in L3.
      apply L3 in Ha. lia.
  - intros x Hx. apply in_app_or in Hx. destruct Hx as [Hx|[Hx|[]]];
      [left; exact Hx|right; lia].
Qed.

(** What [create_subtab] does to the project it is given. *)
Definition attach_subtab (st : SubTab) (p : Project) : Project :=
  set_active_subtab (Some (subtab_ptr st))
    (set_subtabs (subtabs p ++ [st])
       (set_tabs_box
          (set_children (children (tabs_box p) ++ [subtab_ptr st]) (tabs_box p))
          p)).

Lemma update_project_twice : forall t f g a,
  (forall q, project_ptr (g q) = project_ptr q) ->
  update_project t f (update_project t g a) =
  update_project t (fun q => f (g q)) a.
Proof.
  intros t f g a H. unfold update_project, set_projects. cbn. f_equal.
  rewrite map_map. apply map_ext. intros p.
  destruct (Nat.eqb (project_ptr p) t) eqn:E.
  - rewrite H, E. reflexivity.
  - rewrite E. reflexivity.
Qed.

Lemma create_subtab_app : forall t name dir w,
  app (fst (create_subtab t name dir w)) =
  update_project t (attach_subtab (mkSubTab (next_ptr w) None name t false))
    (app w).
Proof.
  intros. cbn. unfold on_subtab_button_clicked. cbn.
  rewrite update_project_twice; reflexivity.
Qed.

(** The invariant while a handler works on the project at [t]. *)
Definition WS (t : nat) (R : Project -> Prop) (w : World) : Prop :=
  heap_ok (next_ptr w) (app w) /\ staged t R (app w).

Lemma WS_enter : forall t w, Inv w -> WS t project_state_ok w.
Proof. intros t w [H1 H2]. split; [exact H1|apply staged_enter, H2]. Qed.

Lemma WS_leave : forall t w, WS t project_state_ok w -> Inv w.
Proof. intros t w [H1 H2]. split; [exact H1|eapply staged_leave, H2]. Qed.

Lemma WS_weaken : forall t (R R' : Project -> Prop) w,
  (forall q, R q -> R' q) -> WS t R w -> WS t R' w.
Proof. intros t R R' w H [H1 H2]. split; [exact H1|eapply staged_weaken; eauto]. Qed.

Lemma WS_keeps : forall t R t' f w,
  keeps_links f -> keeps_state f -> (forall q, R q -> R (f q)) ->
  WS t R w -> WS t R (on_app (update_project t' f) w).
Proof.
  intros t R t' f w Hl Hs HR [H1 H2]. split; cbn.
  - apply heap_ok_keeps; assumption.
  - apply staged_keeps; auto. intros q. apply Hl.
Qed.

Lemma WS_update : forall t (R R' : Project -> Prop) f w,
  keeps_links f -> (forall q, R q -> R' (f q)) ->
  WS t R w -> WS t R' (on_app (update_project t f) w).
Proof.
  intros t R R' f w Hl HR [H1 H2]. split; cbn.
  - apply heap_ok_keeps; assumption.
  - eapply staged_update; eauto. intros q. apply Hl.
Qed.

Lemma WS_app_only : forall t R w f,
  (forall a, projects (f a) = projects a) ->
  WS t R w -> WS t R (on_app f w).
Proof.
  intros t R w f H [[H1 [H2 H3]] H4]. unfold WS, heap_ok, staged, all_subtabs.
  cbn. rewrite H. repeat split; assumption.
Qed.

Lemma WS_create_subtab : forall t (R R' : Project -> Prop) name dir w,
  (forall q st, R q -> R' (attach_subtab st q)) ->
  WS t R w -> WS t R' (fst (create_subtab t name dir w)).
Proof.
  intros t R R' name dir w HR [H1 H2]. split.
  - apply create_subtab_heap_ok, H1.
  - rewrite create_subtab_app. eapply staged_update; [|eauto|exact H2].
    reflexivity.
Qed.

Lemma WS_fold_create_subtab : forall t (R : Project -> Prop) l w,
  (forall q st, R q -> R (attach_subtab st q)) ->
  WS t R w ->
  WS t R (fold_left
            (fun w saved =>
               fst (create_subtab t (saved_name saved) (working_dir saved) w))
            l w).
Proof.
  intros t R l. induction l as [|sv l IH]; intros w HR H; [exact H|].
  simpl. apply IH; [exact HR|]. eapply WS_create_subtab; eauto.
Qed.

Lemma WS_on_subtab_button_clicked : forall t (R : Project -> Prop) st w,
  (forall q v, R q -> R (set_active_subtab v q)) ->
  WS t R w -> WS t R (on_app (on_subtab_button_clicked st) w).
Proof.
  intros t R st w HR H. unfold on_subtab_button_clicked.
  apply WS_keeps; auto; keeps.
Qed.

Lemma WS_target : forall t (R : Project -> Prop) w p,
  find_project (app w) t = Some p ->
  WS t R w -> WS t (fun q => q = p /\ R q) w.
Proof.
  intros t R w p Hf [H1 H2]. split; [exact H1|].
  unfold staged in *. rewrite Forall_forall in *. intros q Hq.
  specialize (H2 q Hq). simpl in *.
  destruct (Nat.eqb (project_ptr q) t) eqn:E; [|exact H2].
  split; [|exact H2]. apply Nat.eqb_eq in E. subst t.
  destruct H1 as [_ [Hn _]].
  rewrite (find_project_unique _ _ Hn Hq) in Hf. congruence.
Qed.

Lemma app_nonempty : forall (A : Type) (l : list A) x, l ++ [x] <> [].
Proof. intros A l x H. destruct l; discriminate. Qed.

Lemma on_project_selected_Inv : forall row w,
  Inv w -> Inv (on_project_selected row w).
Proof.
  intros row w H. unfold on_project_selected.
  destruct row as [t|]; [|exact H].
  destruct (find_project (app w) t) as [p|] eqn:Hf; [|exact H].
  destruct (_ >=? 0); [|exact H].
  apply (WS_leave t). apply (WS_enter t) in H.
  apply (WS_target _ _ _ _ Hf) in H.
  set (w1 := on_app (update_project t (set_last_used _)) _).
  assert (H0 : WS t (fun q => (initialized q = initialized p
                               /\ subtabs q = subtabs p
                               /\ saved_subtabs q = saved_subtabs p)
                              /\ project_state_ok q) w1).
  { subst w1.
    apply WS_update with (R := fun q => q = p /\ project_state_ok q);
      [keeps| |].
    - intros q [Hq Hs]. subst q. repeat split; auto.
    - apply WS_app_only; [reflexivity|]. exact H. }
  clearbody w1. clear H.
  destruct (initialized p) eqn:Hi; cbn [negb].
  - eapply WS_weaken; [|exact H0]. intros q [_ Hq]. exact Hq.
  - destruct (saved_subtabs p) as [|sv l] eqn:Hs.
    + apply WS_update with (R := fun q => subtabs q <> [] /\ saved_subtabs q = []);
        [keeps| |].
      { intros q [Hq1 Hq2]. left. auto. }
      apply WS_keeps; [keeps|keeps|auto|].
      eapply WS_create_subtab; [|exact H0].
      intros q st [[_ [_ Hq]] _]. split; [apply app_nonempty|exact Hq].
    + apply WS_update with (R := fun q => subtabs q <> [] /\ saved_subtabs q = []);
        [keeps| |].
      { intros q [Hq1 Hq2]. left. auto. }
      apply WS_update with (R := fun q => subtabs q <> []); [keeps| |].
      { intros q Hq. split; [exact Hq|reflexivity]. }
      set (w2 := on_app (update_project t (set_subtab_counter _)) _).
      assert (Hx : WS t (fun q => subtabs q <> []) w2).
      { subst w2. apply WS_keeps; [keeps|keeps|auto|].
        simpl. apply WS_fold_create_subtab.
        - intros q st _. apply app_nonempty.
        - eapply WS_create_subtab; [|exact H0].
          intros q st _. apply app_nonempty. }
      clearbody w2.
      destruct (find_project (app w2) t) as [p'|]; [|exact Hx].
      destruct (g_list_nth _ _) as [active_sub|]; [|exact Hx].
      apply WS_on_subtab_button_clicked; auto.
Qed.

Lemma Inv_app_only : forall w f,
  (forall a, projects (f a) = projects a) -> Inv w -> Inv (on_app f w).
Proof.
  intros w f H [[H1 [H2 H3]] H4]. unfold Inv, heap_ok, all_subtabs.
  cbn. rewrite H. repeat split; assumption.
Qed.

Lemma Inv_save_session : forall w, Inv w -> Inv (save_session w).
Proof. intros w H. exact H. Qed.

Lemma Inv_keeps : forall t f w,
  keeps_links f -> keeps_state f ->
  Inv w -> Inv (on_app (update_project t f) w).
Proof.
  intros t f w Hl Hs H. apply (WS_leave t). apply WS_keeps; auto.
  - intros q. apply project_state_ok_keeps, Hs.
  - apply WS_enter, H.
Qed.

Lemma gtk_list_box_select_row_Inv : forall row w,
  Inv w -> Inv (gtk_list_box_select_row row w).
Proof.
  intros row w H. unfold gtk_list_box_select_row.
  destruct (selected_row (sidebar (app w))) as [r|].
  - destruct (Nat.eqb r row); [exact H|].
    apply on_project_selected_Inv. apply Inv_app_only; [reflexivity|exact H].
  - apply on_project_selected_Inv. apply Inv_app_only; [reflexivity|exact H].
Qed.

Lemma gtk_list_box_remove_Inv : forall row w,
  Inv w -> Inv (gtk_list_box_remove row w).
Proof.
  intros row w H. unfold gtk_list_box_remove.
  destruct (selected_row (sidebar (app w))) as [r|].
  - destruct (Nat.eqb r row); cbn [on_project_selected];
      (apply Inv_app_only; [reflexivity|exact H]).
  - apply Inv_app_only; [reflexivity|exact H].
Qed.

(** A freshly created, uninitialized project joins the collection. *)
Lemma WS_new_project : forall w p box active,
  project_ptr p = next_ptr w ->
  subtabs p = [] -> children (tabs_box p) = [] ->
  Inv w ->
  WS (next_ptr w) (fun q => q = p)
     (mkWorld
        (mkAppState box (projects (app w) ++ [p]) active (sort_mode (app w)))
        (files w) (clock w) (S (next_ptr w)) (spawned w) (saves w) (freed w)).
Proof.
  intros w p box active Hp Hs Hc [[H1 [H2 H3]] H4].
  assert (Hb : forall q, In q (projects (app w)) ->
                         (project_ptr q < next_ptr w)%nat).
  { intros q Hq. rewrite Forall_forall in H1.
    destruct (H1 q Hq) as [_ [_ [_ Hb]]]. exact Hb. }
  unfold WS, heap_ok, all_subtabs, staged. cbn.
  repeat split.
  - apply Forall_app. split.
    + eapply Forall_impl; [|exact H1]. intros q.
      apply project_linked_mono. lia.
    + constructor; [|constructor]. unfold project_linked.
      rewrite Hs, Hc, Hp. cbn. repeat split; auto.
  - rewrite map_app. cbn. apply NoDup_app; [exact H2| |].
    + constructor; [intros []|constructor].
    + intros x Hx [Hy|[]]. subst x. rewrite in_map_iff in Hx.
      destruct Hx as [q [Hq1 Hq2]]. apply Hb in Hq2. lia.
  - rewrite flat_map_app. cbn. rewrite Hs, !app_nil_r. exact H3.
  - apply Forall_app. split.
    + rewrite Forall_forall in *. intros q Hq.
      destruct (Nat.eqb (project_ptr q) (next_ptr w)) eqn:E.
      * apply Nat.eqb_eq in E. apply Hb in Hq. lia.
      * apply H4, Hq.
    + constructor; [|constructor]. rewrite Hp, Nat.eqb_refl. reflexivity.
Qed.

Lemma create_project_Inv : forall name path init w,
  Inv w -> Inv (fst (create_project name path init w)).
Proof.
  intros name path init w H. unfold create_project.
  set (w1 := mkWorld _ _ _ _ _ _ _).
  assert (H1 : WS (next_ptr w)
                 (fun q => initialized q = false /\ subtabs q = []
                           /\ saved_subtabs q = []) w1).
  { subst w1. eapply WS_weaken; [|apply WS_new_project; auto].
    intros q Hq. rewrite Hq. cbn. auto. }
  clearbody w1. destruct init; cbn [fst].
  - apply gtk_list_box_select_row_Inv.
    apply (WS_leave (next_ptr w)).
    apply WS_update with (R := fun q => subtabs q <> [] /\ saved_subtabs q = []);
      [keeps| |].
    { intros q [Hq1 Hq2]. left. auto. }
    apply WS_keeps; [keeps|keeps|auto|].
    eapply WS_create_subtab; [|exact H1].
    intros q st [_ [_ Hq]]. split; [apply app_nonempty|exact Hq].
  - apply (WS_leave (next_ptr w)). eapply WS_weaken; [|exact H1].
    intros q [Hq1 [Hq2 _]]. right. auto.
Qed.

Lemma on_folder_selected_Inv : forall folder w,
  Inv w -> Inv (on_folder_selected folder w).
Proof.
  intros folder w H. unfold on_folder_selected.
  destruct folder as [[basename path]|]; [|exact H].
  apply Inv_save_session, create_project_Inv, H.
Qed.

(** ** Removal *)

Lemma remove_project_In : forall l t p,
  In p (remove_project l t) -> In p l.
Proof.
  induction l as [|q l IH]; intros t p H; [exact H|].
  simpl in H. destruct (Nat.eqb (project_ptr q) t).
  - right. exact H.
  - destruct H as [H|H]; [left; exact H|right; eapply IH, H].
Qed.

Lemma remove_project_Forall : forall (P : Project -> Prop) l t,
  Forall P l -> Forall P (remove_project l t).
Proof.
  intros P l t H. rewrite Forall_forall in *. intros p Hp.
  apply H. eapply remove_project_In, Hp.
Qed.

Lemma remove_project_NoDup : forall (B : Type) (f : Project -> list B) l t,
  NoDup (flat_map f l) -> NoDup (flat_map f (remove_project l t)).
Proof.
  intros B f l t. induction l as [|q l IH]; intros H; [exact H|].
  simpl in *. destruct (Nat.eqb (project_ptr q) t).
  - eapply NoDup_app_remove_l, H.
  - simpl. apply NoDup_app.
    + eapply NoDup_app_remove_r, H.
    + apply IH. eapply NoDup_app_remove_l, H.
    + intros a Ha Hb. rewrite in_flat_map in Hb. destruct Hb as [p [Hp1 Hp2]].
      apply remove_project_In in Hp1.
      assert (Hc : In a (flat_map f l)) by (rewrite in_flat_map; eauto).
      revert Hc. clear - H Ha. revert a Ha.
      induction (f q) as [|x m IHm]; intros a Ha Hc; [destruct Ha|].
      simpl in H. inversion H as [|y z Hy Hz]; subst.
      destruct Ha as [Ha|Ha].
      * subst. apply Hy. apply in_or_app. right. exact Hc.
      * eapply IHm; eauto.
Qed.

Lemma map_flat_map : forall (A B C : Type) (g : B -> C) (f : A -> list B) l,
  map g (flat_map f l) = flat_map (fun x => map g (f x)) l.
Proof.
  intros. induction l as [|x l IH]; [reflexivity|].
  simpl. rewrite map_app, IH. reflexivity.
Qed.

Lemma flat_map_singleton : forall (A B : Type) (g : A -> B) l,
  flat_map (fun x => [g x]) l = map g l.
Proof.
  intros. induction l as [|x l IH]; [reflexivity|]. simpl. rewrite IH.
  reflexivity.
Qed.

Lemma Inv_remove_project : forall w t fl fr sv,
  Inv w ->
  Inv (mkWorld (set_projects (remove_project (projects (app w)) t) (app w))
         fl (clock w) (next_ptr w) (spawned w) sv fr).
Proof.
  intros w t fl fr sv [[H1 [H2 H3]] H4].
  unfold Inv, heap_ok, all_subtabs in *. cbn. repeat split.
  - apply remove_project_Forall, H1.
  - rewrite <- flat_map_singleton in *. apply remove_project_NoDup, H2.
  - rewrite map_flat_map in *. apply remove_project_NoDup, H3.
  - apply remove_project_Forall, H4.
Qed.

Lemma on_remove_project_clicked_Inv : forall w,
  Inv w -> Inv (on_remove_project_clicked w).
Proof.
  intros w H. unfold on_remove_project_clicked.
  destruct (active_project (app w)) as [ptr|]; [|exact H].
  destruct (find_project (app w) ptr) as [project|]; [|exact H].
  pose proof (gtk_list_box_remove_Inv ptr w H) as H1.
  set (w1 := gtk_list_box_remove ptr w) in *. clearbody w1.
  set (w2 := save_session _).
  assert (H2 : Inv w2).
  { subst w2. apply Inv_save_session.
    apply (Inv_remove_project w1 ptr (files w1) _ (saves w1) H1). }
  clearbody w2.
  destruct (projects (app w2)) as [|first l].
  - apply Inv_app_only; [reflexivity|exact H2].
  - apply gtk_list_box_select_row_Inv.
    apply Inv_app_only; [reflexivity|exact H2].
Qed.

Lemma g_list_remove_NoDup : forall l x, NoDup l -> NoDup (g_list_remove l x).
Proof.
  induction l as [|y t IH]; intros x H; [exact H|].
  simpl. inversion H as [|a b Ha Hb]; subst.
  destruct (Nat.eqb y x); [exact Hb|].
  constructor; [|apply IH, Hb].
  intros Hc. apply Ha. eapply g_list_remove_In, Hc.
Qed.

Lemma g_list_remove_permutation : forall l l' x,
  Permutation l l' -> Permutation (g_list_remove l x) (g_list_remove l' x).
Proof.
  intros l l' x H.
  destruct (in_dec Nat.eq_dec x l) as [Hi|Hi].
  - apply Permutation_cons_inv with (a := x).
    rewrite <- (g_list_remove_perm l x Hi).
    rewrite <- (g_list_remove_perm l' x); [exact H|].
    eapply Permutation_in; eauto.
  - rewrite !g_list_remove_absent; auto.
    intros Hc. apply Hi. eapply Permutation_in; [symmetry; exact H|exact Hc].
Qed.

Lemma remove_subtab_Forall : forall (B : Type) (g : SubTab -> B)
  (P : B -> Prop) l s,
  Forall P (map g l) -> Forall P (map g (remove_subtab l s)).
Proof.
  intros B g P l s H. rewrite Forall_forall in *. intros x Hx.
  apply H. rewrite in_map_iff in *. destruct Hx as [st [H1 H2]].
  exists st. split; [exact H1|]. eapply remove_subtab_incl, H2.
Qed.

Lemma g_list_remove_last : forall l x,
  In x l -> List.length l = 1%nat -> g_list_remove l x = [].
Proof.
  intros l x Hi Hl. destruct l as [|y [|z t]]; try discriminate.
  destruct Hi as [Hi|[]]. subst. simpl. rewrite Nat.eqb_refl. reflexivity.
Qed.

Lemma g_list_remove_more : forall l x,
  In x l -> List.length l <> 1%nat -> g_list_remove l x <> [].
Proof.
  intros l x Hi Hl.
  destruct l as [|y [|z t]]; [destruct Hi|exfalso; apply Hl; reflexivity|].
  simpl. destruct (Nat.eqb y x); discriminate.
Qed.

(** The subtab found at an address is linked in the project it names as
    its parent. *)
Lemma find_subtab_owner : forall next a s st,
  heap_ok next a -> find_subtab a s = Some st ->
  exists p, find_project a (parent_tab st) = Some p
            /\ In st (subtabs p) /\ subtab_ptr st = s.
Proof.
  intros next a s st [H1 [H2 H3]] Hf. apply find_some in Hf.
  destruct Hf as [Hi Hs]. apply Nat.eqb_eq in Hs.
  apply in_flat_map in Hi. destruct Hi as [p [Hp1 Hp2]].
  exists p. repeat split; auto.
  rewrite Forall_forall in H1. destruct (H1 p Hp1) as [_ [Hpar _]].
  rewrite Forall_forall in Hpar.
  rewrite (Hpar (parent_tab st)); [|apply in_map, Hp2].
  apply find_project_unique; assumption.
Qed.

Lemma WS_ext : forall t R w w',
  app w' = app w -> next_ptr w' = next_ptr w -> WS t R w -> WS t R w'.
Proof. intros t R w w' Ha Hn H. unfold WS. rewrite Ha, Hn. exact H. Qed.

Lemma WS_update_local : forall t (R R' : Project -> Prop) f w,
  (forall q, project_ptr (f q) = project_ptr q) ->
  (forall p, project_linked (next_ptr w) p ->
             NoDup (map subtab_ptr (subtabs p)) ->
             project_linked (next_ptr w) (f p)
             /\ NoDup (map subtab_ptr (subtabs (f p)))
             /\ (forall x, In x (map subtab_ptr (subtabs (f p))) ->
                           In x (map subtab_ptr (subtabs p)))) ->
  (forall q, R q -> R' (f q)) ->
  WS t R w -> WS t R' (on_app (update_project t f) w).
Proof.
  intros t R R' f w Hp Hl HR [H1 H2]. split; cbn.
  - apply (heap_ok_update_local (next_ptr w)); auto.
    intros p _ L N. destruct (Hl p L N) as [A [B C]]. auto.
  - eapply staged_update; eauto.
Qed.

Lemma unlink_subtab_ptr : forall s wl q,
  project_ptr (unlink_subtab s wl q) = project_ptr q.
Proof.
  intros s wl q. unfold unlink_subtab.
  destruct wl; destruct (is_active_subtab _ _); reflexivity.
Qed.

Lemma unlink_subtab_subtabs : forall s wl q,
  subtabs (unlink_subtab s wl q) = remove_subtab (subtabs q) s.
Proof.
  intros s wl q. unfold unlink_subtab.
  destruct wl; destruct (is_active_subtab _ _); reflexivity.
Qed.

Lemma unlink_subtab_children : forall s wl q,
  children (tabs_box (unlink_subtab s wl q)) =
  g_list_remove (children (tabs_box q)) s.
Proof.
  intros s wl q. unfold unlink_subtab.
  destruct wl; destruct (is_active_subtab _ _); reflexivity.
Qed.

Lemma unlink_subtab_saved : forall s wl q,
  saved_subtabs (unlink_subtab s wl q) = saved_subtabs q.
Proof.
  intros s wl q. unfold unlink_subtab.
  destruct wl; destruct (is_active_subtab _ _); reflexivity.
Qed.

Lemma unlink_subtab_initialized : forall s wl q,
  initialized (unlink_subtab s wl q) = if wl then false else initialized q.
Proof.
  intros s wl q. unfold unlink_subtab.
  destruct wl; destruct (is_active_subtab _ _); reflexivity.
Qed.

Lemma unlink_subtab_linked : forall next s wl p,
  project_linked next p -> NoDup (map subtab_ptr (subtabs p)) ->
  project_linked next (unlink_subtab s wl p)
  /\ NoDup (map subtab_ptr (subtabs (unlink_subtab s wl p)))
  /\ (forall x, In x (map subtab_ptr (subtabs (unlink_subtab s wl p))) ->
                In x (map subtab_ptr (subtabs p))).
Proof.
  intros next s wl p [L1 [L2 [L3 L4]]] N. unfold project_linked.
  rewrite unlink_subtab_ptr, unlink_subtab_subtabs, unlink_subtab_children.
  repeat split.
  - rewrite remove_subtab_ptrs. apply g_list_remove_permutation, L1.
  - apply remove_subtab_Forall, L2.
  - apply remove_subtab_Forall, L3.
  - exact L4.
  - rewrite remove_subtab_ptrs. apply g_list_remove_NoDup, N.
  - intros x. rewrite remove_subtab_ptrs. apply g_list_remove_In.
Qed.

Lemma close_subtab_guard_spec : forall subtab w st project,
  Inv w -> close_subtab_guard subtab w = Some (st, project) ->
  subtab = Some (subtab_ptr st)
  /\ find_subtab (app w) (subtab_ptr st) = Some st
  /\ closing st = false
  /\ find_project (app w) (parent_tab st) = Some project
  /\ In st (subtabs project).
Proof.
  intros subtab w st project [H _] Hg. unfold close_subtab_guard in Hg.
  destruct subtab as [s|]; [|discriminate].
  destruct (find_subtab (app w) s) as [st'|] eqn:Hf; [|discriminate].
  destruct (closing st') eqn:Hc; [discriminate|].
  destruct (find_project (app w) (parent_tab st')) as [p|] eqn:Hp;
    [|discriminate].
  inversion Hg; subst st' p.
  destruct (find_subtab_owner _ _ _ _ H Hf) as [p [Hp1 [Hp2 Hp3]]].
  rewrite Hp in Hp1. inversion Hp1; subst p. subst s. auto.
Qed.

Lemma close_subtab_Inv : forall subtab w,
  Inv w -> Inv (close_subtab subtab w).
Proof.
  intros subtab w H. unfold close_subtab.
  destruct (close_subtab_guard subtab w) as [[st project]|] eqn:Hg; [|exact H].
  destruct (close_subtab_guard_spec _ _ _ _ H Hg) as [_ [_ [_ [Hp Hin]]]].
  set (t := parent_tab st) in *. set (s := subtab_ptr st) in *.
  apply (WS_leave t). apply (WS_enter t) in H.
  apply (WS_target _ _ _ _ Hp) in H.
  pose (R1 := fun q => map subtab_ptr (subtabs q) = map subtab_ptr (subtabs project)
                       /\ project_state_ok q).
  assert (H1 : WS t R1 (close_subtab_mark st w)).
  { unfold close_subtab_mark. fold t s.
    apply WS_update with (R := fun q => q = project /\ project_state_ok q);
      [apply keeps_links_update_subtab; auto| |exact H].
    intros q [Hq1 Hq2]. subst q. split.
    - cbn. rewrite map_map. apply map_ext. intros x.
      destruct (Nat.eqb _ _); reflexivity.
    - apply project_state_ok_keeps; [apply keeps_state_update_subtab|exact Hq2]. }
  set (w1 := close_subtab_mark st w) in *. clearbody w1. clear H.
  unfold close_subtab_rest. fold s t.
  set (was_last := g_list_length (subtabs project) =? 1).
  match goal with
  | |- context [update_project t (unlink_subtab s was_last) ?a] =>
      set (a1 := a)
  end.
  assert (H2 : WS t R1 (set_app a1 w1)).
  { subst a1. destruct (_ && _).
    - destruct (adjacent_link _ _ _) as [na|].
      + apply (WS_on_subtab_button_clicked t R1 na w1); auto.
      + destruct w1; exact H1.
    - destruct w1; exact H1. }
  clearbody a1.
  eapply WS_ext with (w := on_app (update_project t (unlink_subtab s was_last))
                             (set_app a1 w1)); [reflexivity|reflexivity|].
  eapply WS_update_local; [| | |exact H2].
  - intros q. apply unlink_subtab_ptr.
  - intros p L N. apply unlink_subtab_linked; assumption.
  - intros q [Hq1 Hq2]. unfold project_state_ok.
    rewrite unlink_subtab_subtabs, unlink_subtab_saved,
      unlink_subtab_initialized.
    assert (Hs : In s (map subtab_ptr (subtabs q))).
    { rewrite Hq1. apply in_map, Hin. }
    assert (Hl : List.length (map subtab_ptr (subtabs q))
                 = List.length (subtabs project)).
    { rewrite Hq1. apply length_map. }
    subst was_last. unfold g_list_length.
    destruct (Z.of_nat (List.length (subtabs project)) =? 1) eqn:E.
    + right. split; [reflexivity|].
      apply map_eq_nil with (f := subtab_ptr). rewrite remove_subtab_ptrs.
      apply g_list_remove_last; [exact Hs|]. apply Z.eqb_eq in E. lia.
    + left. destruct Hq2 as [[A [B C]]|[A B]].
      * repeat split; auto. intros Hc.
        apply (f_equal (map subtab_ptr)) in Hc.
        rewrite remove_subtab_ptrs in Hc. revert Hc.
        apply g_list_remove_more; [exact Hs|]. apply Z.eqb_neq in E. lia.
      * rewrite B in Hs. destruct Hs.
Qed.

Lemma WS_update_found : forall t (R R' : Project -> Prop) f w p,
  find_project (app w) t = Some p ->
  (forall q, project_ptr (f q) = project_ptr q) ->
  (project_linked (next_ptr w) p ->
   NoDup (map subtab_ptr (subtabs p)) ->
   project_linked (next_ptr w) (f p)
   /\ NoDup (map subtab_ptr (subtabs (f p)))
   /\ (forall x, In x (map subtab_ptr (subtabs (f p))) ->
                 In x (map subtab_ptr (subtabs p)))) ->
  (R p -> R' (f p)) ->
  WS t R w -> WS t R' (on_app (update_project t f) w).
Proof.
  intros t R R' f w p Hf Hp Hl HR H.
  apply (WS_target _ _ _ _ Hf) in H. destruct H as [H1 H2]. split; cbn.
  - apply (heap_ok_update_local (next_ptr w)); auto.
    intros p' Hf' L N. rewrite Hf in Hf'. inversion Hf'; subst p'.
    destruct (Hl L N) as [A [B C]]. auto.
  - eapply staged_update; [exact Hp| |exact H2].
    intros q [Hq1 Hq2]. subst q. auto.
Qed.

Lemma WS_update_absent : forall t R f w,
  find_project (app w) t = None ->
  WS t R w -> WS t R (on_app (update_project t f) w).
Proof.
  intros t R f w Hf [[H1 [H2 H3]] H4].
  unfold WS, heap_ok, staged, all_subtabs, on_app, set_app.
  cbn [app next_ptr].
  rewrite (update_project_absent t f (app w) Hf). repeat split; assumption.
Qed.

Lemma on_terminal_child_exited_Inv : forall s w,
  Inv w -> Inv (on_terminal_child_exited s w).
Proof.
  intros s w H. unfold on_terminal_child_exited.
  destruct (find_subtab (app w) s) as [st|]; [|exact H].
  destruct (closing st); [exact H|]. apply close_subtab_Inv, H.
Qed.

Lemma on_terminal_title_changed_Inv : forall s title w,
  Inv w -> Inv (on_terminal_title_changed s title w).
Proof.
  intros s title w H. unfold on_terminal_title_changed.
  destruct title as [[|c t]|]; try exact H.
  destruct (find_subtab (app w) s) as [st|]; [|exact H].
  apply Inv_keeps; [|apply keeps_state_update_subtab|exact H].
  apply keeps_links_update_subtab. auto.
Qed.

Lemma on_add_subtab_clicked_Inv : forall t w,
  Inv w -> Inv (on_add_subtab_clicked t w).
Proof.
  intros t w H. unfold on_add_subtab_clicked.
  destruct (find_project (app w) t) as [p|] eqn:Hf; [|exact H].
  apply (WS_leave t). apply (WS_enter t) in H.
  destruct (initialized p) eqn:Hi; cbn [negb].
  - apply (WS_target _ _ _ _ Hf) in H.
    eapply WS_create_subtab.
    2:{ apply WS_keeps with (R := fun q => initialized q = true
                                         /\ saved_subtabs q = []);
          [keeps|keeps|auto|].
        eapply WS_weaken; [|exact H]. intros q [Hq1 Hq2]. subst q.
        destruct Hq2 as [[A [B C]]|[A B]]; [auto|congruence]. }
    intros q st [A B]. left. repeat split; auto. apply app_nonempty.
  - apply WS_update with (R := fun q => subtabs q <> [] /\ saved_subtabs q = []);
      [keeps| |].
    { intros q [A B]. left. auto. }
    apply WS_keeps; [keeps|keeps|auto|].
    eapply WS_create_subtab with (R := fun q => saved_subtabs q = []).
    { intros q st A. split; [apply app_nonempty|exact A]. }
    apply WS_update with (R := project_state_ok); [keeps| |exact H].
    reflexivity.
Qed.

Lemma on_sort_clicked_Inv : forall w, Inv w -> Inv (on_sort_clicked w).
Proof. intros w H. exact H. Qed.

Lemma on_tab_drag_begin_Inv : forall t x picked w,
  Inv w -> Inv (on_tab_drag_begin t x picked w).
Proof.
  intros t x picked w H. unfold on_tab_drag_begin.
  destruct (is_close_button_hit picked); [exact H|].
  destruct (find_tab_button_ancestor picked); [|exact H].
  apply Inv_keeps; [keeps|keeps|exact H].
Qed.

Lemma on_tab_drag_update_Inv : forall t x bounds w,
  Inv w -> Inv (on_tab_drag_update t x bounds w).
Proof.
  intros t x bounds w H. unfold on_tab_drag_update.
  destruct (find_project (app w) t) as [p|] eqn:Hf; [|exact H].
  destruct (drag_tab (tabs_box p)) as [d|]; [|exact H].
  destruct (drag_start_x (tabs_box p)) as [sx|]; [|exact H].
  destruct (_ && _); [exact H|].
  apply (WS_leave t). apply (WS_enter t) in H.
  eapply WS_update_found with (R := project_state_ok);
    [exact Hf|reflexivity| |exact (fun h => h)|exact H].
  intros [L1 [L2 [L3 L4]]] N. unfold project_linked. cbn. repeat split; auto.
  rewrite L1.
  destruct (drag_active (tabs_box p)); cbn; apply reorder_on_crossing_perm.
Qed.

Lemma find_subtab_unique : forall a st,
  NoDup (map subtab_ptr (all_subtabs a)) -> In st (all_subtabs a) ->
  find_subtab a (subtab_ptr st) = Some st.
Proof.
  intros a st. unfold find_subtab. fold (all_subtabs a).
  induction (all_subtabs a) as [|x l IH]; intros Hn Hi; [destruct Hi|].
  simpl in *. inversion Hn as [|y z Hy Hz]; subst.
  destruct (Nat.eqb (subtab_ptr x) (subtab_ptr st)) eqn:E.
  - destruct Hi as [Hi|Hi]; [subst; reflexivity|].
    apply Nat.eqb_eq in E. exfalso. apply Hy. rewrite E. apply in_map, Hi.
  - destruct Hi as [Hi|Hi]; [subst; rewrite Nat.eqb_refl in E; discriminate|].
    apply IH; assumption.
Qed.

Definition read_back (a : AppState) (l : list nat) : list SubTab :=
  flat_map (fun child => match find_subtab a child with
                         | Some st => [st]
                         | None => []
                         end) l.

Lemma Permutation_flat_map_list : forall (A B : Type) (f : A -> list B) l l',
  Permutation l l' -> Permutation (flat_map f l) (flat_map f l').
Proof.
  intros A B f l l' H. induction H; simpl.
  - reflexivity.
  - apply Permutation_app_head. exact IHPermutation.
  - rewrite !app_assoc. apply Permutation_app_tail, Permutation_app_comm.
  - etransitivity; eassumption.
Qed.

(** Reading the strip back gives the subtabs of the project again. *)
Lemma read_back_perm : forall next a p,
  heap_ok next a -> In p (projects a) ->
  Permutation (subtabs p) (read_back a (children (tabs_box p))).
Proof.
  intros next a p [H1 [H2 H3]] Hp.
  rewrite Forall_forall in H1. destruct (H1 p Hp) as [L1 _].
  unfold read_back.
  rewrite <- (Permutation_flat_map_list _ _ _ _ _ L1).
  assert (Hs : forall st, In st (subtabs p) -> In st (all_subtabs a)).
  { intros st Hst. apply in_flat_map. eauto. }
  clear L1. revert Hs. generalize (subtabs p). intros l.
  induction l as [|st l IH]; intros Hs; [reflexivity|].
  simpl. rewrite (find_subtab_unique a st H3); [|apply Hs; left; reflexivity].
  simpl. constructor. apply IH. intros x Hx. apply Hs. right. exact Hx.
Qed.

Lemma rebuild_subtabs_list_Inv : forall t w,
  Inv w -> Inv (on_app (fun a => rebuild_subtabs_list a t) w).
Proof.
  intros t w H. apply (WS_leave t). pose proof H as [Hh _].
  apply (WS_enter t) in H. unfold rebuild_subtabs_list.
  change (WS t project_state_ok
            (on_app (update_project t
                       (fun p => set_subtabs
                                   (read_back (app w) (children (tabs_box p))) p))
               w)).
  destruct (find_project (app w) t) as [p|] eqn:Hf;
    [|apply WS_update_absent; assumption].
  pose proof (read_back_perm _ _ p Hh (proj1 (find_project_In _ _ _ Hf))) as Hp.
  eapply WS_update_found with (R := project_state_ok);
    [exact Hf|reflexivity| | |exact H].
  - intros [L1 [L2 [L3 L4]]] N. unfold project_linked. cbn.
    assert (Hm : forall (B : Type) (g : SubTab -> B),
               Permutation (map g (subtabs p))
                 (map g (read_back (app w) (children (tabs_box p))))).
    { intros B g. apply Permutation_map, Hp. }
    repeat split.
    + rewrite <- Hm. exact L1.
    + eapply Permutation_Forall; [apply Hm|exact L2].
    + eapply Permutation_Forall; [apply Hm|exact L3].
    + exact L4.
    + eapply Permutation_NoDup; [apply Hm|exact N].
    + intros x Hx. eapply Permutation_in; [symmetry; apply Hm|exact Hx].
  - intros [[A [B C]]|[A B]]; [left|right]; cbn; repeat split; auto.
    + intros Hc. rewrite Hc in Hp. symmetry in Hp.
      apply Permutation_nil in Hp. auto.
    + rewrite B in Hp. apply Permutation_nil in Hp. exact Hp.
Qed.

Lemma on_tab_drag_end_Inv : forall t w,
  Inv w -> Inv (on_tab_drag_end t w).
Proof.
  intros t w H. unfold on_tab_drag_end.
  destruct (find_project (app w) t) as [p|]; [|exact H].
  apply Inv_keeps; [keeps|keeps|].
  destruct (drag_tab (tabs_box p)) as [d|]; [|exact H].
  destruct (drag_active (tabs_box p)); [|exact H].
  apply Inv_save_session, rebuild_subtabs_list_Inv.
  apply Inv_keeps; [keeps|keeps|exact H].
Qed.

Lemma step_Inv : forall w e, Inv w -> Inv (step w e).
Proof.
  intros w e H. destruct e; cbn [step].
  - apply on_folder_selected_Inv, H.
  - apply on_remove_project_clicked_Inv, H.
  - destruct (mem _ _); [apply gtk_list_box_select_row_Inv|]; exact H.
  - apply on_project_selected_Inv, H.
  - apply on_add_subtab_clicked_Inv, H.
  - apply on_add_subtab_clicked_Inv, H.
  - destruct (find_subtab _ _); [|exact H].
    apply Inv_keeps; [keeps|keeps|exact H].
  - apply close_subtab_Inv, H.
  - apply on_terminal_child_exited_Inv, H.
  - apply on_terminal_title_changed_Inv, H.
  - apply on_sort_clicked_Inv, H.
  - apply on_tab_drag_begin_Inv, H.
  - apply on_tab_drag_update_Inv, H.
  - apply on_tab_drag_end_Inv, H.
  - exact H.
  - destruct (find_subtab _ _); [|exact H].
    apply Inv_keeps; [|apply keeps_state_update_subtab|exact H].
    apply keeps_links_update_subtab. auto.
Qed.

Lemma fold_left_Inv : forall (A : Type) (f : World -> A -> World) l w,
  (forall w x, Inv w -> Inv (f w x)) -> Inv w -> Inv (fold_left f l w).
Proof.
  intros A f l. induction l as [|x l IH]; intros w Hf H; [exact H|].
  simpl. apply IH; auto.
Qed.

Definition uninitialized_empty (q : Project) : Prop :=
  initialized q = false /\ subtabs q = [].

Lemma create_project_uninitialized : forall name path w,
  Inv w ->
  WS (snd (create_project name path false w)) uninitialized_empty
     (fst (create_project name path false w)).
Proof.
  intros name path w H. unfold create_project. cbn [fst snd].
  eapply WS_weaken; [|apply WS_new_project; auto].
  intros q Hq. rewrite Hq. split; reflexivity.
Qed.

Lemma uninitialized_empty_ok : forall t w,
  WS t uninitialized_empty w -> Inv w.
Proof.
  intros t w H. apply (WS_leave t). eapply WS_weaken; [|exact H].
  intros q [A B]. right. auto.
Qed.

Lemma load_project_Inv : forall w node, Inv w -> Inv (load_project w node).
Proof.
  intros w node H. unfold load_project.
  destruct (json_array_get_object_element node) as [proj_obj|]; [|exact H].
  destruct (json_object_get_string_member proj_obj "name") as [name|];
    [|exact H].
  destruct (json_object_get_string_member proj_obj "path") as [path|];
    [|exact H].
  pose proof (create_project_uninitialized name path w H) as H1.
  destruct (create_project name path false w) as [w1 project].
  cbn [fst snd] in H1.
  set (w2 := if json_object_has_member proj_obj "last_used" then _ else w1).
  assert (H2 : WS project uninitialized_empty w2).
  { subst w2. destruct (json_object_has_member proj_obj "last_used");
      [|exact H1].
    apply WS_update with (R := uninitialized_empty); [keeps|auto|exact H1]. }
  clearbody w2. apply (uninitialized_empty_ok project).
  destruct (json_object_has_member proj_obj "subtabs"); [|exact H2].
  apply WS_update with (R := uninitialized_empty); [keeps|auto|].
  apply WS_update with (R := uninitialized_empty); [keeps|auto|exact H2].
Qed.

Lemma load_legacy_line_Inv : forall w buffer,
  Inv w -> Inv (load_legacy_line w buffer).
Proof.
  intros w buffer H. unfold load_legacy_line.
  destruct (strip_newline (before_nul buffer)) as [|c line]; [exact H|].
  destruct (match split_at_pipe (String c line) with
            | Some (String c0 before, after) => _
            | _ => _ end) as [last path].
  pose proof (create_project_uninitialized (g_path_get_basename path) path w H)
    as H1.
  destruct (create_project (g_path_get_basename path) path false w)
    as [w1 project].
  cbn [fst snd] in H1. apply (uninitialized_empty_ok project).
  apply WS_update with (R := uninitialized_empty); [keeps|auto|exact H1].
Qed.

Lemma load_session_Inv : forall w, Inv w -> Inv (load_session w).
Proof.
  intros w H. unfold load_session.
  destruct (session_json (files w)) as [[|root]|].
  - exact H.
  - unfold load_session_root.
    destruct root as [[| | | | | |root_obj]|]; try exact H.
    set (w1 := if json_object_has_member root_obj "sort_mode" then _ else w).
    assert (H1 : Inv w1).
    { subst w1. destruct (json_object_has_member root_obj "sort_mode");
        [|exact H]. apply Inv_app_only; [reflexivity|exact H]. }
    clearbody w1.
    destruct (json_object_has_member root_obj "projects"); [|exact H1].
    pose proof (fold_left_Inv _ load_project
                  (json_object_get_array_member root_obj "projects") w1
                  load_project_Inv H1) as H2.
    destruct (g_list_nth _ _) as [active_proj|]; [|exact H2].
    apply gtk_list_box_select_row_Inv.
    apply Inv_app_only; [reflexivity|exact H2].
  - unfold load_legacy.
    destruct (projects_conf (files w)) as [buffers|]; [|exact H].
    apply Inv_save_session.
    pose proof (fold_left_Inv _ load_legacy_line buffers w
                  load_legacy_line_Inv H) as H1.
    destruct (sort_conf _) as [[buffer|]|]; try exact H1.
    destruct (streq _ "alpha");
      [apply Inv_app_only; [reflexivity|exact H1]|].
    destruct (streq _ "mru");
      [apply Inv_app_only; [reflexivity|exact H1]|exact H1].
Qed.

Lemma fresh_world_Inv : forall f now, Inv (fresh_world f now).
Proof.
  intros f now. unfold Inv, heap_ok, all_subtabs. cbn.
  repeat split; constructor.
Qed.

Lemma activate_Inv : forall f now, Inv (activate f now).
Proof.
  intros f now. unfold activate.
  apply Inv_app_only; [reflexivity|].
  apply load_session_Inv, fresh_world_Inv.
Qed.

Lemma run_Inv : forall f now events, Inv (run f now events).
Proof.
  intros f now events. unfold run.
  apply fold_left_Inv; [intros; apply step_Inv; assumption|].
  apply activate_Inv.
Qed.

(** * The claims *)

(** ** C2: the two states of a project *)

(** C2. At every observable point -- after start-up ([load_session] on any
    files) and any sequence of completed operations (project creation,
    project selection, add-tab, close, removal, drag, sort, ...) -- every
    project is either initialized with at least one live subtab and no
    pending-restore descriptor, or uninitialized without live subtab; it is
    never initialized with zero live subtabs and never holds live subtabs
    together with pending descriptors. *)
Theorem mutual_exclusivity_invariant : forall f now events p,
  In p (projects (app (run f now events))) ->
  ((initialized p = true /\ (1 <= List.length (subtabs p))%nat
    /\ saved_subtabs p = [])
   \/ (initialized p = false /\ subtabs p = []))
  /\ ~ (initialized p = true /\ subtabs p = [])
  /\ ~ (subtabs p <> [] /\ saved_subtabs p <> []).
Proof.
  intros f now events p Hp.
  destruct (run_Inv f now events) as [_ H].
  rewrite Forall_forall in H. specialize (H p Hp).
  destruct H as [[A [B C]]|[A B]].
  - repeat split.
    + left. repeat split; auto. destruct (subtabs p); [congruence|simpl; lia].
    + intros [_ D]. auto.
    + intros [_ D]. auto.
  - repeat split.
    + right. auto.
    + intros [D _]. congruence.
    + intros [D _]. auto.
Qed.

Definition no_files : Files := mkFiles None None None.

Definition two_tabs : list Event :=
  [EvFolderSelected (Some ("gmux", "/home/u/gmux"));
   EvAddSubtabClicked 0%nat].

Definition two_tabs_project : Project :=
  mkProject 0 (mkTabsBox [1%nat; 2%nat] None false None [])
    [mkSubTab 1 None "Tab 1" 0 false; mkSubTab 2 None "Tab 2" 0 false]
    (Some 2%nat) 2 "gmux" "/home/u/gmux" true 0 0 [] 0.

Lemma mutual_exclusivity_invariant_witness :
  In two_tabs_project (projects (app (run no_files 0 two_tabs)))
  /\ ~ (initialized two_tabs_project = true /\ subtabs two_tabs_project = []).
Proof.
  assert (Hin : In two_tabs_project (projects (app (run no_files 0 two_tabs)))).
  { vm_compute. left. reflexivity. }
  split; [exact Hin|].
  exact (proj1 (proj2 (mutual_exclusivity_invariant no_files 0 two_tabs
                         two_tabs_project Hin))).
Defined.

(** ** C9: a session file that cannot be used *)

(** C9. When [session.json] cannot be parsed, or its root is not an object,
    or the root has no ["projects"] array, [load_session] on a fresh
    application returns (it is a total function) with zero projects, no
    active project and no terminal spawned. *)
Theorem load_session_corrupt_fallback : forall f now sf,
  session_json f = Some sf -> corrupt_session sf ->
  projects (app (load_session (fresh_world f now))) = []
  /\ active_project (app (load_session (fresh_world f now))) = None
  /\ spawned (load_session (fresh_world f now)) = [].
Proof.
  intros f now sf Hf Hc. unfold load_session. cbn [files fresh_world].
  rewrite Hf. destruct sf as [|root]; [auto|].
  unfold load_session_root.
  destruct root as [[| | | | | |root_obj]|]; auto.
  cbn in Hc.
  set (w1 := if json_object_has_member root_obj "sort_mode" then _ else _).
  assert (H1 : projects (app w1) = [] /\ active_project (app w1) = None
                /\ spawned w1 = []).
  { subst w1. destruct (json_object_has_member root_obj "sort_mode"); auto. }
  clearbody w1.
  unfold json_object_has_member, json_object_get_array_member.
  destruct (json_object_get_member root_obj "projects") as [node|];
    [|exact H1].
  destruct node; try contradiction; cbn [fold_left];
    destruct H1 as [A [B C]]; rewrite A, g_list_nth_nil; auto.
Qed.

Definition truncated_session : Files :=
  mkFiles (Some Unparsable) None None.

Lemma load_session_corrupt_fallback_witness :
  session_json truncated_session = Some Unparsable
  /\ corrupt_session Unparsable
  /\ projects (app (load_session (fresh_world truncated_session 0))) = [].
Proof.
  split; [reflexivity|]. split; [exact I|].
  exact (proj1 (load_session_corrupt_fallback truncated_session 0 Unparsable
                  eq_refl I)).
Defined.

(** ** C5: [insert_order] *)

(** Two projects are added, the first one is selected and removed, a third
    one is added. *)
Definition add_add_remove_add : list Event :=
  [EvFolderSelected (Some ("a", "/home/u/a"));
   EvFolderSelected (Some ("b", "/home/u/b"));
   EvRowClicked 0%nat;
   EvRemoveProjectClicked;
   EvFolderSelected (Some ("c", "/home/u/c"))].

(** C5 (what the code does). [create_project] takes the length of the
    collection as the new [insert_order]: after a removal the next project
    receives a value that a remaining project already has.  Here "b" keeps
    its 1 and "c" is given 1 as well. *)
Theorem insert_order_reused_after_removal :
  map (fun p => (project_name p, insert_order p))
      (projects (app (run no_files 0 add_add_remove_add)))
  = [("b", 1); ("c", 1)].
Proof. vm_compute. reflexivity. Qed.

(** ** C8: closing twice *)

(** The subtab at [s] after [closing = TRUE] has been written through the
    pointer. *)
Lemma find_subtab_mark : forall w st,
  Inv w -> find_subtab (app w) (subtab_ptr st) = Some st ->
  find_subtab (app (close_subtab_mark st w)) (subtab_ptr st)
  = Some (set_closing true st).
Proof.
  intros w st [Hh _] Hf.
  destruct (find_subtab_owner _ _ _ _ Hh Hf) as [p [Hp [Hin _]]].
  destruct Hh as [H1 [H2 H3]].
  destruct (projects_split _ _ _ H2 Hp) as [l1 [l2 [Hs [Ht Hm]]]].
  unfold close_subtab_mark, find_subtab. cbn [app on_app set_app].
  rewrite projects_update, Hm.
  unfold find_subtab in Hf. unfold all_subtabs in H3.
  rewrite Hs in Hf, H3. rewrite flat_map_app in *. cbn [flat_map] in *.
  rewrite !map_app in H3.
  assert (Hl1 : find (fun x => Nat.eqb (subtab_ptr x) (subtab_ptr st))
                  (flat_map subtabs l1) = None).
  { destruct (find _ (flat_map subtabs l1)) as [x|] eqn:E; [|reflexivity].
    apply find_some in E. destruct E as [E1 E2]. apply Nat.eqb_eq in E2.
    exfalso. eapply (NoDup_app_disjoint _ _ H3).
    - apply in_map, E1.
    - rewrite E2. apply in_or_app. left. apply in_map, Hin. }
  assert (Hfa : forall (A : Type) (f : A -> bool) l l',
             find f l = None -> find f (l ++ l') = find f l').
  { intros A f l l'. induction l as [|x l IH]; intros E; [reflexivity|].
    simpl in *. destruct (f x); [discriminate|]. apply IH, E. }
  rewrite Hfa in * by exact Hl1.
  assert (Hfb : forall l l' x,
             find (fun y => Nat.eqb (subtab_ptr y) (subtab_ptr st)) l = Some x ->
             find (fun y => Nat.eqb (subtab_ptr y) (subtab_ptr st)) (l ++ l')
             = Some x).
  { intros l l' x. induction l as [|y l IH]; intros E; [discriminate|].
    simpl in *. destruct (Nat.eqb _ _); [exact E|]. apply IH, E. }
  assert (Hp' : find (fun y => Nat.eqb (subtab_ptr y) (subtab_ptr st))
                  (subtabs p) = Some st).
  { destruct (find _ (subtabs p)) as [x|] eqn:E.
    - rewrite (Hfb _ _ _ E) in Hf. exact Hf.
    - pose proof (find_none _ _ E st Hin) as B. simpl in B.
      rewrite Nat.eqb_refl in B. discriminate. }
  apply Hfb. cbn [subtabs update_subtab set_subtabs].
  clear - Hp'. induction (subtabs p) as [|y l IH]; [discriminate|].
  simpl in *. destruct (Nat.eqb (subtab_ptr y) (subtab_ptr st)) eqn:E.
  - inversion Hp'; subst y. cbn. rewrite Nat.eqb_refl. reflexivity.
  - rewrite E. apply IH, Hp'.
Qed.

Lemma close_subtab_closing : forall w s st,
  find_subtab (app w) s = Some st -> closing st = true ->
  close_subtab (Some s) w = w
  /\ on_close_subtab_clicked s w = w
  /\ on_terminal_child_exited s w = w.
Proof.
  intros w s st Hf Hc.
  unfold on_close_subtab_clicked, on_terminal_child_exited, close_subtab,
    close_subtab_guard.
  rewrite Hf, Hc. auto.
Qed.

Lemma g_list_remove_length : forall l x,
  In x l -> (List.length (g_list_remove l x) + 1)%nat = List.length l.
Proof.
  induction l as [|y t IH]; intros x H; [destruct H|].
  simpl. destruct (Nat.eqb y x) eqn:E; [lia|].
  destruct H as [H|H]; [subst; rewrite Nat.eqb_refl in E; discriminate|].
  simpl. rewrite IH; auto.
Qed.

Lemma g_list_remove_gone : forall l x, NoDup l -> ~ In x (g_list_remove l x).
Proof.
  induction l as [|y t IH]; intros x H; [intros []|].
  simpl. inversion H as [|a b Ha Hb]; subst.
  destruct (Nat.eqb y x) eqn:E.
  - apply Nat.eqb_eq in E. subst. exact Ha.
  - intros [Hc|Hc]; [subst; rewrite Nat.eqb_refl in E; discriminate|].
    eapply IH; eauto.
Qed.

Lemma project_subtabs_NoDup : forall next a p,
  heap_ok next a -> In p (projects a) -> NoDup (map subtab_ptr (subtabs p)).
Proof.
  intros next a p [_ [_ H3]] Hp. unfold all_subtabs in H3.
  apply in_split in Hp. destruct Hp as [l1 [l2 Hs]]. rewrite Hs in H3.
  rewrite flat_map_app, map_app in H3. apply NoDup_app_remove_l in H3.
  simpl in H3. rewrite map_app in H3. apply NoDup_app_remove_r in H3.
  exact H3.
Qed.

(** C8. Once [closing] is set on a subtab, a further close request for it --
    the close button or the child-exited callback racing the close in
    progress -- returns at the guard and changes nothing.  A close that
    passes the guard, with or without such a racing request inside it,
    removes the subtab from its project's list exactly once, frees it once
    and saves the session once; afterwards the project's list no longer
    holds it. *)
Theorem close_subtab_idempotent : forall w s st project,
  Inv w -> close_subtab_guard (Some s) w = Some (st, project) ->
  let closing_state := close_subtab_mark st w in
  let w' := close_subtab (Some s) w in
  close_subtab (Some s) closing_state = closing_state
  /\ on_close_subtab_clicked s closing_state = closing_state
  /\ on_terminal_child_exited s closing_state = closing_state
  /\ close_subtab_rest st project (on_terminal_child_exited s closing_state)
     = w'
  /\ saves w' = S (saves w)
  /\ freed w' = freed w ++ [s]
  /\ exists p',
       find_project (app w') (parent_tab st) = Some p'
       /\ map subtab_ptr (subtabs p')
          = g_list_remove (map subtab_ptr (subtabs project)) s
       /\ (List.length (subtabs p') + 1)%nat = List.length (subtabs project)
       /\ ~ In s (map subtab_ptr (subtabs p')).
Proof.
  intros w s st project H Hg closing_state w'.
  destruct (close_subtab_guard_spec _ _ _ _ H Hg) as [Hs [Hf [Hc [Hp Hin]]]].
  inversion Hs; subst s. clear Hs.
  pose proof (find_subtab_mark w st H Hf) as Hm.
  destruct (close_subtab_closing closing_state (subtab_ptr st)
              (set_closing true st) Hm eq_refl) as [A [B C]].
  split; [exact A|]. split; [exact B|]. split; [exact C|].
  split; [rewrite C; subst w'; unfold close_subtab; rewrite Hg; reflexivity|].
  subst w' closing_state. unfold close_subtab. rewrite Hg.
  split; [reflexivity|]. split; [reflexivity|].
  unfold close_subtab_rest. cbn [app save_session].
  set (a1 := if _ && _ then _ else _).
  assert (Ha1 : exists p1, find_project a1 (parent_tab st) = Some p1
                           /\ map subtab_ptr (subtabs p1)
                              = map subtab_ptr (subtabs project)).
  { assert (Hmk : exists p1,
               find_project (app (close_subtab_mark st w)) (parent_tab st)
               = Some p1
               /\ map subtab_ptr (subtabs p1)
                  = map subtab_ptr (subtabs project)).
    { unfold close_subtab_mark. cbn [app on_app set_app].
      rewrite find_project_update_same by reflexivity. rewrite Hp.
      eexists. split; [reflexivity|]. cbn. rewrite map_map.
      apply map_ext. intros x. destruct (Nat.eqb _ _); reflexivity. }
    subst a1. destruct (_ && _); [|exact Hmk].
    destruct (adjacent_link _ _ _) as [na|]; [|exact Hmk].
    unfold on_subtab_button_clicked.
    rewrite find_project_update by reflexivity.
    destruct Hmk as [p1 [E1 E2]]. rewrite E1.
    destruct (Nat.eqb _ _); eexists; (split; [reflexivity|exact E2]). }
  clearbody a1. destruct Ha1 as [p1 [E1 E2]].
  rewrite find_project_update_same by (intros; apply unlink_subtab_ptr).
  rewrite E1. eexists. split; [reflexivity|].
  rewrite unlink_subtab_subtabs, remove_subtab_ptrs, E2.
  pose proof (project_subtabs_NoDup _ _ project (proj1 H)
                (proj1 (find_project_In _ _ _ Hp))) as Hn.
  assert (Hi : In (subtab_ptr st) (map subtab_ptr (subtabs project)))
    by (apply in_map, Hin).
  split; [reflexivity|]. split.
  - rewrite <- (length_map subtab_ptr (remove_subtab _ _)).
    rewrite remove_subtab_ptrs, E2, g_list_remove_length by exact Hi.
    apply length_map.
  - apply g_list_remove_gone, Hn.
Qed.

Definition two_tabs_first : SubTab := mkSubTab 1 None "Tab 1" 0 false.

Lemma close_subtab_idempotent_witness :
  let w := run no_files 0 two_tabs in
  Inv w
  /\ close_subtab_guard (Some 1%nat) w = Some (two_tabs_first, two_tabs_project)
  /\ on_terminal_child_exited 1 (close_subtab_mark two_tabs_first w)
     = close_subtab_mark two_tabs_first w.
Proof.
  intros w.
  assert (Hi : Inv w) by apply run_Inv.
  assert (Hg : close_subtab_guard (Some 1%nat) w
               = Some (two_tabs_first, two_tabs_project)).
  { vm_compute. reflexivity. }
  split; [exact Hi|]. split; [exact Hg|].
  exact (proj1 (proj2 (proj2 (close_subtab_idempotent w 1%nat two_tabs_first
                                 two_tabs_project Hi Hg)))).
Defined.

(** ** C7: closing the last tab *)

(** C7. For a project with exactly one live subtab, closing that subtab --
    through the close button or through the child-exited callback -- leaves
    the project uninitialized with no live subtab and no pending-restore
    descriptor; the next [on_project_selected] for the project then spawns
    one shell in the project's path for one new subtab named "Tab 1" and
    marks the project initialized. *)
Theorem last_tab_close_reverts : forall w t p st,
  Inv w -> find_project (app w) t = Some p ->
  subtabs p = [st] -> closing st = false ->
  forall w1,
    w1 = on_close_subtab_clicked (subtab_ptr st) w
    \/ w1 = on_terminal_child_exited (subtab_ptr st) w ->
    (exists p1,
        find_project (app w1) t = Some p1
        /\ initialized p1 = false /\ subtabs p1 = []
        /\ saved_subtabs p1 = [])
    /\ (exists p2 st2,
           find_project (app (on_project_selected (Some t) w1)) t = Some p2
           /\ initialized p2 = true /\ subtabs p2 = [st2]
           /\ saved_subtabs p2 = []
           /\ subtab_name st2 = "Tab 1"
           /\ spawned (on_project_selected (Some t) w1)
              = spawned w1 ++ [(subtab_ptr st2, project_path p)]).
Proof.
  intros w t p st H Hp Hs Hc w1 Hw1.
  pose proof H as [Hh Hok].
  destruct (find_project_In _ _ _ Hp) as [Hin Ht].
  assert (Hst : In st (subtabs p)) by (rewrite Hs; left; reflexivity).
  assert (Hf : find_subtab (app w) (subtab_ptr st) = Some st).
  { apply find_subtab_unique; [apply Hh|]. apply in_flat_map. eauto. }
  assert (Hpar : parent_tab st = t).
  { destruct Hh as [H1 _]. rewrite Forall_forall in H1.
    destruct (H1 p Hin) as [_ [L2 _]]. rewrite Forall_forall in L2.
    rewrite (L2 (parent_tab st)); [exact Ht|apply in_map, Hst]. }
  assert (Hsaved : saved_subtabs p = []).
  { rewrite Forall_forall in Hok.
    destruct (Hok p Hin) as [[_ [_ C]]|[_ C]]; [exact C|].
    rewrite Hs in C. discriminate. }
  assert (Hg : close_subtab_guard (Some (subtab_ptr st)) w = Some (st, p)).
  { unfold close_subtab_guard. rewrite Hf, Hc, Hpar, Hp. reflexivity. }
  assert (Hw : w1 = close_subtab (Some (subtab_ptr st)) w).
  { destruct Hw1 as [E|E]; rewrite E; [reflexivity|].
    unfold on_terminal_child_exited. rewrite Hf, Hc. reflexivity. }
  clear Hw1. unfold close_subtab in Hw. rewrite Hg in Hw.
  unfold close_subtab_rest, close_subtab_mark in Hw.
  rewrite Hs, Hpar in Hw. cbn [g_list_length List.length Z.of_nat] in Hw.
  change (Z.pos (Pos.of_succ_nat 0) =? 1) with true in Hw.
  rewrite andb_false_r in Hw.
  set (p1 := unlink_subtab (subtab_ptr st) true
               (update_subtab (subtab_ptr st) (set_closing true) p)).
  assert (Hp1 : find_project (app w1) t = Some p1).
  { rewrite Hw. cbn [app save_session on_app set_app].
    rewrite find_project_update_same by (intros; apply unlink_subtab_ptr).
    rewrite find_project_update_same by reflexivity.
    rewrite Hp. reflexivity. }
  assert (Hi1 : initialized p1 = false)
    by (subst p1; rewrite unlink_subtab_initialized; reflexivity).
  assert (Hs1 : subtabs p1 = []).
  { subst p1. rewrite unlink_subtab_subtabs. cbn. rewrite Hs. cbn.
    rewrite Nat.eqb_refl. cbn. rewrite Nat.eqb_refl. reflexivity. }
  assert (Hv1 : saved_subtabs p1 = [])
    by (subst p1; rewrite unlink_subtab_saved; exact Hsaved).
  assert (Hpath : project_path p1 = project_path p).
  { subst p1. unfold unlink_subtab. cbn.
    destruct (is_active_subtab _ _); reflexivity. }
  split; [exists p1; auto|].
  clearbody p1. clear Hw.
  unfold on_project_selected. rewrite Hp1.
  assert (Hidx : (g_list_index (map project_ptr (projects (app w1))) t >=? 0)
                 = true).
  { apply find_project_index. rewrite Hp1. discriminate. }
  rewrite Hidx, Hi1, Hv1. cbn [negb].
  eexists. eexists.
  split.
  { cbn [app on_app set_app].
    rewrite find_project_update_same by reflexivity.
    rewrite find_project_update_same by reflexivity.
    rewrite create_subtab_app.
    rewrite find_project_update_same by reflexivity.
    cbn [app on_app set_app].
    rewrite find_project_update_same by reflexivity.
    change (find_project (set_active_project (Some t) (app w1)) t)
      with (find_project (app w1) t).
    rewrite Hp1. cbn [option_map]. reflexivity. }
  cbn. rewrite Hs1, Hv1, Hpath. cbn. auto.
Qed.

Definition one_tab : list Event :=
  [EvFolderSelected (Some ("gmux", "/home/u/gmux"))].

Definition one_tab_subtab : SubTab := mkSubTab 1 None "Tab 1" 0 false.

Definition one_tab_project : Project :=
  mkProject 0 (mkTabsBox [1%nat] None false None []) [one_tab_subtab]
    (Some 1%nat) 1 "gmux" "/home/u/gmux" true 0 0 [] 0.

Lemma last_tab_close_reverts_witness :
  let w := run no_files 0 one_tab in
  Inv w
  /\ find_project (app w) 0 = Some one_tab_project
  /\ subtabs one_tab_project = [one_tab_subtab]
  /\ closing one_tab_subtab = false
  /\ exists p1,
       find_project (app (on_terminal_child_exited 1 w)) 0 = Some p1
       /\ initialized p1 = false /\ subtabs p1 = []
       /\ saved_subtabs p1 = [].
Proof.
  intros w.
  assert (Hi : Inv w) by apply run_Inv.
  assert (Hf : find_project (app w) 0 = Some one_tab_project).
  { vm_compute. reflexivity. }
  split; [exact Hi|]. split; [exact Hf|].
  split; [reflexivity|]. split; [reflexivity|].
  exact (proj1 (last_tab_close_reverts w 0%nat one_tab_project one_tab_subtab
                  Hi Hf eq_refl eq_refl (on_terminal_child_exited 1 w)
                  (or_intror eq_refl))).
Defined.

(** ** C10 and C6: the drag gesture *)

Lemma on_tab_drag_begin_project : forall t x picked w p,
  find_project (app w) t = Some p ->
  exists p',
    find_project (app (on_tab_drag_begin t x picked w)) t = Some p'
    /\ subtabs p' = subtabs p
    /\ children (tabs_box p') = children (tabs_box p)
    /\ tab_dragging (tabs_box p') = tab_dragging (tabs_box p)
    /\ (drag_active (tabs_box p) = false ->
        drag_active (tabs_box p') = false).
Proof.
  intros t x picked w p Hp. unfold on_tab_drag_begin.
  destruct (is_close_button_hit picked); [exists p; auto|].
  destruct (find_tab_button_ancestor picked); [|exists p; auto].
  cbn [app on_app set_app].
  rewrite find_project_update_same by reflexivity. rewrite Hp.
  eexists. split; [reflexivity|]. cbn. auto.
Qed.

Lemma on_tab_drag_update_subtabs : forall t x bounds w p,
  find_project (app w) t = Some p ->
  exists p',
    find_project (app (on_tab_drag_update t x bounds w)) t = Some p'
    /\ subtabs p' = subtabs p.
Proof.
  intros t x bounds w p Hp. unfold on_tab_drag_update. rewrite Hp.
  destruct (drag_tab (tabs_box p)); [|exists p; auto].
  destruct (drag_start_x (tabs_box p)); [|exists p; auto].
  destruct (_ && _); [exists p; auto|].
  cbn [app on_app set_app].
  rewrite find_project_update_same by reflexivity. rewrite Hp.
  eexists. split; reflexivity.
Qed.

Lemma drag_updates_subtabs : forall t updates w p,
  Inv w -> find_project (app w) t = Some p ->
  Inv (drag_updates t updates w)
  /\ exists p',
       find_project (app (drag_updates t updates w)) t = Some p'
       /\ subtabs p' = subtabs p.
Proof.
  intros t updates. unfold drag_updates.
  induction updates as [|u l IH]; intros w p H Hp; [split; eauto|].
  simpl.
  destruct (on_tab_drag_update_subtabs t (fst u) (snd u) w p Hp)
    as [p1 [E1 E2]].
  destruct (IH _ p1 (on_tab_drag_update_Inv t (fst u) (snd u) w H) E1)
    as [A [p2 [B C]]].
  split; [exact A|]. exists p2. split; [exact B|congruence].
Qed.

Lemma on_tab_drag_end_subtabs : forall t w p,
  Inv w -> find_project (app w) t = Some p ->
  exists p',
    find_project (app (on_tab_drag_end t w)) t = Some p'
    /\ Permutation (subtabs p) (subtabs p').
Proof.
  intros t w p H Hp. unfold on_tab_drag_end. rewrite Hp.
  destruct (drag_tab (tabs_box p)) as [d|];
    [|cbn [app on_app set_app];
      rewrite find_project_update_same by reflexivity; rewrite Hp;
      eexists; split; reflexivity].
  destruct (drag_active (tabs_box p));
    [|cbn [app on_app set_app];
      rewrite find_project_update_same by reflexivity; rewrite Hp;
      eexists; split; reflexivity].
  set (w1 := on_app (update_project t
                       (fun p0 => set_tabs_box
                                    (set_tab_dragging _ (tabs_box p0)) p0)) w).
  assert (H1 : Inv w1) by (apply Inv_keeps; [keeps|keeps|exact H]).
  assert (Hp1 : exists p1, find_project (app w1) t = Some p1
                           /\ subtabs p1 = subtabs p).
  { subst w1. cbn [app on_app set_app].
    rewrite find_project_update_same by reflexivity. rewrite Hp.
    eexists. split; reflexivity. }
  clearbody w1. destruct Hp1 as [p1 [E1 E2]].
  cbn [app on_app set_app save_session]. unfold rebuild_subtabs_list.
  rewrite find_project_update_same by reflexivity.
  rewrite find_project_update_same by reflexivity.
  rewrite E1. eexists. split; [reflexivity|]. cbn. rewrite <- E2.
  apply (read_back_perm _ _ p1 (proj1 H1)).
  apply (find_project_In _ _ _ E1).
Qed.

(** C10. A drag gesture -- press, any number of pointer moves with any
    bounds reported by the toolkit, release -- commits a subtab list that is
    a permutation of the list before the drag: the same subtabs, each once,
    none created, lost or duplicated. *)
Theorem drag_commit_is_permutation : forall w t p start_x picked updates,
  Inv w -> find_project (app w) t = Some p ->
  exists p',
    find_project (app (drag_gesture t start_x picked updates w)) t = Some p'
    /\ Permutation (subtabs p) (subtabs p')
    /\ NoDup (map subtab_ptr (subtabs p'))
    /\ List.length (subtabs p') = List.length (subtabs p).
Proof.
  intros w t p start_x picked updates H Hp. unfold drag_gesture.
  destruct (on_tab_drag_begin_project t start_x picked w p Hp)
    as [p1 [E1 [E2 _]]].
  pose proof (on_tab_drag_begin_Inv t start_x picked w H) as H1.
  destruct (drag_updates_subtabs t updates _ p1 H1 E1) as [H2 [p2 [F1 F2]]].
  destruct (on_tab_drag_end_subtabs t _ p2 H2 F1) as [p3 [G1 G2]].
  exists p3. rewrite F2, E2 in G2. repeat split; auto.
  - eapply Permutation_NoDup; [apply Permutation_map, G2|].
    eapply project_subtabs_NoDup; [apply H|].
    apply (find_project_In _ _ _ Hp).
  - symmetry. apply Permutation_length, G2.
Qed.

(** Two tabs of width 50 side by side. *)
Definition two_tabs_bounds (widget : nat) : option (double * double) :=
  match widget with
  | 1%nat => Some (double_of_Z 0, double_of_Z 50)
  | 2%nat => Some (double_of_Z 50, double_of_Z 50)
  | _ => None
  end.

Lemma drag_commit_is_permutation_witness :
  let w := run no_files 0 two_tabs in
  Inv w
  /\ find_project (app w) 0 = Some two_tabs_project
  /\ exists p',
       find_project
         (app (drag_gesture 0 (double_of_Z 10) (PickTab 1 false)
                 [(double_of_Z 70, two_tabs_bounds)] w)) 0 = Some p'
       /\ Permutation (subtabs two_tabs_project) (subtabs p').
Proof.
  intros w.
  assert (Hi : Inv w) by apply run_Inv.
  assert (Hf : find_project (app w) 0 = Some two_tabs_project).
  { vm_compute. reflexivity. }
  split; [exact Hi|]. split; [exact Hf|].
  destruct (drag_commit_is_permutation w 0%nat two_tabs_project
              (double_of_Z 10) (PickTab 1 false)
              [(double_of_Z 70, two_tabs_bounds)] Hi Hf)
    as [p' [A [B _]]].
  exists p'. split; [exact A|exact B].
Defined.

Example drag_swaps_two_tabs :
  option_map (fun p => map subtab_name (subtabs p))
    (find_project
       (app (drag_gesture 0 (double_of_Z 10) (PickTab 1 false)
               [(double_of_Z 70, two_tabs_bounds)]
               (run no_files 0 two_tabs))) 0)
  = Some ["Tab 2"; "Tab 1"].
Proof. vm_compute. reflexivity. Qed.

(** ** C6: the drag threshold *)
















Lemma g_list_remove_other : forall l x y,
  In y l -> y <> x -> In y (g_list_remove l x).
Proof.
  induction l as [|z t IH]; intros x y H Hne; [destruct H|].
  simpl. destruct (Nat.eqb z x) eqn:E.
  - destruct H as [H|H]; [|exact H].
    apply Nat.eqb_eq in E. congruence.
  - destruct H as [H|H]; [left; exact H|right; apply IH; assumption].
Qed.



















(** Two tabs of width 10 side by side. *)
Definition narrow_bounds (widget : nat) : option (double * double) :=
  match widget with
  | 1%nat => Some (double_of_Z 0, double_of_Z 10)
  | 2%nat => Some (double_of_Z 10, double_of_Z 10)
  | _ => None
  end.


(** A drag of 5 units and a drag of 7 units from the same press point: the
    first keeps the order and the number of saves, the second swaps the two
    tabs and saves once. *)
Example drag_five_then_seven :
  let w := run no_files 0 two_tabs in
  let names w := option_map (fun p => map subtab_name (subtabs p))
                   (find_project (app w) 0) in
  let five := drag_gesture 0 (double_of_Z 9) (PickTab 1 false)
                [(double_of_Z 5, narrow_bounds)] w in
  let seven := drag_gesture 0 (double_of_Z 9) (PickTab 1 false)
                 [(double_of_Z 7, narrow_bounds)] w in
  (names five, saves five) = (Some ["Tab 1"; "Tab 2"], saves w)
  /\ (names seven, saves seven) = (Some ["Tab 2"; "Tab 1"], S (saves w)).
Proof. vm_compute. split; reflexivity. Qed.

(** The sum of the press position and the offset is a double sum: from a
    press at 10 + 2^-49 an offset of 30 takes the pointer to 40 exactly,
    which is not beyond a midpoint at 40, and the strip stays as it is. *)
Example pointer_position_is_rounded :
  let press := binary_normalize 53 1024 (10 * 2 ^ 49 + 1) (-49) false in
  let bounds := fun widget : nat =>
    match widget with
    | 1%nat => Some (double_of_Z 0, double_of_Z 40)
    | 2%nat => Some (double_of_Z 20, double_of_Z 40)
    | _ => None
    end in
  valid_double press = true
  /\ double_lt (double_of_Z 10) press = true
  /\ double_add press (double_of_Z 30) = double_of_Z 40
  /\ option_map (fun p => map subtab_name (subtabs p))
       (find_project
          (app (drag_gesture 0 press (PickTab 1 false)
                  [(double_of_Z 30, bounds)] (run no_files 0 two_tabs))) 0)
     = Some ["Tab 1"; "Tab 2"].
Proof. vm_compute. repeat split; reflexivity. Qed.

(** ** C4: the sort engine *)

Lemma g_sequence_insert_sorted_perm : forall cmp x l,
  Permutation (x :: l) (g_sequence_insert_sorted cmp x l).
Proof.
  intros cmp x l. induction l as [|y t IH]; simpl; [reflexivity|].
  destruct (cmp y x >? 0); [reflexivity|].
  rewrite perm_swap. constructor. exact IH.
Qed.

Lemma g_sequence_sort_perm : forall cmp l,
  Permutation l (g_sequence_sort cmp l).
Proof.
  intros cmp l. unfold g_sequence_sort.
  rewrite <- (app_nil_r l) at 1. generalize (@nil nat) as acc.
  induction l as [|x l IH]; intros acc; simpl; [reflexivity|].
  rewrite <- IH. rewrite <- g_sequence_insert_sorted_perm.
  apply Permutation_middle.
Qed.

Section SortCorrect.

Variable cmp : nat -> nat -> Z.
Variable valid : nat -> Prop.

Hypothesis cmp_total : forall x y,
  valid x -> valid y -> cmp y x > 0 -> cmp x y <= 0.
Hypothesis cmp_trans : forall x y z,
  valid x -> valid y -> valid z ->
  cmp x y <= 0 -> cmp y z <= 0 -> cmp x z <= 0.

Let le (x y : nat) : Prop := cmp x y <= 0.

Lemma g_sequence_insert_sorted_sorted : forall x l,
  valid x -> Forall valid l -> StronglySorted le l ->
  StronglySorted le (g_sequence_insert_sorted cmp x l).
Proof.
  intros x l Hx Hl Hs. induction Hs as [|y t Hs IH Hy]; simpl.
  - constructor; constructor.
  - inversion Hl as [|a b Hvy Hvt]; subst.
    destruct (cmp y x >? 0) eqn:E.
    + apply Z.gtb_lt in E.
      assert (Hxy : le x y) by (apply cmp_total; auto; lia).
      constructor; [constructor; assumption|].
      constructor; [exact Hxy|].
      rewrite Forall_forall in *. intros z Hz.
      apply (cmp_trans x y z); auto. apply Hy, Hz.
    + constructor; [apply IH, Hvt|].
      rewrite Forall_forall in *. intros z Hz.
      apply (Permutation_in z
               (Permutation_sym (g_sequence_insert_sorted_perm cmp x t))) in Hz.
      destruct Hz as [Hz|Hz]; [|apply Hy, Hz]. subst z. unfold le.
      destruct (Z.gtb_spec (cmp y x) 0); [discriminate|lia].
Qed.

Lemma g_sequence_sort_sorted : forall l,
  Forall valid l -> StronglySorted le (g_sequence_sort cmp l).
Proof.
  intros l. unfold g_sequence_sort.
  assert (H : forall acc, Forall valid acc -> StronglySorted le acc ->
                          Forall valid l ->
                          StronglySorted le
                            (fold_left
                               (fun acc x => g_sequence_insert_sorted cmp x acc)
                               l acc)).
  { induction l as [|x l IH]; intros acc Ha Hs Hl; [exact Hs|].
    simpl. inversion Hl as [|a b Hx Hl']; subst. apply IH; [| |exact Hl'].
    - eapply Permutation_Forall; [apply g_sequence_insert_sorted_perm|].
      constructor; assumption.
    - apply g_sequence_insert_sorted_sorted; assumption. }
  intros Hl. apply H; [constructor|constructor|exact Hl].
Qed.

End SortCorrect.

Lemma to_int_small : forall z, in_int z -> to_int z = z.
Proof.
  intros z [H1 H2]. unfold to_int. rewrite Z.mod_small; lia.
Qed.

Lemma g_ascii_strcasecmp_total : forall s1 s2,
  g_ascii_strcasecmp s2 s1 > 0 -> g_ascii_strcasecmp s1 s2 <= 0.
Proof.
  induction s1 as [|c1 t1 IH]; intros s2 H; destruct s2 as [|c2 t2];
    simpl in *; try lia.
  destruct (N.eqb_spec (g_ascii_tolower c1) (g_ascii_tolower c2)) as [E|E];
    destruct (N.eqb_spec (g_ascii_tolower c2) (g_ascii_tolower c1)) as [F|F];
    try congruence; try lia.
  apply IH, H.
Qed.

Lemma g_ascii_strcasecmp_trans : forall s1 s2 s3,
  c_string s1 -> c_string s2 ->
  g_ascii_strcasecmp s1 s2 <= 0 -> g_ascii_strcasecmp s2 s3 <= 0 ->
  g_ascii_strcasecmp s1 s3 <= 0.
Proof.
  induction s1 as [|c1 t1 IH]; intros s2 s3 C1 C2 H1 H2.
  - destruct s3; simpl; lia.
  - destruct s2 as [|c2 t2]; [simpl in *; destruct C1; lia|].
    destruct s3 as [|c3 t3]; [simpl in *; destruct C2; lia|].
    simpl in *. destruct C1 as [_ C1]. destruct C2 as [_ C2].
    destruct (N.eqb_spec (g_ascii_tolower c1) (g_ascii_tolower c2)) as [E12|E12];
    destruct (N.eqb_spec (g_ascii_tolower c2) (g_ascii_tolower c3)) as [E23|E23];
    destruct (N.eqb_spec (g_ascii_tolower c1) (g_ascii_tolower c3)) as [E13|E13];
    try lia; try congruence.
    eapply IH; eauto.
Qed.

Lemma StronglySorted_weaken : forall (A : Type) (R R' : A -> A -> Prop) l,
  (forall x y, In x l -> In y l -> R x y -> R' x y) ->
  StronglySorted R l -> StronglySorted R' l.
Proof.
  intros A R R' l H Hs. induction Hs as [|x l Hs IH Hf]; constructor.
  - apply IH. intros a b Ha Hb. apply H; right; assumption.
  - rewrite Forall_forall in *. intros y Hy.
    apply H; [left; reflexivity|right; exact Hy|apply Hf, Hy].
Qed.

(** Sorted rows display sorted projects. *)
Lemma displayed_sorted : forall a (K : Project -> Project -> Prop) l,
  StronglySorted
    (fun r1 r2 => forall p1 p2,
         find_project a r1 = Some p1 -> find_project a r2 = Some p2 -> K p1 p2)
    l ->
  StronglySorted K
    (flat_map (fun row => match find_project a row with
                          | Some p => [p]
                          | None => []
                          end) l).
Proof.
  intros a K l H. induction H as [|r l Hs IH Hf]; simpl; [constructor|].
  destruct (find_project a r) as [p|] eqn:E; [|exact IH].
  simpl. constructor; [exact IH|].
  rewrite Forall_forall in *. intros q Hq. apply in_flat_map in Hq.
  destruct Hq as [r' [H1 H2]].
  destruct (find_project a r') as [q'|] eqn:E'; [|destruct H2].
  destruct H2 as [H2|[]]. subst q'. apply (Hf r' H1); auto.
Qed.

Definition sort_func_of (m : SortMode) : SortFunc :=
  match m with
  | SORT_ALPHA => sort_func_alpha_cb
  | SORT_MRU => sort_func_mru_cb
  | SORT_NONE => sort_func_insertion_cb
  end.

Lemma apply_sort_rows : forall a,
  rows (sidebar (apply_sort a)) =
  g_sequence_sort (do_sort (find_project a) (sort_func_of (sort_mode a)))
    (g_sequence_sort (do_sort (find_project a) (sort_func_of (sort_mode a)))
       (rows (sidebar a))).
Proof. intros a. unfold apply_sort. destruct (sort_mode a); reflexivity. Qed.

(** The rows of a sorted sidebar are in the order of the comparator, for
    any comparator that is a total preorder on the projects at hand. *)
Lemma apply_sort_sorted : forall a (V : Project -> Prop)
  (K : Project -> Project -> Prop),
  rows_ok a -> Forall V (projects a) ->
  (forall r1 r2 p1 p2,
      find_project a r1 = Some p1 -> find_project a r2 = Some p2 ->
      (do_sort (find_project a) (sort_func_of (sort_mode a)) r1 r2 <= 0
       <-> K p1 p2)) ->
  (forall p q, V p -> V q -> K p q \/ K q p) ->
  (forall p q r, V p -> V q -> V r -> K p q -> K q r -> K p r) ->
  StronglySorted K (displayed (apply_sort a)).
Proof.
  intros a V K Hr Hv Hk Htot Htr.
  unfold displayed.
  change (find_project (apply_sort a)) with (find_project a).
  apply displayed_sorted. rewrite apply_sort_rows.
  set (cmp := do_sort (find_project a) (sort_func_of (sort_mode a))) in *.
  pose (valid := fun r => exists p, find_project a r = Some p /\ V p).
  assert (Hvalid : Forall valid (rows (sidebar a))).
  { unfold rows_ok in Hr. rewrite Forall_forall in *. intros r Hin.
    specialize (Hr r Hin). destruct (find_project a r) as [p|] eqn:E;
      [|congruence].
    exists p. split; [exact E|]. apply Hv.
    apply (find_project_In _ _ _ E). }
  eapply StronglySorted_weaken;
    [|apply (g_sequence_sort_sorted cmp valid)].
  - intros x y _ _ Hxy p1 p2 E1 E2. apply (Hk x y p1 p2 E1 E2), Hxy.
  - intros x y [p [E1 V1]] [q [E2 V2]] Hgt.
    apply (Hk x y p q E1 E2).
    destruct (Htot p q V1 V2) as [H|H]; [exact H|].
    apply (Hk y x q p E2 E1) in H. lia.
  - intros x y z [p [E1 V1]] [q [E2 V2]] [r [E3 V3]] H1 H2.
    apply (Hk x z p r E1 E3).
    apply (Htr p q r V1 V2 V3);
      [apply (Hk x y p q E1 E2), H1|apply (Hk y z q r E2 E3), H2].
  - eapply Permutation_Forall; [apply g_sequence_sort_perm|exact Hvalid].
Qed.

(** C4. [apply_sort] changes no project (no [insert_order], name or
    [last_used]), no sort mode and no active project: it only reorders the
    rows of the sidebar.  The projects are then displayed by ascending
    [insert_order] in manual mode, in the order of the case-insensitive
    comparison [g_ascii_strcasecmp] of their names in alphabetical mode, and
    by descending [last_used] in MRU mode. *)
Theorem apply_sort_correct : forall a,
  rows_ok a ->
  projects (apply_sort a) = projects a
  /\ sort_mode (apply_sort a) = sort_mode a
  /\ active_project (apply_sort a) = active_project a
  /\ Permutation (displayed a) (displayed (apply_sort a))
  /\ (sort_mode a = SORT_NONE ->
      Forall (fun p => 0 <= insert_order p <= 2147483647) (projects a) ->
      StronglySorted (fun p q => insert_order p <= insert_order q)
        (displayed (apply_sort a)))
  /\ (sort_mode a = SORT_ALPHA ->
      Forall (fun p => c_string (project_name p)) (projects a) ->
      StronglySorted
        (fun p q => g_ascii_strcasecmp (project_name p) (project_name q) <= 0)
        (displayed (apply_sort a)))
  /\ (sort_mode a = SORT_MRU ->
      StronglySorted (fun p q => last_used q <= last_used p)
        (displayed (apply_sort a))).
Proof.
  intros a Hr.
  split; [reflexivity|]. split; [reflexivity|]. split; [reflexivity|].
  split.
  { unfold displayed.
    change (find_project (apply_sort a)) with (find_project a).
    apply Permutation_flat_map_list. rewrite apply_sort_rows.
    rewrite <- !g_sequence_sort_perm. reflexivity. }
  split; [|split].
  - intros Hm Hv.
    apply (apply_sort_sorted a
             (fun p => 0 <= insert_order p <= 2147483647)); auto.
    + intros r1 r2 p1 p2 E1 E2. rewrite Hm. cbn [sort_func_of do_sort].
      unfold sort_func_insertion. rewrite E1, E2.
      rewrite Forall_forall in Hv.
      pose proof (Hv p1 (proj1 (find_project_In _ _ _ E1))).
      pose proof (Hv p2 (proj1 (find_project_In _ _ _ E2))).
      rewrite to_int_small by (unfold in_int; lia). lia.
    + intros p q _ _. lia.
    + intros p q r _ _ _. lia.
  - intros Hm Hv.
    apply (apply_sort_sorted a (fun p => c_string (project_name p))); auto.
    + intros r1 r2 p1 p2 E1 E2. rewrite Hm. cbn [sort_func_of do_sort].
      unfold sort_func_alpha. rewrite E1, E2. reflexivity.
    + intros p q _ _.
      destruct (Z.leb_spec
                  (g_ascii_strcasecmp (project_name p) (project_name q)) 0)
        as [H|H]; [left; exact H|right].
      apply g_ascii_strcasecmp_total. lia.
    + intros p q r Vp Vq _. apply g_ascii_strcasecmp_trans; assumption.
  - intros Hm.
    apply (apply_sort_sorted a (fun _ => True)); auto.
    + rewrite Forall_forall. auto.
    + intros r1 r2 p1 p2 E1 E2. rewrite Hm. cbn [sort_func_of do_sort].
      unfold sort_func_mru. rewrite E1, E2.
      destruct (Z.gtb_spec (last_used p2) (last_used p1));
        destruct (Z.ltb_spec (last_used p2) (last_used p1)); lia.
    + intros p q _ _. lia.
    + intros p q r _ _ _. lia.
Qed.

Definition sort_example_project (ptr : nat) (name : string)
  (order used : Z) : Project :=
  mkProject ptr (mkTabsBox [] None false None []) [] None 0 name "/" false
    used order [] 0.

(** Three projects with [insert_order] 2, 0, 1, names banana, Apple, cherry
    and [last_used] 10, 30, 20. *)
Definition sort_example (m : SortMode) : AppState :=
  mkAppState (mkListBox [0%nat; 1%nat; 2%nat] None None)
    [sort_example_project 0 "banana" 2 10;
     sort_example_project 1 "Apple" 0 30;
     sort_example_project 2 "cherry" 1 20]
    None m.

Lemma apply_sort_correct_witness :
  rows_ok (sort_example SORT_ALPHA)
  /\ projects (apply_sort (sort_example SORT_ALPHA))
     = projects (sort_example SORT_ALPHA).
Proof.
  assert (Hr : rows_ok (sort_example SORT_ALPHA)).
  { repeat constructor; discriminate. }
  split; [exact Hr|].
  exact (proj1 (apply_sort_correct (sort_example SORT_ALPHA) Hr)).
Defined.

Example sort_manual :
  map insert_order (displayed (apply_sort (sort_example SORT_NONE)))
  = [0; 1; 2].
Proof. vm_compute. reflexivity. Qed.

Example sort_alphabetical :
  map project_name (displayed (apply_sort (sort_example SORT_ALPHA)))
  = ["Apple"; "banana"; "cherry"].
Proof. vm_compute. reflexivity. Qed.

Example sort_mru :
  map last_used (displayed (apply_sort (sort_example SORT_MRU)))
  = [30; 20; 10].
Proof. vm_compute. reflexivity. Qed.

(** ** A handler works on one project *)

(** [frame t a a']: the collection keeps its projects in place, each with
    its address, name and path, and every project other than the one at
    [t] is unchanged. *)
Definition frame (t : nat) (a a' : AppState) : Prop :=
  Forall2 (fun q q' => project_ptr q' = project_ptr q
                       /\ project_name q' = project_name q
                       /\ project_path q' = project_path q
                       /\ (project_ptr q <> t -> q' = q))
    (projects a) (projects a').

Lemma frame_refl : forall t a a',
  projects a' = projects a -> frame t a a'.
Proof.
  intros t a a' H. unfold frame. rewrite H.
  generalize (projects a). intros l.
  induction l as [|q l IH]; constructor; [|exact IH].
  repeat split; reflexivity.
Qed.

Lemma frame_trans : forall t a b c,
  frame t a b -> frame t b c -> frame t a c.
Proof.
  intros t a b c. unfold frame.
  generalize (projects a) (projects b) (projects c). clear a b c.
  intros la lb lc H. revert lc.
  induction H as [|x y la lb Hxy Hl IH]; intros lc Hc; inversion Hc; subst;
    constructor; [|apply IH; assumption].
  destruct Hxy as [A1 [A2 [A3 A4]]].
  match goal with
  | H : _ /\ _ |- _ => destruct H as [B1 [B2 [B3 B4]]]
  end.
  repeat split; try congruence.
  intros Hne. rewrite B4, A4; auto. congruence.
Qed.

Definition keeps_identity (f : Project -> Project) : Prop :=
  forall q, project_ptr (f q) = project_ptr q
            /\ project_name (f q) = project_name q
            /\ project_path (f q) = project_path q.

Lemma frame_update : forall t f a,
  keeps_identity f -> frame t a (update_project t f a).
Proof.
  intros t f a Hf. unfold frame. rewrite projects_update.
  induction (projects a) as [|q l IH]; simpl; constructor; [|exact IH].
  unfold upd. destruct (Nat.eqb (project_ptr q) t) eqn:E.
  - destruct (Hf q) as [A [B C]]. repeat split; auto.
    apply Nat.eqb_eq in E. congruence.
  - auto.
Qed.

Lemma frame_create_subtab : forall t name dir w,
  frame t (app w) (app (fst (create_subtab t name dir w))).
Proof.
  intros. rewrite create_subtab_app. apply frame_update. keeps.
Qed.

Lemma frame_fold_create_subtab : forall t l w,
  frame t (app w)
    (app (fold_left
            (fun w saved =>
               fst (create_subtab t (saved_name saved) (working_dir saved) w))
            l w)).
Proof.
  intros t l. induction l as [|sv l IH]; intros w; simpl.
  - apply frame_refl. reflexivity.
  - eapply frame_trans; [apply frame_create_subtab|apply IH].
Qed.



Lemma frame_In : forall t a a' q',
  frame t a a' -> In q' (projects a') -> project_ptr q' <> t ->
  In q' (projects a).
Proof.
  intros t a a' q'. unfold frame.
  generalize (projects a) (projects a'). clear a a'.
  intros la lb H. induction H as [|x y la lb Hxy Hl IH]; intros Hi Hne;
    [destruct Hi|].
  destruct Hi as [Hi|Hi]; [|right; apply IH; assumption].
  subst y. destruct Hxy as [A [_ [_ B]]]. left. symmetry. apply B. congruence.
Qed.

(** [on_project_selected] works on the selected project only. *)
Lemma on_project_selected_frame : forall t w,
  Inv w -> frame t (app w) (app (on_project_selected (Some t) w)).
Proof.
  intros t w H. unfold on_project_selected.
  destruct (find_project (app w) t) as [p|] eqn:Hf;
    [|apply frame_refl; reflexivity].
  destruct (_ >=? 0); [|apply frame_refl; reflexivity].
  set (w1 := on_app (update_project t (set_last_used _)) _).
  assert (F1 : frame t (app w) (app w1)).
  { subst w1. cbn [app on_app set_app].
    eapply frame_trans; [|apply frame_update; keeps].
    apply frame_refl. reflexivity. }
  assert (H1 : WS t (fun _ => True) w1).
  { subst w1. apply WS_keeps; [keeps|keeps|auto|].
    apply WS_app_only; [reflexivity|].
    eapply WS_weaken; [|apply WS_enter, H]. auto. }
  clearbody w1.
  destruct (negb (initialized p)); [|exact F1].
  destruct (saved_subtabs p) as [|sv l].
  - cbn [app on_app set_app].
    eapply frame_trans; [|apply frame_update; keeps].
    eapply frame_trans; [|apply frame_update; keeps].
    eapply frame_trans; [exact F1|apply frame_create_subtab].
  - set (w2 := on_app (update_project t (set_subtab_counter _)) _).
    assert (F2 : frame t (app w) (app w2)).
    { subst w2. cbn [app on_app set_app].
      eapply frame_trans; [|apply frame_update; keeps].
      eapply frame_trans; [exact F1|apply frame_fold_create_subtab]. }
    assert (H2 : WS t (fun _ => True) w2).
    { subst w2. apply WS_keeps; [keeps|keeps|auto|].
      apply WS_fold_create_subtab; auto. }
    clearbody w2.
    cbn [app on_app set_app].
    eapply frame_trans; [|apply frame_update; keeps].
    eapply frame_trans; [|apply frame_update; keeps].
    destruct (find_project (app w2) t) as [p'|] eqn:Hf2; [|exact F2].
    destruct (g_list_nth _ _) as [active_sub|] eqn:Hn; [|exact F2].
    cbn [app on_app set_app]. unfold on_subtab_button_clicked.
    assert (Hpar : parent_tab active_sub = t).
    { unfold g_list_nth in Hn. destruct (_ <? 0); [discriminate|].
      apply nth_error_In in Hn.
      destruct H2 as [[L _] _]. rewrite Forall_forall in L.
      destruct (find_project_In _ _ _ Hf2) as [Hin Hpt].
      destruct (L p' Hin) as [_ [Lp _]]. rewrite Forall_forall in Lp.
      rewrite (Lp (parent_tab active_sub)); [exact Hpt|apply in_map, Hn]. }
    rewrite Hpar.
    eapply frame_trans; [exact F2|apply frame_update; keeps].
Qed.

Lemma gtk_list_box_select_row_frame : forall t w,
  Inv w -> frame t (app w) (app (gtk_list_box_select_row t w)).
Proof.
  intros t w H. unfold gtk_list_box_select_row.
  set (w1 := on_app (set_sidebar _) w).
  assert (H1 : Inv w1) by (apply Inv_app_only; [reflexivity|exact H]).
  assert (F1 : frame t (app w) (app w1)) by (apply frame_refl; reflexivity).
  destruct (selected_row (sidebar (app w))) as [r|].
  - destruct (Nat.eqb r t); [apply frame_refl; reflexivity|].
    eapply frame_trans; [exact F1|apply on_project_selected_frame, H1].
  - eapply frame_trans; [exact F1|apply on_project_selected_frame, H1].
Qed.

(** ** Loading the projects of a session *)

(** The project [load_project] creates from one element of the
    ["projects"] array. *)
Definition restore_project (ptr : nat) (order : Z) (proj_obj : JsonObjectT)
  (name path : string) : Project :=
  let p :=
    mkProject ptr (mkTabsBox [] None false None []) [] None 0 name path false
      0 order [] 0 in
  let p :=
    if json_object_has_member proj_obj "last_used" then
      set_last_used (json_object_get_int_member proj_obj "last_used") p
    else p in
  if json_object_has_member proj_obj "subtabs" then
    set_saved_active_subtab
      (if json_object_has_member proj_obj "active_subtab_index" then
         to_int (json_object_get_int_member proj_obj "active_subtab_index")
       else 0)
      (set_saved_subtabs
         (load_saved_subtabs path
            (json_object_get_array_member proj_obj "subtabs") []) p)
  else p.

(** The projects the loop adds for the elements of the array, given the
    next free address and the length of the collection. *)
Fixpoint restore_projects (ptr : nat) (len : nat) (arr : list JsonNode)
  : list Project :=
  match arr with
  | [] => []
  | node :: rest =>
      match json_array_get_object_element node with
      | Some proj_obj =>
          match json_object_get_string_member proj_obj "name",
                json_object_get_string_member proj_obj "path" with
          | Some name, Some path =>
              restore_project ptr (to_int (Z.of_nat len)) proj_obj name path
              :: restore_projects (S ptr) (S len) rest
          | _, _ => restore_projects ptr len rest
          end
      | None => restore_projects ptr len rest
      end
  end.

Lemma map_upd_new : forall n f l pnew,
  Forall (fun q => (project_ptr q < n)%nat) l -> project_ptr pnew = n ->
  map (upd n f) (l ++ [pnew]) = l ++ [f pnew].
Proof.
  intros n f l pnew Hl Hp. rewrite map_app. simpl. f_equal.
  - rewrite <- (map_id l) at 2. apply map_ext_in. intros q Hq.
    rewrite Forall_forall in Hl. specialize (Hl q Hq). unfold upd.
    destruct (Nat.eqb_spec (project_ptr q) n); [lia|reflexivity].
  - unfold upd. rewrite Hp, Nat.eqb_refl. reflexivity.
Qed.

Definition ptrs_below (w : World) : Prop :=
  Forall (fun q => (project_ptr q < next_ptr w)%nat) (projects (app w)).

Lemma Inv_ptrs_below : forall w, Inv w -> ptrs_below w.
Proof.
  intros w [[H _] _]. unfold ptrs_below. eapply Forall_impl; [|exact H].
  intros q [_ [_ [_ Hq]]]. exact Hq.
Qed.

(** What one iteration of the loop does. *)
Lemma load_project_spec : forall w node,
  ptrs_below w ->
  projects (app (load_project w node))
  = projects (app w)
    ++ restore_projects (next_ptr w) (List.length (projects (app w))) [node]
  /\ next_ptr (load_project w node)
     = (next_ptr w
        + List.length (restore_projects (next_ptr w)
                         (List.length (projects (app w))) [node]))%nat
  /\ spawned (load_project w node) = spawned w
  /\ clock (load_project w node) = clock w
  /\ files (load_project w node) = files w
  /\ saves (load_project w node) = saves w
  /\ sort_mode (app (load_project w node)) = sort_mode (app w)
  /\ selected_row (sidebar (app (load_project w node)))
     = selected_row (sidebar (app w)).
Proof.
  intros w node Hb. unfold load_project. cbn [restore_projects].
  destruct (json_array_get_object_element node) as [proj_obj|];
    [|cbn; rewrite app_nil_r, Nat.add_0_r; auto 10].
  destruct (json_object_get_string_member proj_obj "name") as [name|];
    [|cbn; rewrite app_nil_r, Nat.add_0_r; auto 10].
  destruct (json_object_get_string_member proj_obj "path") as [path|];
    [|cbn; rewrite app_nil_r, Nat.add_0_r; auto 10].
  unfold create_project, restore_project.
  cbn [fst snd List.length].
  destruct (json_object_has_member proj_obj "last_used");
    destruct (json_object_has_member proj_obj "subtabs");
    cbn [app on_app set_app next_ptr spawned clock files saves];
    (split; [|rewrite Nat.add_1_r; auto 10]);
    rewrite ?projects_update;
    cbn [projects set_projects set_active_project set_sidebar];
    repeat (rewrite map_upd_new; [|assumption|reflexivity]);
    reflexivity.
Qed.

(** ** Activation of an uninitialized project *)

(** The descriptors an uninitialized project is materialized from: its
    pending ones, or the default "Tab 1" in the project's path. *)
Definition activation_descriptors (p : Project) : list SavedSubTab :=
  match saved_subtabs p with
  | [] => [mkSavedSubTab "Tab 1" (project_path p)]
  | l => l
  end.

(** The fields of a project that creating subtabs leaves alone. *)
Definition same_record (p p' : Project) : Prop :=
  project_ptr p' = project_ptr p
  /\ project_name p' = project_name p
  /\ project_path p' = project_path p
  /\ initialized p' = initialized p
  /\ last_used p' = last_used p
  /\ insert_order p' = insert_order p
  /\ saved_subtabs p' = saved_subtabs p
  /\ saved_active_subtab p' = saved_active_subtab p.

Lemma same_record_refl : forall p, same_record p p.
Proof. intros p. unfold same_record. auto 10. Qed.

Lemma same_record_trans : forall p q r,
  same_record p q -> same_record q r -> same_record p r.
Proof.
  unfold same_record. intros p q r H1 H2.
  destruct H1 as [A1 [A2 [A3 [A4 [A5 [A6 [A7 A8]]]]]]].
  destruct H2 as [B1 [B2 [B3 [B4 [B5 [B6 [B7 B8]]]]]]].
  repeat split; congruence.
Qed.

Lemma fold_create_subtab_spec : forall t l w p,
  find_project (app w) t = Some p ->
  let w' := fold_left
              (fun w saved =>
                 fst (create_subtab t (saved_name saved) (working_dir saved) w))
              l w in
  next_ptr w' = (next_ptr w + List.length l)%nat
  /\ clock w' = clock w
  /\ spawned w'
     = spawned w ++ combine (seq (next_ptr w) (List.length l))
                      (map working_dir l)
  /\ exists p',
       find_project (app w') t = Some p'
       /\ same_record p p'
       /\ map subtab_ptr (subtabs p')
          = map subtab_ptr (subtabs p) ++ seq (next_ptr w) (List.length l)
       /\ map subtab_name (subtabs p')
          = map subtab_name (subtabs p) ++ map saved_name l.
Proof.
  intros t l. induction l as [|sv l IH]; intros w p Hp; cbn zeta.
  - simpl. rewrite Nat.add_0_r, ?app_nil_r. repeat split; auto.
    exists p. rewrite ?app_nil_r. repeat split; auto.
  - cbn [fold_left].
    set (w1 := fst (create_subtab t (saved_name sv) (working_dir sv) w)).
    assert (Hp1 : find_project (app w1) t
                  = Some (attach_subtab
                            (mkSubTab (next_ptr w) None (saved_name sv) t false)
                            p)).
    { subst w1. rewrite create_subtab_app.
      rewrite find_project_update_same by reflexivity. rewrite Hp.
      reflexivity. }
    destruct (IH w1 _ Hp1) as [A [B [C [p' [D [E [F G]]]]]]].
    assert (Hn : next_ptr w1 = S (next_ptr w)) by reflexivity.
    assert (Hs : spawned w1 = spawned w ++ [(next_ptr w, working_dir sv)])
      by reflexivity.
    assert (Hc : clock w1 = clock w) by reflexivity.
    clearbody w1. rewrite Hn in *. rewrite Hs in C.
    cbn [List.length]. split; [rewrite A; lia|]. split; [congruence|].
    split; [rewrite C, <- app_assoc; reflexivity|].
    exists p'. split; [exact D|]. split.
    + eapply same_record_trans; [|exact E]. unfold same_record. cbn. auto 10.
    + cbn in F, G. rewrite !map_app in F, G. cbn in F, G.
      rewrite <- !app_assoc in F, G. split; assumption.
Qed.

Lemma fold_create_subtab_active : forall t l w,
  active_project
    (app (fold_left
            (fun w saved =>
               fst (create_subtab t (saved_name saved) (working_dir saved) w))
            l w))
  = active_project (app w).
Proof.
  intros t l. induction l as [|sv l IH]; intros w; [reflexivity|].
  cbn [fold_left]. rewrite IH. reflexivity.
Qed.

(** What [on_project_selected] does to an uninitialized project without
    live subtab. *)
Lemma on_project_selected_activates : forall t w p,
  find_project (app w) t = Some p ->
  initialized p = false -> subtabs p = [] ->
  let ds := activation_descriptors p in
  let w' := on_project_selected (Some t) w in
  spawned w'
  = spawned w ++ combine (seq (next_ptr w) (List.length ds))
                   (map working_dir ds)
  /\ active_project (app w') = Some t
  /\ exists p',
       find_project (app w') t = Some p'
       /\ project_name p' = project_name p
       /\ project_path p' = project_path p
       /\ initialized p' = true
       /\ saved_subtabs p' = []
       /\ last_used p' = clock w
       /\ map subtab_ptr (subtabs p') = seq (next_ptr w) (List.length ds)
       /\ map subtab_name (subtabs p') = map saved_name ds.
Proof.
  intros t w p Hp Hi Hs ds w'. subst w'. unfold on_project_selected.
  rewrite Hp.
  assert (Hidx : (g_list_index (map project_ptr (projects (app w))) t >=? 0)
                 = true).
  { apply find_project_index. rewrite Hp. discriminate. }
  rewrite Hidx, Hi. cbn [negb].
  set (w1 := on_app (update_project t (set_last_used _)) _).
  assert (Hp1 : find_project (app w1) t = Some (set_last_used (clock w) p)).
  { subst w1. cbn [app on_app set_app clock].
    rewrite find_project_update_same by reflexivity.
    change (find_project (set_active_project (Some t) (app w)) t)
      with (find_project (app w) t).
    rewrite Hp. reflexivity. }
  assert (Hn1 : next_ptr w1 = next_ptr w) by reflexivity.
  assert (Hs1 : spawned w1 = spawned w) by reflexivity.
  assert (Ha1 : active_project (app w1) = Some t) by reflexivity.
  assert (Hf1 : forall l,
             active_project
               (app (fold_left
                       (fun w saved =>
                          fst (create_subtab t (saved_name saved)
                                 (working_dir saved) w)) l w1)) = Some t).
  { intros l. rewrite fold_create_subtab_active. exact Ha1. }
  clearbody w1.
  subst ds. unfold activation_descriptors.
  destruct (saved_subtabs p) as [|sv l] eqn:Hsv.
  - cbn [app on_app set_app spawned fst create_subtab].
    rewrite Hs1, Hn1. split; [reflexivity|]. split; [exact Ha1|].
    rewrite find_project_update_same by reflexivity.
    rewrite find_project_update_same by reflexivity.
    change (on_subtab_button_clicked ?st ?a)
      with (update_project (parent_tab st)
              (set_active_subtab (Some (subtab_ptr st))) a).
    cbn [parent_tab].
    rewrite find_project_update_same by reflexivity.
    rewrite find_project_update_same by reflexivity.
    rewrite Hp1. eexists. split; [reflexivity|]. cbn.
    rewrite Hs, Hsv. auto 10.
  - destruct (fold_create_subtab_spec t (sv :: l) w1 _ Hp1)
      as [A [B [C [p' [D [E [F G]]]]]]].
    set (w2 := fold_left _ (sv :: l) w1) in *.
    specialize (Hf1 (sv :: l)). fold w2 in Hf1. clearbody w2.
    set (w3 := on_app (update_project t (set_subtab_counter _)) w2).
    assert (Hp3 : find_project (app w3) t
                  = Some (set_subtab_counter
                            (to_int (g_list_length (sv :: l))) p')).
    { subst w3. cbn [app on_app set_app].
      rewrite find_project_update_same by reflexivity. rewrite D.
      reflexivity. }
    assert (Hs3 : spawned w3 = spawned w2) by reflexivity.
    assert (Ha3 : active_project (app w3) = Some t) by exact Hf1.
    clearbody w3. rewrite Hp3.
    set (w4 := match g_list_nth _ _ with Some _ => _ | None => w3 end).
    assert (Hp4 : exists p4, find_project (app w4) t = Some p4
                             /\ same_record p' p4
                             /\ subtabs p4 = subtabs p').
    { subst w4. destruct (g_list_nth _ _) as [active_sub|].
      - cbn [app on_app set_app]. unfold on_subtab_button_clicked.
        rewrite find_project_update by reflexivity. rewrite Hp3.
        destruct (Nat.eqb _ _); eexists;
          (split; [reflexivity|split; [|reflexivity]]);
          unfold same_record; cbn; auto 10.
      - eexists. split; [exact Hp3|]. split; [|reflexivity].
        unfold same_record. cbn. auto 10. }
    assert (Hs4 : spawned w4 = spawned w2).
    { subst w4. destruct (g_list_nth _ _); exact Hs3. }
    assert (Ha4 : active_project (app w4) = Some t).
    { subst w4. destruct (g_list_nth _ _); exact Ha3. }
    clearbody w4. destruct Hp4 as [p4 [K1 [K2 K3]]].
    cbn [app on_app set_app spawned].
    rewrite Hs4, C, Hs1, Hn1. split; [reflexivity|]. split; [exact Ha4|].
    rewrite find_project_update_same by reflexivity.
    rewrite find_project_update_same by reflexivity.
    rewrite K1. eexists. split; [reflexivity|].
    destruct E as [E1 [E2 [E3 [E4 [E5 [E6 [E7 E8]]]]]]].
    destruct K2 as [L1 [L2 [L3 [L4 [L5 [L6 [L7 L8]]]]]]].
    cbn in E1, E2, E3, E4, E5, E6, E7, E8. cbn. rewrite K3.
    rewrite Hn1 in F. cbn in F, G. rewrite Hs in F, G. cbn in F, G.
    repeat split; try congruence.
Qed.

Lemma restore_project_fields : forall ptr order proj_obj name path,
  let p := restore_project ptr order proj_obj name path in
  project_ptr p = ptr /\ project_name p = name /\ project_path p = path
  /\ initialized p = false /\ subtabs p = [] /\ insert_order p = order.
Proof.
  intros. subst p. unfold restore_project.
  destruct (json_object_has_member proj_obj "last_used");
    destruct (json_object_has_member proj_obj "subtabs"); cbn; auto 10.
Qed.

Lemma restore_projects_cons : forall ptr len node rest,
  restore_projects ptr len (node :: rest)
  = restore_projects ptr len [node]
    ++ restore_projects
         (ptr + List.length (restore_projects ptr len [node]))
         (len + List.length (restore_projects ptr len [node])) rest.
Proof.
  intros. cbn [restore_projects].
  destruct (json_array_get_object_element node) as [proj_obj|];
    [|cbn; rewrite !Nat.add_0_r; reflexivity].
  destruct (json_object_get_string_member proj_obj "name");
    [|cbn; rewrite !Nat.add_0_r; reflexivity].
  destruct (json_object_get_string_member proj_obj "path");
    [|cbn; rewrite !Nat.add_0_r; reflexivity].
  cbn. rewrite !Nat.add_1_r. reflexivity.
Qed.

Lemma restore_projects_uninitialized : forall arr ptr len,
  Forall (fun q => initialized q = false /\ subtabs q = []
                   /\ (ptr <= project_ptr q)%nat)
    (restore_projects ptr len arr).
Proof.
  induction arr as [|node rest IH]; intros ptr len; [constructor|].
  cbn [restore_projects].
  destruct (json_array_get_object_element node) as [proj_obj|]; [|apply IH].
  destruct (json_object_get_string_member proj_obj "name") as [name|];
    [|apply IH].
  destruct (json_object_get_string_member proj_obj "path") as [path|];
    [|apply IH].
  constructor.
  - destruct (restore_project_fields ptr (to_int (Z.of_nat len)) proj_obj
                name path) as [A [_ [_ [B [C _]]]]].
    rewrite A. auto.
  - eapply Forall_impl; [|apply IH]. intros q [A [B C]]. simpl in C.
    repeat split; auto. lia.
Qed.

Lemma restore_projects_below : forall arr ptr len,
  Forall (fun q => (project_ptr q
                    < ptr + List.length (restore_projects ptr len arr))%nat)
    (restore_projects ptr len arr).
Proof.
  induction arr as [|node rest IH]; intros ptr len; [constructor|].
  cbn [restore_projects].
  destruct (json_array_get_object_element node) as [proj_obj|]; [|apply IH].
  destruct (json_object_get_string_member proj_obj "name") as [name|];
    [|apply IH].
  destruct (json_object_get_string_member proj_obj "path") as [path|];
    [|apply IH].
  constructor.
  - destruct (restore_project_fields ptr (to_int (Z.of_nat len)) proj_obj
                name path) as [A _].
    rewrite A. cbn [List.length]. lia.
  - eapply Forall_impl; [|apply IH]. intros q Hq. simpl in Hq.
    cbn [List.length]. lia.
Qed.

(** What the loop over the ["projects"] array does. *)
Lemma load_projects_spec : forall arr w,
  ptrs_below w ->
  let w' := fold_left load_project arr w in
  projects (app w')
  = projects (app w)
    ++ restore_projects (next_ptr w) (List.length (projects (app w))) arr
  /\ spawned w' = spawned w
  /\ clock w' = clock w
  /\ sort_mode (app w') = sort_mode (app w)
  /\ selected_row (sidebar (app w')) = selected_row (sidebar (app w)).
Proof.
  induction arr as [|node rest IH]; intros w Hb; cbn zeta.
  - simpl. rewrite app_nil_r. auto.
  - cbn [fold_left].
    destruct (load_project_spec w node Hb)
      as [A [B [C [D [_ [_ [E F]]]]]]].
    assert (Hb1 : ptrs_below (load_project w node)).
    { unfold ptrs_below. rewrite A, B. apply Forall_app. split.
      - eapply Forall_impl; [|exact Hb]. intros q Hq. simpl in Hq. lia.
      - apply restore_projects_below. }
    destruct (IH _ Hb1) as [A' [C' [D' [E' F']]]].
    rewrite A', C', D', E', F', A, B, C, D, E, F.
    rewrite (restore_projects_cons (next_ptr w)
               (List.length (projects (app w))) node rest).
    rewrite length_app, <- app_assoc.
    repeat split; reflexivity.
Qed.

Lemma load_project_spawned : forall w node,
  spawned (load_project w node) = spawned w.
Proof.
  intros w node. unfold load_project.
  destruct (json_array_get_object_element node) as [proj_obj|]; [|reflexivity].
  destruct (json_object_get_string_member proj_obj "name"); [|reflexivity].
  destruct (json_object_get_string_member proj_obj "path"); [|reflexivity].
  destruct (json_object_has_member proj_obj "last_used");
    destruct (json_object_has_member proj_obj "subtabs"); reflexivity.
Qed.

Lemma load_projects_spawned : forall arr w,
  spawned (fold_left load_project arr w) = spawned w.
Proof.
  induction arr as [|node rest IH]; intros w; [reflexivity|].
  cbn [fold_left]. rewrite IH. apply load_project_spawned.
Qed.

Definition root_sort_mode (root_obj : JsonObjectT) : SortMode :=
  if json_object_has_member root_obj "sort_mode" then
    if g_strcmp0_eq (json_object_get_string_member root_obj "sort_mode") "alpha"
    then SORT_ALPHA
    else if g_strcmp0_eq (json_object_get_string_member root_obj "sort_mode")
              "mru"
         then SORT_MRU
         else SORT_NONE
  else SORT_NONE.

Definition root_active_index (root_obj : JsonObjectT) : Z :=
  to_guint
    (if json_object_has_member root_obj "active_project_index" then
       to_int (json_object_get_int_member root_obj "active_project_index")
     else 0).

(** [load_session] on a parsed session with a ["projects"] member: the loop
    builds the restored projects without spawning anything; then, if the
    saved active index designates one of them, that project is selected,
    which runs [on_project_selected] on it. *)
Lemma load_session_root_stages : forall f now root_obj,
  json_object_has_member root_obj "projects" = true ->
  exists w2,
    Inv w2
    /\ projects (app w2)
       = restore_projects 0 0
           (json_object_get_array_member root_obj "projects")
    /\ spawned w2 = [] /\ clock w2 = now
    /\ sort_mode (app w2) = root_sort_mode root_obj
    /\ ((g_list_nth (projects (app w2)) (root_active_index root_obj) = None
         /\ load_session_root (Some (JsonObject root_obj)) (fresh_world f now)
            = w2)
        \/ exists ap,
             g_list_nth (projects (app w2)) (root_active_index root_obj)
             = Some ap
             /\ load_session_root (Some (JsonObject root_obj))
                  (fresh_world f now)
                = on_project_selected (Some (project_ptr ap)) w2).
Proof.
  intros f now root_obj Hpr. unfold load_session_root. rewrite Hpr.
  set (w1 := if json_object_has_member root_obj "sort_mode" then _
             else fresh_world f now).
  assert (H1 : Inv w1).
  { subst w1. destruct (json_object_has_member root_obj "sort_mode");
      [apply Inv_app_only; [reflexivity|]|]; apply fresh_world_Inv. }
  assert (P1 : projects (app w1) = [] /\ next_ptr w1 = 0%nat
               /\ spawned w1 = [] /\ clock w1 = now
               /\ selected_row (sidebar (app w1)) = None
               /\ sort_mode (app w1) = root_sort_mode root_obj).
  { subst w1. unfold root_sort_mode.
    destruct (json_object_has_member root_obj "sort_mode"); cbn; auto 10. }
  clearbody w1. destruct P1 as [A1 [A2 [A3 [A4 [A5 A6]]]]].
  assert (Hb : ptrs_below w1) by (unfold ptrs_below; rewrite A1; constructor).
  destruct (load_projects_spec
              (json_object_get_array_member root_obj "projects") w1 Hb)
    as [B1 [B3 [B4 [B5 B6]]]].
  pose proof (fold_left_Inv _ load_project
                (json_object_get_array_member root_obj "projects") w1
                load_project_Inv H1) as H2.
  set (wl := fold_left load_project _ w1) in *. clearbody wl.
  rewrite A1, A2 in B1. cbn [List.length app] in B1. simpl in B1.
  rewrite A3 in B3. rewrite A4 in B4. rewrite A6 in B5. rewrite A5 in B6.
  fold (root_active_index root_obj).
  destruct (g_list_nth (projects (app wl)) (root_active_index root_obj))
    as [ap|] eqn:En.
  - unfold gtk_list_box_select_row.
    cbn [app on_app set_app sidebar set_active_project]. rewrite B6.
    eexists. split; [|split; [|split; [|split; [|split;
      [|right; exists ap; split; [|reflexivity]]]]]].
    + apply Inv_app_only; [reflexivity|].
      apply Inv_app_only; [reflexivity|]. exact H2.
    + exact B1.
    + exact B3.
    + exact B4.
    + exact B5.
    + exact En.
  - exists wl. split; [exact H2|]. split; [exact B1|]. split; [exact B3|].
    split; [exact B4|]. split; [exact B5|]. left.
    split; [exact En|reflexivity].
Qed.

(** ** C3: lazy initialization *)

Lemma g_list_nth_In : forall (A : Type) (l : list A) n x,
  g_list_nth l n = Some x -> In x l.
Proof.
  intros A l n x H. unfold g_list_nth in H.
  destruct (n <? 0); [discriminate|]. eapply nth_error_In, H.
Qed.

(** The session a run with one project leaves behind. *)
Definition one_tab_session : Files := files (run no_files 0 one_tab).

(** C3 (as stated) fails: loading a session with one saved project spawns a
    shell for it, because [load_session] selects the saved active project
    and the selection runs [on_project_selected]. *)
Lemma load_session_spawns_for_active_project :
  ~ (forall f now root,
        session_json f = Some (Parsed root) ->
        projects (app (load_session (fresh_world f now))) <> [] ->
        spawned (load_session (fresh_world f now)) = []).
Proof.
  intros H.
  specialize (H one_tab_session 5
                (Some (session_root (app (run no_files 0 one_tab))))
                eq_refl).
  assert (Hs : spawned (load_session (fresh_world one_tab_session 5))
               = [(1%nat, "/home/u/gmux")]).
  { vm_compute. reflexivity. }
  rewrite Hs in H. discriminate H.
  vm_compute. discriminate.
Qed.

(** The state [load_session] leaves behind when it has restored a parsed
    session: the loop that creates the projects has spawned nothing; every
    project other than the active one is uninitialized without live subtab;
    every shell spawned so far belongs to a subtab of the active project;
    and selecting an uninitialized project, or adding a tab to it, spawns
    the shells given. *)
Lemma load_session_state : forall f now root,
  session_json f = Some (Parsed root) ->
  let w := load_session (fresh_world f now) in
  (forall arr w0, spawned (fold_left load_project arr w0) = spawned w0)
  /\ (forall p, In p (projects (app w)) ->
                active_project (app w) <> Some (project_ptr p) ->
                initialized p = false /\ subtabs p = [])
  /\ (forall s dir, In (s, dir) (spawned w) ->
        exists p st,
          In p (projects (app w))
          /\ active_project (app w) = Some (project_ptr p)
          /\ initialized p = true
          /\ In st (subtabs p) /\ subtab_ptr st = s)
  /\ (forall p, In p (projects (app w)) -> initialized p = false ->
        spawned (on_project_selected (Some (project_ptr p)) w)
        = spawned w
          ++ combine (seq (next_ptr w)
                        (List.length (activation_descriptors p)))
               (map working_dir (activation_descriptors p))
        /\ spawned (on_add_subtab_clicked (project_ptr p) w)
           = spawned w ++ [(next_ptr w, project_path p)]).
Proof.
  intros f now root Hf w.
  assert (Hinv : Inv w) by (apply load_session_Inv, fresh_world_Inv).
  split; [intros; apply load_projects_spawned|].
  assert (Hlast : forall p, In p (projects (app w)) -> initialized p = false ->
            spawned (on_project_selected (Some (project_ptr p)) w)
            = spawned w
              ++ combine (seq (next_ptr w)
                            (List.length (activation_descriptors p)))
                   (map working_dir (activation_descriptors p))
            /\ spawned (on_add_subtab_clicked (project_ptr p) w)
               = spawned w ++ [(next_ptr w, project_path p)]).
  { intros p Hp Hi. destruct Hinv as [[_ [Hn _]] Hok].
    pose proof (find_project_unique _ _ Hn Hp) as Hfp.
    rewrite Forall_forall in Hok.
    assert (Hs : subtabs p = []).
    { destruct (Hok p Hp) as [[A _]|[_ B]]; [congruence|exact B]. }
    split.
    - apply (on_project_selected_activates _ _ _ Hfp Hi Hs).
    - unfold on_add_subtab_clicked. rewrite Hfp, Hi. reflexivity. }
  assert (Hempty : projects (app w) = [] -> spawned w = [] ->
            (forall p, In p (projects (app w)) ->
                       active_project (app w) <> Some (project_ptr p) ->
                       initialized p = false /\ subtabs p = [])
            /\ (forall s dir, In (s, dir) (spawned w) ->
                  exists p st,
                    In p (projects (app w))
                    /\ active_project (app w) = Some (project_ptr p)
                    /\ initialized p = true
                    /\ In st (subtabs p) /\ subtab_ptr st = s)).
  { intros E1 E2. rewrite E1, E2. split; [intros p []|intros s dir []]. }
  split; [|split; [|exact Hlast]]; revert Hempty; clear Hlast Hinv;
    subst w; unfold load_session; cbn [files fresh_world]; rewrite Hf;
    intros Hempty.
  all: destruct root as [[| | | | | |root_obj]|];
    try (apply Hempty; reflexivity).
  all: destruct (json_object_has_member root_obj "projects") eqn:Hpr;
    [|unfold load_session_root in *; rewrite Hpr in *;
      destruct (json_object_has_member root_obj "sort_mode");
      apply Hempty; reflexivity].
  all: clear Hempty;
    destruct (load_session_root_stages f now root_obj Hpr)
      as [w2 [H2 [P2 [S2 [_ [_ [[En Ew]|[ap [En Ew]]]]]]]]]; rewrite Ew.
  - intros p Hp _.
    pose proof (restore_projects_uninitialized
                  (json_object_get_array_member root_obj "projects") 0 0)
      as Hu.
    rewrite <- P2 in Hu. rewrite Forall_forall in Hu.
    destruct (Hu p Hp) as [A [B _]]. auto.
  - intros p Hp Ha.
    pose proof (restore_projects_uninitialized
                  (json_object_get_array_member root_obj "projects") 0 0)
      as Hu.
    rewrite <- P2 in Hu. rewrite Forall_forall in Hu.
    pose proof (g_list_nth_In _ _ _ _ En) as Hap.
    destruct H2 as [[L [Hn L3]] Hok].
    pose proof (find_project_unique _ _ Hn Hap) as Hfp.
    destruct (Hu ap Hap) as [Ai [As _]].
    destruct (on_project_selected_activates _ _ _ Hfp Ai As)
      as [_ [Hact _]].
    rewrite Hact in Ha.
    assert (Hne : project_ptr p <> project_ptr ap) by congruence.
    pose proof (on_project_selected_frame (project_ptr ap) w2
                  (conj (conj L (conj Hn L3)) Hok)) as Fr.
    pose proof (frame_In _ _ _ _ Fr Hp Hne) as Hp2.
    destruct (Hu p Hp2) as [A [B _]]. auto.
  - intros s dir Hin. rewrite S2 in Hin. destruct Hin.
  - intros s dir Hin.
    pose proof (restore_projects_uninitialized
                  (json_object_get_array_member root_obj "projects") 0 0)
      as Hu.
    rewrite <- P2 in Hu. rewrite Forall_forall in Hu.
    pose proof (g_list_nth_In _ _ _ _ En) as Hap.
    destruct H2 as [[L [Hn L3]] Hok].
    pose proof (find_project_unique _ _ Hn Hap) as Hfp.
    destruct (Hu ap Hap) as [Ai [As _]].
    destruct (on_project_selected_activates _ _ _ Hfp Ai As)
      as [Hsp [Hact [p' [F1 [_ [_ [F2 [_ [_ [F3 _]]]]]]]]]].
    rewrite Hsp, S2 in Hin. cbn [List.app] in Hin.
    apply in_combine_l in Hin. rewrite <- F3 in Hin.
    apply in_map_iff in Hin. destruct Hin as [st [G1 G2]].
    destruct (find_project_In _ _ _ F1) as [K1 K2].
    exists p', st. rewrite Hact, K2. auto 10.
Qed.

(** ** C1: session round-trip *)










Lemma g_list_index_range : forall l d,
  g_list_index l d = -1
  \/ 0 <= g_list_index l d < Z.of_nat (List.length l).
Proof.
  induction l as [|x l IH]; intros d; [left; reflexivity|].
  cbn [g_list_index List.length]. destruct (Nat.eqb x d); [right; lia|].
  destruct (Z.ltb_spec (g_list_index l d) 0); [left; reflexivity|].
  right. destruct (IH d); lia.
Qed.

Lemma saved_index_range : forall l active,
  l <> [] -> 0 <= saved_index l active < Z.of_nat (List.length l).
Proof.
  intros l active Hl. unfold saved_index.
  assert (0 < Z.of_nat (List.length l)).
  { destruct l; [congruence|cbn [List.length]; lia]. }
  destruct active as [ptr|]; [|lia].
  destruct (g_list_index_range l ptr) as [E|E].
  - rewrite E. cbn. lia.
  - destruct (Z.geb_spec (g_list_index l ptr) 0); lia.
Qed.


Lemma frame_ptrs : forall t a a',
  frame t a a' -> map project_ptr (projects a') = map project_ptr (projects a).
Proof.
  intros t a a'. unfold frame. generalize (projects a) (projects a').
  intros la lb H. induction H as [|x y la lb [Hxy _] _ IH]; [reflexivity|].
  cbn. rewrite Hxy, IH. reflexivity.
Qed.



Lemma fold_create_subtab_sort_mode : forall t l w,
  sort_mode
    (app (fold_left
            (fun w saved =>
               fst (create_subtab t (saved_name saved) (working_dir saved) w))
            l w))
  = sort_mode (app w).
Proof.
  intros t l. induction l as [|sv l IH]; intros w; [reflexivity|].
  cbn [fold_left]. rewrite IH. reflexivity.
Qed.

Lemma on_project_selected_sort_mode : forall row w,
  sort_mode (app (on_project_selected row w)) = sort_mode (app w).
Proof.
  intros [t|] w; [|reflexivity]. unfold on_project_selected.
  destruct (find_project (app w) t) as [p|]; [|reflexivity].
  destruct (_ >=? 0); [|reflexivity].
  destruct (initialized p); [reflexivity|]. cbn [negb].
  destruct (saved_subtabs p) as [|sv l]; [reflexivity|].
  cbn [app on_app set_app].
  match goal with
  | |- context [match find_project ?a t with Some _ => _ | None => _ end] =>
      destruct (find_project a t) as [p'|]
  end.
  - destruct (g_list_nth _ _);
      cbn [app on_app set_app]; unfold on_subtab_button_clicked;
      cbn [sort_mode update_project set_projects];
      rewrite fold_create_subtab_sort_mode; reflexivity.
  - cbn [app on_app set_app sort_mode update_project set_projects].
    rewrite fold_create_subtab_sort_mode. reflexivity.
Qed.







(** Two projects are added, the session is saved with them, and the
    program is started again at time 5. *)
Definition two_projects : list Event :=
  [EvFolderSelected (Some ("a", "/home/u/a"));
   EvFolderSelected (Some ("b", "/home/u/b"))].

Definition restarted : World := activate (files (run no_files 0 two_projects)) 5.

Definition restarted_first : Project :=
  mkProject 0 (mkTabsBox [] None false None []) [] None 0 "a" "/home/u/a"
    false 0 0 [mkSavedSubTab "Tab 1" "/home/u/a"] 0.



(** * Further properties of the code *)

(** ** Addresses and links at every observable point *)

(** X1. After start-up on any files and any sequence of events, distinct
    projects and distinct subtabs have distinct addresses; every subtab of a
    project points back to that project through [parent_tab], is the subtab
    found at its address, and has been allocated below the next free
    address; and the tab strip of a project holds the tab widgets of
    exactly its subtabs. *)
Theorem heap_integrity : forall f now events,
  let w := run f now events in
  NoDup (map project_ptr (projects (app w)))
  /\ NoDup (map subtab_ptr (all_subtabs (app w)))
  /\ forall p, In p (projects (app w)) ->
       find_project (app w) (project_ptr p) = Some p
       /\ Permutation (map subtab_ptr (subtabs p)) (children (tabs_box p))
       /\ forall st, In st (subtabs p) ->
            parent_tab st = project_ptr p
            /\ find_subtab (app w) (subtab_ptr st) = Some st
            /\ (subtab_ptr st < next_ptr w)%nat.
Proof.
  intros f now events w.
  destruct (run_Inv f now events) as [[H1 [H2 H3]] _]. fold w in H1, H2, H3.
  split; [exact H2|]. split; [exact H3|].
  intros p Hp. rewrite Forall_forall in H1.
  destruct (H1 p Hp) as [L1 [L2 [L3 _]]].
  split; [apply find_project_unique; assumption|]. split; [exact L1|].
  intros st Hst. rewrite Forall_forall in L2, L3. repeat split.
  - apply L2. apply in_map, Hst.
  - apply find_subtab_unique; [exact H3|]. apply in_flat_map. eauto.
  - apply L3. apply in_map, Hst.
Qed.

(** ** The sort button *)

(** [json_node_get_object]: the object a node holds (NULL, here the empty
    object, for a node of another kind). *)
Definition json_node_get_object (n : JsonNode) : JsonObjectT :=
  match n with
  | JsonObject o => o
  | _ => []
  end.



(** ** The indices [save_session] writes *)

Lemma g_list_index_find : forall (l : list Project) t,
  0 <= g_list_index (map project_ptr l) t ->
  nth_error l (Z.to_nat (g_list_index (map project_ptr l) t))
  = find (fun p => Nat.eqb (project_ptr p) t) l.
Proof.
  induction l as [|p l IH]; intros t H; cbn [map g_list_index find] in *;
    [lia|].
  destruct (Nat.eqb (project_ptr p) t); [reflexivity|].
  destruct (Z.ltb_spec (g_list_index (map project_ptr l) t) 0); [lia|].
  rewrite Z2Nat.inj_add by lia. rewrite Nat.add_comm. cbn. apply IH. lia.
Qed.

Lemma g_list_index_absent : forall (l : list Project) t,
  find (fun p => Nat.eqb (project_ptr p) t) l = None ->
  g_list_index (map project_ptr l) t = -1.
Proof.
  induction l as [|p l IH]; intros t H; cbn [map g_list_index find] in *;
    [reflexivity|].
  destruct (Nat.eqb (project_ptr p) t); [discriminate|].
  rewrite (IH t H). reflexivity.
Qed.

(** X3. The ["active_project_index"] that [save_session] writes is never
    negative and, when there is a project, is a position of the
    collection; it is the position of the active project when
    [active_project] points into the collection, and 0 when it is NULL or
    points to no project of the collection (as it does while
    [on_remove_project_clicked] saves). *)
Theorem saved_active_project_index : forall a,
  let idx :=
    json_object_get_int_member (json_node_get_object (session_root a))
      "active_project_index" in
  0 <= idx
  /\ (projects a <> [] -> idx < Z.of_nat (List.length (projects a)))
  /\ (forall t p, active_project a = Some t -> find_project a t = Some p ->
        g_list_nth (projects a) idx = Some p)
  /\ (active_project a = None -> idx = 0)
  /\ (forall t, active_project a = Some t -> find_project a t = None ->
        idx = 0).
Proof.
  intros a idx.
  assert (E : idx = saved_index (map project_ptr (projects a))
                      (active_project a)) by reflexivity.
  clearbody idx. subst idx. split; [|split; [|split; [|split]]].
  - unfold saved_index. destruct (active_project a) as [t|]; [|lia].
    destruct (Z.geb_spec (g_list_index (map project_ptr (projects a)) t) 0);
      lia.
  - intros Hne.
    assert (Hm : map project_ptr (projects a) <> []).
    { destruct (projects a); [congruence|discriminate]. }
    pose proof (saved_index_range _ (active_project a) Hm) as Hr.
    rewrite length_map in Hr. lia.
  - intros t p Ha Hf. rewrite Ha. unfold saved_index.
    destruct (g_list_index_range (map project_ptr (projects a)) t) as [Hi|Hi].
    + assert (Hx : (g_list_index (map project_ptr (projects a)) t >=? 0)
                   = true).
      { apply find_project_index. congruence. }
      rewrite Hi in Hx. discriminate.
    + destruct (Z.geb_spec (g_list_index (map project_ptr (projects a)) t) 0);
        [|lia].
      unfold g_list_nth.
      destruct (Z.ltb_spec (g_list_index (map project_ptr (projects a)) t) 0);
        [lia|].
      rewrite g_list_index_find by lia. exact Hf.
  - intros Ha. rewrite Ha. reflexivity.
  - intros t Ha Hf. rewrite Ha. unfold saved_index.
    unfold find_project in Hf. rewrite (g_list_index_absent _ _ Hf).
    reflexivity.
Qed.

Definition stale_active : AppState :=
  mkAppState (mkListBox [] None None)
    [mkProject 4 (mkTabsBox [] None false None []) [] None 0 "a" "/a" false
       0 0 [] 0]
    (Some 7%nat) SORT_NONE.

Lemma saved_active_project_index_witness :
  projects stale_active <> []
  /\ json_object_get_int_member (json_node_get_object (session_root stale_active))
       "active_project_index" < 1.
Proof.
  split; [discriminate|].
  apply (saved_active_project_index stale_active). discriminate.
Defined.

(** ** The sidebar, the selection and the active project *)

(** The sidebar shows the projects of the collection; the selected row is
    one of its rows; [active_project] points into the collection, and is
    NULL only when the collection is empty. *)
Definition side_ok (a : AppState) : Prop :=
  Permutation (rows (sidebar a)) (map project_ptr (projects a))
  /\ (forall r, selected_row (sidebar a) = Some r -> In r (rows (sidebar a)))
  /\ match active_project a with
     | None => projects a = []
     | Some t => In t (map project_ptr (projects a))
     end.

(** Two states with the same projects (by address), the same sidebar and
    the same active project. *)
Definition same_outline (a a' : AppState) : Prop :=
  map project_ptr (projects a') = map project_ptr (projects a)
  /\ sidebar a' = sidebar a
  /\ active_project a' = active_project a.

(** The same, except that a project of the collection may have become the
    active one. *)
Definition selects (a a' : AppState) : Prop :=
  map project_ptr (projects a') = map project_ptr (projects a)
  /\ sidebar a' = sidebar a
  /\ (active_project a' = active_project a
      \/ exists t, active_project a' = Some t
                   /\ In t (map project_ptr (projects a))).

Lemma same_outline_refl : forall a, same_outline a a.
Proof. intros a. repeat split. Qed.

Lemma same_outline_trans : forall a b c,
  same_outline a b -> same_outline b c -> same_outline a c.
Proof.
  intros a b c [A1 [A2 A3]] [B1 [B2 B3]]. repeat split; congruence.
Qed.

Lemma same_outline_update : forall t f a,
  (forall q, project_ptr (f q) = project_ptr q) ->
  same_outline a (update_project t f a).
Proof.
  intros t f a H. repeat split. rewrite projects_update.
  apply map_upd_ptrs, H.
Qed.

Lemma same_outline_button : forall st a,
  same_outline a (on_subtab_button_clicked st a).
Proof. intros. apply same_outline_update. reflexivity. Qed.

Lemma same_outline_create_subtab : forall t name dir w,
  same_outline (app w) (app (fst (create_subtab t name dir w))).
Proof.
  intros. rewrite create_subtab_app. apply same_outline_update. reflexivity.
Qed.

Lemma same_outline_fold_create_subtab : forall t l w,
  same_outline (app w)
    (app (fold_left
            (fun w saved =>
               fst (create_subtab t (saved_name saved) (working_dir saved) w))
            l w)).
Proof.
  intros t l. induction l as [|sv l IH]; intros w; [apply same_outline_refl|].
  cbn [fold_left]. eapply same_outline_trans; [|apply IH].
  apply same_outline_create_subtab.
Qed.

Lemma projects_nil_ptrs : forall a a',
  map project_ptr (projects a') = map project_ptr (projects a) ->
  projects a = [] -> projects a' = [].
Proof.
  intros a a' H E. rewrite E in H. destruct (projects a'); [reflexivity|].
  discriminate.
Qed.

Lemma side_ok_selects : forall a a', side_ok a -> selects a a' -> side_ok a'.
Proof.
  intros a a' [S1 [S2 S3]] [E1 [E2 E3]]. unfold side_ok.
  rewrite E1, E2. split; [exact S1|]. split; [exact S2|].
  destruct E3 as [E3|[t [E3 Ht]]]; rewrite E3.
  - destruct (active_project a); [exact S3|].
    eapply projects_nil_ptrs; eassumption.
  - exact Ht.
Qed.

Lemma same_outline_selects : forall a a', same_outline a a' -> selects a a'.
Proof. intros a a' [E1 [E2 E3]]. repeat split; auto. Qed.

Lemma side_ok_same : forall a a', side_ok a -> same_outline a a' -> side_ok a'.
Proof.
  intros a a' H E. eapply side_ok_selects; [exact H|].
  apply same_outline_selects, E.
Qed.

(** Peels the writes off the state on the right, one after the other. *)
Ltac outline :=
  repeat first
    [ apply same_outline_refl
    | match goal with
      | |- same_outline _ (update_project _ _ _) =>
          eapply same_outline_trans;
          [|apply same_outline_update;
            first [reflexivity | intros; apply unlink_subtab_ptr]]
      | |- same_outline _ (on_subtab_button_clicked _ _) =>
          eapply same_outline_trans; [|apply same_outline_button]
      | |- same_outline _ (rebuild_subtabs_list _ _) =>
          unfold rebuild_subtabs_list
      | |- same_outline _ (app (fst (create_subtab _ _ _ _))) =>
          eapply same_outline_trans; [|apply same_outline_create_subtab]
      | |- same_outline _ (app (fold_left _ _ _)) =>
          eapply same_outline_trans; [|apply same_outline_fold_create_subtab]
      | |- same_outline _ (app (on_app _ _)) => cbn [app on_app set_app]
      | |- same_outline _ (app (save_session _)) => cbn [app save_session]
      | |- same_outline _ (app (mkWorld _ _ _ _ _ _ _)) => cbn [app]
      | |- same_outline _ (app (match ?x with _ => _ end)) => destruct x
      | |- same_outline _ (app (if ?x then _ else _)) => destruct x
      | |- same_outline _ (match ?x with _ => _ end) => destruct x
      | |- same_outline _ (if ?x then _ else _) => destruct x
      end ].

Lemma on_project_selected_selects : forall row w,
  selects (app w) (app (on_project_selected row w)).
Proof.
  intros [t|] w; [|apply same_outline_selects, same_outline_refl].
  destruct (find_project (app w) t) as [p|] eqn:Hf.
  2:{ unfold on_project_selected. rewrite Hf.
      apply same_outline_selects, same_outline_refl. }
  destruct (g_list_index (map project_ptr (projects (app w))) t >=? 0) eqn:Hg.
  2:{ unfold on_project_selected. rewrite Hf, Hg.
      apply same_outline_selects, same_outline_refl. }
  assert (E : same_outline (set_active_project (Some t) (app w))
                (app (on_project_selected (Some t) w))).
  { unfold on_project_selected. rewrite Hf, Hg. cbv zeta. outline. }
  destruct E as [E1 [E2 E3]].
  split; [exact E1|]. split; [exact E2|]. right. exists t.
  split; [exact E3|].
  apply find_project_In in Hf. destruct Hf as [Hi Hp]. rewrite <- Hp.
  apply in_map, Hi.
Qed.

Lemma gtk_list_box_select_row_side : forall row w,
  side_ok (app w) -> In row (rows (sidebar (app w))) ->
  side_ok (app (gtk_list_box_select_row row w)).
Proof.
  intros row w H Hr. unfold gtk_list_box_select_row.
  assert (H1 : side_ok
                 (app (on_app
                         (set_sidebar
                            (mkListBox (rows (sidebar (app w))) (Some row)
                               (sort_func (sidebar (app w))))) w))).
  { destruct H as [S1 [S2 S3]]. repeat split; try assumption.
    cbn. intros r E. inversion E; subst. exact Hr. }
  destruct (selected_row (sidebar (app w))) as [r|].
  - destruct (Nat.eqb r row); [exact H|].
    eapply side_ok_selects; [exact H1|apply on_project_selected_selects].
  - eapply side_ok_selects; [exact H1|apply on_project_selected_selects].
Qed.

Lemma gtk_list_box_append_perm : forall deref row box,
  Permutation (rows box ++ [row]) (rows (gtk_list_box_append deref row box)).
Proof.
  intros deref row box. unfold gtk_list_box_append. cbn.
  destruct (sort_func box) as [f|]; [|reflexivity].
  rewrite <- g_sequence_insert_sorted_perm. symmetry.
  apply Permutation_cons_append.
Qed.

Lemma create_project_side : forall name path init w,
  side_ok (app w) -> side_ok (app (fst (create_project name path init w))).
Proof.
  intros name path init w [S1 [S2 S3]]. unfold create_project.
  set (ptr := next_ptr w).
  set (project := mkProject ptr _ _ _ _ _ _ _ _ _ _ _).
  set (box := gtk_list_box_append _ ptr (sidebar (app w))).
  set (a3 := set_active_project (Some ptr) _).
  assert (Hb : Permutation (rows (sidebar (app w)) ++ [ptr]) (rows box))
    by apply gtk_list_box_append_perm.
  assert (H3 : side_ok a3).
  { subst a3. unfold side_ok.
    cbn [sidebar projects active_project set_active_project set_projects
           set_sidebar].
    rewrite map_app. cbn [map].
    change (project_ptr (set_insert_order _ project)) with ptr.
    repeat split.
    - rewrite <- Hb. apply Permutation_app_tail, S1.
    - intros r E. eapply Permutation_in; [exact Hb|].
      apply in_or_app. left. apply S2. exact E.
    - apply in_or_app. right. left. reflexivity. }
  assert (Hp : In ptr (rows (sidebar a3))).
  { subst a3.
    cbn [sidebar set_active_project set_projects set_sidebar].
    eapply Permutation_in; [exact Hb|].
    apply in_or_app. right. left. reflexivity. }
  clearbody a3. destruct init; cbn [fst]; [|exact H3].
  apply gtk_list_box_select_row_side.
  - eapply side_ok_same; [exact H3|]. outline.
  - match goal with
    | |- In ptr (rows (sidebar (app ?w))) =>
        assert (E : same_outline a3 (app w)) by outline
    end.
    destruct E as [_ [E _]]. rewrite E. exact Hp.
Qed.

Lemma on_folder_selected_side : forall folder w,
  side_ok (app w) -> side_ok (app (on_folder_selected folder w)).
Proof.
  intros [[name path]|] w H; [|exact H]. apply create_project_side, H.
Qed.

Lemma remove_project_ptrs : forall l t,
  map project_ptr (remove_project l t)
  = g_list_remove (map project_ptr l) t.
Proof.
  induction l as [|p l IH]; intros t; [reflexivity|].
  cbn. destruct (Nat.eqb (project_ptr p) t); [reflexivity|].
  cbn. rewrite IH. reflexivity.
Qed.

Lemma on_remove_project_clicked_side : forall w,
  side_ok (app w) -> side_ok (app (on_remove_project_clicked w)).
Proof.
  intros w H. unfold on_remove_project_clicked.
  destruct (active_project (app w)) as [ptr|]; [|exact H].
  destruct (find_project (app w) ptr) as [project|]; [|exact H].
  destruct H as [S1 [S2 S3]].
  set (w1 := gtk_list_box_remove ptr w).
  assert (E1 : projects (app w1) = projects (app w)
               /\ rows (sidebar (app w1))
                  = g_list_remove (rows (sidebar (app w))) ptr
               /\ forall r, selected_row (sidebar (app w1)) = Some r ->
                            selected_row (sidebar (app w)) = Some r
                            /\ r <> ptr).
  { subst w1. unfold gtk_list_box_remove.
    destruct (selected_row (sidebar (app w))) as [r|] eqn:Es.
    - destruct (Nat.eqb_spec r ptr); cbn.
      + repeat split; congruence.
      + repeat split; congruence.
    - cbn. repeat split; congruence. }
  destruct E1 as [E1 [E2 E3]]. clearbody w1.
  cbn [app save_session].
  set (a2 := set_projects (remove_project (projects (app w1)) ptr) (app w1)).
  assert (P2 : Permutation (rows (sidebar a2)) (map project_ptr (projects a2))).
  { subst a2. cbn. rewrite E1, E2, remove_project_ptrs.
    apply g_list_remove_permutation, S1. }
  assert (Q2 : forall r, selected_row (sidebar a2) = Some r ->
                         In r (rows (sidebar a2))).
  { subst a2. cbn. intros r Hr. destruct (E3 r Hr) as [A B].
    rewrite E2. apply g_list_remove_other; [apply S2, A|exact B]. }
  clearbody a2. destruct (projects a2) as [|first rest] eqn:Ep.
  - cbn. unfold side_ok. cbn. rewrite Ep. repeat split; auto.
  - apply gtk_list_box_select_row_side.
    + unfold side_ok. cbn. rewrite Ep.
      repeat split; auto. left. reflexivity.
    + cbn. eapply Permutation_in; [symmetry; exact P2|].
      left. reflexivity.
Qed.

Lemma close_subtab_outline : forall subtab w,
  same_outline (app w) (app (close_subtab subtab w)).
Proof.
  intros subtab w. unfold close_subtab.
  destruct (close_subtab_guard subtab w) as [[st project]|];
    [|apply same_outline_refl].
  unfold close_subtab_rest, close_subtab_mark. outline.
Qed.

Lemma on_terminal_child_exited_outline : forall s w,
  same_outline (app w) (app (on_terminal_child_exited s w)).
Proof.
  intros s w. unfold on_terminal_child_exited.
  destruct (find_subtab (app w) s) as [st|]; [|apply same_outline_refl].
  destruct (closing st); [apply same_outline_refl|].
  apply close_subtab_outline.
Qed.

Lemma on_terminal_title_changed_outline : forall s title w,
  same_outline (app w) (app (on_terminal_title_changed s title w)).
Proof. intros s title w. unfold on_terminal_title_changed. outline. Qed.

Lemma on_add_subtab_clicked_outline : forall t w,
  same_outline (app w) (app (on_add_subtab_clicked t w)).
Proof. intros t w. unfold on_add_subtab_clicked. cbv zeta. outline. Qed.

Lemma on_tab_drag_begin_outline : forall t x picked w,
  same_outline (app w) (app (on_tab_drag_begin t x picked w)).
Proof. intros. unfold on_tab_drag_begin. outline. Qed.

Lemma on_tab_drag_update_outline : forall t x bounds w,
  same_outline (app w) (app (on_tab_drag_update t x bounds w)).
Proof. intros. unfold on_tab_drag_update. cbv zeta. outline. Qed.

Lemma on_tab_drag_end_outline : forall t w,
  same_outline (app w) (app (on_tab_drag_end t w)).
Proof. intros. unfold on_tab_drag_end. cbv zeta. outline. Qed.

Lemma apply_sort_side : forall a, side_ok a -> side_ok (apply_sort a).
Proof.
  intros a [S1 [S2 S3]].
  assert (Hp : Permutation (rows (sidebar a)) (rows (sidebar (apply_sort a)))).
  { rewrite apply_sort_rows.
    etransitivity; [apply g_sequence_sort_perm|apply g_sequence_sort_perm]. }
  assert (Hm : projects (apply_sort a) = projects a
               /\ active_project (apply_sort a) = active_project a
               /\ selected_row (sidebar (apply_sort a))
                  = selected_row (sidebar a)).
  { unfold apply_sort, gtk_list_box_set_sort_func,
      gtk_list_box_invalidate_sort. cbn. auto. }
  destruct Hm as [M1 [M2 M3]]. unfold side_ok. rewrite M1, M2, M3.
  repeat split.
  - rewrite <- Hp. exact S1.
  - intros r E. eapply Permutation_in; [exact Hp|apply S2, E].
  - exact S3.
Qed.

Lemma step_side : forall w e, side_ok (app w) -> side_ok (app (step w e)).
Proof.
  intros w e H. destruct e; cbn [step].
  - apply on_folder_selected_side, H.
  - apply on_remove_project_clicked_side, H.
  - destruct (mem row (rows (sidebar (app w)))) eqn:E; [|exact H].
    apply gtk_list_box_select_row_side; [exact H|]. apply mem_In, E.
  - eapply side_ok_selects; [exact H|apply on_project_selected_selects].
  - eapply side_ok_same; [exact H|apply on_add_subtab_clicked_outline].
  - eapply side_ok_same; [exact H|apply on_add_subtab_clicked_outline].
  - eapply side_ok_same; [exact H|]. outline.
  - eapply side_ok_same; [exact H|apply close_subtab_outline].
  - eapply side_ok_same; [exact H|apply on_terminal_child_exited_outline].
  - eapply side_ok_same; [exact H|apply on_terminal_title_changed_outline].
  - unfold on_sort_clicked. cbn [app save_session set_app].
    apply apply_sort_side. exact H.
  - eapply side_ok_same; [exact H|apply on_tab_drag_begin_outline].
  - eapply side_ok_same; [exact H|apply on_tab_drag_update_outline].
  - eapply side_ok_same; [exact H|apply on_tab_drag_end_outline].
  - exact H.
  - eapply side_ok_same; [exact H|]. outline.
Qed.

Lemma load_project_side : forall w node,
  side_ok (app w) -> side_ok (app (load_project w node)).
Proof.
  intros w node H. unfold load_project.
  destruct (json_array_get_object_element node) as [proj_obj|]; [|exact H].
  destruct (json_object_get_string_member proj_obj "name") as [name|];
    [|exact H].
  destruct (json_object_get_string_member proj_obj "path") as [path|];
    [|exact H].
  pose proof (create_project_side name path false w H) as Hc.
  destruct (create_project name path false w) as [w1 project].
  cbn [fst] in Hc. eapply side_ok_same; [exact Hc|]. cbv zeta. outline.
Qed.

Lemma load_legacy_line_side : forall w buffer,
  side_ok (app w) -> side_ok (app (load_legacy_line w buffer)).
Proof.
  intros w buffer H. unfold load_legacy_line.
  destruct (strip_newline (before_nul buffer)) as [|c line]; [exact H|].
  destruct (match split_at_pipe (String c line) with
            | Some (String c0 before, after) => _
            | _ => _
            end) as [last path].
  pose proof (create_project_side (g_path_get_basename path) path false w H)
    as Hc.
  destruct (create_project (g_path_get_basename path) path false w)
    as [w1 project].
  cbn [fst] in Hc. eapply side_ok_same; [exact Hc|]. outline.
Qed.

Lemma fold_left_side : forall (A : Type) (f : World -> A -> World) l w,
  (forall w x, side_ok (app w) -> side_ok (app (f w x))) ->
  side_ok (app w) -> side_ok (app (fold_left f l w)).
Proof.
  intros A f l. induction l as [|x l IH]; intros w Hf H; [exact H|].
  cbn [fold_left]. apply IH; [exact Hf|]. apply Hf, H.
Qed.

Lemma side_ok_sort_mode : forall m a, side_ok a -> side_ok (set_sort_mode m a).
Proof. intros m a H. exact H. Qed.

Lemma load_session_side : forall w,
  side_ok (app w) -> side_ok (app (load_session w)).
Proof.
  intros w H. unfold load_session.
  destruct (session_json (files w)) as [[|root]|].
  - exact H.
  - unfold load_session_root.
    destruct root as [[| | | | | |root_obj]|]; try exact H.
    set (w1 := if json_object_has_member root_obj "sort_mode" then _ else w).
    assert (H1 : side_ok (app w1)).
    { subst w1. destruct (json_object_has_member root_obj "sort_mode");
        exact H. }
    clearbody w1.
    destruct (json_object_has_member root_obj "projects"); [|exact H1].
    set (w2 := fold_left load_project _ w1).
    assert (H2 : side_ok (app w2)).
    { subst w2. apply fold_left_side; [apply load_project_side|exact H1]. }
    clearbody w2.
    destruct (g_list_nth (projects (app w2)) _) as [ap|] eqn:En; [|exact H2].
    apply gtk_list_box_select_row_side.
    + destruct H2 as [S1 [S2 S3]]. repeat split; try assumption.
      cbn. apply in_map. eapply g_list_nth_In, En.
    + cbn. destruct H2 as [S1 _].
      eapply Permutation_in; [symmetry; exact S1|].
      apply in_map. eapply g_list_nth_In, En.
  - unfold load_legacy.
    destruct (projects_conf (files w)) as [buffers|]; [|exact H].
    cbn [app save_session].
    set (w1 := fold_left load_legacy_line buffers w).
    assert (H1 : side_ok (app w1)).
    { subst w1. apply fold_left_side; [apply load_legacy_line_side|exact H]. }
    clearbody w1.
    destruct (sort_conf (files w1)) as [[buffer|]|]; try exact H1.
    destruct (streq _ "alpha"); [exact H1|].
    destruct (streq _ "mru"); exact H1.
Qed.

Lemma run_side : forall f now events, side_ok (app (run f now events)).
Proof.
  intros f now events. unfold run.
  apply fold_left_side; [intros; apply step_side; assumption|].
  unfold activate. cbn [app on_app set_app]. apply apply_sort_side.
  apply load_session_side. unfold side_ok. cbn. repeat split.
  - constructor.
  - discriminate.
Qed.

Lemma displayed_projects : forall a,
  NoDup (map project_ptr (projects a)) ->
  flat_map (fun row => match find_project a row with
                       | Some p => [p]
                       | None => []
                       end) (map project_ptr (projects a))
  = projects a.
Proof.
  intros a Hn.
  assert (H : forall l, (forall p, In p l -> In p (projects a)) ->
              flat_map (fun row => match find_project a row with
                                   | Some p => [p]
                                   | None => []
                                   end) (map project_ptr l) = l).
  { induction l as [|p l IH]; intros Hl; [reflexivity|].
    cbn [map flat_map].
    rewrite (find_project_unique a p Hn) by (apply Hl; left; reflexivity).
    cbn. f_equal. apply IH. intros q Hq. apply Hl. right. exact Hq. }
  apply H. auto.
Qed.

(** X4. After start-up on any files and any sequence of events, the sidebar
    has exactly one row per project of the collection -- so the sidebar
    shows every project once, in some order --, the selected row (if any)
    is one of these rows, and [active_project] points to a project of the
    collection, being NULL only when there is no project. *)
Theorem sidebar_shows_projects : forall f now events,
  let a := app (run f now events) in
  Permutation (rows (sidebar a)) (map project_ptr (projects a))
  /\ NoDup (rows (sidebar a))
  /\ rows_ok a
  /\ Permutation (displayed a) (projects a)
  /\ (forall r, selected_row (sidebar a) = Some r ->
        exists p, find_project a r = Some p /\ In r (rows (sidebar a)))
  /\ match active_project a with
     | Some t => exists p, find_project a t = Some p
     | None => projects a = []
     end.
Proof.
  intros f now events a.
  destruct (run_side f now events) as [S1 [S2 S3]]. fold a in S1, S2, S3.
  destruct (run_Inv f now events) as [[_ [Hn _]] _]. fold a in Hn.
  assert (Hfind : forall t, In t (map project_ptr (projects a)) ->
                            exists p, find_project a t = Some p).
  { intros t Ht. apply in_map_iff in Ht. destruct Ht as [p [E Hp]].
    exists p. rewrite <- E. apply find_project_unique; assumption. }
  split; [exact S1|]. split.
  { eapply Permutation_NoDup; [symmetry; exact S1|exact Hn]. }
  split.
  { unfold rows_ok. apply Forall_forall. intros r Hr.
    destruct (Hfind r) as [p Hp];
      [eapply Permutation_in; [exact S1|exact Hr]|].
    congruence. }
  split.
  { unfold displayed.
    rewrite (Permutation_flat_map_list _ _ _ _ _ S1).
    rewrite displayed_projects by exact Hn. reflexivity. }
  split.
  { intros r Hr. pose proof (S2 r Hr) as Hi.
    destruct (Hfind r) as [p Hp];
      [eapply Permutation_in; [exact S1|exact Hi]|].
    exists p. auto. }
  destruct (active_project a) as [t|]; [apply Hfind, S3|exact S3].
Qed.

(** ** The active subtab *)

(** [active_subtab] points to one of the project's subtabs, and is NULL
    only when the project has none. *)
Definition active_ok (p : Project) : Prop :=
  match active_subtab p with
  | None => subtabs p = []
  | Some s => In s (map subtab_ptr (subtabs p))
  end.

Definition AOK (a : AppState) : Prop := Forall active_ok (projects a).

(** The heap of a world is in order. *)
Definition HW (w : World) : Prop := heap_ok (next_ptr w) (app w).

(** Writes that leave the subtabs (by address) and the active one alone. *)
Definition keeps_tabs (f : Project -> Project) : Prop :=
  forall q, map subtab_ptr (subtabs (f q)) = map subtab_ptr (subtabs q)
            /\ active_subtab (f q) = active_subtab q.

Lemma active_ok_ext : forall q q',
  Permutation (map subtab_ptr (subtabs q)) (map subtab_ptr (subtabs q')) ->
  active_subtab q' = active_subtab q ->
  active_ok q -> active_ok q'.
Proof.
  intros q q' Hp Ha H. unfold active_ok in *. rewrite Ha.
  destruct (active_subtab q) as [s|].
  - eapply Permutation_in; eassumption.
  - rewrite H in Hp. cbn in Hp. apply Permutation_nil in Hp.
    eapply map_eq_nil, Hp.
Qed.

Lemma AOK_update_keeps : forall t f a,
  keeps_tabs f -> AOK a -> AOK (update_project t f a).
Proof.
  intros t f a Hk H. unfold AOK in *.
  eapply Forall_update; [exact H| |auto].
  intros q Hq _. destruct (Hk q) as [A B].
  apply (active_ok_ext q (f q)); [rewrite A; reflexivity|exact B|exact Hq].
Qed.

Lemma keeps_tabs_update_subtab : forall s g,
  (forall st, subtab_ptr (g st) = subtab_ptr st) ->
  keeps_tabs (update_subtab s g).
Proof.
  intros s g H q. split; [|reflexivity]. cbn. rewrite map_map.
  apply map_ext. intros st. destruct (Nat.eqb _ _); [apply H|reflexivity].
Qed.

Lemma AOK_create_subtab : forall t name dir w,
  AOK (app w) -> AOK (app (fst (create_subtab t name dir w))).
Proof.
  intros t name dir w H. rewrite create_subtab_app. unfold AOK in *.
  eapply Forall_update; [exact H| |auto].
  intros q _ _. unfold active_ok. cbn. rewrite map_app.
  apply in_or_app. right. left. reflexivity.
Qed.

Lemma AOK_fold_create_subtab : forall t l w,
  AOK (app w) ->
  AOK (app (fold_left
              (fun w saved =>
                 fst (create_subtab t (saved_name saved) (working_dir saved) w))
              l w)).
Proof.
  intros t l. induction l as [|sv l IH]; intros w H; [exact H|].
  cbn [fold_left]. apply IH, AOK_create_subtab, H.
Qed.

Lemma AOK_button : forall next st a p,
  heap_ok next a ->
  find_project a (parent_tab st) = Some p ->
  In (subtab_ptr st) (map subtab_ptr (subtabs p)) ->
  AOK a -> AOK (on_subtab_button_clicked st a).
Proof.
  intros next st a p [_ [Hn _]] Hf Hin H. unfold on_subtab_button_clicked.
  unfold AOK in *. rewrite projects_update. apply Forall_map.
  rewrite Forall_forall in *. intros q Hq. unfold upd.
  destruct (Nat.eqb_spec (project_ptr q) (parent_tab st)) as [E|E];
    [|apply H, Hq].
  pose proof (find_project_unique _ _ Hn Hq) as Hu. rewrite E, Hf in Hu.
  inversion Hu; subst q. unfold active_ok. cbn. exact Hin.
Qed.

Lemma HW_update : forall t f w,
  keeps_links f -> HW w -> HW (on_app (update_project t f) w).
Proof. intros t f w Hk H. apply heap_ok_keeps; assumption. Qed.

Lemma HW_create_subtab : forall t name dir w,
  HW w -> HW (fst (create_subtab t name dir w)).
Proof. intros. apply create_subtab_heap_ok. assumption. Qed.

Lemma HW_fold_create_subtab : forall t l w,
  HW w ->
  HW (fold_left
        (fun w saved =>
           fst (create_subtab t (saved_name saved) (working_dir saved) w))
        l w).
Proof.
  intros t l. induction l as [|sv l IH]; intros w H; [exact H|].
  cbn [fold_left]. apply IH, HW_create_subtab, H.
Qed.

(** Peels the writes that keep the subtabs off the state. *)
Ltac aok :=
  repeat first
    [ assumption
    | match goal with
      | |- AOK (update_project _ (update_subtab _ _) _) =>
          apply AOK_update_keeps;
          [apply keeps_tabs_update_subtab; reflexivity|]
      | |- AOK (update_project _ _ _) =>
          apply AOK_update_keeps; [intros ?q; split; reflexivity|]
      | |- AOK (app (fst (create_subtab _ _ _ _))) =>
          apply AOK_create_subtab
      | |- AOK (app (fold_left _ _ _)) => apply AOK_fold_create_subtab
      | |- AOK (app (on_app _ _)) => cbn [app on_app set_app]
      | |- AOK (app (save_session _)) => cbn [app save_session]
      | |- AOK (set_active_project _ _) =>
          unfold AOK; cbn [projects set_active_project]; fold AOK
      | |- AOK (set_sidebar _ _) =>
          unfold AOK; cbn [projects set_sidebar]; fold AOK
      | |- AOK (set_sort_mode _ _) =>
          unfold AOK; cbn [projects set_sort_mode]; fold AOK
      end ].

Ltac hw :=
  repeat first
    [ assumption
    | match goal with
      | |- HW (on_app (update_project _ (update_subtab _ _)) _) =>
          apply HW_update; [apply keeps_links_update_subtab; auto|]
      | |- HW (on_app (update_project _ _) _) =>
          apply HW_update; [keeps|]
      | |- HW (fst (create_subtab _ _ _ _)) => apply HW_create_subtab
      | |- HW (fold_left _ _ _) => apply HW_fold_create_subtab
      | |- HW (on_app (set_active_project _) _) =>
          unfold HW; cbn [app on_app set_app next_ptr]; fold (HW)
      end ].

Lemma on_project_selected_AOK : forall row w,
  HW w -> AOK (app w) -> AOK (app (on_project_selected row w)).
Proof.
  intros [t|] w Hh H; [|exact H]. unfold on_project_selected.
  destruct (find_project (app w) t) as [p|] eqn:Hf; [|exact H].
  destruct (_ >=? 0); [|exact H].
  cbv zeta.
  set (w1 := on_app (update_project t (set_last_used _)) _).
  assert (H1 : AOK (app w1)) by (subst w1; aok).
  assert (Hh1 : HW w1).
  { subst w1. apply HW_update; [keeps|]. exact Hh. }
  clearbody w1.
  destruct (initialized p); cbn [negb]; [exact H1|].
  destruct (saved_subtabs p) as [|sv l]; [aok|].
  set (w3 := on_app (update_project t (set_subtab_counter _)) _).
  assert (H3 : AOK (app w3)) by (subst w3; aok).
  assert (Hh3 : HW w3) by (subst w3; hw).
  clearbody w3. aok.
  destruct (find_project (app w3) t) as [p'|] eqn:Hf3; [|exact H3].
  destruct (g_list_nth (subtabs p') _) as [active_sub|] eqn:En; [|exact H3].
  cbn [app on_app set_app].
  pose proof (g_list_nth_In _ _ _ _ En) as Hin.
  destruct (find_project_In _ _ _ Hf3) as [Hp1 Hp2].
  assert (Hpar : parent_tab active_sub = t).
  { destruct Hh3 as [L _]. rewrite Forall_forall in L.
    destruct (L p' Hp1) as [_ [Lp _]]. rewrite Forall_forall in Lp.
    rewrite <- Hp2. apply Lp. apply in_map, Hin. }
  eapply AOK_button; [exact Hh3| | |exact H3].
  - rewrite Hpar. exact Hf3.
  - apply in_map, Hin.
Qed.

Lemma gtk_list_box_select_row_AOK : forall row w,
  HW w -> AOK (app w) -> AOK (app (gtk_list_box_select_row row w)).
Proof.
  intros row w Hh H. unfold gtk_list_box_select_row.
  destruct (selected_row (sidebar (app w))) as [r|].
  - destruct (Nat.eqb r row); [exact H|].
    apply on_project_selected_AOK; [exact Hh|exact H].
  - apply on_project_selected_AOK; [exact Hh|exact H].
Qed.

Lemma Inv_HW : forall w, Inv w -> HW w.
Proof. intros w [H _]. exact H. Qed.

Lemma create_project_AOK : forall name path init w,
  Inv w -> AOK (app w) -> AOK (app (fst (create_project name path init w))).
Proof.
  intros name path init w Hi H. unfold create_project.
  set (w1 := mkWorld _ _ _ _ _ _ _).
  assert (W1 : WS (next_ptr w)
                 (fun q => initialized q = false /\ subtabs q = []
                           /\ saved_subtabs q = []) w1).
  { subst w1. eapply WS_weaken; [|apply WS_new_project; auto].
    intros q Hq. rewrite Hq. cbn. auto. }
  assert (H1 : AOK (app w1)).
  { subst w1. unfold AOK. cbn. apply Forall_app. split; [exact H|].
    constructor; [reflexivity|constructor]. }
  clearbody w1. destruct init; cbn [fst]; [|exact H1].
  apply gtk_list_box_select_row_AOK; [|aok].
  apply Inv_HW. apply (WS_leave (next_ptr w)).
  apply WS_update with (R := fun q => subtabs q <> [] /\ saved_subtabs q = []);
    [keeps| |].
  { intros q [Hq1 Hq2]. left. auto. }
  apply WS_keeps; [keeps|keeps|auto|].
  eapply WS_create_subtab; [|exact W1].
  intros q st [_ [_ Hq]]. split; [apply app_nonempty|exact Hq].
Qed.

Lemma on_remove_project_clicked_AOK : forall w,
  Inv w -> AOK (app w) -> AOK (app (on_remove_project_clicked w)).
Proof.
  intros w Hi H. unfold on_remove_project_clicked.
  destruct (active_project (app w)) as [ptr|]; [|exact H].
  destruct (find_project (app w) ptr) as [project|]; [|exact H].
  pose proof (gtk_list_box_remove_Inv ptr w Hi) as H1.
  assert (A1 : AOK (app (gtk_list_box_remove ptr w))).
  { unfold gtk_list_box_remove.
    destruct (selected_row (sidebar (app w))) as [r|];
      [destruct (Nat.eqb r ptr)|]; exact H. }
  set (w1 := gtk_list_box_remove ptr w) in *. clearbody w1.
  set (w2 := save_session _).
  assert (H2 : Inv w2).
  { subst w2. apply Inv_save_session.
    apply (Inv_remove_project w1 ptr (files w1) _ (saves w1) H1). }
  assert (A2 : AOK (app w2)).
  { subst w2. unfold AOK. cbn. apply remove_project_Forall, A1. }
  clearbody w2.
  destruct (projects (app w2)) as [|first l] eqn:E.
  - unfold AOK. cbn. rewrite E. constructor.
  - apply gtk_list_box_select_row_AOK; [apply Inv_HW|].
    + apply Inv_app_only; [reflexivity|exact H2].
    + exact A2.
Qed.

(** The neighbour [close_subtab] activates. *)
Lemma adjacent_link_spec : forall l prev s,
  NoDup (map subtab_ptr l) -> In s (map subtab_ptr l) ->
  match prev with
  | Some x => subtab_ptr x <> s
  | None => List.length l <> 1%nat
  end ->
  exists na,
    adjacent_link prev l s = Some na
    /\ subtab_ptr na <> s
    /\ (In na l \/ prev = Some na).
Proof.
  induction l as [|x t IH]; intros prev s Hn Hin Hp; [destruct Hin|].
  cbn [adjacent_link]. cbn [map] in Hn, Hin.
  inversion Hn as [|a b Hx Ht]; subst.
  destruct (Nat.eqb_spec (subtab_ptr x) s) as [E|E].
  - destruct t as [|y t'].
    + destruct prev as [pv|]; [|exfalso; apply Hp; reflexivity].
      exists pv. auto.
    + exists y. split; [reflexivity|]. split.
      * intros Hc. apply Hx. rewrite E, <- Hc. left. reflexivity.
      * left. right. left. reflexivity.
  - destruct Hin as [Hin|Hin]; [congruence|].
    destruct (IH (Some x) s Ht Hin E) as [na [A [B C]]].
    exists na. split; [exact A|]. split; [exact B|].
    left. destruct C as [C|C]; [right; exact C|].
    inversion C; subst. left. reflexivity.
Qed.

Lemma close_subtab_AOK : forall subtab w,
  Inv w -> AOK (app w) -> AOK (app (close_subtab subtab w)).
Proof.
  intros subtab w Hi H. unfold close_subtab.
  destruct (close_subtab_guard subtab w) as [[st project]|] eqn:Hg;
    [|exact H].
  destruct (close_subtab_guard_spec _ _ _ _ Hi Hg) as [_ [_ [_ [Hp Hin]]]].
  pose proof (Inv_HW w Hi) as Hh.
  assert (Hnd : NoDup (map subtab_ptr (subtabs project))).
  { eapply project_subtabs_NoDup; [exact Hh|].
    eapply find_project_In, Hp. }
  assert (Hpar : forall x, In x (subtabs project) -> parent_tab x = parent_tab st).
  { destruct Hh as [L _]. rewrite Forall_forall in L.
    destruct (find_project_In _ _ _ Hp) as [Hp1 Hp2].
    destruct (L project Hp1) as [_ [Lp _]]. rewrite Forall_forall in Lp.
    intros x Hx. rewrite (Lp (parent_tab x)) by (apply in_map, Hx).
    exact Hp2. }
  assert (Hact : active_ok project).
  { unfold AOK in H. rewrite Forall_forall in H.
    apply H. eapply find_project_In, Hp. }
  set (t := parent_tab st) in *. set (s := subtab_ptr st) in *.
  set (w1 := close_subtab_mark st w).
  assert (H1 : AOK (app w1)) by (subst w1; unfold close_subtab_mark; aok).
  assert (Hh1 : HW w1) by (subst w1; unfold close_subtab_mark; hw).
  set (p1 := update_subtab s (set_closing true) project).
  assert (Hp1 : find_project (app w1) t = Some p1).
  { subst w1. unfold close_subtab_mark. cbn [app on_app set_app]. fold t s.
    rewrite find_project_update_same by reflexivity. rewrite Hp.
    reflexivity. }
  assert (Hs1 : map subtab_ptr (subtabs p1) = map subtab_ptr (subtabs project)).
  { subst p1. apply keeps_tabs_update_subtab. reflexivity. }
  clearbody w1.
  unfold close_subtab_rest. fold s t. cbn [app save_session].
  set (was_last := g_list_length (subtabs project) =? 1).
  set (a2 := if is_active_subtab project s && negb was_last then _ else app w1).
  assert (Hs : In s (map subtab_ptr (subtabs project))) by (apply in_map, Hin).
  (* the parent after the neighbour has been activated *)
  assert (H2 : exists p2,
             find_project a2 t = Some p2
             /\ heap_ok (next_ptr w1) a2 /\ AOK a2
             /\ map subtab_ptr (subtabs p2) = map subtab_ptr (subtabs project)
             /\ match active_subtab p2 with
                | Some s' => s' = s -> was_last = true
                | None => False
                end).
  { subst a2. unfold is_active_subtab. unfold active_ok in Hact.
    destruct (active_subtab project) as [s'|] eqn:Ea;
      [|rewrite Hact in Hin; destruct Hin].
    assert (Ea1 : active_subtab p1 = Some s') by (subst p1; exact Ea).
    destruct (Nat.eqb_spec s' s) as [E|E]; cbn [andb].
    - destruct was_last eqn:Ew; cbn [negb].
      + exists p1. split; [exact Hp1|]. split; [exact Hh1|].
        split; [exact H1|]. split; [exact Hs1|]. rewrite Ea1. auto.
      + assert (Hl : List.length (subtabs project) <> 1%nat).
        { subst was_last. unfold g_list_length in Ew.
          apply Z.eqb_neq in Ew. lia. }
        destruct (adjacent_link_spec (subtabs project) None s Hnd Hs Hl)
          as [na [A [B C]]].
        rewrite A. destruct C as [C|C]; [|discriminate].
        assert (Hna : parent_tab na = t) by (apply Hpar, C).
        exists (set_active_subtab (Some (subtab_ptr na)) p1).
        unfold on_subtab_button_clicked. rewrite Hna.
        rewrite find_project_update_same by reflexivity. rewrite Hp1.
        split; [reflexivity|]. split.
        { apply heap_ok_keeps; [keeps|exact Hh1]. }
        split.
        { change (update_project t (set_active_subtab (Some (subtab_ptr na)))
                    (app w1))
            with (on_subtab_button_clicked
                    (mkSubTab (subtab_ptr na) None EmptyString t false)
                    (app w1)).
          eapply AOK_button; [exact Hh1|exact Hp1| |exact H1].
          cbn [subtab_ptr]. rewrite Hs1. apply in_map, C. }
        split; [exact Hs1|]. cbn. intros Hc. congruence.
    - exists p1. split; [exact Hp1|]. split; [exact Hh1|].
      split; [exact H1|]. split; [exact Hs1|]. rewrite Ea1.
      intros Hc. congruence. }
  clearbody a2. destruct H2 as [p2 [F2 [Hh2 [A2 [S2 Act2]]]]].
  unfold AOK in *. rewrite projects_update. apply Forall_map.
  rewrite Forall_forall in *. intros q Hq. unfold upd.
  destruct (Nat.eqb_spec (project_ptr q) t) as [E|E]; [|apply A2, Hq].
  destruct Hh2 as [_ [Hn2 _]].
  pose proof (find_project_unique _ _ Hn2 Hq) as Hu. rewrite E, F2 in Hu.
  inversion Hu; subst q. clear Hu.
  unfold active_ok, unlink_subtab, is_active_subtab.
  cbn [active_subtab set_subtabs set_tabs_box].
  destruct (active_subtab p2) as [s'|] eqn:Ea; [|destruct Act2].
  destruct (Nat.eqb_spec s' s) as [Es|Es].
  - rewrite (Act2 Es).
    cbn [active_subtab set_active_subtab set_initialized subtabs set_subtabs
           set_tabs_box].
    apply map_eq_nil with (f := subtab_ptr).
    rewrite remove_subtab_ptrs, S2. apply g_list_remove_last; [exact Hs|].
    assert (Ew : was_last = true) by (apply Act2, Es).
    subst was_last. unfold g_list_length in Ew. apply Z.eqb_eq in Ew.
    rewrite length_map. lia.
  - assert (Hi2 : In s' (map subtab_ptr (subtabs p2))).
    { specialize (A2 p2 Hq). unfold active_ok in A2. rewrite Ea in A2.
      exact A2. }
    destruct was_last;
      cbn [active_subtab set_active_subtab set_initialized subtabs set_subtabs
             set_tabs_box];
      rewrite Ea, remove_subtab_ptrs; apply g_list_remove_other; assumption.
Qed.

Lemma rebuild_subtabs_list_AOK : forall next a t,
  heap_ok next a -> AOK a -> AOK (rebuild_subtabs_list a t).
Proof.
  intros next a t Hh H. unfold rebuild_subtabs_list, AOK in *.
  rewrite projects_update. apply Forall_map.
  rewrite Forall_forall in *. intros q Hq. unfold upd.
  destruct (Nat.eqb (project_ptr q) t); [|apply H, Hq].
  apply (active_ok_ext q); [|reflexivity|apply H, Hq].
  cbn [subtabs set_subtabs]. apply Permutation_map.
  apply (read_back_perm next a q Hh Hq).
Qed.

Lemma on_tab_drag_end_AOK : forall t w,
  HW w -> AOK (app w) -> AOK (app (on_tab_drag_end t w)).
Proof.
  intros t w Hh H. unfold on_tab_drag_end.
  destruct (find_project (app w) t) as [p|]; [|exact H].
  cbv zeta. aok.
  destruct (drag_tab (tabs_box p)) as [d|]; [|exact H].
  destruct (drag_active (tabs_box p)); [|exact H].
  cbn [app save_session on_app set_app].
  eapply rebuild_subtabs_list_AOK; [|aok].
  apply heap_ok_keeps; [keeps|exact Hh].
Qed.

Lemma step_AOK : forall w e,
  Inv w -> AOK (app w) -> AOK (app (step w e)).
Proof.
  intros w e Hi H. pose proof (Inv_HW w Hi) as Hh.
  destruct e; cbn [step].
  - destruct folder as [[name path]|]; [|exact H].
    apply create_project_AOK; assumption.
  - apply on_remove_project_clicked_AOK; assumption.
  - destruct (mem row (rows (sidebar (app w)))); [|exact H].
    apply gtk_list_box_select_row_AOK; assumption.
  - apply on_project_selected_AOK; assumption.
  - unfold on_add_subtab_clicked.
    destruct (find_project (app w) project) as [p|]; [|exact H].
    destruct (initialized p); cbv zeta; cbn [negb]; aok.
  - unfold on_sidebar_add_subtab_clicked, on_add_subtab_clicked.
    destruct (find_project (app w) project) as [p|]; [|exact H].
    destruct (initialized p); cbv zeta; cbn [negb]; aok.
  - destruct (find_subtab (app w) subtab) as [st|] eqn:Hf; [|exact H].
    destruct (find_subtab_owner _ _ _ _ Hh Hf) as [p [Hp [Hin _]]].
    cbn [app on_app set_app].
    eapply AOK_button; [exact Hh|exact Hp| |exact H]. apply in_map, Hin.
  - apply close_subtab_AOK; assumption.
  - unfold on_terminal_child_exited.
    destruct (find_subtab (app w) subtab) as [st|]; [|exact H].
    destruct (closing st); [exact H|]. apply close_subtab_AOK; assumption.
  - unfold on_terminal_title_changed.
    destruct title as [[|c t]|]; try exact H.
    destruct (find_subtab (app w) subtab) as [st|]; [|exact H]. aok.
  - unfold on_sort_clicked. cbn [app save_session set_app].
    unfold AOK, apply_sort. cbn. exact H.
  - unfold on_tab_drag_begin.
    destruct (is_close_button_hit picked); [exact H|].
    destruct (find_tab_button_ancestor picked); [|exact H]. aok.
  - unfold on_tab_drag_update.
    destruct (find_project (app w) project) as [p|]; [|exact H].
    destruct (drag_tab (tabs_box p)); [|exact H].
    destruct (drag_start_x (tabs_box p)); [|exact H].
    destruct (_ && _); [exact H|]. aok.
  - apply on_tab_drag_end_AOK; assumption.
  - exact H.
  - destruct (find_subtab (app w) subtab) as [st|]; [|exact H]. aok.
Qed.

(** The invariant of the event loop, with the active subtabs. *)
Definition Inv2 (w : World) : Prop := Inv w /\ AOK (app w).

Lemma fold_left_Inv2 : forall (A : Type) (f : World -> A -> World) l w,
  (forall w x, Inv2 w -> Inv2 (f w x)) -> Inv2 w -> Inv2 (fold_left f l w).
Proof.
  intros A f l. induction l as [|x l IH]; intros w Hf H; [exact H|].
  cbn [fold_left]. apply IH; [exact Hf|]. apply Hf, H.
Qed.

Lemma load_project_Inv2 : forall w node, Inv2 w -> Inv2 (load_project w node).
Proof.
  intros w node [Hi H]. split; [apply load_project_Inv, Hi|].
  unfold load_project.
  destruct (json_array_get_object_element node) as [proj_obj|]; [|exact H].
  destruct (json_object_get_string_member proj_obj "name") as [name|];
    [|exact H].
  destruct (json_object_get_string_member proj_obj "path") as [path|];
    [|exact H].
  pose proof (create_project_AOK name path false w Hi H) as Hc.
  destruct (create_project name path false w) as [w1 project].
  cbn [fst] in Hc. cbv zeta.
  destruct (json_object_has_member proj_obj "last_used");
    destruct (json_object_has_member proj_obj "subtabs"); aok.
Qed.

Lemma load_legacy_line_Inv2 : forall w buffer,
  Inv2 w -> Inv2 (load_legacy_line w buffer).
Proof.
  intros w buffer [Hi H]. split; [apply load_legacy_line_Inv, Hi|].
  unfold load_legacy_line.
  destruct (strip_newline (before_nul buffer)) as [|c line]; [exact H|].
  destruct (match split_at_pipe (String c line) with
            | Some (String c0 before, after) => _
            | _ => _
            end) as [last path].
  pose proof (create_project_AOK (g_path_get_basename path) path false w Hi H)
    as Hc.
  destruct (create_project (g_path_get_basename path) path false w)
    as [w1 project].
  cbn [fst] in Hc. aok.
Qed.

Lemma load_session_Inv2 : forall w, Inv2 w -> Inv2 (load_session w).
Proof.
  intros w [Hi H]. split; [apply load_session_Inv, Hi|].
  unfold load_session.
  destruct (session_json (files w)) as [[|root]|].
  - exact H.
  - unfold load_session_root.
    destruct root as [[| | | | | |root_obj]|]; try exact H.
    set (w1 := if json_object_has_member root_obj "sort_mode" then _ else w).
    assert (H1 : Inv2 w1).
    { subst w1. destruct (json_object_has_member root_obj "sort_mode");
        split; assumption. }
    clearbody w1.
    destruct (json_object_has_member root_obj "projects"); [|apply H1].
    set (w2 := fold_left load_project _ w1).
    assert (H2 : Inv2 w2).
    { subst w2. apply fold_left_Inv2; [apply load_project_Inv2|exact H1]. }
    clearbody w2. destruct H2 as [Hi2 A2].
    destruct (g_list_nth (projects (app w2)) _) as [ap|]; [|exact A2].
    apply gtk_list_box_select_row_AOK; [|exact A2].
    apply Inv_HW. apply Inv_app_only; [reflexivity|exact Hi2].
  - unfold load_legacy.
    destruct (projects_conf (files w)) as [buffers|]; [|exact H].
    cbn [app save_session].
    set (w1 := fold_left load_legacy_line buffers w).
    assert (H1 : Inv2 w1).
    { subst w1. apply fold_left_Inv2; [apply load_legacy_line_Inv2|].
      split; assumption. }
    clearbody w1. destruct H1 as [_ A1].
    destruct (sort_conf (files w1)) as [[buffer|]|]; try exact A1.
    destruct (streq _ "alpha"); [exact A1|].
    destruct (streq _ "mru"); exact A1.
Qed.

Lemma run_Inv2 : forall f now events, Inv2 (run f now events).
Proof.
  intros f now events. unfold run.
  apply fold_left_Inv2.
  - intros w e [Hi H]. split; [apply step_Inv, Hi|apply step_AOK; assumption].
  - unfold activate.
    assert (H : Inv2 (load_session (fresh_world f now))).
    { apply load_session_Inv2. split; [apply fresh_world_Inv|constructor]. }
    destruct H as [Hi H]. split.
    + apply Inv_app_only; [|exact Hi].
      intros a. unfold apply_sort. reflexivity.
    + exact H.
Qed.

(** X5. After start-up on any files and any sequence of events, the
    [active_subtab] of every project points to one of the project's live
    subtabs -- it never dangles --, and it is NULL exactly when the project
    has no subtab, that is, exactly when the project is uninitialized. *)
Theorem active_subtab_never_dangles : forall f now events p,
  In p (projects (app (run f now events))) ->
  match active_subtab p with
  | Some s =>
      initialized p = true
      /\ exists st, In st (subtabs p) /\ subtab_ptr st = s
                    /\ find_subtab (app (run f now events)) s = Some st
  | None => initialized p = false /\ subtabs p = []
  end.
Proof.
  intros f now events p Hp.
  destruct (run_Inv2 f now events) as [[Hh Hs] Ha].
  unfold AOK in Ha. rewrite Forall_forall in Ha, Hs.
  specialize (Ha p Hp). specialize (Hs p Hp). unfold active_ok in Ha.
  destruct (active_subtab p) as [s|].
  - apply in_map_iff in Ha. destruct Ha as [st [E Hin]]. split.
    + destruct Hs as [[A _]|[_ B]]; [exact A|].
      rewrite B in Hin. destruct Hin.
    + exists st. split; [exact Hin|]. split; [exact E|].
      rewrite <- E. destruct Hh as [_ [_ Hn]].
      apply find_subtab_unique; [exact Hn|]. apply in_flat_map. eauto.
  - split; [|exact Ha].
    destruct Hs as [[_ [B _]]|[A _]]; [congruence|exact A].
Qed.

(** A project with three tabs, the second of which has been closed. *)
Definition three_tabs_one_closed : list Event :=
  [EvFolderSelected (Some ("gmux", "/home/u/gmux"));
   EvAddSubtabClicked 0%nat;
   EvAddSubtabClicked 0%nat;
   EvSubtabButtonClicked 2%nat;
   EvCloseSubtabClicked 2%nat].

Definition three_tabs_one_closed_project : Project :=
  mkProject 0 (mkTabsBox [1%nat; 3%nat] None false None [])
    [mkSubTab 1 None "Tab 1" 0 false; mkSubTab 3 None "Tab 3" 0 false]
    (Some 3%nat) 3 "gmux" "/home/u/gmux" true 0 0 [] 0.

Lemma active_subtab_never_dangles_witness :
  In three_tabs_one_closed_project
     (projects (app (run no_files 0 three_tabs_one_closed)))
  /\ initialized three_tabs_one_closed_project = true.
Proof.
  assert (Hin : In three_tabs_one_closed_project
                   (projects (app (run no_files 0 three_tabs_one_closed)))).
  { vm_compute. left. reflexivity. }
  split; [exact Hin|].
  exact (proj1 (active_subtab_never_dangles no_files 0 three_tabs_one_closed
                  three_tabs_one_closed_project Hin)).
Defined.

(** ** Freed subtabs *)

(** The addresses of the linked subtabs. *)
Definition live (a : AppState) : list nat := map subtab_ptr (all_subtabs a).

(** Nothing has been freed twice, and nothing freed is still linked. *)
Definition freed_ok (w : World) : Prop :=
  NoDup (freed w)
  /\ Forall (fun s => (s < next_ptr w)%nat) (freed w)
  /\ forall s, In s (freed w) -> ~ In s (live (app w)).

(** [w'] frees nothing that [w] has not freed, and links only subtabs that
    [w] links or that have been allocated since. *)
Definition grows (w w' : World) : Prop :=
  freed w' = freed w
  /\ (next_ptr w <= next_ptr w')%nat
  /\ forall s, In s (live (app w')) ->
               In s (live (app w)) \/ (next_ptr w <= s)%nat.

Lemma grows_refl : forall w, grows w w.
Proof. intros w. repeat split; auto. Qed.

Lemma grows_trans : forall a b c, grows a b -> grows b c -> grows a c.
Proof.
  intros a b c [A1 [A2 A3]] [B1 [B2 B3]]. repeat split.
  - congruence.
  - lia.
  - intros s Hs. destruct (B3 s Hs) as [H|H]; [|right; lia].
    destruct (A3 s H) as [K|K]; auto.
Qed.

Lemma freed_ok_grows : forall w w', HW w -> freed_ok w -> grows w w' ->
  freed_ok w'.
Proof.
  intros w w' Hh [F1 [F2 F3]] [G1 [G2 G3]]. unfold freed_ok. rewrite G1.
  split; [exact F1|]. split.
  - eapply Forall_impl; [|exact F2]. intros s Hs. cbn in Hs. lia.
  - intros s Hs Hl. destruct (G3 s Hl) as [K|K]; [apply (F3 s Hs K)|].
    rewrite Forall_forall in F2. specialize (F2 s Hs). lia.
Qed.

Lemma live_update_local : forall n t f a,
  (forall q x, In q (projects a) ->
               In x (map subtab_ptr (subtabs (f q))) ->
               In x (live a) \/ (n <= x)%nat) ->
  forall s, In s (live (update_project t f a)) ->
            In s (live a) \/ (n <= s)%nat.
Proof.
  intros n t f a H s Hs. unfold live, all_subtabs in Hs.
  rewrite projects_update in Hs. apply in_map_iff in Hs.
  destruct Hs as [st [E Hst]]. apply in_flat_map in Hst.
  destruct Hst as [q' [Hq' Hin]]. apply in_map_iff in Hq'.
  destruct Hq' as [q [Eq Hq]]. subst q'. unfold upd in Hin.
  destruct (Nat.eqb (project_ptr q) t).
  - apply (H q s Hq). rewrite <- E. apply in_map, Hin.
  - left. rewrite <- E. unfold live, all_subtabs. apply in_map.
    apply in_flat_map. eauto.
Qed.

Lemma live_project : forall a q x,
  In q (projects a) -> In x (map subtab_ptr (subtabs q)) -> In x (live a).
Proof.
  intros a q x Hq Hx. apply in_map_iff in Hx. destruct Hx as [st [E Hst]].
  rewrite <- E. unfold live, all_subtabs. apply in_map. apply in_flat_map.
  eauto.
Qed.

Lemma grows_update : forall t f w,
  (forall q, map subtab_ptr (subtabs (f q)) = map subtab_ptr (subtabs q)) ->
  grows w (on_app (update_project t f) w).
Proof.
  intros t f w H. repeat split; auto. cbn [app on_app set_app].
  apply live_update_local. intros q x Hq Hx. left. rewrite H in Hx.
  eapply live_project; eassumption.
Qed.

Lemma grows_create_subtab : forall t name dir w,
  grows w (fst (create_subtab t name dir w)).
Proof.
  intros t name dir w. split; [reflexivity|]. split; [cbn; lia|].
  rewrite create_subtab_app. apply live_update_local.
  intros q x Hq Hx. cbn in Hx. rewrite map_app in Hx.
  apply in_app_or in Hx. destruct Hx as [Hx|[Hx|[]]].
  - left. eapply live_project; eassumption.
  - right. cbn in Hx. lia.
Qed.

Lemma grows_fold_create_subtab : forall t l w,
  grows w (fold_left
             (fun w saved =>
                fst (create_subtab t (saved_name saved) (working_dir saved) w))
             l w).
Proof.
  intros t l. induction l as [|sv l IH]; intros w; [apply grows_refl|].
  cbn [fold_left]. eapply grows_trans; [|apply IH].
  apply grows_create_subtab.
Qed.

Lemma grows_app_only : forall f w,
  (forall a, projects (f a) = projects a) -> grows w (on_app f w).
Proof.
  intros f w H. repeat split; auto. cbn [app on_app set_app].
  unfold live, all_subtabs. rewrite H. auto.
Qed.

Lemma grows_save_session : forall w, grows w (save_session w).
Proof. intros w. repeat split; auto. Qed.

Lemma update_subtab_ptrs : forall s g q,
  (forall st, subtab_ptr (g st) = subtab_ptr st) ->
  map subtab_ptr (subtabs (update_subtab s g q)) = map subtab_ptr (subtabs q).
Proof. intros s g q H. apply keeps_tabs_update_subtab, H. Qed.

(** Peels the writes off the world on the right. *)
Ltac grw :=
  repeat first
    [ apply grows_refl
    | match goal with
      | |- grows _ (on_app (update_project _ (update_subtab _ _)) _) =>
          eapply grows_trans;
          [|apply grows_update; intros ?q; apply update_subtab_ptrs;
            reflexivity]
      | |- grows _ (on_app (update_project _ _) _) =>
          eapply grows_trans; [|apply grows_update; reflexivity]
      | |- grows _ (on_app (on_subtab_button_clicked _) _) =>
          eapply grows_trans; [|apply grows_update; reflexivity]
      | |- grows _ (on_app (set_active_project _) _) =>
          eapply grows_trans; [|apply grows_app_only; reflexivity]
      | |- grows _ (on_app (set_sidebar _) _) =>
          eapply grows_trans; [|apply grows_app_only; reflexivity]
      | |- grows _ (on_app (set_sort_mode _) _) =>
          eapply grows_trans; [|apply grows_app_only; reflexivity]
      | |- grows _ (fst (create_subtab _ _ _ _)) =>
          eapply grows_trans; [|apply grows_create_subtab]
      | |- grows _ (fold_left _ _ _) =>
          eapply grows_trans; [|apply grows_fold_create_subtab]
      | |- grows _ (save_session _) =>
          eapply grows_trans; [|apply grows_save_session]
      | |- grows _ (match ?x with _ => _ end) => destruct x
      | |- grows _ (if ?x then _ else _) => destruct x
      end ].

Lemma on_project_selected_grows : forall row w,
  grows w (on_project_selected row w).
Proof. intros row w. unfold on_project_selected. cbv zeta. grw. Qed.

Lemma gtk_list_box_select_row_grows : forall row w,
  grows w (gtk_list_box_select_row row w).
Proof.
  intros row w. unfold gtk_list_box_select_row.
  destruct (selected_row (sidebar (app w))) as [r|];
    [destruct (Nat.eqb r row); [apply grows_refl|]|];
    (eapply grows_trans; [|apply on_project_selected_grows]); grw.
Qed.

Lemma create_project_grows : forall name path init w,
  grows w (fst (create_project name path init w)).
Proof.
  intros name path init w. unfold create_project.
  set (w1 := mkWorld _ _ _ _ _ _ _).
  assert (H1 : grows w w1).
  { subst w1. split; [reflexivity|]. split; [cbn; lia|].
    intros s Hs. left. unfold live, all_subtabs in *. cbn in Hs.
    rewrite flat_map_app in Hs. cbn in Hs. rewrite app_nil_r in Hs.
    exact Hs. }
  clearbody w1. destruct init; cbn [fst]; [|exact H1].
  eapply grows_trans; [exact H1|].
  eapply grows_trans; [|apply gtk_list_box_select_row_grows]. grw.
Qed.

Lemma live_split : forall l1 (p : Project) l2,
  map subtab_ptr (flat_map subtabs (l1 ++ p :: l2))
  = map subtab_ptr (flat_map subtabs l1)
    ++ map subtab_ptr (subtabs p)
    ++ map subtab_ptr (flat_map subtabs l2).
Proof.
  intros. rewrite flat_map_app. cbn [flat_map]. rewrite !map_app.
  reflexivity.
Qed.

(** Unlinking a subtab leaves the others linked and takes it off the
    heap. *)
Lemma live_unlink : forall next a t p s wl,
  heap_ok next a -> find_project a t = Some p ->
  In s (map subtab_ptr (subtabs p)) ->
  forall x, In x (live (update_project t (unlink_subtab s wl) a)) ->
            In x (live a) /\ x <> s.
Proof.
  intros next a t p s wl [H1 [H2 H3]] Hf Hin x Hx.
  destruct (projects_split _ _ _ H2 Hf) as [l1 [l2 [Hs [Ht Hm]]]].
  unfold live, all_subtabs in *. rewrite projects_update, Hm in Hx.
  rewrite Hs in H3 |- *. rewrite live_split in *.
  rewrite unlink_subtab_subtabs, remove_subtab_ptrs in Hx.
  pose proof (NoDup_app_remove_l _ _ H3) as H4.
  pose proof (NoDup_app_remove_r _ _ H4) as H5.
  apply in_app_or in Hx. destruct Hx as [Hx|Hx].
  - split; [apply in_or_app; left; exact Hx|].
    intros E. subst x.
    eapply (NoDup_app_disjoint _ _ H3); [exact Hx|].
    apply in_or_app. left. exact Hin.
  - apply in_app_or in Hx. destruct Hx as [Hx|Hx].
    + split.
      * apply in_or_app. right. apply in_or_app. left.
        eapply g_list_remove_In, Hx.
      * intros E. subst x. eapply g_list_remove_gone; [exact H5|exact Hx].
    + split.
      * apply in_or_app. right. apply in_or_app. right. exact Hx.
      * intros E. subst x.
        eapply (NoDup_app_disjoint _ _ H4); [exact Hin|exact Hx].
Qed.

Lemma NoDup_snoc : forall (l : list nat) x,
  NoDup l -> ~ In x l -> NoDup (l ++ [x]).
Proof.
  intros l x H Hx. apply NoDup_app; [exact H| |].
  - constructor; [intros []|constructor].
  - intros a Ha [Hb|[]]. subst. auto.
Qed.

Lemma on_subtab_button_clicked_facts : forall next st a t p,
  heap_ok next a -> find_project a t = Some p ->
  heap_ok next (on_subtab_button_clicked st a)
  /\ live (on_subtab_button_clicked st a) = live a
  /\ exists p2,
       find_project (on_subtab_button_clicked st a) t = Some p2
       /\ map subtab_ptr (subtabs p2) = map subtab_ptr (subtabs p).
Proof.
  intros next st a t p Hh Hf. unfold on_subtab_button_clicked.
  split; [apply heap_ok_keeps; [keeps|exact Hh]|]. split.
  - unfold live, all_subtabs. rewrite projects_update.
    apply all_subtabs_keeps. keeps.
  - rewrite find_project_update by reflexivity. rewrite Hf.
    destruct (Nat.eqb (parent_tab st) t); eexists; split; reflexivity.
Qed.

Lemma close_subtab_freed_ok : forall subtab w,
  Inv w -> freed_ok w -> freed_ok (close_subtab subtab w).
Proof.
  intros subtab w Hi [F1 [F2 F3]]. unfold close_subtab.
  destruct (close_subtab_guard subtab w) as [[st project]|] eqn:Hg;
    [|repeat split; assumption].
  destruct (close_subtab_guard_spec _ _ _ _ Hi Hg) as [_ [_ [_ [Hp Hin]]]].
  pose proof (Inv_HW w Hi) as Hh.
  set (t := parent_tab st) in *. set (s := subtab_ptr st) in *.
  assert (Hs : In s (map subtab_ptr (subtabs project))) by (apply in_map, Hin).
  assert (Hl : In s (live (app w))).
  { eapply live_project; [eapply find_project_In, Hp|exact Hs]. }
  assert (Hb : (s < next_ptr w)%nat).
  { destruct Hh as [L _]. eapply linked_subtabs_bound; [exact L|exact Hl]. }
  set (w1 := close_subtab_mark st w).
  assert (G1 : freed w1 = freed w /\ next_ptr w1 = next_ptr w
               /\ live (app w1) = live (app w)).
  { subst w1. unfold close_subtab_mark. repeat split.
    cbn [app on_app set_app]. unfold live, all_subtabs.
    rewrite projects_update. apply all_subtabs_keeps.
    apply keeps_links_update_subtab. auto. }
  assert (Hh1 : HW w1) by (subst w1; unfold close_subtab_mark; hw).
  assert (Hp1 : exists p1, find_project (app w1) t = Some p1
                  /\ map subtab_ptr (subtabs p1)
                     = map subtab_ptr (subtabs project)).
  { subst w1. unfold close_subtab_mark. cbn [app on_app set_app]. fold t s.
    rewrite find_project_update_same by reflexivity. rewrite Hp.
    eexists. split; [reflexivity|]. apply update_subtab_ptrs. reflexivity. }
  clearbody w1. destruct Hp1 as [p1 [Hp1 Hs1]].
  destruct G1 as [G1 [G2 G3]].
  unfold close_subtab_rest. fold s t.
  set (was_last := g_list_length (subtabs project) =? 1).
  set (a2 := if is_active_subtab project s && negb was_last then _ else app w1).
  assert (H2 : heap_ok (next_ptr w1) a2 /\ live a2 = live (app w1)
               /\ exists p2, find_project a2 t = Some p2
                    /\ map subtab_ptr (subtabs p2)
                       = map subtab_ptr (subtabs p1)).
  { subst a2. destruct (_ && _); [|eauto].
    destruct (adjacent_link None (subtabs project) s) as [na|]; [|eauto].
    eapply on_subtab_button_clicked_facts; eassumption. }
  clearbody a2. destruct H2 as [Hh2 [L2 [p2 [Fp2 S2]]]].
  assert (Hlive : forall x,
             In x (live (update_project t (unlink_subtab s was_last) a2)) ->
             In x (live (app w)) /\ x <> s).
  { intros x Hx. rewrite <- G3, <- L2.
    eapply live_unlink; [exact Hh2|exact Fp2| |exact Hx].
    rewrite S2, Hs1. exact Hs. }
  unfold freed_ok. cbn [freed next_ptr app save_session].
  rewrite G1, G2. split; [|split].
  - apply NoDup_snoc; [exact F1|]. intros Hc. apply (F3 s Hc Hl).
  - apply Forall_app. split; [exact F2|]. constructor; [exact Hb|constructor].
  - intros x Hx Hc. destruct (Hlive x Hc) as [A B].
    apply in_app_or in Hx. destruct Hx as [Hx|[Hx|[]]].
    + apply (F3 x Hx A).
    + congruence.
Qed.
Lemma remove_project_split : forall l t p,
  NoDup (map project_ptr l) ->
  find (fun q => Nat.eqb (project_ptr q) t) l = Some p ->
  exists l1 l2, l = l1 ++ p :: l2 /\ remove_project l t = l1 ++ l2.
Proof.
  induction l as [|q l IH]; intros t p Hn Hf; [discriminate|].
  cbn [find remove_project] in *. inversion Hn as [|x y Hx Hl]; subst.
  destruct (Nat.eqb (project_ptr q) t).
  - inversion Hf; subst. exists [], l. split; reflexivity.
  - destruct (IH t p Hl Hf) as [l1 [l2 [E1 E2]]].
    exists (q :: l1), l2. cbn. rewrite <- E1, E2. split; reflexivity.
Qed.

Lemma on_remove_project_clicked_freed_ok : forall w,
  Inv w -> freed_ok w -> freed_ok (on_remove_project_clicked w).
Proof.
  intros w Hi Hf. unfold on_remove_project_clicked.
  destruct (active_project (app w)) as [ptr|]; [|exact Hf].
  destruct (find_project (app w) ptr) as [project|] eqn:Hp; [|exact Hf].
  pose proof (gtk_list_box_remove_Inv ptr w Hi) as H1.
  assert (E1 : projects (app (gtk_list_box_remove ptr w)) = projects (app w)
               /\ freed (gtk_list_box_remove ptr w) = freed w
               /\ next_ptr (gtk_list_box_remove ptr w) = next_ptr w).
  { unfold gtk_list_box_remove.
    destruct (selected_row (sidebar (app w))) as [r|];
      [destruct (Nat.eqb r ptr)|]; repeat split. }
  set (w1 := gtk_list_box_remove ptr w) in *. clearbody w1.
  destruct E1 as [E1 [E2 E3]].
  set (w2 := save_session _).
  assert (H2 : Inv w2).
  { subst w2. apply Inv_save_session.
    apply (Inv_remove_project w1 ptr (files w1) _ (saves w1) H1). }
  assert (F2 : freed_ok w2).
  { subst w2. destruct Hf as [F1 [Fb F3]]. destruct (Inv_HW w Hi) as [L [Hn Hs]].
    destruct (remove_project_split _ _ _ Hn Hp) as [l1 [l2 [S1 S2]]].
    assert (Hgone : forall x, In x (map subtab_ptr (subtabs project)) ->
                              In x (live (app w))).
    { intros x Hx. eapply live_project; [|exact Hx].
      eapply find_project_In, Hp. }
    unfold freed_ok. cbn [freed next_ptr app save_session].
    rewrite E1, E2, E3, S2. split; [|split].
    - apply NoDup_app; [exact F1| |].
      + eapply project_subtabs_NoDup; [exact (Inv_HW w Hi)|].
        eapply find_project_In, Hp.
      + intros x Hx Hc. apply (F3 x Hx). apply Hgone, Hc.
    - apply Forall_app. split; [exact Fb|]. apply Forall_forall.
      intros x Hx. eapply linked_subtabs_bound; [exact L|].
      apply Hgone, Hx.
    - unfold all_subtabs in Hs. rewrite S1, live_split in Hs.
      intros x Hx Hc. unfold live, all_subtabs in Hc. cbn in Hc.
      rewrite flat_map_app, map_app in Hc.
      apply in_app_or in Hx. destruct Hx as [Hx|Hx].
      + apply (F3 x Hx). unfold live, all_subtabs. rewrite S1, live_split.
        apply in_app_or in Hc. destruct Hc as [Hc|Hc];
          apply in_or_app; [left; exact Hc|right].
        apply in_or_app. right. exact Hc.
      + apply in_app_or in Hc. destruct Hc as [Hc|Hc].
        * eapply (NoDup_app_disjoint _ _ Hs); [exact Hc|].
          apply in_or_app. left. exact Hx.
        * eapply (NoDup_app_disjoint _ _ (NoDup_app_remove_l _ _ Hs));
            [exact Hx|exact Hc]. }
  clearbody w2.
  destruct (projects (app w2)) as [|first l].
  - destruct F2 as [A [B C]]. repeat split; assumption.
  - eapply freed_ok_grows; [apply Inv_HW, H2|exact F2|].
    eapply grows_trans; [|apply gtk_list_box_select_row_grows]. grw.
Qed.

Lemma grows_rebuild : forall t w,
  grows w (on_app (fun a => rebuild_subtabs_list a t) w).
Proof.
  intros t w. repeat split; auto. cbn [app on_app set_app].
  unfold rebuild_subtabs_list. apply live_update_local.
  intros q x Hq Hx. left. cbn [subtabs set_subtabs] in Hx.
  apply in_map_iff in Hx. destruct Hx as [st [E Hst]].
  apply in_flat_map in Hst. destruct Hst as [child [_ Hc]].
  destruct (find_subtab (app w) child) as [st'|] eqn:Hf; [|destruct Hc].
  destruct Hc as [Hc|[]]. subst st'. apply find_some in Hf.
  rewrite <- E. unfold live, all_subtabs. apply in_map. apply Hf.
Qed.

Lemma step_grows : forall w e,
  match e with
  | EvRemoveProjectClicked | EvCloseSubtabClicked _ | EvChildExited _ => True
  | _ => grows w (step w e)
  end.
Proof.
  intros w e. destruct e; cbn [step]; try exact I.
  - destruct folder as [[name path]|]; [|apply grows_refl].
    unfold on_folder_selected.
    eapply grows_trans; [apply create_project_grows|apply grows_save_session].
  - destruct (mem row (rows (sidebar (app w)))); [|apply grows_refl].
    apply gtk_list_box_select_row_grows.
  - apply on_project_selected_grows.
  - unfold on_add_subtab_clicked. cbv zeta. grw.
  - unfold on_sidebar_add_subtab_clicked, on_add_subtab_clicked. cbv zeta. grw.
  - grw.
  - unfold on_terminal_title_changed. grw.
  - unfold on_sort_clicked.
    eapply grows_trans; [|apply grows_save_session].
    repeat split; auto.
  - unfold on_tab_drag_begin. grw.
  - unfold on_tab_drag_update. cbv zeta. grw.
  - unfold on_tab_drag_end.
    destruct (find_project (app w) project) as [p|]; [|apply grows_refl].
    cbv zeta. grw; eapply grows_trans; [|apply grows_rebuild]; grw.
  - repeat split; auto.
  - grw.
Qed.

Lemma step_freed_ok : forall w e,
  Inv w -> freed_ok w -> freed_ok (step w e).
Proof.
  intros w e Hi Hf. pose proof (step_grows w e) as Hg.
  destruct e;
    try (eapply freed_ok_grows; [apply Inv_HW, Hi|exact Hf|exact Hg]).
  - apply on_remove_project_clicked_freed_ok; assumption.
  - apply close_subtab_freed_ok; assumption.
  - cbn [step]. unfold on_terminal_child_exited.
    destruct (find_subtab (app w) subtab) as [st|]; [|exact Hf].
    destruct (closing st); [exact Hf|].
    apply close_subtab_freed_ok; assumption.
Qed.

Lemma grows_fold : forall (A : Type) (f : World -> A -> World) l w,
  (forall w x, grows w (f w x)) -> grows w (fold_left f l w).
Proof.
  intros A f l. induction l as [|x l IH]; intros w Hf; [apply grows_refl|].
  cbn [fold_left]. eapply grows_trans; [apply Hf|apply IH, Hf].
Qed.

Lemma load_project_grows : forall w node, grows w (load_project w node).
Proof.
  intros w node. unfold load_project.
  destruct (json_array_get_object_element node) as [proj_obj|];
    [|apply grows_refl].
  destruct (json_object_get_string_member proj_obj "name") as [name|];
    [|apply grows_refl].
  destruct (json_object_get_string_member proj_obj "path") as [path|];
    [|apply grows_refl].
  pose proof (create_project_grows name path false w) as Hc.
  destruct (create_project name path false w) as [w1 project].
  cbn [fst] in Hc. eapply grows_trans; [exact Hc|]. cbv zeta. grw.
Qed.

Lemma load_legacy_line_grows : forall w buffer,
  grows w (load_legacy_line w buffer).
Proof.
  intros w buffer. unfold load_legacy_line.
  destruct (strip_newline (before_nul buffer)) as [|c line]; [apply grows_refl|].
  destruct (match split_at_pipe (String c line) with
            | Some (String c0 before, after) => _
            | _ => _
            end) as [last path].
  pose proof (create_project_grows (g_path_get_basename path) path false w)
    as Hc.
  destruct (create_project (g_path_get_basename path) path false w)
    as [w1 project].
  cbn [fst] in Hc. eapply grows_trans; [exact Hc|]. grw.
Qed.

Lemma load_session_grows : forall w, grows w (load_session w).
Proof.
  intros w. unfold load_session.
  destruct (session_json (files w)) as [[|root]|].
  - apply grows_refl.
  - unfold load_session_root.
    destruct root as [[| | | | | |root_obj]|]; try apply grows_refl.
    set (w1 := if json_object_has_member root_obj "sort_mode" then _ else w).
    assert (H1 : grows w w1) by (subst w1; grw).
    clearbody w1.
    destruct (json_object_has_member root_obj "projects"); [|exact H1].
    eapply grows_trans; [exact H1|].
    set (w2 := fold_left load_project _ w1).
    assert (H2 : grows w1 w2).
    { subst w2. apply grows_fold. apply load_project_grows. }
    clearbody w2. eapply grows_trans; [exact H2|].
    destruct (g_list_nth (projects (app w2)) _) as [ap|]; [|apply grows_refl].
    eapply grows_trans; [|apply gtk_list_box_select_row_grows]. grw.
  - unfold load_legacy.
    destruct (projects_conf (files w)) as [buffers|]; [|apply grows_refl].
    eapply grows_trans; [|apply grows_save_session].
    eapply grows_trans; [apply grows_fold, load_legacy_line_grows|].
    grw.
Qed.

Lemma run_freed_ok : forall f now events,
  Inv (run f now events) /\ freed_ok (run f now events).
Proof.
  intros f now events. unfold run.
  assert (H0 : Inv (activate f now) /\ freed_ok (activate f now)).
  { split; [apply activate_Inv|].
    eapply freed_ok_grows; [apply Inv_HW, (fresh_world_Inv f now)| |].
    - repeat split; [constructor|constructor|intros s []].
    - unfold activate.
      eapply grows_trans; [apply load_session_grows|].
      apply grows_app_only. reflexivity. }
  revert H0. generalize (activate f now).
  induction events as [|e l IH]; intros w H; [exact H|].
  cbn [fold_left]. apply IH. destruct H as [Hi Hf].
  split; [apply step_Inv, Hi|apply step_freed_ok; assumption].
Qed.

(** X6. After start-up on any files and any sequence of events, no subtab
    has been passed to [g_free] twice, and no freed subtab is still
    reachable: it is in no project's list, it is no project's
    [active_subtab], and its tab widget is in no tab strip. *)
Theorem freed_subtabs_unreachable : forall f now events,
  let w := run f now events in
  NoDup (freed w)
  /\ forall s, In s (freed w) ->
       find_subtab (app w) s = None
       /\ forall p, In p (projects (app w)) ->
            ~ In s (map subtab_ptr (subtabs p))
            /\ active_subtab p <> Some s
            /\ ~ In s (children (tabs_box p)).
Proof.
  intros f now events w.
  destruct (run_freed_ok f now events) as [[[L _] _] [F1 [_ F3]]].
  destruct (run_Inv2 f now events) as [_ Ha].
  fold w in L, F1, F3, Ha.
  split; [exact F1|]. intros s Hs. specialize (F3 s Hs).
  assert (Hp : forall p, In p (projects (app w)) ->
                         ~ In s (map subtab_ptr (subtabs p))).
  { intros p Hp Hc. apply F3. eapply live_project; eassumption. }
  split.
  - destruct (find_subtab (app w) s) as [st|] eqn:E; [|reflexivity].
    exfalso. apply find_some in E. destruct E as [E1 E2].
    apply Nat.eqb_eq in E2. apply F3. rewrite <- E2.
    unfold live, all_subtabs. apply in_map, E1.
  - intros p Hin. split; [apply Hp, Hin|]. split.
    + intros Hc. unfold AOK in Ha. rewrite Forall_forall in Ha.
      specialize (Ha p Hin). unfold active_ok in Ha. rewrite Hc in Ha.
      apply (Hp p Hin Ha).
    + intros Hc. rewrite Forall_forall in L.
      destruct (L p Hin) as [Lp _]. apply (Hp p Hin).
      eapply Permutation_in; [symmetry; exact Lp|exact Hc].
Qed.

Lemma freed_subtabs_unreachable_witness :
  In 2%nat (freed (run no_files 0 three_tabs_one_closed))
  /\ find_subtab (app (run no_files 0 three_tabs_one_closed)) 2 = None.
Proof.
  assert (Hin : In 2%nat (freed (run no_files 0 three_tabs_one_closed))).
  { vm_compute. left. reflexivity. }
  split; [exact Hin|].
  destruct (freed_subtabs_unreachable no_files 0 three_tabs_one_closed)
    as [_ H].
  exact (proj1 (H 2%nat Hin)).
Defined.

(** ** A press that starts no drag *)

Lemma set_tabs_box_idle : forall p,
  drag_tab (tabs_box p) = None -> drag_active (tabs_box p) = false ->
  set_tabs_box (set_drag_active false (set_drag_tab None (tabs_box p))) p = p.
Proof.
  intros p H1 H2. destruct p as [ptr box sts act cnt nm pth ini lu io sv sa].
  destruct box as [ch dt da dx td]. cbn in *. subst. reflexivity.
Qed.

Lemma drag_updates_idle : forall t updates w p,
  find_project (app w) t = Some p -> drag_tab (tabs_box p) = None ->
  drag_updates t updates w = w.
Proof.
  intros t updates w p Hf Hd. unfold drag_updates.
  induction updates as [|u l IH]; [reflexivity|].
  cbn [fold_left]. unfold on_tab_drag_update at 2. rewrite Hf, Hd. exact IH.
Qed.

(** X7. On a strip that is not being dragged, a press on a tab's close
    button, or outside every tab, starts no drag: [on_tab_drag_begin]
    leaves the state as it is, and whatever pointer moves and release
    follow, the project stays exactly as it was -- same tab order, no
    ["gmux-tab-dragging"] class, no drag data -- and the session is not
    saved. *)
Theorem press_outside_tab_starts_no_drag :
  forall w t p start_x picked updates,
  find_project (app w) t = Some p ->
  drag_tab (tabs_box p) = None -> drag_active (tabs_box p) = false ->
  is_close_button_hit picked = true \/ find_tab_button_ancestor picked = None ->
  on_tab_drag_begin t start_x picked w = w
  /\ drag_updates t updates (on_tab_drag_begin t start_x picked w) = w
  /\ let w' := drag_gesture t start_x picked updates w in
     find_project (app w') t = Some p
     /\ (forall t', t' <> t -> find_project (app w') t' = find_project (app w) t')
     /\ saves w' = saves w /\ files w' = files w
     /\ spawned w' = spawned w /\ freed w' = freed w.
Proof.
  intros w t p start_x picked updates Hf Hd Ha Hp.
  assert (Hb : on_tab_drag_begin t start_x picked w = w).
  { unfold on_tab_drag_begin. destruct Hp as [Hp|Hp]; rewrite Hp;
      [reflexivity|]. destruct (is_close_button_hit picked); reflexivity. }
  assert (Hu : drag_updates t updates (on_tab_drag_begin t start_x picked w)
               = w).
  { rewrite Hb. eapply drag_updates_idle; eassumption. }
  split; [exact Hb|]. split; [exact Hu|].
  unfold drag_gesture. rewrite Hu. unfold on_tab_drag_end. rewrite Hf, Hd.
  cbn [app on_app set_app saves files spawned freed].
  split.
  - rewrite find_project_update_same by reflexivity. rewrite Hf. cbn.
    f_equal. apply set_tabs_box_idle; assumption.
  - split; [|auto]. intros t' Hne.
    rewrite find_project_update by reflexivity.
    destruct (Nat.eqb_spec t t'); [congruence|reflexivity].
Qed.

(** A project with two tabs. *)
Definition two_tab_events : list Event :=
  [EvFolderSelected (Some ("gmux", "/home/u/gmux"));
   EvAddSubtabClicked 0%nat].

Definition two_tab_project : Project :=
  mkProject 0 (mkTabsBox [1%nat; 2%nat] None false None [])
    [mkSubTab 1 None "Tab 1" 0 false; mkSubTab 2 None "Tab 2" 0 false]
    (Some 2%nat) 2 "gmux" "/home/u/gmux" true 0 0 [] 0.

Definition wide_bounds (widget : nat) : option (double * double) :=
  match widget with
  | 1%nat => Some (double_of_Z 0, double_of_Z 100)
  | 2%nat => Some (double_of_Z 100, double_of_Z 100)
  | _ => None
  end.

Lemma press_outside_tab_starts_no_drag_witness :
  find_project
    (app (drag_gesture 0 (double_of_Z 30) (PickTab 1 true)
            [(double_of_Z 150, wide_bounds)]
            (run no_files 0 two_tab_events))) 0
  = Some two_tab_project.
Proof.
  refine (proj1 (proj2 (proj2
            (press_outside_tab_starts_no_drag (run no_files 0 two_tab_events)
               0 two_tab_project (double_of_Z 30) (PickTab 1 true)
               [(double_of_Z 150, wide_bounds)] _ _ _ _)))).
  - vm_compute. reflexivity.
  - reflexivity.
  - reflexivity.
  - left. reflexivity.
Defined.

(** ** Writes through a subtab pointer *)

Lemma find_map_ptr : forall (h : SubTab -> SubTab) s l,
  (forall x, subtab_ptr (h x) = subtab_ptr x) ->
  find (fun st => Nat.eqb (subtab_ptr st) s) (map h l)
  = option_map h (find (fun st => Nat.eqb (subtab_ptr st) s) l).
Proof.
  intros h s l H. induction l as [|x l IH]; [reflexivity|].
  cbn [map find]. rewrite H. destruct (Nat.eqb (subtab_ptr x) s);
    [reflexivity|exact IH].
Qed.

(** A write through the pointer to a linked subtab changes that subtab and
    no other. *)
Lemma write_subtab_all : forall next a st g,
  heap_ok next a -> find_subtab a (subtab_ptr st) = Some st ->
  all_subtabs
    (update_project (parent_tab st) (update_subtab (subtab_ptr st) g) a)
  = map (fun x => if Nat.eqb (subtab_ptr x) (subtab_ptr st) then g x else x)
      (all_subtabs a).
Proof.
  intros next a st g Hh Hf.
  pose proof Hh as [H1 [H2 H3]].
  unfold all_subtabs. rewrite projects_update.
  assert (H : forall l, (forall q, In q l -> In q (projects a)) ->
              flat_map subtabs
                (map (upd (parent_tab st) (update_subtab (subtab_ptr st) g)) l)
              = map (fun x => if Nat.eqb (subtab_ptr x) (subtab_ptr st)
                              then g x else x) (flat_map subtabs l)).
  { induction l as [|q l IH]; intros Hl; [reflexivity|].
    cbn [map flat_map]. rewrite map_app. f_equal.
    2:{ apply IH. intros r Hr. apply Hl. right. exact Hr. }
    unfold upd.
    destruct (Nat.eqb_spec (project_ptr q) (parent_tab st)) as [E|E];
      [reflexivity|].
    rewrite <- (map_id (subtabs q)) at 1. apply map_ext_in. intros x Hx.
    destruct (Nat.eqb_spec (subtab_ptr x) (subtab_ptr st)) as [Ex|Ex];
      [|reflexivity].
    exfalso. apply E.
    assert (Hq : In q (projects a)) by (apply Hl; left; reflexivity).
    assert (Hxa : In x (all_subtabs a)) by (apply in_flat_map; eauto).
    pose proof (find_subtab_unique a x H3 Hxa) as Hu.
    rewrite Ex, Hf in Hu. inversion Hu; subst x.
    rewrite Forall_forall in H1. destruct (H1 q Hq) as [_ [Lp _]].
    rewrite Forall_forall in Lp. symmetry. apply Lp. apply in_map, Hx. }
  apply H. auto.
Qed.

Lemma find_subtab_write : forall next a st g s',
  heap_ok next a -> find_subtab a (subtab_ptr st) = Some st ->
  (forall x, subtab_ptr (g x) = subtab_ptr x) ->
  find_subtab
    (update_project (parent_tab st) (update_subtab (subtab_ptr st) g) a) s'
  = if Nat.eqb s' (subtab_ptr st) then Some (g st) else find_subtab a s'.
Proof.
  intros next a st g s' Hh Hf Hg. unfold find_subtab.
  fold (all_subtabs
          (update_project (parent_tab st) (update_subtab (subtab_ptr st) g) a)).
  rewrite (write_subtab_all next a st g Hh Hf).
  rewrite find_map_ptr.
  2:{ intros x. destruct (Nat.eqb _ _); [apply Hg|reflexivity]. }
  change (find (fun x => Nat.eqb (subtab_ptr x) s') (all_subtabs a))
    with (find_subtab a s').
  destruct (Nat.eqb_spec s' (subtab_ptr st)) as [E|E].
  - subst s'. rewrite Hf. cbn. rewrite Nat.eqb_refl. reflexivity.
  - destruct (find_subtab a s') as [x|] eqn:Ex; cbn [option_map];
      [|symmetry; exact Ex].
    pose proof (find_some _ _ Ex) as [_ Ey]. apply Nat.eqb_eq in Ey.
    destruct (Nat.eqb_spec (subtab_ptr x) (subtab_ptr st)); [congruence|].
    symmetry. exact Ex.
Qed.

(** ** Terminal titles *)

(** Every field of a project but the subtab records themselves, of which
    the addresses are kept in their order. *)
Definition project_outline (p : Project) :=
  (project_ptr p, tabs_box p, map subtab_ptr (subtabs p), active_subtab p,
   subtab_counter p, project_name p, project_path p, initialized p,
   last_used p, insert_order p, saved_subtabs p, saved_active_subtab p).

(** X8. When the terminal of a linked subtab reports a non-empty window
    title, that title becomes the name of this subtab and nothing else
    changes: its other fields and every other subtab stay as they were,
    every project keeps all its fields ([tabs_box], counter, name, path,
    [initialized], [last_used], [insert_order], pending descriptors and
    saved index, active subtab) and its subtabs in their order, the
    sidebar, the active project and the sort mode stay, nothing is
    spawned, freed or allocated and the session is not saved.  An empty or
    absent title changes nothing. *)
Theorem title_renames_one_subtab : forall w s st c title,
  Inv w -> find_subtab (app w) s = Some st ->
  let w' := on_terminal_title_changed s (Some (String c title)) w in
  find_subtab (app w') s = Some (set_subtab_name (String c title) st)
  /\ (forall s', s' <> s -> find_subtab (app w') s' = find_subtab (app w) s')
  /\ map project_outline (projects (app w'))
     = map project_outline (projects (app w))
  /\ sidebar (app w') = sidebar (app w)
  /\ active_project (app w') = active_project (app w)
  /\ sort_mode (app w') = sort_mode (app w)
  /\ saves w' = saves w /\ files w' = files w /\ spawned w' = spawned w
  /\ freed w' = freed w /\ next_ptr w' = next_ptr w /\ clock w' = clock w
  /\ on_terminal_title_changed s None w = w
  /\ on_terminal_title_changed s (Some EmptyString) w = w.
Proof.
  intros w s st c title [Hh _] Hf w'.
  assert (Es : subtab_ptr st = s).
  { apply find_some in Hf. destruct Hf as [_ E]. apply Nat.eqb_eq, E. }
  subst w'. unfold on_terminal_title_changed. rewrite Hf.
  cbn [app on_app set_app saves files spawned freed next_ptr clock]. subst s.
  split; [|split; [|split]].
  - rewrite (find_subtab_write _ _ _ _ _ Hh Hf) by reflexivity.
    rewrite Nat.eqb_refl. reflexivity.
  - intros s' Hne.
    rewrite (find_subtab_write _ _ _ _ _ Hh Hf) by reflexivity.
    destruct (Nat.eqb_spec s' (subtab_ptr st)); [congruence|reflexivity].
  - rewrite projects_update, map_map. apply map_ext. intros p. unfold upd.
    destruct (Nat.eqb (project_ptr p) (parent_tab st)); [|reflexivity].
    unfold project_outline.
    rewrite update_subtab_ptrs by reflexivity. reflexivity.
  - rewrite sidebar_update, active_project_update, sort_mode_update.
    auto 15.
Qed.

Lemma title_renames_one_subtab_witness :
  find_subtab
    (app (on_terminal_title_changed 1 (Some "vim") (run no_files 0 two_tab_events)))
    1
  = Some (mkSubTab 1 None "vim" 0 false).
Proof.
  refine (proj1 (title_renames_one_subtab (run no_files 0 two_tab_events) 1
                   (mkSubTab 1 None "Tab 1" 0 false) "v" "im"
                   (run_Inv _ _ _) _)).
  vm_compute. reflexivity.
Defined.

(** ** Adding a tab *)

(** X9. A click on a project's add-tab button, when the project is
    initialized, appends exactly one subtab to it: the subtab is named
    "Tab n" for the incremented counter n, its shell is spawned in the
    project's path, its tab widget goes to the end of the strip and it
    becomes the active subtab; the other projects are untouched and the
    session file is not written. *)
Theorem add_tab_appends_one : forall w t p,
  find_project (app w) t = Some p -> initialized p = true ->
  let n := to_int (subtab_counter p + 1) in
  let st := mkSubTab (next_ptr w) None (String.append "Tab " (format_d n)) t
              false in
  let w' := on_add_subtab_clicked t w in
  (exists p',
      find_project (app w') t = Some p'
      /\ subtabs p' = subtabs p ++ [st]
      /\ children (tabs_box p') = children (tabs_box p) ++ [next_ptr w]
      /\ active_subtab p' = Some (next_ptr w)
      /\ subtab_counter p' = n
      /\ initialized p' = true /\ saved_subtabs p' = saved_subtabs p
      /\ project_name p' = project_name p /\ project_path p' = project_path p
      /\ last_used p' = last_used p)
  /\ (forall t', t' <> t -> find_project (app w') t' = find_project (app w) t')
  /\ spawned w' = spawned w ++ [(next_ptr w, project_path p)]
  /\ next_ptr w' = S (next_ptr w)
  /\ saves w' = saves w /\ files w' = files w /\ freed w' = freed w
  /\ on_sidebar_add_subtab_clicked t w = w'.
Proof.
  intros w t p Hf Hi n st w'. subst w'.
  unfold on_sidebar_add_subtab_clicked, on_add_subtab_clicked.
  rewrite Hf, Hi. cbn [negb]. cbv zeta.
  rewrite create_subtab_app.
  cbn [app on_app set_app fst create_subtab next_ptr spawned saves files freed].
  split; [|split; [|auto 10]].
  - rewrite find_project_update_same by reflexivity.
    rewrite find_project_update_same by reflexivity.
    rewrite Hf. eexists. split; [reflexivity|]. cbn. auto 10.
  - intros t' Hne. rewrite !find_project_update by reflexivity.
    destruct (Nat.eqb_spec t t'); [congruence|reflexivity].
Qed.

Lemma add_tab_appends_one_witness :
  spawned (on_add_subtab_clicked 0 (run no_files 0 two_tab_events))
  = spawned (run no_files 0 two_tab_events) ++ [(3%nat, "/home/u/gmux")].
Proof.
  refine (proj1 (proj2 (proj2
            (add_tab_appends_one (run no_files 0 two_tab_events) 0
               two_tab_project _ _)))).
  - vm_compute. reflexivity.
  - reflexivity.
Defined.

(** ** A new project *)

Lemma find_project_new : forall a l p n,
  projects a = l ++ [p] ->
  Forall (fun q => (project_ptr q < n)%nat) l -> project_ptr p = n ->
  find_project a n = Some p.
Proof.
  intros a l p n E Hl Hp. unfold find_project. rewrite E. clear E.
  induction Hl as [|q l Hq Hl IH]; cbn [List.app find].
  - rewrite Hp, Nat.eqb_refl. reflexivity.
  - destruct (Nat.eqb_spec (project_ptr q) n); [lia|exact IH].
Qed.

(** The project [create_project] leaves behind when it initializes a
    terminal: one subtab "Tab 1", active, in a project stamped with the
    time of its selection. *)
Definition new_project (t : nat) (name path : string) (order now : Z)
  : Project :=
  mkProject t (mkTabsBox [S t] None false None [])
    [mkSubTab (S t) None "Tab 1" t false] (Some (S t)) 1 name path true now
    order [] 0.

Lemma create_project_init_spec : forall name path w,
  ptrs_below w -> selected_row (sidebar (app w)) <> Some (next_ptr w) ->
  let t := next_ptr w in
  let w' := fst (create_project name path true w) in
  projects (app w')
  = projects (app w)
    ++ [new_project t name path (to_int (g_list_length (projects (app w))))
          (clock w)]
  /\ active_project (app w') = Some t
  /\ selected_row (sidebar (app w')) = Some t
  /\ Permutation (rows (sidebar (app w)) ++ [t]) (rows (sidebar (app w')))
  /\ sort_mode (app w') = sort_mode (app w)
  /\ spawned w' = spawned w ++ [(S t, path)]
  /\ next_ptr w' = S (S t)
  /\ saves w' = saves w /\ files w' = files w /\ freed w' = freed w
  /\ clock w' = clock w.
Proof.
  intros name path w Hb Hsel t w'. subst w'. unfold create_project. fold t.
  cbn [fst].
  set (box := gtk_list_box_append _ t (sidebar (app w))).
  set (order := to_int (g_list_length (projects (app w)))).
  match goal with
  | |- context [gtk_list_box_select_row t ?W] => set (w3 := W)
  end.
  set (p3 := new_project t name path order 0).
  assert (P3 : projects (app w3) = projects (app w) ++ [p3]).
  { subst w3. cbn [app on_app set_app]. rewrite create_subtab_app.
    rewrite !projects_update.
    cbn [app projects set_projects set_active_project set_sidebar].
    repeat (rewrite map_upd_new; [|exact Hb|reflexivity]). reflexivity. }
  assert (S3 : sidebar (app w3) = box) by reflexivity.
  assert (A3 : active_project (app w3) = Some t) by reflexivity.
  assert (M3 : sort_mode (app w3) = sort_mode (app w)) by reflexivity.
  assert (O3 : spawned w3 = spawned w ++ [(S t, path)]
               /\ next_ptr w3 = S (S t) /\ saves w3 = saves w
               /\ files w3 = files w /\ freed w3 = freed w
               /\ clock w3 = clock w) by (repeat split).
  clearbody w3.
  assert (Hsb : selected_row box = selected_row (sidebar (app w)))
    by reflexivity.
  assert (Hpb : Permutation (rows (sidebar (app w)) ++ [t]) (rows box))
    by apply gtk_list_box_append_perm.
  set (w4 := on_app (set_sidebar
                       (mkListBox (rows (sidebar (app w3))) (Some t)
                          (sort_func (sidebar (app w3))))) w3).
  assert (E : gtk_list_box_select_row t w3 = on_project_selected (Some t) w4).
  { assert (Hs3 : selected_row (sidebar (app w3))
                   = selected_row (sidebar (app w)))
      by (rewrite S3; exact Hsb).
    unfold gtk_list_box_select_row. cbv zeta. rewrite Hs3. subst w4.
    destruct (selected_row (sidebar (app w))) as [r|]; [|reflexivity].
    destruct (Nat.eqb_spec r t) as [e|e]; [|reflexivity].
    exfalso. apply Hsel. rewrite e. reflexivity. }
  rewrite E. clear E.
  assert (F4 : find_project (app w4) t = Some p3).
  { eapply find_project_new; [exact P3|exact Hb|reflexivity]. }
  assert (G4 : (g_list_index (map project_ptr (projects (app w4))) t >=? 0)
               = true).
  { apply find_project_index. rewrite F4. discriminate. }
  unfold on_project_selected. rewrite F4, G4.
  cbn [initialized p3 new_project negb]. subst w4.
  cbn [app on_app set_app spawned next_ptr saves files freed clock].
  destruct O3 as [O1 [O2 [O4 [O5 [O6 O7]]]]].
  rewrite projects_update.
  cbn [projects set_active_project set_sidebar].
  rewrite P3, O7.
  rewrite map_upd_new; [|exact Hb|reflexivity].
  cbn [sidebar set_sidebar selected_row rows active_project update_project
         set_projects set_active_project sort_mode].
  rewrite S3, M3.
  repeat split; assumption.
Qed.

(** X10. In every state the program can reach, choosing a folder in the
    add-project dialog appends one project to the collection, named after
    the folder: it is initialized with one subtab "Tab 1" whose shell is
    spawned in the folder, it becomes the active project and the selected
    row, its [last_used] is the time of the selection and its
    [insert_order] the previous length of the collection; the other
    projects are untouched and the session is written once, with the new
    project in it.  Dismissing the dialog changes nothing. *)
Theorem folder_selected_adds_project : forall f now events name path,
  let w := run f now events in
  let t := next_ptr w in
  let w' := on_folder_selected (Some (name, path)) w in
  projects (app w')
  = projects (app w)
    ++ [new_project t name path (to_int (g_list_length (projects (app w))))
          (clock w)]
  /\ active_project (app w') = Some t
  /\ selected_row (sidebar (app w')) = Some t
  /\ Permutation (rows (sidebar (app w)) ++ [t]) (rows (sidebar (app w')))
  /\ spawned w' = spawned w ++ [(S t, path)]
  /\ saves w' = S (saves w)
  /\ session_json (files w') = Some (Parsed (Some (session_root (app w'))))
  /\ on_folder_selected None w = w.
Proof.
  intros f now events name path w t w'.
  pose proof (run_Inv f now events) as Hi. fold w in Hi.
  pose proof (run_side f now events) as [S1 [S2 _]]. fold w in S1, S2.
  pose proof (Inv_ptrs_below w Hi) as Hb.
  assert (Hsel : selected_row (sidebar (app w)) <> Some (next_ptr w)).
  { intros Hc. apply S2 in Hc.
    apply (Permutation_in _ S1) in Hc. apply in_map_iff in Hc.
    destruct Hc as [q [E Hq]]. unfold ptrs_below in Hb.
    rewrite Forall_forall in Hb. specialize (Hb q Hq). lia. }
  destruct (create_project_init_spec name path w Hb Hsel)
    as [C1 [C2 [C3 [C4 [C5 [C6 [C7 [C8 [C9 [C10 C11]]]]]]]]]].
  subst w'. unfold on_folder_selected.
  cbn [app save_session spawned saves files session_json].
  fold t in C1, C2, C3, C4, C6.
  rewrite C8. auto 10.
Qed.

(** ** Closing one of several tabs *)

(** The neighbour of the subtab between [l1] and [l2]: the next one, or
    the previous one for the last subtab. *)
Definition neighbour (l1 l2 : list SubTab) : option SubTab :=
  match l2 with
  | y :: _ => Some y
  | [] => match rev l1 with
          | x :: _ => Some x
          | [] => None
          end
  end.

Lemma adjacent_link_app : forall l1 prev st l2,
  (forall x, In x l1 -> subtab_ptr x <> subtab_ptr st) ->
  adjacent_link prev (l1 ++ st :: l2) (subtab_ptr st)
  = match l2 with
    | y :: _ => Some y
    | [] => match rev l1 with
            | x :: _ => Some x
            | [] => prev
            end
    end.
Proof.
  induction l1 as [|x l1 IH]; intros prev st l2 H; cbn [List.app adjacent_link].
  - rewrite Nat.eqb_refl. reflexivity.
  - destruct (Nat.eqb_spec (subtab_ptr x) (subtab_ptr st)) as [E|E].
    + exfalso. apply (H x); [left; reflexivity|exact E].
    + rewrite IH by (intros y Hy; apply H; right; exact Hy).
      destruct l2 as [|y l2]; [|reflexivity]. cbn [rev].
      destruct (rev l1) as [|z r]; reflexivity.
Qed.

Lemma remove_subtab_app : forall l1 st l2 s,
  (forall x, In x l1 -> subtab_ptr x <> s) -> subtab_ptr st = s ->
  remove_subtab (l1 ++ st :: l2) s = l1 ++ l2.
Proof.
  induction l1 as [|x l1 IH]; intros st l2 s H E; cbn [List.app remove_subtab].
  - rewrite E, Nat.eqb_refl. reflexivity.
  - destruct (Nat.eqb_spec (subtab_ptr x) s) as [Ex|Ex].
    + exfalso. apply (H x); [left; reflexivity|exact Ex].
    + f_equal. apply IH; [|exact E]. intros y Hy. apply H. right. exact Hy.
Qed.

Lemma map_mark_app : forall (g : SubTab -> SubTab) l1 st l2 s,
  (forall x, In x (l1 ++ l2) -> subtab_ptr x <> s) -> subtab_ptr st = s ->
  map (fun x => if Nat.eqb (subtab_ptr x) s then g x else x) (l1 ++ st :: l2)
  = l1 ++ g st :: l2.
Proof.
  intros g l1 st l2 s H E. rewrite map_app. cbn [map].
  rewrite E, Nat.eqb_refl. f_equal; [|f_equal];
    (rewrite <- map_id; apply map_ext_in; intros x Hx;
     destruct (Nat.eqb_spec (subtab_ptr x) s) as [Ex|Ex]; [|reflexivity];
     exfalso; apply (H x); [apply in_or_app; auto|exact Ex]).
Qed.

Lemma NoDup_middle_ptrs : forall l1 (st : SubTab) l2,
  NoDup (map subtab_ptr (l1 ++ st :: l2)) ->
  forall x, In x (l1 ++ l2) -> subtab_ptr x <> subtab_ptr st.
Proof.
  intros l1 st l2 H x Hx E. rewrite map_app in H. cbn [map] in H.
  apply NoDup_remove_2 in H. apply H. rewrite <- map_app, <- E.
  apply in_map, Hx.
Qed.

(** X11. Closing one of several tabs of a project -- through its close
    button or because its shell exited -- removes exactly that subtab from
    the project's list and its widget from the strip, frees it, and saves
    the session once; the project stays initialized and its tab counter is
    not decremented.  If the closed tab was the active one, the next tab
    becomes active, or the previous one when the closed tab was the last of
    the strip; otherwise the active tab stays. *)
Theorem close_one_of_several : forall w t p l1 st l2,
  Inv w -> find_project (app w) t = Some p ->
  subtabs p = l1 ++ st :: l2 -> closing st = false -> l1 ++ l2 <> [] ->
  let s := subtab_ptr st in
  let w' := on_close_subtab_clicked s w in
  (exists p',
      find_project (app w') t = Some p'
      /\ subtabs p' = l1 ++ l2
      /\ children (tabs_box p') = g_list_remove (children (tabs_box p)) s
      /\ active_subtab p'
         = (if is_active_subtab p s
            then option_map subtab_ptr (neighbour l1 l2)
            else active_subtab p)
      /\ initialized p' = initialized p
      /\ subtab_counter p' = subtab_counter p)
  /\ freed w' = freed w ++ [s]
  /\ saves w' = S (saves w)
  /\ spawned w' = spawned w
  /\ on_terminal_child_exited s w = w'.
Proof.
  intros w t p l1 st l2 Hi Hf Hs Hc Hne s w'.
  pose proof (Inv_HW w Hi) as Hh. pose proof Hh as [L [Hn Hns]].
  destruct (find_project_In _ _ _ Hf) as [Hp Ht].
  assert (Hin : In st (subtabs p)).
  { rewrite Hs. apply in_or_app. right. left. reflexivity. }
  assert (Hfs : find_subtab (app w) s = Some st).
  { apply find_subtab_unique; [exact Hns|]. apply in_flat_map. eauto. }
  assert (Hpar : forall x, In x (subtabs p) -> parent_tab x = t).
  { rewrite Forall_forall in L. destruct (L p Hp) as [_ [Lp _]].
    rewrite Forall_forall in Lp. intros x Hx. rewrite <- Ht.
    apply Lp. apply in_map, Hx. }
  assert (Hnd : NoDup (map subtab_ptr (l1 ++ st :: l2))).
  { rewrite <- Hs. eapply project_subtabs_NoDup; eassumption. }
  pose proof (NoDup_middle_ptrs _ _ _ Hnd) as Hoth. fold s in Hoth.
  assert (Hg : close_subtab_guard (Some s) w = Some (st, p)).
  { unfold close_subtab_guard. rewrite Hfs, Hc, (Hpar st Hin), Hf.
    reflexivity. }
  assert (Hex : on_terminal_child_exited s w = w').
  { unfold on_terminal_child_exited. rewrite Hfs, Hc. reflexivity. }
  split; [|split; [|split; [|split; [|exact Hex]]]];
    subst w'; unfold on_close_subtab_clicked, close_subtab; rewrite Hg;
    unfold close_subtab_rest, close_subtab_mark; fold s;
    rewrite (Hpar st Hin);
    cbn [app on_app set_app save_session freed saves spawned];
    try reflexivity.
  assert (Hwl : (g_list_length (subtabs p) =? 1) = false).
  { apply Z.eqb_neq. unfold g_list_length. rewrite Hs, length_app.
    cbn [List.length]. destruct l1; destruct l2; cbn [List.length];
      try lia. exfalso. apply Hne. reflexivity. }
  rewrite Hwl. cbn [negb]. rewrite andb_true_r.
  set (p1 := update_subtab s (set_closing true) p).
  assert (Hs1 : subtabs p1 = l1 ++ set_closing true st :: l2).
  { subst p1. cbn [subtabs update_subtab set_subtabs]. rewrite Hs.
    apply map_mark_app; [exact Hoth|reflexivity]. }
  assert (Hrm : remove_subtab (subtabs p1) s = l1 ++ l2).
  { rewrite Hs1. apply remove_subtab_app; [|reflexivity].
    intros x Hx. apply Hoth. apply in_or_app. left. exact Hx. }
  assert (K1 : children (tabs_box p1) = children (tabs_box p)
               /\ active_subtab p1 = active_subtab p
               /\ initialized p1 = initialized p
               /\ subtab_counter p1 = subtab_counter p) by (repeat split).
  destruct K1 as [K1 [K2 [K3 K4]]].
  assert (Hp1 : option_map (update_subtab s (set_closing true))
                  (find_project (app w) t) = Some p1)
    by (rewrite Hf; reflexivity).
  clearbody p1.
  rewrite Hs, adjacent_link_app
    by (intros x Hx; apply Hoth; apply in_or_app; left; exact Hx).
  fold (neighbour l1 l2).
  destruct (is_active_subtab p s) eqn:Ea.
  - assert (Hnb : exists na, neighbour l1 l2 = Some na /\ In na (l1 ++ l2)).
    { unfold neighbour. destruct l2 as [|y l2].
      - destruct (rev l1) as [|x r] eqn:Er.
        + exfalso. apply Hne. rewrite app_nil_r.
          rewrite <- (rev_involutive l1), Er. reflexivity.
        + exists x. split; [reflexivity|]. rewrite app_nil_r.
          apply in_rev. rewrite Er. left. reflexivity.
      - exists y. split; [reflexivity|]. apply in_or_app. right. left.
        reflexivity. }
    destruct Hnb as [na [En Hna]]. rewrite En.
    assert (Hnap : parent_tab na = t).
    { apply Hpar. rewrite Hs. apply in_app_or in Hna.
      apply in_or_app. destruct Hna; [left|right; right]; assumption. }
    unfold on_subtab_button_clicked. rewrite Hnap.
    rewrite !find_project_update_same
      by (try reflexivity; intros; apply unlink_subtab_ptr).
    rewrite Hp1. cbn [option_map].
    eexists. split; [reflexivity|].
    unfold unlink_subtab, is_active_subtab.
    cbn [active_subtab set_subtabs set_tabs_box set_active_subtab subtabs].
    destruct (Nat.eqb_spec (subtab_ptr na) s) as [E|E];
      [exfalso; exact (Hoth na Hna E)|].
    cbn. rewrite Hrm, K1, K3, K4. auto 10.
  - rewrite !find_project_update_same
      by (try reflexivity; intros; apply unlink_subtab_ptr).
    rewrite Hp1. cbn [option_map].
    eexists. split; [reflexivity|].
    unfold unlink_subtab, is_active_subtab.
    cbn [active_subtab set_subtabs set_tabs_box set_active_subtab subtabs].
    unfold is_active_subtab in Ea. rewrite K2, Ea.
    cbn. rewrite Hrm, K1, K2, K3, K4. auto 10.
Qed.

(** A project with three tabs, the last one active. *)
Definition three_tab_events : list Event :=
  [EvFolderSelected (Some ("gmux", "/home/u/gmux"));
   EvAddSubtabClicked 0%nat;
   EvAddSubtabClicked 0%nat].

Definition three_tab_project : Project :=
  mkProject 0 (mkTabsBox [1%nat; 2%nat; 3%nat] None false None [])
    [mkSubTab 1 None "Tab 1" 0 false; mkSubTab 2 None "Tab 2" 0 false;
     mkSubTab 3 None "Tab 3" 0 false]
    (Some 3%nat) 3 "gmux" "/home/u/gmux" true 0 0 [] 0.

Lemma close_one_of_several_witness :
  exists p',
    find_project
      (app (on_close_subtab_clicked 3 (run no_files 0 three_tab_events))) 0
    = Some p'
    /\ subtabs p'
       = [mkSubTab 1 None "Tab 1" 0 false; mkSubTab 2 None "Tab 2" 0 false]
    /\ active_subtab p' = Some 2%nat.
Proof.
  assert (Hf : find_project (app (run no_files 0 three_tab_events)) 0
               = Some three_tab_project) by (vm_compute; reflexivity).
  destruct (close_one_of_several (run no_files 0 three_tab_events) 0
              three_tab_project
              [mkSubTab 1 None "Tab 1" 0 false; mkSubTab 2 None "Tab 2" 0 false]
              (mkSubTab 3 None "Tab 3" 0 false) []
              (run_Inv _ _ _) Hf eq_refl eq_refl ltac:(discriminate))
    as [[p' [A [B [_ [C _]]]]] _].
  exists p'. split; [exact A|]. split; [exact B|exact C].
Defined.

(** ** Removing a project *)

(** Two worlds with the same files, saves, frees and clock. *)
Definition same_io (w w' : World) : Prop :=
  files w' = files w /\ saves w' = saves w /\ freed w' = freed w
  /\ clock w' = clock w.

Lemma same_io_refl : forall w, same_io w w.
Proof. intros w. repeat split. Qed.

Lemma same_io_trans : forall a b c, same_io a b -> same_io b c -> same_io a c.
Proof.
  intros a b c [A1 [A2 [A3 A4]]] [B1 [B2 [B3 B4]]]. repeat split; congruence.
Qed.

Lemma same_io_on_app : forall f w, same_io w (on_app f w).
Proof. intros. repeat split. Qed.

Lemma same_io_create_subtab : forall t name dir w,
  same_io w (fst (create_subtab t name dir w)).
Proof. intros. repeat split. Qed.

Lemma same_io_fold_create_subtab : forall t l w,
  same_io w
    (fold_left
       (fun w saved =>
          fst (create_subtab t (saved_name saved) (working_dir saved) w))
       l w).
Proof.
  intros t l. induction l as [|sv l IH]; intros w; [apply same_io_refl|].
  cbn [fold_left]. eapply same_io_trans; [|apply IH].
  apply same_io_create_subtab.
Qed.

Ltac io :=
  repeat first
    [ apply same_io_refl
    | match goal with
      | |- same_io _ (on_app _ _) =>
          eapply same_io_trans; [|apply same_io_on_app]
      | |- same_io _ (fst (create_subtab _ _ _ _)) =>
          eapply same_io_trans; [|apply same_io_create_subtab]
      | |- same_io _ (fold_left _ _ _) =>
          eapply same_io_trans; [|apply same_io_fold_create_subtab]
      | |- same_io _ (match ?x with _ => _ end) => destruct x
      | |- same_io _ (if ?x then _ else _) => destruct x
      end ].

Lemma on_project_selected_io : forall row w,
  same_io w (on_project_selected row w).
Proof. intros row w. unfold on_project_selected. cbv zeta. io. Qed.

Lemma gtk_list_box_select_row_io : forall row w,
  same_io w (gtk_list_box_select_row row w).
Proof.
  intros row w. unfold gtk_list_box_select_row.
  destruct (selected_row (sidebar (app w))) as [r|];
    [destruct (Nat.eqb r row); [apply same_io_refl|]|];
    (eapply same_io_trans; [|apply on_project_selected_io]); io.
Qed.

Lemma on_project_selected_active : forall t w,
  active_project (app w) = Some t ->
  active_project (app (on_project_selected (Some t) w)) = Some t.
Proof.
  intros t w Ha.
  destruct (find_project (app w) t) as [p|] eqn:Hf.
  2:{ unfold on_project_selected. rewrite Hf. exact Ha. }
  destruct (g_list_index (map project_ptr (projects (app w))) t >=? 0) eqn:Hg.
  2:{ unfold on_project_selected. rewrite Hf, Hg. exact Ha. }
  assert (E : same_outline (set_active_project (Some t) (app w))
                (app (on_project_selected (Some t) w))).
  { unfold on_project_selected. rewrite Hf, Hg. cbv zeta. outline. }
  destruct E as [_ [_ E]]. exact E.
Qed.

Lemma gtk_list_box_select_row_sidebar : forall row w,
  sidebar (app (gtk_list_box_select_row row w))
  = mkListBox (rows (sidebar (app w))) (Some row) (sort_func (sidebar (app w))).
Proof.
  intros row w. unfold gtk_list_box_select_row.
  destruct (selected_row (sidebar (app w))) as [r|] eqn:Es.
  - destruct (Nat.eqb_spec r row) as [E|E].
    + subst r. destruct (sidebar (app w)). cbn in *. congruence.
    + destruct (on_project_selected_selects (Some row)
                  (on_app (set_sidebar
                     (mkListBox (rows (sidebar (app w))) (Some row)
                        (sort_func (sidebar (app w))))) w)) as [_ [E2 _]].
      exact E2.
  - destruct (on_project_selected_selects (Some row)
                (on_app (set_sidebar
                   (mkListBox (rows (sidebar (app w))) (Some row)
                      (sort_func (sidebar (app w))))) w)) as [_ [E2 _]].
    exact E2.
Qed.

Lemma gtk_list_box_select_row_active : forall row w,
  active_project (app w) = Some row ->
  active_project (app (gtk_list_box_select_row row w)) = Some row.
Proof.
  intros row w Ha. unfold gtk_list_box_select_row.
  destruct (selected_row (sidebar (app w))) as [r|];
    [destruct (Nat.eqb r row); [exact Ha|]|];
    apply on_project_selected_active; exact Ha.
Qed.

(** X12. In every state the program can reach, the remove button does
    nothing when there is no project.  Otherwise it removes the active
    project from the collection and its row from the sidebar, frees the
    project's subtabs, and writes the session once -- at a moment when
    [active_project] still holds the removed address, so the index written
    is 0 --; then the first remaining project, if any, becomes the active
    project and the selected row, and no other remaining project is
    touched.  When nothing remains, [active_project] is NULL and no row is
    selected. *)
Theorem remove_button_removes_active : forall f now events,
  let w := run f now events in
  let w' := on_remove_project_clicked w in
  match active_project (app w) with
  | None => projects (app w) = [] /\ w' = w
  | Some ptr =>
      exists project,
        find_project (app w) ptr = Some project
        /\ map project_ptr (projects (app w'))
           = g_list_remove (map project_ptr (projects (app w))) ptr
        /\ ~ In ptr (map project_ptr (projects (app w')))
        /\ rows (sidebar (app w')) = g_list_remove (rows (sidebar (app w))) ptr
        /\ freed w' = freed w ++ map subtab_ptr (subtabs project)
        /\ saves w' = S (saves w)
        /\ session_json (files w')
           = Some (Parsed (Some (session_root
                                   (set_projects
                                      (remove_project (projects (app w)) ptr)
                                      (app w)))))
        /\ json_object_get_int_member
             (json_node_get_object
                (session_root
                   (set_projects (remove_project (projects (app w)) ptr)
                      (app w))))
             "active_project_index" = 0
        /\ active_project (app w')
           = option_map project_ptr
               (hd_error (remove_project (projects (app w)) ptr))
        /\ selected_row (sidebar (app w')) = active_project (app w')
        /\ forall q, In q (projects (app w')) ->
                     active_project (app w') <> Some (project_ptr q) ->
                     In q (projects (app w))
  end.
Proof.
  intros f now events w w'.
  pose proof (run_Inv f now events) as Hi. fold w in Hi.
  pose proof (run_side f now events) as [S1 [S2 S3]]. fold w in S1, S2, S3.
  pose proof (Inv_HW w Hi) as [_ [Hn _]].
  subst w'. unfold on_remove_project_clicked.
  destruct (active_project (app w)) as [ptr|] eqn:Ea; [|auto].
  apply in_map_iff in S3. destruct S3 as [project [Ep Hp]].
  pose proof (find_project_unique _ _ Hn Hp) as Hf. rewrite Ep in Hf.
  rewrite Hf. exists project. split; [reflexivity|].
  pose proof (gtk_list_box_remove_Inv ptr w Hi) as H1.
  assert (E1 : projects (app (gtk_list_box_remove ptr w)) = projects (app w)
               /\ rows (sidebar (app (gtk_list_box_remove ptr w)))
                  = g_list_remove (rows (sidebar (app w))) ptr
               /\ active_project (app (gtk_list_box_remove ptr w)) = Some ptr
               /\ sort_mode (app (gtk_list_box_remove ptr w))
                  = sort_mode (app w)
               /\ same_io w (gtk_list_box_remove ptr w)
               /\ forall r,
                    selected_row (sidebar (app (gtk_list_box_remove ptr w)))
                    = Some r ->
                    In r (g_list_remove (rows (sidebar (app w))) ptr)).
  { unfold gtk_list_box_remove.
    destruct (selected_row (sidebar (app w))) as [r|] eqn:Es.
    - destruct (Nat.eqb_spec r ptr); cbn; repeat split; try assumption;
        try congruence.
      intros r0 E. inversion E; subst r0.
      apply g_list_remove_other; [apply S2; reflexivity|assumption].
    - cbn. repeat split; try assumption; congruence. }
  set (w1 := gtk_list_box_remove ptr w) in *. clearbody w1.
  destruct E1 as [E1 [E2 [E3 [E4 [[I1 [I2 [I3 I4]]] E5]]]]].
  set (w2 := save_session _).
  assert (H2 : Inv w2).
  { subst w2. apply Inv_save_session.
    apply (Inv_remove_project w1 ptr (files w1) _ (saves w1) H1). }
  assert (P2 : projects (app w2) = remove_project (projects (app w)) ptr).
  { subst w2. cbn. rewrite E1. reflexivity. }
  assert (R2 : rows (sidebar (app w2))
               = g_list_remove (rows (sidebar (app w))) ptr) by exact E2.
  assert (Q2 : forall r, selected_row (sidebar (app w2)) = Some r ->
                         In r (rows (sidebar (app w2)))).
  { intros r Hr. rewrite R2. apply E5. exact Hr. }
  assert (F2 : freed w2 = freed w ++ map subtab_ptr (subtabs project)
               /\ saves w2 = S (saves w)).
  { subst w2. cbn. rewrite I2, I3. auto. }
  assert (J2 : session_json (files w2)
               = Some (Parsed (Some (session_root
                                       (set_projects
                                          (remove_project (projects (app w)) ptr)
                                          (app w)))))).
  { subst w2. cbn [files save_session session_json app].
    unfold session_root.
    cbn [projects active_project sort_mode set_projects].
    rewrite E1, E3, E4, Ea. reflexivity. }
  clearbody w2. destruct F2 as [F2 G2].
  assert (Hgone : ~ In ptr (g_list_remove (map project_ptr (projects (app w)))
                              ptr)).
  { apply g_list_remove_gone, Hn. }
  assert (Hidx : json_object_get_int_member
                   (json_node_get_object
                      (session_root
                         (set_projects (remove_project (projects (app w)) ptr)
                            (app w)))) "active_project_index" = 0).
  { change (saved_index
              (map project_ptr (remove_project (projects (app w)) ptr))
              (active_project (app w)) = 0).
    rewrite Ea, remove_project_ptrs. unfold saved_index.
    destruct (g_list_index_range
                (g_list_remove (map project_ptr (projects (app w))) ptr) ptr)
      as [K|K]; [rewrite K; reflexivity|].
    exfalso. apply Hgone.
    clear - K. revert K.
    generalize (g_list_remove (map project_ptr (projects (app w))) ptr).
    induction l as [|x l IH]; cbn [g_list_index List.length]; [lia|].
    destruct (Nat.eqb_spec x ptr); [left; assumption|].
    destruct (Z.ltb_spec (g_list_index l ptr) 0); [lia|].
    intros K. right. apply IH. lia. }
  assert (Hrm : g_list_remove (map project_ptr (projects (app w))) ptr
                = map project_ptr (projects (app w2))).
  { rewrite P2, remove_project_ptrs. reflexivity. }
  assert (Hhd : remove_project (projects (app w)) ptr = projects (app w2))
    by (symmetry; exact P2).
  assert (Hmid : forall w',
             freed w' = freed w2 -> saves w' = saves w2 ->
             files w' = files w2 ->
             (freed w' = freed w ++ map subtab_ptr (subtabs project)
              /\ saves w' = S (saves w)
              /\ session_json (files w')
                 = Some (Parsed (Some (session_root
                                         (set_projects
                                            (remove_project (projects (app w))
                                               ptr) (app w)))))
              /\ json_object_get_int_member
                   (json_node_get_object
                      (session_root
                         (set_projects (remove_project (projects (app w)) ptr)
                            (app w)))) "active_project_index" = 0)).
  { intros w' A B C. rewrite A, B, C. auto. }
  rewrite Hrm in Hgone. rewrite Hrm. clear P2 Hidx J2.
  destruct (projects (app w2)) as [|first rest] eqn:E.
  - set (w' := on_app (set_active_project None) w2).
    assert (Hr : rows (sidebar (app w2)) = []).
    { apply Permutation_nil. rewrite R2.
      rewrite (g_list_remove_permutation _ _ ptr S1), Hrm. reflexivity. }
    destruct (Hmid w' eq_refl eq_refl eq_refl) as [M1 [M2 [M3 M4]]].
    split; [subst w'; cbn; rewrite E; reflexivity|].
    split; [subst w'; cbn; rewrite E; intros []|].
    split; [subst w'; cbn; rewrite <- R2; reflexivity|].
    split; [exact M1|]. split; [exact M2|]. split; [exact M3|].
    split; [exact M4|].
    split; [rewrite Hhd; reflexivity|].
    split.
    + subst w'. cbn.
      destruct (selected_row (sidebar (app w2))) as [r|] eqn:Er;
        [|reflexivity].
      exfalso. specialize (Q2 r eq_refl). rewrite Hr in Q2. destruct Q2.
    + subst w'. cbn. rewrite E. intros q [].
  - set (w3 := on_app (set_active_project (Some (project_ptr first))) w2).
    assert (H3 : Inv w3) by (apply Inv_app_only; [reflexivity|exact H2]).
    pose proof (gtk_list_box_select_row_frame (project_ptr first) w3 H3) as Fr.
    pose proof (gtk_list_box_select_row_io (project_ptr first) w3)
      as [K1 [K2 [K3 K4]]].
    pose proof (gtk_list_box_select_row_sidebar (project_ptr first) w3) as Ks.
    pose proof (gtk_list_box_select_row_active (project_ptr first) w3 eq_refl)
      as Ka.
    set (w' := gtk_list_box_select_row (project_ptr first) w3) in *.
    destruct (Hmid w' K3 K2 K1) as [M1 [M2 [M3 M4]]].
    assert (P3 : projects (app w3) = first :: rest) by exact E.
    split; [rewrite (frame_ptrs _ _ _ Fr), P3; reflexivity|].
    split; [rewrite (frame_ptrs _ _ _ Fr), P3; exact Hgone|].
    split; [rewrite Ks; cbn; rewrite <- R2; reflexivity|].
    split; [exact M1|]. split; [exact M2|]. split; [exact M3|].
    split; [exact M4|].
    split; [rewrite Ka, Hhd; reflexivity|].
    split; [rewrite Ks, Ka; reflexivity|].
    intros q Hq Hne.
    assert (Hq3 : In q (projects (app w3))).
    { eapply frame_In; [exact Fr|exact Hq|]. rewrite Ka in Hne. congruence. }
    rewrite P3, <- Hhd in Hq3.
    eapply remove_project_In, Hq3.
Qed.

(** ** Migration from the legacy project list *)

(** What one buffer of [projects.conf] yields: a time stamp and a path, or
    nothing for an empty line.  The buffer is read up to its first NUL
    byte. *)
Definition legacy_entry (buffer : string) : option (Z * string) :=
  match strip_newline (before_nul buffer) with
  | EmptyString => None
  | line =>
      Some match split_at_pipe line with
           | Some (String c before, after) =>
               (g_ascii_strtoll (String c before), after)
           | _ => (0, line)
           end
  end.

(** The project [load_legacy_line] creates for an entry. *)
Definition legacy_project (ptr : nat) (order : Z) (entry : Z * string)
  : Project :=
  mkProject ptr (mkTabsBox [] None false None []) [] None 0
    (g_path_get_basename (snd entry)) (snd entry) false (fst entry) order []
    0.

Fixpoint legacy_projects (ptr len : nat) (buffers : list string)
  : list Project :=
  match buffers with
  | [] => []
  | b :: rest =>
      match legacy_entry b with
      | Some entry =>
          legacy_project ptr (to_int (Z.of_nat len)) entry
          :: legacy_projects (S ptr) (S len) rest
      | None => legacy_projects ptr len rest
      end
  end.

Lemma load_legacy_line_spec : forall w buffer,
  ptrs_below w ->
  projects (app (load_legacy_line w buffer))
  = projects (app w)
    ++ legacy_projects (next_ptr w) (List.length (projects (app w))) [buffer]
  /\ next_ptr (load_legacy_line w buffer)
     = (next_ptr w
        + List.length (legacy_projects (next_ptr w)
                         (List.length (projects (app w))) [buffer]))%nat
  /\ spawned (load_legacy_line w buffer) = spawned w
  /\ files (load_legacy_line w buffer) = files w
  /\ saves (load_legacy_line w buffer) = saves w
  /\ freed (load_legacy_line w buffer) = freed w
  /\ sort_mode (app (load_legacy_line w buffer)) = sort_mode (app w)
  /\ selected_row (sidebar (app (load_legacy_line w buffer)))
     = selected_row (sidebar (app w)).
Proof.
  intros w buffer Hb. unfold load_legacy_line. cbn [legacy_projects].
  unfold legacy_entry.
  destruct (strip_newline (before_nul buffer)) as [|c line];
    [cbn; rewrite app_nil_r, Nat.add_0_r; auto 10|].
  destruct (match split_at_pipe (String c line) with
            | Some (String c0 before, after) => _
            | _ => _
            end) as [last path].
  unfold create_project, legacy_project.
  cbn [fst snd List.length app on_app set_app next_ptr spawned files saves
         freed].
  split; [|rewrite Nat.add_1_r; auto 10].
  rewrite projects_update.
  cbn [projects set_projects set_active_project set_sidebar].
  rewrite map_upd_new; [|assumption|reflexivity]. reflexivity.
Qed.

Lemma legacy_projects_cons : forall ptr len b rest,
  legacy_projects ptr len (b :: rest)
  = legacy_projects ptr len [b]
    ++ legacy_projects (ptr + List.length (legacy_projects ptr len [b]))
         (len + List.length (legacy_projects ptr len [b])) rest.
Proof.
  intros. cbn [legacy_projects]. destruct (legacy_entry b).
  - cbn. rewrite !Nat.add_1_r. reflexivity.
  - cbn. rewrite !Nat.add_0_r. reflexivity.
Qed.

Lemma legacy_projects_below : forall buffers ptr len,
  Forall (fun q => (project_ptr q
                    < ptr + List.length (legacy_projects ptr len buffers))%nat)
    (legacy_projects ptr len buffers).
Proof.
  induction buffers as [|b rest IH]; intros ptr len; [constructor|].
  cbn [legacy_projects]. destruct (legacy_entry b); [|apply IH].
  cbn [List.length]. constructor; [cbn; lia|].
  eapply Forall_impl; [|apply IH]. intros q Hq. cbn in Hq. lia.
Qed.

Lemma legacy_projects_uninitialized : forall buffers ptr len,
  Forall (fun p => initialized p = false /\ subtabs p = []
                   /\ saved_subtabs p = [] /\ active_subtab p = None)
    (legacy_projects ptr len buffers).
Proof.
  induction buffers as [|b rest IH]; intros ptr len; [constructor|].
  cbn [legacy_projects]. destruct (legacy_entry b); [|apply IH].
  constructor; [cbn; auto|apply IH].
Qed.

Lemma legacy_projects_length : forall buffers ptr len,
  List.length (legacy_projects ptr len buffers)
  = List.length
      (filter (fun b => match strip_newline (before_nul b) with
                        | EmptyString => false
                        | _ => true
                        end) buffers).
Proof.
  induction buffers as [|b rest IH]; intros ptr len; [reflexivity|].
  cbn [legacy_projects filter]. unfold legacy_entry.
  destruct (strip_newline (before_nul b)); [apply IH|]. cbn. rewrite IH. reflexivity.
Qed.

Lemma load_legacy_lines_spec : forall buffers w,
  ptrs_below w ->
  let w' := fold_left load_legacy_line buffers w in
  projects (app w')
  = projects (app w)
    ++ legacy_projects (next_ptr w) (List.length (projects (app w))) buffers
  /\ spawned w' = spawned w /\ files w' = files w /\ saves w' = saves w
  /\ freed w' = freed w
  /\ sort_mode (app w') = sort_mode (app w)
  /\ selected_row (sidebar (app w')) = selected_row (sidebar (app w)).
Proof.
  induction buffers as [|b rest IH]; intros w Hb; cbn zeta.
  - simpl. rewrite app_nil_r. auto 10.
  - cbn [fold_left].
    destruct (load_legacy_line_spec w b Hb)
      as [A [B [C [D [E [F [G H]]]]]]].
    assert (Hb1 : ptrs_below (load_legacy_line w b)).
    { unfold ptrs_below. rewrite A, B. apply Forall_app. split.
      - eapply Forall_impl; [|exact Hb]. intros q Hq. simpl in Hq. lia.
      - apply legacy_projects_below. }
    destruct (IH _ Hb1) as [A' [C' [D' [E' [F' [G' H']]]]]].
    rewrite A', C', D', E', F', G', H', A, B, C, D, E, F, G, H.
    rewrite (legacy_projects_cons (next_ptr w)
               (List.length (projects (app w))) b rest).
    rewrite length_app, <- app_assoc.
    repeat split; reflexivity.
Qed.

(** The sort mode the legacy [sort.conf] stands for. *)
Definition legacy_sort_mode (sort_conf : option (option string)) : SortMode :=
  match sort_conf with
  | Some (Some buffer) =>
      if streq (strip_newline (before_nul buffer)) "alpha" then SORT_ALPHA
      else if streq (strip_newline (before_nul buffer)) "mru" then SORT_MRU
      else SORT_NONE
  | _ => SORT_NONE
  end.

(** X13. When there is no [session.json] but a legacy [projects.conf],
    [load_session] creates one uninitialized project for every buffer
    [fgets] returns on it whose text before the first NUL byte, without the
    final newline, is not empty -- in the order of the file, with the time
    stamp and the path [legacy_entry] reads from that text --, takes the
    sort mode from the first buffer of the legacy sort file read the same
    way ("alpha" or "mru", manual otherwise), spawns no shell and selects
    no row; it then writes [session.json] exactly once, with these
    projects, so that the migration is not run again.  With neither file,
    [load_session] does nothing at all. *)
Theorem legacy_migration : forall f now,
  session_json f = None ->
  let w := load_session (fresh_world f now) in
  match projects_conf f with
  | None => w = fresh_world f now
  | Some buffers =>
      projects (app w) = legacy_projects 0 0 buffers
      /\ List.length (projects (app w))
         = List.length
             (filter (fun b => match strip_newline (before_nul b) with
                               | EmptyString => false
                               | _ => true
                               end) buffers)
      /\ Forall (fun p => initialized p = false /\ subtabs p = []
                          /\ saved_subtabs p = [] /\ active_subtab p = None)
           (projects (app w))
      /\ sort_mode (app w) = legacy_sort_mode (sort_conf f)
      /\ spawned w = [] /\ freed w = []
      /\ selected_row (sidebar (app w)) = None
      /\ saves w = 1%nat
      /\ session_json (files w) = Some (Parsed (Some (session_root (app w))))
      /\ projects_conf (files w) = projects_conf f
  end.
Proof.
  intros f now Hs w. subst w. unfold load_session, load_legacy.
  cbn [files fresh_world]. rewrite Hs.
  destruct (projects_conf f) as [buffers|] eqn:Hp; [|reflexivity].
  destruct (load_legacy_lines_spec buffers (fresh_world f now)
              (Inv_ptrs_below _ (fresh_world_Inv f now)))
    as [A [B [C [D [E [F G]]]]]].
  cbn zeta in A, B, C, D, E, F, G.
  set (w1 := fold_left load_legacy_line buffers (fresh_world f now)) in *.
  clearbody w1. cbn in A, B, C, D, E, F, G. rewrite C. cbn [sort_conf files].
  assert (K : forall w2 m,
             projects (app w2) = projects (app w1) ->
             spawned w2 = spawned w1 -> freed w2 = freed w1 ->
             saves w2 = saves w1 -> files w2 = files w1 ->
             selected_row (sidebar (app w2)) = selected_row (sidebar (app w1)) ->
             sort_mode (app w2) = m ->
             projects (app (save_session w2)) = legacy_projects 0 0 buffers
             /\ List.length (projects (app (save_session w2)))
                = List.length
                    (filter (fun b => match strip_newline (before_nul b) with
                                      | EmptyString => false
                                      | _ => true
                                      end) buffers)
             /\ Forall (fun p => initialized p = false /\ subtabs p = []
                                 /\ saved_subtabs p = []
                                 /\ active_subtab p = None)
                  (projects (app (save_session w2)))
             /\ sort_mode (app (save_session w2)) = m
             /\ spawned (save_session w2) = [] /\ freed (save_session w2) = []
             /\ selected_row (sidebar (app (save_session w2))) = None
             /\ saves (save_session w2) = 1%nat
             /\ session_json (files (save_session w2))
                = Some (Parsed (Some (session_root (app (save_session w2)))))
             /\ projects_conf (files (save_session w2)) = Some buffers).
  { intros w2 m K1 K2 K3 K4 K5 K6 K7.
    cbn [app save_session spawned freed saves files session_json
           projects_conf].
    rewrite K1, K2, K3, K4, K5, K6, K7, A, B, D, E, G, C.
    cbn [projects_conf]. rewrite Hp.
    split; [reflexivity|]. split; [apply legacy_projects_length|].
    split; [apply legacy_projects_uninitialized|]. auto 10. }
  unfold legacy_sort_mode.
  destruct (sort_conf f) as [[buffer|]|]; try (apply K; auto; fail).
  destruct (streq (strip_newline (before_nul buffer)) "alpha"); [apply K; auto|].
  destruct (streq (strip_newline (before_nul buffer)) "mru"); apply K; auto.
  all: rewrite F; reflexivity.
Qed.

Definition legacy_files : Files :=
  mkFiles None
    (Some [String.append "1700000000|/home/u/gmux" (String newline "");
           String newline "";
           String.append "/srv/www" (String newline "")])
    (Some (Some (String.append "mru" (String newline "")))).

Lemma legacy_migration_witness :
  map (fun p => (project_name p, project_path p, last_used p))
      (projects (app (load_session (fresh_world legacy_files 5))))
  = [("gmux", "/home/u/gmux", 1700000000); ("www", "/srv/www", 0)]
  /\ sort_mode (app (load_session (fresh_world legacy_files 5))) = SORT_MRU.
Proof.
  pose proof (legacy_migration legacy_files 5 eq_refl) as H.
  cbn [projects_conf legacy_files] in H.
  destruct H as [A [_ [_ [B _]]]]. split.
  - rewrite A. vm_compute. reflexivity.
  - rewrite B. vm_compute. reflexivity.
Defined.

From Stdlib Require Import DecimalPos.

(** ** Decimal numbers written and read back *)

(** The text that follows a number does not go on with a digit. *)
Definition no_digit_ahead (rest : string) : Prop :=
  match rest with
  | String c _ => digit_of c = None
  | EmptyString => True
  end.

Lemma read_digits_stop : forall acc rest,
  no_digit_ahead rest -> read_digits acc rest = acc.
Proof.
  intros acc [|c t] H; [reflexivity|]. cbn in *. rewrite H. reflexivity.
Qed.

Lemma read_digits_uint_acc : forall d acc rest,
  no_digit_ahead rest ->
  read_digits (Z.pos acc) (String.append (NilEmpty.string_of_uint d) rest)
  = Z.pos (Pos.of_uint_acc d acc).
Proof.
  induction d; intros acc rest H;
    cbn [NilEmpty.string_of_uint String.append Pos.of_uint_acc];
    [apply read_digits_stop, H|..];
    cbn [read_digits];
    match goal with
    | |- context [digit_of ?c] =>
        let v := eval vm_compute in (digit_of c) in
        change (digit_of c) with v
    end;
    cbv iota beta;
    match goal with
    | |- read_digits ?z _ = Z.pos (Pos.of_uint_acc _ ?a) =>
        replace z with (Z.pos a) by lia
    end;
    apply IHd, H.
Qed.

Lemma read_digits_uint : forall d rest,
  no_digit_ahead rest ->
  read_digits 0 (String.append (NilEmpty.string_of_uint d) rest)
  = Z.of_N (Pos.of_uint d).
Proof.
  induction d; intros rest H;
    cbn [NilEmpty.string_of_uint String.append Pos.of_uint];
    [apply read_digits_stop, H|..];
    cbn [read_digits];
    match goal with
    | |- context [digit_of ?c] =>
        let v := eval vm_compute in (digit_of c) in
        change (digit_of c) with v
    end;
    cbv iota beta; cbn [Z.mul Z.add];
    [apply IHd, H|..];
    cbn [Z.of_N]; apply read_digits_uint_acc, H.
Qed.

Lemma read_digits_pos : forall p rest,
  no_digit_ahead rest ->
  read_digits 0 (String.append (NilZero.string_of_uint (Pos.to_uint p)) rest)
  = Z.pos p.
Proof.
  intros p rest H.
  assert (E : NilZero.string_of_uint (Pos.to_uint p)
              = NilEmpty.string_of_uint (Pos.to_uint p)).
  { pose proof (Unsigned.to_uint_nonnil p) as Hn.
    destruct (Pos.to_uint p); [contradiction|..]; reflexivity. }
  rewrite E, read_digits_uint by exact H.
  rewrite DecimalPos.Unsigned.of_to. reflexivity.
Qed.

(** A text that starts with a decimal digit. *)
Definition digit_first (s : string) : Prop :=
  match s with
  | String c _ => digit_of c <> None
  | EmptyString => False
  end.

Lemma g_ascii_strtoll_digits : forall s,
  digit_first s ->
  g_ascii_strtoll s = Z.max G_MININT64 (Z.min G_MAXINT64 (read_digits 0 s)).
Proof.
  intros [|c t] H; [destruct H|]. cbn in H.
  destruct c as [[] [] [] [] [] [] [] []];
    try (exfalso; apply H; reflexivity); reflexivity.
Qed.

Lemma string_of_uint_digit_first : forall p rest,
  digit_first (String.append (NilZero.string_of_uint (Pos.to_uint p)) rest).
Proof.
  intros p rest. pose proof (Unsigned.to_uint_nonnil p) as Hn.
  destruct (Pos.to_uint p); [contradiction|..]; cbn; discriminate.
Qed.

(** What ["%d"] wrote, [g_ascii_strtoll] reads back. *)
Lemma g_ascii_strtoll_format_d : forall n rest,
  G_MININT64 <= n <= G_MAXINT64 -> no_digit_ahead rest ->
  g_ascii_strtoll (String.append (format_d n) rest) = n.
Proof.
  intros n rest Hn Hr. unfold format_d, G_MININT64, G_MAXINT64 in *.
  destruct n as [|p|p]; cbn [Z.to_int NilZero.string_of_int].
  - change (g_ascii_strtoll (String "0" rest) = 0).
    rewrite g_ascii_strtoll_digits by (cbn; discriminate).
    cbn [read_digits]. change (digit_of "0") with (Some 0).
    cbv iota beta. cbn [Z.mul Z.add]. rewrite read_digits_stop by exact Hr.
    reflexivity.
  - rewrite g_ascii_strtoll_digits by apply string_of_uint_digit_first.
    rewrite read_digits_pos by exact Hr. unfold G_MININT64, G_MAXINT64. lia.
  - cbn [String.append]. unfold g_ascii_strtoll.
    cbn [skip_spaces].
    change (is_space "-") with false. cbv iota beta.
    rewrite read_digits_pos by exact Hr. unfold G_MININT64, G_MAXINT64. lia.
Qed.

(** ** The lines of the legacy project list *)

Lemma strip_newline_app : forall s,
  strip_newline (String.append s (String newline "")) = s.
Proof.
  induction s as [|c t IH]; [reflexivity|].
  cbn [String.append strip_newline]. rewrite IH.
  destruct t; reflexivity.
Qed.

Lemma split_at_pipe_app : forall s t,
  split_at_pipe s = None ->
  split_at_pipe (String.append s (String "|" t)) = Some (s, t).
Proof.
  induction s as [|c s IH]; intros t H; [reflexivity|].
  cbn [String.append split_at_pipe] in *.
  destruct (Ascii.eqb c "|"); [discriminate|].
  destruct (split_at_pipe s) as [[b a]|]; [discriminate|].
  rewrite IH by reflexivity. reflexivity.
Qed.

Lemma split_at_pipe_uint : forall d,
  split_at_pipe (NilEmpty.string_of_uint d) = None.
Proof.
  induction d; cbn [NilEmpty.string_of_uint split_at_pipe];
    [reflexivity|..];
    match goal with
    | |- context [Ascii.eqb ?c "|"] => change (Ascii.eqb c "|") with false
    end; rewrite IHd; reflexivity.
Qed.

Lemma format_d_shape : forall n,
  split_at_pipe (format_d n) = None
  /\ exists c t, format_d n = String c t.
Proof.
  intros n. unfold format_d.
  assert (H : forall d, split_at_pipe (NilZero.string_of_uint d) = None
                        /\ exists c t, NilZero.string_of_uint d = String c t).
  { intros d. destruct d; (split; [|cbn; eauto]);
      try reflexivity;
      match goal with
      | |- split_at_pipe (NilZero.string_of_uint ?x) = None =>
          exact (split_at_pipe_uint x)
      end. }
  destruct (Z.to_int n) as [d|d]; cbn [NilZero.string_of_int].
  - apply H.
  - destruct (H d) as [A _]. split; [|eauto].
    cbn [split_at_pipe]. change (Ascii.eqb "-" "|") with false.
    rewrite A. reflexivity.
Qed.

Lemma before_nul_c_string : forall s, c_string s -> before_nul s = s.
Proof.
  induction s as [|c t IH]; intros H; [reflexivity|].
  cbn [c_string] in H. destruct H as [H1 H2]. cbn [before_nul].
  apply N.eqb_neq in H1. rewrite H1, IH by exact H2. reflexivity.
Qed.

Lemma before_nul_app : forall a b,
  c_string a -> before_nul (String.append a (String Ascii.zero b)) = a.
Proof.
  induction a as [|c t IH]; intros b H; [reflexivity|].
  cbn [c_string] in H. destruct H as [H1 H2].
  cbn [String.append before_nul].
  apply N.eqb_neq in H1. rewrite H1, IH by exact H2. reflexivity.
Qed.

Lemma c_string_app : forall a b,
  c_string a -> c_string b -> c_string (String.append a b).
Proof.
  induction a as [|c t IH]; intros b Ha Hb; [exact Hb|].
  cbn [c_string String.append] in *. destruct Ha as [H1 H2].
  split; [exact H1|apply IH; assumption].
Qed.

(** A text without newline. *)
Fixpoint no_newline (s : string) : Prop :=
  match s with
  | EmptyString => True
  | String c t => c <> newline /\ no_newline t
  end.

Lemma no_newline_app : forall a b,
  no_newline a -> no_newline b -> no_newline (String.append a b).
Proof.
  induction a as [|c t IH]; intros b Ha Hb; [exact Hb|].
  cbn [no_newline String.append] in *. destruct Ha as [H1 H2].
  split; [exact H1|apply IH; assumption].
Qed.

(** What ["%d"] writes holds neither a NUL byte nor a newline. *)
Lemma format_d_plain : forall n,
  c_string (format_d n) /\ no_newline (format_d n).
Proof.
  intros n. unfold format_d.
  assert (H : forall d, c_string (NilEmpty.string_of_uint d)
                        /\ no_newline (NilEmpty.string_of_uint d)).
  { induction d; cbn [NilEmpty.string_of_uint c_string no_newline];
      [split; exact I|..];
      destruct IHd as [A B];
      (split; (split; [discriminate|assumption])). }
  assert (H0 : forall d, c_string (NilZero.string_of_uint d)
                         /\ no_newline (NilZero.string_of_uint d)).
  { intros d. destruct d;
      try (cbn [NilZero.string_of_uint c_string no_newline];
           split; (split; [discriminate|exact I]));
      match goal with
      | |- c_string (NilZero.string_of_uint ?x) /\ _ =>
          exact (H x)
      end. }
  destruct (Z.to_int n) as [d|d]; cbn [NilZero.string_of_int].
  - apply H0.
  - destruct (H0 d) as [A B]. cbn [c_string no_newline].
    split; (split; [discriminate|assumption]).
Qed.

(** The buffers that the calls [fgets (line, size, fp)] of a reading loop
    return on a text, [room] being the number of characters the buffer
    being filled can still take ([size - 1] at the start): a buffer ends
    after a newline, or when it is full, or with the text. *)
Fixpoint fgets_buffers (size room : nat) (text : string) : list string :=
  match text with
  | EmptyString => []
  | String c t =>
      if Ascii.eqb c newline || (room <=? 1)%nat
      then String c EmptyString :: fgets_buffers size (size - 1) t
      else match fgets_buffers size (room - 1) t with
           | b :: bs => String c b :: bs
           | [] => [String c EmptyString]
           end
  end.

(** A line that fits the buffer is returned whole, with its newline. *)
Lemma fgets_buffers_line : forall size body room rest,
  no_newline body -> (String.length body < room)%nat ->
  fgets_buffers size room
    (String.append body (String newline rest))
  = String.append body (String newline EmptyString)
    :: fgets_buffers size (size - 1) rest.
Proof.
  intros size. induction body as [|c t IH]; intros room rest Hn Hl.
  - cbn [String.append fgets_buffers]. rewrite Ascii.eqb_refl. reflexivity.
  - cbn [no_newline] in Hn. destruct Hn as [Hc Ht].
    cbn [String.length] in Hl.
    cbn [String.append fgets_buffers].
    apply Ascii.eqb_neq in Hc. rewrite Hc.
    assert (Hr : (room <=? 1)%nat = false) by (apply Nat.leb_gt; lia).
    rewrite Hr. cbn [orb]. rewrite IH by (try assumption; lia).
    reflexivity.
Qed.

(** X14. A line of the legacy [projects.conf] that holds a time stamp in
    decimal, a bar and a path -- a path without NUL byte or newline, the
    line with its newline being shorter than the 4096 bytes of the buffer
    -- is returned by [fgets] as one buffer and read back as that time
    stamp and that path (the path may itself contain bars).  Of the
    buffers [fgets] returns, one without bar is a path with time stamp 0,
    one that starts with a bar is taken whole as the path, an empty line
    is skipped, and whatever follows a NUL byte is ignored. *)
Theorem legacy_line_format : forall n path rest,
  G_MININT64 <= n <= G_MAXINT64 ->
  c_string path -> no_newline path ->
  let body := String.append (format_d n) (String "|" path) in
  (String.length body < 4095)%nat ->
  fgets_buffers 4096 4095 (String.append body (String newline rest))
  = String.append body (String newline EmptyString)
    :: fgets_buffers 4096 4095 rest
  /\ legacy_entry (String.append body (String newline EmptyString))
     = Some (n, path)
  /\ (forall c t, c_string (String c t) ->
        split_at_pipe (String c t) = None ->
        legacy_entry (String.append (String c t) (String newline EmptyString))
        = Some (0, String c t))
  /\ (forall t, c_string t ->
        legacy_entry
          (String "|" (String.append t (String newline EmptyString)))
        = Some (0, String "|" t))
  /\ legacy_entry (String newline EmptyString) = None
  /\ legacy_entry EmptyString = None
  /\ (forall a b, c_string a ->
        legacy_entry (String.append a (String Ascii.zero b)) = legacy_entry a).
Proof.
  intros n path rest Hn Hc Hnl body Hlen.
  destruct (format_d_plain n) as [Fc Fn].
  assert (Bc : c_string body).
  { apply c_string_app; [exact Fc|]. split; [discriminate|exact Hc]. }
  assert (Bn : no_newline body).
  { apply no_newline_app; [exact Fn|]. split; [discriminate|exact Hnl]. }
  assert (Nc : c_string (String newline EmptyString)).
  { split; [discriminate|exact I]. }
  split; [|split; [|split; [|split; [|split; [|split]]]]];
    try reflexivity.
  - apply (fgets_buffers_line 4096 body 4095 rest Bn Hlen).
  - destruct (format_d_shape n) as [Hp [c [t Ef]]].
    unfold legacy_entry.
    rewrite before_nul_c_string by (apply c_string_app; assumption).
    rewrite strip_newline_app.
    pose proof (split_at_pipe_app _ path Hp) as Hsp.
    pose proof (g_ascii_strtoll_format_d n EmptyString Hn I) as Hr.
    assert (E0 : String.append (format_d n) EmptyString = format_d n).
    { generalize (format_d n). intros s.
      induction s as [|x s IH]; [reflexivity|].
      cbn [String.append]. rewrite IH. reflexivity. }
    rewrite E0 in Hr. clear E0. fold body in Hsp. clearbody body.
    assert (El : exists c' t', body = String c' t').
    { destruct body; [discriminate|eauto]. }
    destruct El as [c' [t' El]]. rewrite El in *. rewrite Hsp.
    rewrite Ef in *. rewrite Hr. reflexivity.
  - intros c t Hct Hp. unfold legacy_entry.
    rewrite before_nul_c_string by (apply c_string_app; assumption).
    rewrite strip_newline_app, Hp. reflexivity.
  - intros t Ht. unfold legacy_entry.
    change (String "|" (String.append t (String newline EmptyString)))
      with (String.append (String "|" t) (String newline EmptyString)).
    rewrite before_nul_c_string.
    + rewrite strip_newline_app. reflexivity.
    + apply c_string_app; [|exact Nc]. split; [discriminate|exact Ht].
  - intros a b Ha. unfold legacy_entry.
    rewrite before_nul_app, before_nul_c_string by exact Ha. reflexivity.
Qed.

Lemma legacy_line_format_witness :
  fgets_buffers 4096 4095
    (String.append "1700000000|/home/u/gmux"
       (String newline (String.append "/srv/www" (String newline EmptyString))))
  = [String.append "1700000000|/home/u/gmux" (String newline EmptyString);
     String.append "/srv/www" (String newline EmptyString)]
  /\ legacy_entry
       (String.append "1700000000|/home/u/gmux" (String newline EmptyString))
     = Some (1700000000, "/home/u/gmux").
Proof.
  destruct (legacy_line_format 1700000000 "/home/u/gmux"
              (String.append "/srv/www" (String newline EmptyString)))
    as [A [B _]].
  - unfold G_MININT64, G_MAXINT64. lia.
  - cbn. repeat split; discriminate.
  - cbn. repeat split; discriminate.
  - cbn. lia.
  - split; [exact A|exact B].
Defined.

(** A legacy list with NUL bytes: the first line ends, for the program, at
    its NUL byte; the second, which starts with one, is skipped as an empty
    line; and the sort file reads as "mru". *)
Example legacy_files_with_nul_bytes :
  let text :=
    String.append "5|/a"
      (String Ascii.zero
         (String.append "b"
            (String newline
               (String Ascii.zero
                  (String.append "skipped"
                     (String newline
                        (String.append "/c"
                           (String newline EmptyString)))))))) in
  let f := mkFiles None (Some (fgets_buffers 4096 4095 text))
             (Some (Some (String.append "mru" (String Ascii.zero "x")))) in
  let w := load_session (fresh_world f 0) in
  List.length (fgets_buffers 4096 4095 text) = 3%nat
  /\ map (fun p => (last_used p, project_path p)) (projects (app w))
     = [(5, "/a"); (0, "/c")]
  /\ sort_mode (app w) = SORT_MRU.
Proof. vm_compute. repeat split; reflexivity. Qed.

(** ** Entries of the session file that cannot be used *)

(** The name and the path of an element of the ["projects"] array, when it
    is an object that holds both as strings. *)
Definition entry_name_path (node : JsonNode) : list (string * string) :=
  match json_array_get_object_element node with
  | Some proj_obj =>
      match json_object_get_string_member proj_obj "name",
            json_object_get_string_member proj_obj "path" with
      | Some name, Some path => [(name, path)]
      | _, _ => []
      end
  | None => []
  end.

Lemma restore_projects_names : forall arr ptr len,
  map (fun p => (project_name p, project_path p))
      (restore_projects ptr len arr)
  = flat_map entry_name_path arr.
Proof.
  induction arr as [|node rest IH]; intros ptr len; [reflexivity|].
  cbn [restore_projects flat_map]. unfold entry_name_path at 1.
  destruct (json_array_get_object_element node) as [proj_obj|]; [|apply IH].
  destruct (json_object_get_string_member proj_obj "name") as [name|];
    [|apply IH].
  destruct (json_object_get_string_member proj_obj "path") as [path|];
    [|apply IH].
  cbn [map List.app]. rewrite IH.
  destruct (restore_project_fields ptr (to_int (Z.of_nat len)) proj_obj name
              path) as [_ [A [B _]]].
  rewrite A, B. reflexivity.
Qed.

Lemma frame_names : forall t a a',
  frame t a a' ->
  map (fun p => (project_name p, project_path p)) (projects a')
  = map (fun p => (project_name p, project_path p)) (projects a).
Proof.
  intros t a a'. unfold frame. generalize (projects a) (projects a').
  intros la lb H. induction H as [|x y la lb [_ [A [B _]]] _ IH];
    [reflexivity|].
  cbn. rewrite A, B, IH. reflexivity.
Qed.

(** X15. From a [session.json] whose root is an object with a ["projects"]
    member, [load_session] creates one project for every element that is
    an object holding a string ["name"] and a string ["path"], in the order
    of the array, and skips every other element -- it neither stops at a
    malformed entry nor invents a project for it.  The sort mode is that of
    ["sort_mode"] when it is "alpha" or "mru", and manual for any other or
    missing value. *)
Theorem load_skips_malformed_entries : forall f now root_obj,
  session_json f = Some (Parsed (Some (JsonObject root_obj))) ->
  json_object_has_member root_obj "projects" = true ->
  let w := load_session (fresh_world f now) in
  map (fun p => (project_name p, project_path p)) (projects (app w))
  = flat_map entry_name_path (json_object_get_array_member root_obj "projects")
  /\ sort_mode (app w) = root_sort_mode root_obj.
Proof.
  intros f now root_obj Hf Hp w. subst w. unfold load_session.
  cbn [files fresh_world]. rewrite Hf.
  destruct (load_session_root_stages f now root_obj Hp)
    as [w2 [H2 [P2 [_ [_ [M2 [[_ Ew]|[ap [_ Ew]]]]]]]]]; rewrite Ew.
  - rewrite P2, M2. split; [apply restore_projects_names|reflexivity].
  - rewrite on_project_selected_sort_mode, M2.
    rewrite (frame_names _ _ _ (on_project_selected_frame _ _ H2)), P2.
    split; [apply restore_projects_names|reflexivity].
Qed.

(** A session file with a number and an incomplete object among its
    projects. *)
Definition patchy_session : Files :=
  mkFiles
    (Some (Parsed (Some (JsonObject
       [("sort_mode", JsonString "newest");
        ("projects",
          JsonArray
            [JsonInt 7;
             JsonObject [("name", JsonString "a"); ("path", JsonString "/a")];
             JsonObject [("name", JsonString "b")];
             JsonObject [("path", JsonString "/c"); ("name", JsonString "c")]])]))))
    None None.

Lemma load_skips_malformed_entries_witness :
  map (fun p => (project_name p, project_path p))
      (projects (app (load_session (fresh_world patchy_session 3))))
  = [("a", "/a"); ("c", "/c")]
  /\ sort_mode (app (load_session (fresh_world patchy_session 3))) = SORT_NONE.
Proof.
  exact (load_skips_malformed_entries patchy_session 3 _ eq_refl eq_refl).
Defined.

(** ** A saved active index that designates no project *)

(** The last element of a list. *)
Definition last_error {A : Type} (l : list A) : option A := hd_error (rev l).

Lemma last_error_app : forall (A : Type) (l l' : list A),
  last_error (l ++ l')
  = match last_error l' with
    | Some x => Some x
    | None => last_error l
    end.
Proof.
  intros A l l'. unfold last_error. rewrite rev_app_distr.
  destruct (rev l'); reflexivity.
Qed.

Lemma load_project_active : forall w node,
  active_project (app (load_project w node))
  = match last_error
            (restore_projects (next_ptr w) (List.length (projects (app w)))
               [node]) with
    | Some p => Some (project_ptr p)
    | None => active_project (app w)
    end.
Proof.
  intros w node. unfold load_project. cbn [restore_projects].
  destruct (json_array_get_object_element node) as [proj_obj|]; [|reflexivity].
  destruct (json_object_get_string_member proj_obj "name") as [name|];
    [|reflexivity].
  destruct (json_object_get_string_member proj_obj "path") as [path|];
    [|reflexivity].
  unfold last_error. cbn [rev List.app hd_error].
  destruct (restore_project_fields (next_ptr w)
              (to_int (Z.of_nat (List.length (projects (app w))))) proj_obj
              name path) as [A _].
  rewrite A. unfold create_project. cbn [fst snd].
  destruct (json_object_has_member proj_obj "last_used");
    destruct (json_object_has_member proj_obj "subtabs"); reflexivity.
Qed.

Lemma load_projects_active : forall arr w,
  ptrs_below w ->
  active_project (app (fold_left load_project arr w))
  = match last_error
            (restore_projects (next_ptr w) (List.length (projects (app w)))
               arr) with
    | Some p => Some (project_ptr p)
    | None => active_project (app w)
    end.
Proof.
  induction arr as [|node rest IH]; intros w Hb; [reflexivity|].
  cbn [fold_left].
  destruct (load_project_spec w node Hb) as [A [B _]].
  assert (Hb1 : ptrs_below (load_project w node)).
  { unfold ptrs_below. rewrite A, B. apply Forall_app. split.
    - eapply Forall_impl; [|exact Hb]. intros q Hq. simpl in Hq. lia.
    - apply restore_projects_below. }
  rewrite (IH _ Hb1), A, B, length_app.
  rewrite (restore_projects_cons (next_ptr w)
             (List.length (projects (app w))) node rest).
  rewrite last_error_app.
  destruct (last_error (restore_projects _ _ rest)); [reflexivity|].
  apply load_project_active.
Qed.

(** X16. When the ["active_project_index"] of the session file, read as an
    [int] and passed to [g_list_nth] as a [guint], is no position of the
    restored collection -- an index past the end, or a negative one, which
    wraps around --, [load_session] selects no row and spawns no shell:
    every project stays uninitialized, and [active_project] is left on the
    project created last. *)
Theorem load_active_index_out_of_range : forall f now root_obj,
  session_json f = Some (Parsed (Some (JsonObject root_obj))) ->
  json_object_has_member root_obj "projects" = true ->
  let arr := json_object_get_array_member root_obj "projects" in
  Z.of_nat (List.length (restore_projects 0 0 arr))
  <= root_active_index root_obj ->
  let w := load_session (fresh_world f now) in
  projects (app w) = restore_projects 0 0 arr
  /\ spawned w = []
  /\ selected_row (sidebar (app w)) = None
  /\ Forall (fun p => initialized p = false /\ subtabs p = [])
       (projects (app w))
  /\ active_project (app w)
     = option_map project_ptr (last_error (projects (app w))).
Proof.
  intros f now root_obj Hf Hp arr Hi w. subst w. unfold load_session.
  cbn [files fresh_world]. rewrite Hf. unfold load_session_root. rewrite Hp.
  set (w1 := if json_object_has_member root_obj "sort_mode" then _
             else fresh_world f now).
  assert (H1 : projects (app w1) = [] /\ next_ptr w1 = 0%nat
               /\ spawned w1 = [] /\ selected_row (sidebar (app w1)) = None
               /\ active_project (app w1) = None).
  { subst w1. destruct (json_object_has_member root_obj "sort_mode");
      repeat split. }
  destruct H1 as [P1 [N1 [S1 [R1 A1]]]].
  assert (Hb1 : ptrs_below w1).
  { unfold ptrs_below. rewrite P1. constructor. }
  clearbody w1. fold arr.
  destruct (load_projects_spec arr w1 Hb1) as [A [B [_ [_ D]]]].
  pose proof (load_projects_active arr w1 Hb1) as E.
  cbn zeta in A, B, D. rewrite P1, N1 in A, E. cbn [List.app List.length] in A, E.
  set (w2 := fold_left load_project arr w1) in *. clearbody w2.
  fold (root_active_index root_obj).
  assert (En : g_list_nth (projects (app w2)) (root_active_index root_obj)
               = None).
  { unfold g_list_nth. destruct (_ <? 0); [reflexivity|].
    apply nth_error_None. rewrite A. lia. }
  rewrite En. rewrite A, B, D, E, S1, R1, A1.
  split; [reflexivity|]. split; [reflexivity|]. split; [reflexivity|].
  split.
  - eapply Forall_impl; [|apply restore_projects_uninitialized].
    intros p [X [Y _]]. auto.
  - destruct (last_error (restore_projects 0 0 arr)); reflexivity.
Qed.

(** A session whose active index is -1. *)
Definition negative_index_session : Files :=
  mkFiles
    (Some (Parsed (Some (JsonObject
       [("active_project_index", JsonInt (-1));
        ("projects",
          JsonArray
            [JsonObject [("name", JsonString "a"); ("path", JsonString "/a")];
             JsonObject [("name", JsonString "b"); ("path", JsonString "/b")]])]))))
    None None.

Lemma load_active_index_out_of_range_witness :
  spawned (load_session (fresh_world negative_index_session 3)) = []
  /\ active_project (app (load_session (fresh_world negative_index_session 3)))
     = Some 1%nat.
Proof.
  destruct (load_active_index_out_of_range negative_index_session 3 _
              eq_refl eq_refl)
    as [A [B [_ [_ C]]]].
  - vm_compute. discriminate.
  - split; [exact B|]. rewrite C, A. reflexivity.
Defined.

(** * Lazy initialization at every later state *)

(** A project as [load_session] leaves every project but the active one:
    uninitialized, without subtab or tab widget, with the pending
    descriptors [ds] and the path [path]. *)
Definition lazy_project (ds : list SavedSubTab) (path : string) (p : Project)
  : Prop :=
  initialized p = false /\ subtabs p = [] /\ children (tabs_box p) = []
  /\ saved_subtabs p = ds /\ project_path p = path.

(** The project at [t], if there still is one, is such a project. *)
Definition lazy_at (t : nat) (ds : list SavedSubTab) (path : string)
  (a : AppState) : Prop :=
  match find_project a t with
  | Some p => lazy_project ds path p
  | None => True
  end.

(** A state change that leaves the project at [t] lazy, if it was, and
    brings no project to [t]. *)
Definition lazy_kept (t : nat) (a a' : AppState) : Prop :=
  forall ds path, lazy_at t ds path a -> lazy_at t ds path a'.

Lemma lazy_kept_refl : forall t a, lazy_kept t a a.
Proof. intros t a ds path H. exact H. Qed.

Lemma lazy_kept_trans : forall t a b c,
  lazy_kept t a b -> lazy_kept t b c -> lazy_kept t a c.
Proof. intros t a b c H1 H2 ds path H. apply H2, H1, H. Qed.

Lemma lazy_kept_same : forall t a a',
  projects a' = projects a -> lazy_kept t a a'.
Proof.
  intros t a a' E ds path H. unfold lazy_at, find_project in *.
  rewrite E. exact H.
Qed.

(** A write to another project, or one that keeps a lazy project lazy. *)
Lemma lazy_kept_update : forall t r f a,
  (forall p, project_ptr (f p) = project_ptr p) ->
  r <> t
  \/ (forall p ds path, lazy_project ds path p -> lazy_project ds path (f p)) ->
  lazy_kept t a (update_project r f a).
Proof.
  intros t r f a Hf Hs ds path H. unfold lazy_at in *.
  rewrite find_project_update by exact Hf.
  destruct (Nat.eqb_spec r t) as [E|E]; [|exact H].
  destruct Hs as [Hs|Hs]; [contradiction|].
  destruct (find_project a t) as [p|]; [|exact I]. cbn. apply Hs, H.
Qed.

Lemma unlink_subtab_lazy : forall s was_last p ds path,
  lazy_project ds path p -> lazy_project ds path (unlink_subtab s was_last p).
Proof.
  intros s was_last p ds path [A [B [C [D E]]]]. unfold unlink_subtab.
  set (p1 := set_subtabs _ _).
  assert (H1 : lazy_project ds path p1).
  { subst p1. unfold lazy_project. cbn. rewrite B, C. cbn. auto. }
  clearbody p1.
  assert (H2 : lazy_project ds path
                 (if is_active_subtab p1 s then set_active_subtab None p1
                  else p1)).
  { destruct (is_active_subtab p1 s); [|exact H1].
    destruct H1 as [A1 [B1 [C1 [D1 E1]]]]. repeat split; assumption. }
  destruct was_last; [|exact H2].
  destruct H2 as [A2 [B2 [C2 [D2 E2]]]]. repeat split; assumption.
Qed.

Ltac lazy_side :=
  first
    [ left; solve [assumption | congruence | auto]
    | right; intros ?p ?ds ?path; apply unlink_subtab_lazy
    | right;
      let A := fresh in let B := fresh in let C := fresh in
      let D := fresh in let E := fresh in
      intros ?p ?ds ?path [A [B [C [D E]]]];
      unfold lazy_project; cbn; rewrite ?B, ?C; cbn; repeat split;
      assumption ].

Ltac lazy_ptr :=
  first [ reflexivity
        | intros ?p; reflexivity
        | intros ?p; apply unlink_subtab_ptr ].

Lemma lazy_kept_create_subtab : forall t r name dir w,
  r <> t -> lazy_kept t (app w) (app (fst (create_subtab r name dir w))).
Proof.
  intros t r name dir w H. rewrite create_subtab_app.
  apply lazy_kept_update; [reflexivity|left; exact H].
Qed.

Lemma lazy_kept_fold_create_subtab : forall t r l w,
  r <> t ->
  lazy_kept t (app w)
    (app (fold_left
            (fun w saved =>
               fst (create_subtab r (saved_name saved) (working_dir saved) w))
            l w)).
Proof.
  intros t r l. induction l as [|x l IH]; intros w H; [apply lazy_kept_refl|].
  cbn [fold_left]. eapply lazy_kept_trans; [|apply IH, H].
  apply lazy_kept_create_subtab, H.
Qed.

Ltac lz :=
  repeat first
    [ apply lazy_kept_refl
    | match goal with
      | |- lazy_kept _ _ (update_project _ _ _) =>
          eapply lazy_kept_trans;
          [|apply lazy_kept_update; [lazy_ptr|lazy_side]]
      | |- lazy_kept _ _ (on_subtab_button_clicked _ _) =>
          unfold on_subtab_button_clicked
      | |- lazy_kept _ _ (rebuild_subtabs_list _ _) =>
          unfold rebuild_subtabs_list
      | |- lazy_kept _ _ (app (fst (create_subtab _ _ _ _))) =>
          eapply lazy_kept_trans;
          [|apply lazy_kept_create_subtab; solve [assumption | congruence]]
      | |- lazy_kept _ _ (app (fold_left _ _ _)) =>
          eapply lazy_kept_trans;
          [|apply lazy_kept_fold_create_subtab;
            solve [assumption | congruence]]
      | |- lazy_kept _ _ (app (on_app _ _)) => cbn [app on_app set_app]
      | |- lazy_kept _ _ (app (save_session _)) => cbn [app save_session]
      | |- lazy_kept _ _ (app (mkWorld _ _ _ _ _ _ _)) => cbn [app]
      | |- lazy_kept _ _ (set_active_project _ ?X) =>
          apply lazy_kept_trans with X; [|apply lazy_kept_same; reflexivity]
      | |- lazy_kept _ _ (set_sidebar _ ?X) =>
          apply lazy_kept_trans with X; [|apply lazy_kept_same; reflexivity]
      | |- lazy_kept _ _ (set_sort_mode _ ?X) =>
          apply lazy_kept_trans with X; [|apply lazy_kept_same; reflexivity]
      | |- lazy_kept _ _ (app (match ?x with _ => _ end)) => destruct x
      | |- lazy_kept _ _ (app (if ?x then _ else _)) => destruct x
      | |- lazy_kept _ _ (match ?x with _ => _ end) => destruct x
      | |- lazy_kept _ _ (if ?x then _ else _) => destruct x
      end ].

(** [on_project_selected] for another row. *)
Lemma on_project_selected_lazy_kept : forall row w t,
  row <> Some t -> lazy_kept t (app w) (app (on_project_selected row w)).
Proof.
  intros [r|] w t H; [|apply lazy_kept_refl].
  assert (Hr : r <> t) by congruence.
  unfold on_project_selected. cbv zeta. lz.
Qed.

Lemma gtk_list_box_select_row_lazy_kept : forall r w t,
  r <> t -> lazy_kept t (app w) (app (gtk_list_box_select_row r w)).
Proof.
  intros r w t H. unfold gtk_list_box_select_row.
  destruct (selected_row (sidebar (app w))) as [r0|];
    [destruct (Nat.eqb r0 r); [apply lazy_kept_refl|]|];
    (eapply lazy_kept_trans;
     [|apply on_project_selected_lazy_kept; congruence]); lz.
Qed.

Lemma close_subtab_lazy_kept : forall subtab w t,
  lazy_kept t (app w) (app (close_subtab subtab w)).
Proof.
  intros subtab w t. unfold close_subtab.
  destruct (close_subtab_guard subtab w) as [[st project]|];
    [|apply lazy_kept_refl].
  unfold close_subtab_rest, close_subtab_mark. lz.
Qed.

Lemma on_add_subtab_clicked_lazy_kept : forall r w t,
  r <> t -> lazy_kept t (app w) (app (on_add_subtab_clicked r w)).
Proof.
  intros r w t H. unfold on_add_subtab_clicked. cbv zeta. lz.
Qed.

Lemma on_tab_drag_begin_lazy_kept : forall r x picked w t,
  lazy_kept t (app w) (app (on_tab_drag_begin r x picked w)).
Proof. intros r x picked w t. unfold on_tab_drag_begin. lz. Qed.

Lemma reorder_on_crossing_nil : forall bounds d x prev,
  reorder_on_crossing bounds d x [] prev [] = [].
Proof. reflexivity. Qed.

Lemma on_tab_drag_update_lazy_kept : forall r x bounds w t,
  lazy_kept t (app w) (app (on_tab_drag_update r x bounds w)).
Proof.
  intros r x bounds w t. unfold on_tab_drag_update.
  destruct (find_project (app w) r) as [p|] eqn:Hp; [|apply lazy_kept_refl].
  destruct (drag_tab (tabs_box p)) as [d|]; [|apply lazy_kept_refl].
  destruct (drag_start_x (tabs_box p)) as [sx|]; [|apply lazy_kept_refl].
  destruct (_ && _); [apply lazy_kept_refl|].
  cbn [app on_app set_app].
  destruct (Nat.eq_dec r t) as [E|E].
  - subst r. intros ds path H. unfold lazy_at in *.
    rewrite find_project_update_same by reflexivity.
    rewrite Hp in *. cbn [option_map].
    destruct H as [A [B [C [D E]]]]. unfold lazy_project.
    destruct (drag_active (tabs_box p)); cbn; rewrite C; cbn; auto.
  - apply lazy_kept_update; [reflexivity|left; exact E].
Qed.

Lemma on_tab_drag_end_lazy_kept : forall r w t,
  lazy_kept t (app w) (app (on_tab_drag_end r w)).
Proof.
  intros r w t. unfold on_tab_drag_end.
  destruct (find_project (app w) r) as [p|]; [|apply lazy_kept_refl].
  lz.
Qed.

Lemma find_snoc : forall (A : Type) (f : A -> bool) l x,
  find f (l ++ [x])
  = match find f l with Some y => Some y
    | None => if f x then Some x else None end.
Proof.
  intros A f l x. induction l as [|y l IH]; cbn [List.app find];
    [reflexivity|]. destruct (f y); [reflexivity|exact IH].
Qed.

Lemma create_project_lazy_kept : forall name path init w t,
  t <> next_ptr w ->
  lazy_kept t (app w) (app (fst (create_project name path init w))).
Proof.
  intros name path init w t Ht. unfold create_project.
  set (ptr := next_ptr w) in *.
  set (project := set_insert_order _ _).
  set (a3 := set_active_project (Some ptr) _).
  assert (H3 : lazy_kept t (app w) a3).
  { intros ds pth H. unfold lazy_at, find_project in *. subst a3.
    cbn [projects set_active_project set_projects set_sidebar].
    rewrite find_snoc.
    destruct (find _ (projects (app w))); [exact H|].
    subst project. cbn [project_ptr set_insert_order].
    destruct (Nat.eqb_spec ptr t); [congruence|exact I]. }
  clearbody a3. assert (Hp : ptr <> t) by congruence.
  destruct init; cbn [fst]; [|exact H3].
  eapply lazy_kept_trans; [exact H3|].
  eapply lazy_kept_trans; [|apply gtk_list_box_select_row_lazy_kept, Hp].
  match goal with
  | |- lazy_kept _ _ (app ?W) =>
      change (lazy_kept t (app (mkWorld a3 (files w) (clock w) (S ptr)
                                  (spawned w) (saves w) (freed w))) (app W))
  end.
  lz.
Qed.

Lemma find_remove_project : forall l r t,
  NoDup (map project_ptr l) ->
  find (fun p => Nat.eqb (project_ptr p) t) (remove_project l r)
  = if Nat.eqb r t then None
    else find (fun p => Nat.eqb (project_ptr p) t) l.
Proof.
  induction l as [|p l IH]; intros r t Hn; [destruct (Nat.eqb r t); reflexivity|].
  cbn [map] in Hn. inversion Hn as [|x y Hx Hl]; subst.
  cbn [remove_project find].
  destruct (Nat.eqb_spec (project_ptr p) r) as [E|E].
  - destruct (Nat.eqb_spec r t) as [E2|E2].
    + subst. destruct (find _ l) as [q|] eqn:Hq; [|reflexivity].
      apply find_some in Hq. destruct Hq as [Hi Hq].
      apply Nat.eqb_eq in Hq. exfalso. apply Hx. rewrite <- Hq.
      apply in_map, Hi.
    + destruct (Nat.eqb_spec (project_ptr p) t); [congruence|reflexivity].
  - cbn [find]. rewrite IH by exact Hl.
    destruct (Nat.eqb_spec r t) as [E2|E2]; [|reflexivity].
    destruct (Nat.eqb_spec (project_ptr p) t); [congruence|reflexivity].
Qed.

(** What [gtk_list_box_remove] leaves alone. *)
Lemma gtk_list_box_remove_world : forall r w,
  projects (app (gtk_list_box_remove r w)) = projects (app w)
  /\ next_ptr (gtk_list_box_remove r w) = next_ptr w
  /\ spawned (gtk_list_box_remove r w) = spawned w.
Proof.
  intros r w. unfold gtk_list_box_remove.
  destruct (selected_row (sidebar (app w))) as [r0|];
    [destruct (Nat.eqb r0 r)|]; repeat split.
Qed.

(** The first shells of a lazy project: [on_project_selected] has made it
    the active project and has created and spawned one subtab per pending
    descriptor, or the default tab. *)
Definition activated_from (w : World) (t : nat) (q : Project) (w' : World)
  : Prop :=
  let ds := activation_descriptors q in
  spawned w'
  = spawned w
    ++ combine (seq (next_ptr w) (List.length ds)) (map working_dir ds)
  /\ active_project (app w') = Some t
  /\ exists q',
       find_project (app w') t = Some q'
       /\ initialized q' = true
       /\ map subtab_ptr (subtabs q') = seq (next_ptr w) (List.length ds)
       /\ map subtab_name (subtabs q') = map saved_name ds.

(** The first shell of a lazy project to which a tab is added. *)
Definition tab_added_from (w : World) (t : nat) (q : Project) (w' : World)
  : Prop :=
  spawned w' = spawned w ++ [(next_ptr w, project_path q)]
  /\ exists q',
       find_project (app w') t = Some q'
       /\ initialized q' = true
       /\ map subtab_ptr (subtabs q') = [next_ptr w]
       /\ map subtab_name (subtabs q') = ["Tab 1"].

Lemma on_project_selected_lazy : forall t w p q w0,
  find_project (app w) t = Some p ->
  lazy_project (saved_subtabs q) (project_path q) p ->
  next_ptr w = next_ptr w0 -> spawned w = spawned w0 ->
  activated_from w0 t q (on_project_selected (Some t) w).
Proof.
  intros t w p q w0 Hp [A [B [C [D E]]]] Hn Hs.
  destruct (on_project_selected_activates t w p Hp A B)
    as [S1 [S2 [p' [F1 [_ [_ [F2 [_ [_ [F3 F4]]]]]]]]]].
  assert (Ed : activation_descriptors p = activation_descriptors q).
  { unfold activation_descriptors. rewrite D, E. reflexivity. }
  rewrite Ed, Hn, Hs in *. unfold activated_from.
  split; [exact S1|]. split; [exact S2|]. exists p'. auto.
Qed.

Lemma gtk_list_box_select_row_lazy : forall t w p q w0,
  find_project (app w) t = Some p ->
  lazy_project (saved_subtabs q) (project_path q) p ->
  next_ptr w = next_ptr w0 -> spawned w = spawned w0 ->
  lazy_at t (saved_subtabs q) (project_path q)
    (app (gtk_list_box_select_row t w))
  \/ activated_from w0 t q (gtk_list_box_select_row t w).
Proof.
  intros t w p q w0 Hp Hl Hn Hs. unfold gtk_list_box_select_row.
  assert (K : forall box,
             activated_from w0 t q
               (on_project_selected (Some t) (on_app (set_sidebar box) w))).
  { intros box. apply (on_project_selected_lazy t _ p q w0);
      [exact Hp|exact Hl|exact Hn|exact Hs]. }
  destruct (selected_row (sidebar (app w))) as [r|]; [|right; apply K].
  destruct (Nat.eqb r t); [|right; apply K].
  left. unfold lazy_at. rewrite Hp. exact Hl.
Qed.

Lemma on_add_subtab_clicked_lazy : forall t w p q,
  find_project (app w) t = Some p ->
  lazy_project (saved_subtabs q) (project_path q) p ->
  tab_added_from w t q (on_add_subtab_clicked t w).
Proof.
  intros t w p q Hp [A [B [C [D E]]]].
  unfold on_add_subtab_clicked. rewrite Hp, A. cbn [negb]. cbv zeta.
  unfold tab_added_from. split; [cbn; rewrite E; reflexivity|].
  cbn [app on_app set_app].
  rewrite create_subtab_app. cbn [app on_app set_app next_ptr].
  rewrite !find_project_update_same by reflexivity. rewrite Hp.
  eexists. split; [reflexivity|]. cbn. rewrite B. auto.
Qed.

(** One event, at a state where the project at [t] is lazy or gone: the
    project stays lazy (or gone) unless the event delivers ["row-selected"]
    for it or is a click on one of its add-tab buttons. *)
Lemma lazy_step : forall w e t q,
  Inv w -> (t < next_ptr w)%nat ->
  lazy_at t (saved_subtabs q) (project_path q) (app w) ->
  lazy_at t (saved_subtabs q) (project_path q) (app (step w e))
  \/ (find_project (app w) t <> None
      /\ (e = EvProjectSelected (Some t) \/ e = EvRowClicked t
          \/ e = EvRemoveProjectClicked)
      /\ activated_from w t q (step w e))
  \/ (find_project (app w) t <> None
      /\ (e = EvAddSubtabClicked t \/ e = EvSidebarAddSubtabClicked t)
      /\ tab_added_from w t q (step w e)).
Proof.
  intros w e t q Hinv Ht Hl.
  assert (Keep : forall w', lazy_kept t (app w) (app w') ->
            lazy_at t (saved_subtabs q) (project_path q) (app w')).
  { intros w' Hk. apply Hk, Hl. }
  assert (Hadd : forall r,
            lazy_at t (saved_subtabs q) (project_path q)
              (app (on_add_subtab_clicked r w))
            \/ find_project (app w) t <> None /\ r = t
               /\ tab_added_from w t q (on_add_subtab_clicked r w)).
  { intros r. destruct (Nat.eq_dec r t) as [E|E].
    - subst r. destruct (find_project (app w) t) as [p|] eqn:Hp.
      + right. split; [discriminate|]. split; [reflexivity|].
        unfold lazy_at in Hl. rewrite Hp in Hl.
        apply (on_add_subtab_clicked_lazy t w p q Hp Hl).
      + left. unfold on_add_subtab_clicked. rewrite Hp. exact Hl.
    - left. apply Keep, on_add_subtab_clicked_lazy_kept, E. }
  assert (Hsel : forall w1,
            projects (app w1) = projects (app w) ->
            next_ptr w1 = next_ptr w -> spawned w1 = spawned w ->
            lazy_at t (saved_subtabs q) (project_path q)
              (app (on_project_selected (Some t) w1))
            \/ find_project (app w) t <> None
               /\ activated_from w t q (on_project_selected (Some t) w1)).
  { intros w1 E1 E2 E3.
    assert (Ef : find_project (app w1) t = find_project (app w) t).
    { unfold find_project. rewrite E1. reflexivity. }
    destruct (find_project (app w) t) as [p|] eqn:Hp.
    - right. split; [discriminate|].
      unfold lazy_at in Hl. rewrite Hp in Hl.
      apply (on_project_selected_lazy t w1 p q w Ef Hl E2 E3).
    - left. unfold on_project_selected. rewrite Ef.
      unfold lazy_at. rewrite Ef. exact I. }
  destruct e; cbn [step].
  - (* folder selected *)
    left. destruct folder as [[name path]|]; [|exact Hl].
    unfold on_folder_selected. cbn [app save_session].
    apply Keep, create_project_lazy_kept. lia.
  - (* remove *)
    unfold on_remove_project_clicked.
    destruct (active_project (app w)) as [a0|]; [|left; exact Hl].
    destruct (find_project (app w) a0) as [project|]; [|left; exact Hl].
    destruct (gtk_list_box_remove_world a0 w) as [R1 [R2 R3]].
    set (w1 := gtk_list_box_remove a0 w) in *. clearbody w1.
    cbn [app save_session next_ptr spawned].
    set (a2 := set_projects (remove_project (projects (app w1)) a0) (app w1)).
    assert (Hnd : NoDup (map project_ptr (projects (app w)))) by apply Hinv.
    assert (F2 : forall x, find_project a2 x
                           = if Nat.eqb a0 x then None
                             else find_project (app w) x).
    { intros x. subst a2. unfold find_project.
      cbn [projects set_projects]. rewrite R1.
      apply find_remove_project, Hnd. }
    assert (L2 : lazy_at t (saved_subtabs q) (project_path q) a2).
    { unfold lazy_at in *. rewrite F2.
      destruct (Nat.eqb a0 t); [exact I|exact Hl]. }
    clearbody a2.
    destruct (projects a2) as [|first rest] eqn:P2.
    + left. cbn [app on_app set_app save_session].
      unfold lazy_at, find_project in *.
      cbn [projects set_active_project]. rewrite P2. exact I.
    + set (w3 := on_app (set_active_project (Some (project_ptr first))) _).
      assert (L3 : lazy_at t (saved_subtabs q) (project_path q) (app w3)).
      { subst w3. cbn [app on_app set_app save_session].
        unfold lazy_at, find_project.
        cbn [projects set_active_project]. exact L2. }
      destruct (Nat.eq_dec (project_ptr first) t) as [E|E].
      * assert (F3 : find_project (app w3) t = Some first).
        { subst w3. cbn [app on_app set_app save_session].
          unfold find_project.
          cbn [projects set_active_project]. rewrite P2. cbn [find].
          rewrite E, Nat.eqb_refl. reflexivity. }
        assert (Hw : find_project (app w) t <> None).
        { pose proof (F2 t) as G. unfold find_project in G at 1.
          rewrite P2 in G. cbn [find] in G. rewrite E, Nat.eqb_refl in G.
          destruct (Nat.eqb a0 t); [discriminate|]. rewrite <- G.
          discriminate. }
        unfold lazy_at in L3. rewrite F3 in L3. rewrite E.
        destruct (gtk_list_box_select_row_lazy t w3 first q w F3 L3)
          as [K|K]; [exact R2|exact R3|left; exact K|].
        right. left. split; [exact Hw|]. split; [auto|exact K].
      * left.
        apply (gtk_list_box_select_row_lazy_kept (project_ptr first) w3 t E).
        exact L3.
  - (* row clicked *)
    destruct (mem row (rows (sidebar (app w)))); [|left; exact Hl].
    destruct (Nat.eq_dec row t) as [E|E].
    + subst row. destruct (find_project (app w) t) as [p|] eqn:Hp.
      * unfold lazy_at in Hl. rewrite Hp in Hl.
        destruct (gtk_list_box_select_row_lazy t w p q w Hp Hl eq_refl eq_refl)
          as [K|K]; [left; exact K|].
        right. left. split; [discriminate|]. split; [auto|exact K].
      * left. unfold gtk_list_box_select_row, on_project_selected.
        cbn [app on_app set_app].
        change (find_project (set_sidebar ?b (app w)) t)
          with (find_project (app w) t).
        rewrite Hp.
        destruct (selected_row (sidebar (app w))) as [r|];
          [destruct (Nat.eqb r t)|];
          unfold lazy_at; cbn [app on_app set_app];
          try change (find_project (set_sidebar ?b (app w)) t)
            with (find_project (app w) t);
          rewrite Hp; exact I.
    + left. apply Keep, gtk_list_box_select_row_lazy_kept, E.
  - (* row-selected delivered *)
    destruct row as [r|]; [|left; exact Hl].
    destruct (Nat.eq_dec r t) as [E|E].
    + subst r. destruct (Hsel w eq_refl eq_refl eq_refl) as [K|[K1 K2]];
        [left; exact K|].
      right. left. split; [exact K1|]. split; [auto|exact K2].
    + left. apply Keep, on_project_selected_lazy_kept. congruence.
  - destruct (Hadd project) as [K|[K1 [K2 K3]]]; [left; exact K|].
    subst project. right. right. auto.
  - unfold on_sidebar_add_subtab_clicked.
    destruct (Hadd project) as [K|[K1 [K2 K3]]]; [left; exact K|].
    subst project. right. right. auto.
  - left. destruct (find_subtab (app w) subtab) as [st|]; [|exact Hl].
    apply Keep. lz.
  - left. apply Keep, close_subtab_lazy_kept.
  - left. unfold on_terminal_child_exited.
    destruct (find_subtab (app w) subtab) as [st|]; [|exact Hl].
    destruct (closing st); [exact Hl|]. apply Keep, close_subtab_lazy_kept.
  - left. unfold on_terminal_title_changed.
    destruct title as [[|c s]|]; try exact Hl.
    destruct (find_subtab (app w) subtab) as [st|]; [|exact Hl].
    apply Keep. lz.
  - left. apply Keep. unfold on_sort_clicked. cbn [app save_session set_app].
    apply lazy_kept_same. unfold apply_sort. reflexivity.
  - left. apply Keep, on_tab_drag_begin_lazy_kept.
  - left. apply Keep, on_tab_drag_update_lazy_kept.
  - left. apply Keep, on_tab_drag_end_lazy_kept.
  - left. exact Hl.
  - left. destruct (find_subtab (app w) subtab) as [st|]; [|exact Hl].
    apply Keep. lz.
Qed.

(** ** The shells of a step *)

(** The shells [w'] has spawned since [w] run in subtabs that [w'] links,
    and [w'] links every subtab that [w] links. *)
Definition spawns_linked (w w' : World) : Prop :=
  (exists new,
      spawned w' = spawned w ++ new
      /\ forall s, In s (map fst new) -> In s (live (app w')))
  /\ forall s, In s (live (app w)) -> In s (live (app w')).

Lemma spawns_linked_refl : forall w, spawns_linked w w.
Proof.
  intros w. split; [|auto]. exists []. rewrite app_nil_r.
  split; [reflexivity|intros s []].
Qed.

Lemma spawns_linked_trans : forall a b c,
  spawns_linked a b -> spawns_linked b c -> spawns_linked a c.
Proof.
  intros a b c [[n1 [A1 A2]] A3] [[n2 [B1 B2]] B3]. split; [|auto].
  exists (n1 ++ n2). split; [rewrite B1, A1, app_assoc; reflexivity|].
  intros s Hs. rewrite map_app in Hs. apply in_app_or in Hs.
  destruct Hs as [Hs|Hs]; auto.
Qed.

Lemma live_update_keeps : forall t f a,
  (forall q, map subtab_ptr (subtabs (f q)) = map subtab_ptr (subtabs q)) ->
  live (update_project t f a) = live a.
Proof.
  intros t f a H. unfold live, all_subtabs. rewrite projects_update.
  induction (projects a) as [|q l IH]; [reflexivity|].
  cbn [map flat_map]. rewrite !map_app, IH. f_equal.
  unfold upd. destruct (Nat.eqb (project_ptr q) t); [apply H|reflexivity].
Qed.

Lemma spawns_linked_update : forall t f w,
  (forall q, map subtab_ptr (subtabs (f q)) = map subtab_ptr (subtabs q)) ->
  spawns_linked w (on_app (update_project t f) w).
Proof.
  intros t f w H. split.
  - exists []. cbn [spawned on_app set_app]. rewrite app_nil_r.
    split; [reflexivity|intros s []].
  - cbn [app on_app set_app]. rewrite live_update_keeps by exact H. auto.
Qed.

Lemma spawns_linked_app_only : forall f w,
  (forall a, projects (f a) = projects a) -> spawns_linked w (on_app f w).
Proof.
  intros f w H. split.
  - exists []. cbn [spawned on_app set_app]. rewrite app_nil_r.
    split; [reflexivity|intros s []].
  - cbn [app on_app set_app]. unfold live, all_subtabs. rewrite H. auto.
Qed.

Lemma spawns_linked_save_session : forall w, spawns_linked w (save_session w).
Proof.
  intros w. split; [|auto]. exists []. cbn [spawned save_session].
  rewrite app_nil_r. split; [reflexivity|intros s []].
Qed.

Lemma live_attach : forall t st a s,
  In s (live (update_project t (attach_subtab st) a)) <->
  In s (live a) \/ (s = subtab_ptr st /\ find_project a t <> None).
Proof.
  intros t st a s. unfold live, all_subtabs, find_project.
  rewrite projects_update.
  induction (projects a) as [|q l IH].
  - cbn. split; [intros []|intros [[]|[_ H]]; congruence].
  - cbn [map flat_map find]. rewrite !map_app, !in_app_iff, IH.
    unfold upd. destruct (Nat.eqb (project_ptr q) t).
    + unfold attach_subtab. cbn. rewrite map_app, in_app_iff. cbn.
      assert (Some q <> None) by discriminate.
      intuition (subst; auto).
    + tauto.
Qed.

Lemma spawns_linked_create_subtab : forall t name dir w,
  find_project (app w) t <> None ->
  spawns_linked w (fst (create_subtab t name dir w)).
Proof.
  intros t name dir w Hf. split.
  - exists [(next_ptr w, dir)]. split; [reflexivity|].
    intros s [Hs|[]]. cbn [fst] in Hs. subst s.
    rewrite create_subtab_app. apply live_attach. right. split; auto.
  - intros s Hs. rewrite create_subtab_app. apply live_attach. auto.
Qed.

Lemma find_project_create_subtab : forall t name dir w r,
  find_project (app w) r <> None ->
  find_project (app (fst (create_subtab t name dir w))) r <> None.
Proof.
  intros t name dir w r H. rewrite create_subtab_app.
  rewrite find_project_update by reflexivity.
  destruct (Nat.eqb t r); [|exact H].
  destruct (find_project (app w) r); [discriminate|exact H].
Qed.

Lemma spawns_linked_fold_create_subtab : forall t l w,
  find_project (app w) t <> None ->
  spawns_linked w
    (fold_left
       (fun w saved =>
          fst (create_subtab t (saved_name saved) (working_dir saved) w))
       l w).
Proof.
  intros t l. induction l as [|sv l IH]; intros w Hf;
    [apply spawns_linked_refl|].
  cbn [fold_left]. eapply spawns_linked_trans; [|apply IH].
  - apply spawns_linked_create_subtab, Hf.
  - apply find_project_create_subtab, Hf.
Qed.

(** Peels the writes that keep the set of linked subtabs. *)
Ltac spl :=
  repeat first
    [ apply spawns_linked_refl
    | match goal with
      | |- spawns_linked _ (on_app (update_project _ _) _) =>
          eapply spawns_linked_trans;
          [|apply spawns_linked_update; reflexivity]
      | |- spawns_linked _ (on_app (on_subtab_button_clicked _) _) =>
          eapply spawns_linked_trans;
          [|apply spawns_linked_update; reflexivity]
      | |- spawns_linked _ (on_app (set_active_project _) _) =>
          eapply spawns_linked_trans;
          [|apply spawns_linked_app_only; reflexivity]
      | |- spawns_linked _ (on_app (set_sidebar _) _) =>
          eapply spawns_linked_trans;
          [|apply spawns_linked_app_only; reflexivity]
      | |- spawns_linked _ (save_session _) =>
          eapply spawns_linked_trans; [|apply spawns_linked_save_session]
      | |- spawns_linked _ (match ?x with _ => _ end) => destruct x
      | |- spawns_linked _ (if ?x then _ else _) => destruct x
      end ].

Lemma on_project_selected_spawns : forall row w,
  spawns_linked w (on_project_selected row w).
Proof.
  intros row w. unfold on_project_selected.
  destruct row as [t|]; [|apply spawns_linked_refl].
  destruct (find_project (app w) t) as [p|] eqn:Hp;
    [|apply spawns_linked_refl].
  assert (H0 : find_project
                 (app (on_app (update_project t (set_last_used (clock w)))
                         (on_app (set_active_project (Some t)) w))) t
               <> None).
  { cbn [app on_app set_app].
    rewrite find_project_update_same by reflexivity.
    change (find_project (set_active_project (Some t) (app w)) t)
      with (find_project (app w) t). rewrite Hp. discriminate. }
  cbv zeta.
  destruct (g_list_index (map project_ptr (projects (app w))) t >=? 0);
    [|apply spawns_linked_refl].
  destruct (negb (initialized p)); [|spl].
  eapply spawns_linked_trans; [|apply spawns_linked_update; reflexivity].
  destruct (saved_subtabs p) as [|sv l].
  - eapply spawns_linked_trans; [|apply spawns_linked_update; reflexivity].
    eapply spawns_linked_trans; [|apply spawns_linked_create_subtab, H0].
    spl.
  - eapply spawns_linked_trans; [|apply spawns_linked_update; reflexivity].
    match goal with
    | |- spawns_linked _ (match ?x with _ => _ end) =>
        destruct x as [p'|];
        [destruct (g_list_nth (subtabs p') (to_guint (saved_active_subtab p')))|]
    end.
    all: repeat (eapply spawns_linked_trans;
                 [|apply spawns_linked_update; reflexivity]).
    all: (eapply spawns_linked_trans;
          [|apply spawns_linked_fold_create_subtab, H0]); spl.
Qed.

Lemma gtk_list_box_select_row_spawns : forall row w,
  spawns_linked w (gtk_list_box_select_row row w).
Proof.
  intros row w. unfold gtk_list_box_select_row.
  destruct (selected_row (sidebar (app w))) as [r|];
    [destruct (Nat.eqb r row); [apply spawns_linked_refl|]|];
    (eapply spawns_linked_trans; [|apply on_project_selected_spawns]); spl.
Qed.

Lemma on_add_subtab_clicked_spawns : forall t w,
  spawns_linked w (on_add_subtab_clicked t w).
Proof.
  intros t w. unfold on_add_subtab_clicked.
  destruct (find_project (app w) t) as [p|] eqn:Hp;
    [|apply spawns_linked_refl].
  assert (H0 : forall f, (forall q, project_ptr (f q) = project_ptr q) ->
                         find_project (app (on_app (update_project t f) w)) t
                         <> None).
  { intros f Hf. cbn [app on_app set_app].
    rewrite find_project_update_same by exact Hf. rewrite Hp.
    discriminate. }
  cbv zeta. destruct (negb (initialized p)).
  - do 2 (eapply spawns_linked_trans;
          [|apply spawns_linked_update; reflexivity]).
    eapply spawns_linked_trans;
      [|apply spawns_linked_create_subtab, H0; reflexivity].
    spl.
  - eapply spawns_linked_trans;
      [|apply spawns_linked_create_subtab, H0; reflexivity].
    spl.
Qed.

Lemma create_project_spawns : forall name path init w,
  ptrs_below w ->
  spawns_linked w (fst (create_project name path init w)).
Proof.
  intros name path init w Hb. unfold create_project.
  set (project := set_insert_order _ _).
  set (w1 := mkWorld _ _ _ _ _ _ _).
  assert (H1 : spawns_linked w w1).
  { subst w1. split.
    - exists []. cbn [spawned]. rewrite app_nil_r.
      split; [reflexivity|intros s []].
    - intros s Hs. unfold live, all_subtabs in *. cbn.
      rewrite flat_map_app, map_app. apply in_or_app. left. exact Hs. }
  assert (F1 : find_project (app w1) (next_ptr w) <> None).
  { rewrite (find_project_new (app w1) (projects (app w)) project (next_ptr w));
      [discriminate|reflexivity|exact Hb|reflexivity]. }
  clearbody w1. destruct init; cbn [fst]; [|exact H1].
  eapply spawns_linked_trans; [exact H1|].
  eapply spawns_linked_trans; [|apply gtk_list_box_select_row_spawns].
  do 2 (eapply spawns_linked_trans;
        [|apply spawns_linked_update; reflexivity]).
  apply spawns_linked_create_subtab, F1.
Qed.

Lemma close_subtab_spawned : forall subtab w,
  spawned (close_subtab subtab w) = spawned w.
Proof.
  intros subtab w. unfold close_subtab.
  destruct (close_subtab_guard subtab w) as [[st project]|]; reflexivity.
Qed.

(** Every shell a step spawns runs in a subtab that is linked when the step
    has returned. *)
Lemma step_spawns : forall w e,
  Inv w ->
  exists new,
    spawned (step w e) = spawned w ++ new
    /\ forall s, In s (map fst new) -> In s (live (app (step w e))).
Proof.
  intros w e Hinv.
  assert (Same : forall w', spawned w' = spawned w ->
            exists new,
              spawned w' = spawned w ++ new
              /\ forall s, In s (map fst new) -> In s (live (app w'))).
  { intros w' E. exists []. rewrite app_nil_r.
    split; [exact E|intros s []]. }
  assert (Linked : forall w', spawns_linked w w' ->
            exists new,
              spawned w' = spawned w ++ new
              /\ forall s, In s (map fst new) -> In s (live (app w'))).
  { intros w' [H _]. exact H. }
  destruct e; cbn [step].
  - destruct folder as [[name path]|]; [|apply Same; reflexivity].
    apply Linked. unfold on_folder_selected.
    eapply spawns_linked_trans; [|apply spawns_linked_save_session].
    apply create_project_spawns, Inv_ptrs_below, Hinv.
  - unfold on_remove_project_clicked.
    destruct (active_project (app w)) as [a0|]; [|apply Same; reflexivity].
    destruct (find_project (app w) a0) as [project|];
      [|apply Same; reflexivity].
    destruct (gtk_list_box_remove_world a0 w) as [_ [_ R3]].
    set (w1 := gtk_list_box_remove a0 w) in *. clearbody w1. cbv zeta.
    set (w2 := save_session _).
    assert (E2 : spawned w2 = spawned w) by exact R3.
    clearbody w2.
    destruct (projects (app w2)) as [|first rest];
      [apply Same; exact E2|].
    rewrite <- E2.
    assert (L : spawns_linked w2
                  (gtk_list_box_select_row (project_ptr first)
                     (on_app (set_active_project (Some (project_ptr first)))
                        w2))).
    { eapply spawns_linked_trans; [|apply gtk_list_box_select_row_spawns].
      spl. }
    destruct L as [L _]. exact L.
  - destruct (mem row (rows (sidebar (app w)))); [|apply Same; reflexivity].
    apply Linked, gtk_list_box_select_row_spawns.
  - apply Linked, on_project_selected_spawns.
  - apply Linked, on_add_subtab_clicked_spawns.
  - apply Linked, on_add_subtab_clicked_spawns.
  - apply Same. destruct (find_subtab (app w) subtab); reflexivity.
  - apply Same, close_subtab_spawned.
  - apply Same. unfold on_terminal_child_exited.
    destruct (find_subtab (app w) subtab) as [st|]; [|reflexivity].
    destruct (closing st); [reflexivity|apply close_subtab_spawned].
  - apply Same. unfold on_terminal_title_changed.
    destruct title as [[|c s]|]; try reflexivity.
    destruct (find_subtab (app w) subtab); reflexivity.
  - apply Same. reflexivity.
  - apply Same. unfold on_tab_drag_begin.
    destruct (is_close_button_hit picked); [reflexivity|].
    destruct (find_tab_button_ancestor picked); reflexivity.
  - apply Same. unfold on_tab_drag_update.
    destruct (find_project (app w) project) as [p|]; [|reflexivity].
    destruct (drag_tab (tabs_box p)); [|reflexivity].
    destruct (drag_start_x (tabs_box p)); [|reflexivity].
    destruct (negb (drag_active (tabs_box p))
              && double_lt (fabs offset_x) (double_of_Z 6)); reflexivity.
  - apply Same. unfold on_tab_drag_end.
    destruct (find_project (app w) project) as [p|]; [|reflexivity].
    destruct (drag_tab (tabs_box p)); [|reflexivity].
    destruct (drag_active (tabs_box p)); reflexivity.
  - apply Same. reflexivity.
  - apply Same. destruct (find_subtab (app w) subtab); reflexivity.
Qed.

(** ** Laziness over a run *)

Lemma close_subtab_next_ptr : forall subtab w,
  next_ptr (close_subtab subtab w) = next_ptr w.
Proof.
  intros subtab w. unfold close_subtab.
  destruct (close_subtab_guard subtab w) as [[st project]|]; reflexivity.
Qed.

(** No handler gives an address back. *)
Lemma step_next_ptr : forall w e, (next_ptr w <= next_ptr (step w e))%nat.
Proof.
  intros w e. pose proof (step_grows w e) as G.
  destruct e; try exact (proj1 (proj2 G)); clear G; cbn [step].
  - unfold on_remove_project_clicked.
    destruct (active_project (app w)) as [a0|]; [|lia].
    destruct (find_project (app w) a0) as [project|]; [|lia].
    destruct (gtk_list_box_remove_world a0 w) as [_ [R2 _]].
    set (w1 := gtk_list_box_remove a0 w) in *. clearbody w1. cbv zeta.
    set (w2 := save_session _).
    assert (E2 : next_ptr w2 = next_ptr w) by exact R2.
    clearbody w2. rewrite <- E2.
    destruct (projects (app w2)) as [|first rest]; [cbn; lia|].
    apply (gtk_list_box_select_row_grows (project_ptr first)
             (on_app (set_active_project (Some (project_ptr first))) w2)).
  - unfold on_close_subtab_clicked. rewrite close_subtab_next_ptr. lia.
  - unfold on_terminal_child_exited.
    destruct (find_subtab (app w) subtab) as [st|]; [|lia].
    destruct (closing st); [lia|]. rewrite close_subtab_next_ptr. lia.
Qed.

(** Every shell spawned between [w] and [w'] runs in a subtab that [w']
    links in a project other than the one at [t]. *)
Definition spawns_elsewhere (t : nat) (w w' : World) : Prop :=
  exists new,
    spawned w' = spawned w ++ new
    /\ forall s dir, In (s, dir) new ->
         exists p st,
           In p (projects (app w')) /\ project_ptr p <> t
           /\ In st (subtabs p) /\ subtab_ptr st = s
           /\ parent_tab st = project_ptr p.

Lemma lazy_spawns_elsewhere : forall t ds path w w',
  Inv w' -> lazy_at t ds path (app w') ->
  (exists new,
      spawned w' = spawned w ++ new
      /\ forall s, In s (map fst new) -> In s (live (app w'))) ->
  spawns_elsewhere t w w'.
Proof.
  intros t ds path w w' [[Hl [Hn _]] _] Hlazy [new [E H]].
  exists new. split; [exact E|]. intros s dir Hin.
  assert (Hs : In s (live (app w'))).
  { apply H. change s with (fst (s, dir)). apply in_map, Hin. }
  unfold live, all_subtabs in Hs. apply in_map_iff in Hs.
  destruct Hs as [st [Es Hst]]. apply in_flat_map in Hst.
  destruct Hst as [p [Hp Hst]]. exists p, st.
  split; [exact Hp|]. split.
  - intros Et. pose proof (find_project_unique _ _ Hn Hp) as Hf.
    rewrite Et in Hf. unfold lazy_at in Hlazy. rewrite Hf in Hlazy.
    destruct Hlazy as [_ [B _]]. rewrite B in Hst. destruct Hst.
  - split; [exact Hst|]. split; [exact Es|].
    rewrite Forall_forall in Hl. destruct (Hl p Hp) as [_ [Hpar _]].
    rewrite Forall_forall in Hpar. apply Hpar. apply in_map, Hst.
Qed.

(** The project at [t] goes through [events] without a terminal: after
    each of them it still is as [load_session] made it (or has been
    removed), and the shells the event has spawned belong to other
    projects. *)
Definition lazy_through (t : nat) (q : Project) (w : World)
  (events : list Event) : Prop :=
  forall pre e post,
    events = pre ++ e :: post ->
    lazy_at t (saved_subtabs q) (project_path q)
      (app (step (fold_left step pre w) e))
    /\ spawns_elsewhere t (fold_left step pre w)
         (step (fold_left step pre w) e).

(** The first shells of the project at [t] during [events]: none at all, or
    those of the first event that selects the project (a click on its row,
    any delivery of ["row-selected"] for it, or the removal of the active
    project when it is the first that remains) or that adds a tab to it. *)
Definition first_shells (t : nat) (q : Project) (w : World)
  (events : list Event) : Prop :=
  lazy_through t q w events
  \/ exists pre e post,
       events = pre ++ e :: post
       /\ lazy_through t q w pre
       /\ (exists p,
              find_project (app (fold_left step pre w)) t = Some p
              /\ lazy_project (saved_subtabs q) (project_path q) p)
       /\ (((e = EvProjectSelected (Some t) \/ e = EvRowClicked t
             \/ e = EvRemoveProjectClicked)
            /\ activated_from (fold_left step pre w) t q
                 (step (fold_left step pre w) e))
           \/ ((e = EvAddSubtabClicked t \/ e = EvSidebarAddSubtabClicked t)
               /\ tab_added_from (fold_left step pre w) t q
                    (step (fold_left step pre w) e))).

Lemma lazy_through_nil : forall t q w, lazy_through t q w [].
Proof.
  intros t q w pre e post H. destruct pre; discriminate H.
Qed.

Lemma lazy_through_cons : forall t q w e events,
  lazy_at t (saved_subtabs q) (project_path q) (app (step w e)) ->
  spawns_elsewhere t w (step w e) ->
  lazy_through t q (step w e) events ->
  lazy_through t q w (e :: events).
Proof.
  intros t q w e events H1 H2 H3 pre e' post E.
  destruct pre as [|e0 pre]; cbn [List.app] in E; inversion E; subst.
  - cbn [fold_left]. auto.
  - cbn [fold_left]. apply (H3 pre e' post eq_refl).
Qed.

Lemma lazy_run : forall events w t q,
  Inv w -> (t < next_ptr w)%nat ->
  lazy_at t (saved_subtabs q) (project_path q) (app w) ->
  first_shells t q w events.
Proof.
  induction events as [|e events IH]; intros w t q Hinv Ht Hl.
  { left. apply lazy_through_nil. }
  assert (Hpre : find_project (app w) t <> None ->
            exists p, find_project (app w) t = Some p
                      /\ lazy_project (saved_subtabs q) (project_path q) p).
  { intros Hf. unfold lazy_at in Hl.
    destruct (find_project (app w) t) as [p|]; [|congruence].
    exists p. auto. }
  destruct (lazy_step w e t q Hinv Ht Hl) as [K|[[K1 [K2 K3]]|[K1 [K2 K3]]]].
  - assert (Hinv' : Inv (step w e)) by apply step_Inv, Hinv.
    assert (Ht' : (t < next_ptr (step w e))%nat).
    { pose proof (step_next_ptr w e). lia. }
    assert (Hsp : spawns_elsewhere t w (step w e)).
    { eapply lazy_spawns_elsewhere; [exact Hinv'|exact K|].
      apply step_spawns, Hinv. }
    destruct (IH (step w e) t q Hinv' Ht' K)
      as [A|[pre [e' [post [E [A [B C]]]]]]].
    + left. apply lazy_through_cons; assumption.
    + right. exists (e :: pre), e', post. cbn [fold_left].
      split; [rewrite E; reflexivity|].
      split; [apply lazy_through_cons; assumption|]. auto.
  - right. exists [], e, events. cbn [fold_left].
    split; [reflexivity|]. split; [apply lazy_through_nil|].
    split; [apply Hpre, K1|]. left. auto.
  - right. exists [], e, events. cbn [fold_left].
    split; [reflexivity|]. split; [apply lazy_through_nil|].
    split; [apply Hpre, K1|]. right. auto.
Qed.

(** A project that [load_session] has left uninitialized is lazy when
    [activate] returns. *)
Lemma Inv_lazy : forall w q,
  Inv w -> In q (projects (app w)) -> initialized q = false ->
  find_project (app w) (project_ptr q) = Some q
  /\ lazy_project (saved_subtabs q) (project_path q) q
  /\ (project_ptr q < next_ptr w)%nat.
Proof.
  intros w q [[Hl [Hn _]] Hok] Hq Hi.
  split; [apply find_project_unique; assumption|].
  rewrite Forall_forall in Hl, Hok.
  destruct (Hl q Hq) as [Hperm [_ [_ Hlt]]].
  assert (Hs : subtabs q = []).
  { destruct (Hok q Hq) as [[A _]|[_ B]]; [congruence|exact B]. }
  split; [|exact Hlt].
  unfold lazy_project. rewrite Hs in Hperm. cbn [map] in Hperm.
  apply Permutation_nil in Hperm. auto.
Qed.

(** ** C3: the first shells of a restored project *)

(** C3 (amended). When [load_session] restores a parsed session, the loop
    that creates the projects spawns nothing; when it has returned, every
    project other than the active one is uninitialized without live subtab,
    and every shell spawned so far belongs to a subtab of the active
    project, which the final selection has initialized through
    [on_project_selected].  Selecting a project that is still uninitialized
    spawns one shell per pending descriptor (or one for the default tab),
    adding a tab to it spawns one.  And this is the only way: whatever the
    events that follow start-up, a project that [load_session] has left
    uninitialized stays uninitialized, without subtab or tab widget and
    with its pending descriptors, after every event (unless it is removed),
    and every shell such an event spawns runs in a subtab of another
    project -- until the first event that delivers ["row-selected"] for it
    (a click on its row, the signal itself, or the removal of the active
    project when this one is the first that remains), which spawns exactly
    the shells of its pending descriptors (or the one of the default tab)
    for its new subtabs, or the first click on one of its two add-tab
    buttons, which spawns exactly one shell in the project's path for its
    new subtab "Tab 1". *)
Theorem load_session_lazy : forall f now root,
  session_json f = Some (Parsed root) ->
  let w := load_session (fresh_world f now) in
  (forall arr w0, spawned (fold_left load_project arr w0) = spawned w0)
  /\ (forall p, In p (projects (app w)) ->
                active_project (app w) <> Some (project_ptr p) ->
                initialized p = false /\ subtabs p = [])
  /\ (forall s dir, In (s, dir) (spawned w) ->
        exists p st,
          In p (projects (app w))
          /\ active_project (app w) = Some (project_ptr p)
          /\ initialized p = true
          /\ In st (subtabs p) /\ subtab_ptr st = s)
  /\ (forall p, In p (projects (app w)) -> initialized p = false ->
        spawned (on_project_selected (Some (project_ptr p)) w)
        = spawned w
          ++ combine (seq (next_ptr w)
                        (List.length (activation_descriptors p)))
               (map working_dir (activation_descriptors p))
        /\ spawned (on_add_subtab_clicked (project_ptr p) w)
           = spawned w ++ [(next_ptr w, project_path p)])
  /\ (forall p, In p (projects (app w)) -> initialized p = false ->
        forall events,
          first_shells (project_ptr p) p (activate f now) events).
Proof.
  intros f now root Hf w.
  destruct (load_session_state f now root Hf) as [A [B [C D]]].
  split; [exact A|]. split; [exact B|]. split; [exact C|].
  split; [exact D|].
  intros p Hp Hi events.
  assert (Hinv : Inv w) by (apply load_session_Inv, fresh_world_Inv).
  destruct (Inv_lazy w p Hinv Hp Hi) as [Hfind [Hlazy Hlt]].
  apply lazy_run; [apply activate_Inv|exact Hlt|].
  unfold lazy_at.
  change (find_project (app (activate f now)) (project_ptr p))
    with (find_project (app w) (project_ptr p)).
  rewrite Hfind. exact Hlazy.
Qed.

Lemma load_session_lazy_witness :
  session_json (files (run no_files 0 two_projects))
  = Some (Parsed (Some (session_root (app (run no_files 0 two_projects)))))
  /\ In restarted_first
       (projects
          (app (load_session
                  (fresh_world (files (run no_files 0 two_projects)) 5))))
  /\ initialized restarted_first = false
  /\ first_shells 0 restarted_first restarted
       [EvSortClicked; EvAddSubtabClicked 1; EvRowClicked 0].
Proof.
  assert (Hin : In restarted_first
                  (projects
                     (app (load_session
                             (fresh_world
                                (files (run no_files 0 two_projects)) 5)))))
    by (vm_compute; left; reflexivity).
  split; [reflexivity|]. split; [exact Hin|]. split; [reflexivity|].
  exact (proj2 (proj2 (proj2 (proj2
           (load_session_lazy (files (run no_files 0 two_projects)) 5
              (Some (session_root (app (run no_files 0 two_projects))))
              eq_refl))))
           restarted_first Hin eq_refl
           [EvSortClicked; EvAddSubtabClicked 1; EvRowClicked 0]).
Defined.

(** After the restart of the two-project session the project "a" has no
    shell; sorting the sidebar and adding a tab to the other project spawn
    none for it; the click on its row spawns the shell of its one saved
    tab. *)
Example restored_project_first_shell :
  spawned restarted = [(2%nat, "/home/u/b")]
  /\ spawned (run (files (run no_files 0 two_projects)) 5
                [EvSortClicked; EvAddSubtabClicked 1])
     = [(2%nat, "/home/u/b"); (3%nat, "/home/u/b")]
  /\ spawned (run (files (run no_files 0 two_projects)) 5
                [EvSortClicked; EvAddSubtabClicked 1; EvRowClicked 0])
     = [(2%nat, "/home/u/b"); (3%nat, "/home/u/b"); (4%nat, "/home/u/a")].
Proof. vm_compute. auto. Qed.

(** * Built-in themes and the theme file *)

(** [themes.h] and the part of [main.c] that picks a theme: the preset
    table, [find_builtin_theme], [load_builtin_theme], [save_theme_name],
    [load_theme_name], the theme dropdown of the settings panel and the two
    lines of [activate] that load the theme at start-up. *)

Module Themes.

Record ThemePreset : Type := mkThemePreset {
  name : string;
  variant : string;
  foreground : string;
  background : string;
  cursor : string;
  palette : list string
}.

Definition builtin_themes : list ThemePreset :=
  [
    mkThemePreset "Dracula" "dark" "#F8F8F2" "#282A36" "#F8F8F2"
      [
        "#262626"; "#FF5555"; "#50FA7B"; "#F1FA8C";
        "#BD93F9"; "#FF79C6"; "#8BE9FD"; "#F8F8F2";
        "#7A7A7A"; "#FF6E6E"; "#69FF94"; "#FFFFA5";
        "#D6ACFF"; "#FF92DF"; "#A4FFFF"; "#FFFFFF" ];
    mkThemePreset "Nord" "dark" "#D8DEE9" "#2E3440" "#D8DEE9"
      [
        "#3B4252"; "#BF616A"; "#A3BE8C"; "#EBCB8B";
        "#81A1C1"; "#B48EAD"; "#88C0D0"; "#E5E9F0";
        "#4C566A"; "#BF616A"; "#A3BE8C"; "#EBCB8B";
        "#81A1C1"; "#B48EAD"; "#8FBCBB"; "#ECEFF4" ];
    mkThemePreset "Nord Light" "light" "#2E3440" "#ECEFF4" "#2E3440"
      [
        "#2E3440"; "#BF616A"; "#A3BE8C"; "#EBCB8B";
        "#81A1C1"; "#B48EAD"; "#88C0D0"; "#D8DEE9";
        "#4C566A"; "#BF616A"; "#A3BE8C"; "#EBCB8B";
        "#81A1C1"; "#B48EAD"; "#8FBCBB"; "#ECEFF4" ];
    mkThemePreset "Catppuccin Mocha" "dark" "#CDD6F4" "#1E1E2E" "#F5E0DC"
      [
        "#45475A"; "#F38BA8"; "#A6E3A1"; "#F9E2AF";
        "#89B4FA"; "#F5C2E7"; "#94E2D5"; "#BAC2DE";
        "#585B70"; "#F38BA8"; "#A6E3A1"; "#F9E2AF";
        "#89B4FA"; "#F5C2E7"; "#94E2D5"; "#A6ADC8" ];
    mkThemePreset "Catppuccin Latte" "light" "#4C4F69" "#EFF1F5" "#DC8A78"
      [
        "#5C5F77"; "#D20F39"; "#40A02B"; "#DF8E1D";
        "#1E66F5"; "#EA76CB"; "#179299"; "#ACB0BE";
        "#6C6F85"; "#D20F39"; "#40A02B"; "#DF8E1D";
        "#1E66F5"; "#EA76CB"; "#179299"; "#BCC0CC" ];
    mkThemePreset "Catppuccin Frappe" "dark" "#C6D0F5" "#303446" "#F2D5CF"
      [
        "#51576D"; "#E78284"; "#A6D189"; "#E5C890";
        "#8CAAEE"; "#F4B8E4"; "#81C8BE"; "#B5BFE2";
        "#626880"; "#E78284"; "#A6D189"; "#E5C890";
        "#8CAAEE"; "#F4B8E4"; "#81C8BE"; "#A5ADCE" ];
    mkThemePreset "Catppuccin Macchiato" "dark" "#CAD3F5" "#24273A" "#F4DBD6"
      [
        "#494D64"; "#ED8796"; "#A6DA95"; "#EED49F";
        "#8AADF4"; "#F5BDE6"; "#8BD5CA"; "#B8C0E0";
        "#5B6078"; "#ED8796"; "#A6DA95"; "#EED49F";
        "#8AADF4"; "#F5BDE6"; "#8BD5CA"; "#A5ADCB" ];
    mkThemePreset "Gruvbox Dark" "dark" "#EBDBB2" "#282828" "#EBDBB2"
      [
        "#282828"; "#CC241D"; "#98971A"; "#D79921";
        "#458588"; "#B16286"; "#689D6A"; "#A89984";
        "#928374"; "#FB4934"; "#B8BB26"; "#FABD2F";
        "#83A598"; "#D3869B"; "#8EC07C"; "#EBDBB2" ];
    mkThemePreset "Gruvbox Light" "light" "#3C3836" "#FBF1C7" "#3C3836"
      [
        "#FBF1C7"; "#CC241D"; "#98971A"; "#D79921";
        "#458588"; "#B16286"; "#689D6A"; "#7C6F64";
        "#928374"; "#9D0006"; "#79740E"; "#B57614";
        "#076678"; "#8F3F71"; "#427B58"; "#3C3836" ];
    mkThemePreset "Solarized Dark" "dark" "#839496" "#002B36" "#839496"
      [
        "#073642"; "#DC322F"; "#859900"; "#B58900";
        "#268BD2"; "#D33682"; "#2AA198"; "#EEE8D5";
        "#002B36"; "#CB4B16"; "#586E75"; "#657B83";
        "#839496"; "#6C71C4"; "#93A1A1"; "#FDF6E3" ];
    mkThemePreset "Solarized Light" "light" "#657B83" "#FDF6E3" "#657B83"
      [
        "#073642"; "#DC322F"; "#859900"; "#B58900";
        "#268BD2"; "#D33682"; "#2AA198"; "#EEE8D5";
        "#002B36"; "#CB4B16"; "#586E75"; "#657B83";
        "#839496"; "#6C71C4"; "#93A1A1"; "#FDF6E3" ];
    mkThemePreset "One Dark" "dark" "#ABB2BF" "#282C34" "#528BFF"
      [
        "#282C34"; "#E06C75"; "#98C379"; "#E5C07B";
        "#61AFEF"; "#C678DD"; "#56B6C2"; "#ABB2BF";
        "#545862"; "#E06C75"; "#98C379"; "#E5C07B";
        "#61AFEF"; "#C678DD"; "#56B6C2"; "#C8CCD4" ];
    mkThemePreset "One Light" "light" "#383A42" "#FAFAFA" "#526FFF"
      [
        "#383A42"; "#E45649"; "#50A14F"; "#C18401";
        "#4078F2"; "#A626A4"; "#0184BC"; "#A0A1A7";
        "#696C77"; "#E45649"; "#50A14F"; "#C18401";
        "#4078F2"; "#A626A4"; "#0184BC"; "#090A0B" ];
    mkThemePreset "Tokyo Night" "dark" "#A9B1D6" "#1A1B26" "#C0CAF5"
      [
        "#15161E"; "#F7768E"; "#9ECE6A"; "#E0AF68";
        "#7AA2F7"; "#BB9AF7"; "#7DCFFF"; "#A9B1D6";
        "#414868"; "#F7768E"; "#9ECE6A"; "#E0AF68";
        "#7AA2F7"; "#BB9AF7"; "#7DCFFF"; "#C0CAF5" ];
    mkThemePreset "Tokyo Night Storm" "dark" "#A9B1D6" "#24283B" "#C0CAF5"
      [
        "#1D202F"; "#F7768E"; "#9ECE6A"; "#E0AF68";
        "#7AA2F7"; "#BB9AF7"; "#7DCFFF"; "#A9B1D6";
        "#414868"; "#F7768E"; "#9ECE6A"; "#E0AF68";
        "#7AA2F7"; "#BB9AF7"; "#7DCFFF"; "#C0CAF5" ];
    mkThemePreset "Rose Pine" "dark" "#E0DEF4" "#191724" "#524F67"
      [
        "#26233A"; "#EB6F92"; "#31748F"; "#F6C177";
        "#9CCFD8"; "#C4A7E7"; "#EBBCBA"; "#E0DEF4";
        "#6E6A86"; "#EB6F92"; "#31748F"; "#F6C177";
        "#9CCFD8"; "#C4A7E7"; "#EBBCBA"; "#E0DEF4" ];
    mkThemePreset "Rose Pine Moon" "dark" "#E0DEF4" "#232136" "#59546D"
      [
        "#393552"; "#EB6F92"; "#3E8FB0"; "#F6C177";
        "#9CCFD8"; "#C4A7E7"; "#EA9A97"; "#E0DEF4";
        "#6E6A86"; "#EB6F92"; "#3E8FB0"; "#F6C177";
        "#9CCFD8"; "#C4A7E7"; "#EA9A97"; "#E0DEF4" ];
    mkThemePreset "Rose Pine Dawn" "light" "#575279" "#FAF4ED" "#9893A5"
      [
        "#F2E9E1"; "#B4637A"; "#286983"; "#EA9D34";
        "#56949F"; "#907AA9"; "#D7827E"; "#575279";
        "#9893A5"; "#B4637A"; "#286983"; "#EA9D34";
        "#56949F"; "#907AA9"; "#D7827E"; "#575279" ];
    mkThemePreset "Everforest Dark" "dark" "#D3C6AA" "#2D353B" "#D3C6AA"
      [
        "#343F44"; "#E67E80"; "#A7C080"; "#DBBC7F";
        "#7FBBB3"; "#D699B6"; "#83C092"; "#D3C6AA";
        "#475258"; "#E67E80"; "#A7C080"; "#DBBC7F";
        "#7FBBB3"; "#D699B6"; "#83C092"; "#D3C6AA" ];
    mkThemePreset "Monokai Dark" "dark" "#F8F8F2" "#272822" "#F8F8F0"
      [
        "#272822"; "#F92672"; "#A6E22E"; "#F4BF75";
        "#66D9EF"; "#AE81FF"; "#A1EFE4"; "#F8F8F2";
        "#75715E"; "#F92672"; "#A6E22E"; "#F4BF75";
        "#66D9EF"; "#AE81FF"; "#A1EFE4"; "#F9F8F5" ];
    mkThemePreset "Kanagawa" "dark" "#DCD7BA" "#1F1F28" "#C8C093"
      [
        "#16161D"; "#C34043"; "#76946A"; "#C0A36E";
        "#7E9CD8"; "#957FB8"; "#6A9589"; "#C8C093";
        "#727169"; "#E82424"; "#98BB6C"; "#E6C384";
        "#7FB4CA"; "#938AA9"; "#7AA89F"; "#DCD7BA" ];
    mkThemePreset "Zenburn" "dark" "#DCDCCC" "#3F3F3F" "#DCDCCC"
      [
        "#1E2320"; "#CC9393"; "#7F9F7F"; "#F0DFAF";
        "#8CD0D3"; "#DC8CC3"; "#93E0E3"; "#DCDCCC";
        "#709080"; "#DCA3A3"; "#BFEBBF"; "#F0DFAF";
        "#8CD0D3"; "#DC8CC3"; "#93E0E3"; "#FFFFFF" ]
  ].

(** [sizeof (builtin_themes) / sizeof (builtin_themes[0])]; a [size_t]. *)
Definition BUILTIN_THEME_COUNT : N := N.of_nat (List.length builtin_themes).

(** A [GdkRGBA] is kept as the way the program obtained it: the zeroed
    colour [memset] leaves, or what [gdk_rgba_parse] makes of a zeroed
    colour and a specification (the parsed colour, or the zeroed colour
    again when the specification is refused).  Two colours obtained the same
    way are the same colour. *)
Inductive GdkRGBA : Type :=
| rgba_zero
| gdk_rgba_parse (spec : string).

Inductive VteCursorShape : Type :=
| VTE_CURSOR_SHAPE_BLOCK
| VTE_CURSOR_SHAPE_IBEAM
| VTE_CURSOR_SHAPE_UNDERLINE.

Inductive VteCursorBlinkMode : Type :=
| VTE_CURSOR_BLINK_SYSTEM
| VTE_CURSOR_BLINK_ON
| VTE_CURSOR_BLINK_OFF.

(** [TerminalTheme]; its [foreground], [background] and [palette] carry the
    prefix [theme_] here, the names being taken by [ThemePreset].  [font] is
    the font description, NULL or not. *)
Record TerminalTheme : Type := mkTerminalTheme {
  theme_foreground : GdkRGBA;
  theme_background : GdkRGBA;
  theme_palette : list GdkRGBA;
  bold_color : GdkRGBA;
  bold_color_set : bool;
  cursor_bg : GdkRGBA;
  cursor_fg : GdkRGBA;
  cursor_colors_set : bool;
  highlight_bg : GdkRGBA;
  highlight_fg : GdkRGBA;
  highlight_colors_set : bool;
  font : option string;
  cursor_shape : VteCursorShape;
  cursor_blink : VteCursorBlinkMode;
  bold_is_bright : bool;
  use_theme_colors : bool;
  loaded : bool
}.

(** The theme fields of [AppState] with the theme file: [theme_conf] is the
    text of [theme.conf] (if the file exists), [theme_conf_writable] whether
    [fopen (path, "w")] succeeds on it. *)
Record ThemeWorld : Type := mkThemeWorld {
  theme : TerminalTheme;
  theme_name : option string;
  theme_conf : option string;
  theme_conf_writable : bool
}.

(** [memset (theme, 0, sizeof (TerminalTheme))]. *)
Definition zeroed_theme : TerminalTheme :=
  mkTerminalTheme rgba_zero rgba_zero (repeat rgba_zero 16) rgba_zero false
    rgba_zero rgba_zero false rgba_zero rgba_zero false None
    VTE_CURSOR_SHAPE_BLOCK VTE_CURSOR_BLINK_SYSTEM false false false.

(** The theme fields after [g_new0 (AppState, 1)]. *)
Definition fresh_theme_world (conf : option string) (writable : bool)
  : ThemeWorld :=
  mkThemeWorld zeroed_theme None conf writable.

(** [fprintf (fp, "%s\n", name)] on the theme file. *)
Definition save_theme_name (n : string) (w : ThemeWorld) : ThemeWorld :=
  if theme_conf_writable w
  then mkThemeWorld (theme w) (theme_name w)
         (Some (String.append n (String newline EmptyString)))
         (theme_conf_writable w)
  else w.

(** What [fgets] stores from a text: at most [n] characters, up to and
    including the first newline. *)
Fixpoint fgets_chars (n : nat) (text : string) : string :=
  match n, text with
  | S n', String c t =>
      if Ascii.eqb c newline then String c EmptyString
      else String c (fgets_chars n' t)
  | _, _ => EmptyString
  end.

(** [fgets (line, size, fp)] at the start of a file: NULL at end of file. *)
Definition fgets (size : nat) (text : string) : option string :=
  match text with
  | EmptyString => None
  | _ => Some (fgets_chars (size - 1) text)
  end.

(** A buffer as the string functions see it: cut at the first NUL. *)
Fixpoint until_nul (s : string) : string :=
  match s with
  | EmptyString => EmptyString
  | String c t =>
      if (N_of_ascii c =? 0)%N then EmptyString else String c (until_nul t)
  end.

Definition load_theme_name (conf : option string) : option string :=
  match conf with
  | None => None
  | Some text =>
      match fgets 256 text with
      | None => None
      | Some line =>
          let line := strip_newline (until_nul line) in
          match line with
          | EmptyString => None
          | _ => Some line
          end
      end
  end.

(** The loop of [find_builtin_theme]: the first preset of that name. *)
Definition find_builtin_theme (n : string) : option ThemePreset :=
  find (fun t => String.eqb (name t) n) builtin_themes.

(** [&builtin_themes[0]]. *)
Definition first_builtin_theme : ThemePreset :=
  hd (mkThemePreset EmptyString EmptyString EmptyString EmptyString
        EmptyString [])
     builtin_themes.

(** What [load_builtin_theme] leaves in [app->theme] for a preset. *)
Definition preset_theme (preset : ThemePreset) : TerminalTheme :=
  let t := zeroed_theme in
  let fg := gdk_rgba_parse (foreground preset) in
  let bg := gdk_rgba_parse (background preset) in
  let pal := map gdk_rgba_parse (palette preset) in
  mkTerminalTheme fg bg pal (bold_color t) (bold_color_set t)
    (gdk_rgba_parse (cursor preset)) bg true
    (highlight_bg t) (highlight_fg t) (highlight_colors_set t) (font t)
    VTE_CURSOR_SHAPE_BLOCK VTE_CURSOR_BLINK_SYSTEM (bold_is_bright t)
    false true.

Definition load_builtin_theme (n : string) (w : ThemeWorld) : ThemeWorld :=
  let '(preset, n) :=
    match find_builtin_theme n with
    | Some preset => (preset, n)
    | None => (first_builtin_theme, name first_builtin_theme)
    end in
  mkThemeWorld (preset_theme preset) (Some n) (theme_conf w)
    (theme_conf_writable w).

(** The theme lines of [activate]. *)
Definition activate_theme (conf : option string) (writable : bool)
  : ThemeWorld :=
  let saved_theme := load_theme_name conf in
  load_builtin_theme
    (match saved_theme with Some n => n | None => "Dracula" end)
    (fresh_theme_world conf writable).

Definition GTK_INVALID_LIST_POSITION : N := 4294967295.

(** [on_theme_dropdown_changed], [sel] being what
    [gtk_drop_down_get_selected] returns (a [guint]).  The calls that follow
    [load_builtin_theme] restyle the terminals and the window and leave
    these fields alone. *)
Definition on_theme_dropdown_changed (sel : N) (w : ThemeWorld) : ThemeWorld :=
  if ((sel =? GTK_INVALID_LIST_POSITION) || (BUILTIN_THEME_COUNT <=? sel))%N
  then w
  else
    match nth_error builtin_themes (N.to_nat sel) with
    | None => w
    | Some preset =>
        let n := name preset in
        if g_strcmp0_eq (theme_name w) n then w
        else load_builtin_theme n (save_theme_name n w)
    end.

(** The loop of [build_theme_section] from position [i] on: [active_idx]
    becomes the position of every preset called [theme_name] in turn. *)
Fixpoint active_idx_from (l : list ThemePreset) (i : N)
  (current : option string) (active_idx : N) : N :=
  match l with
  | [] => active_idx
  | t :: rest =>
      active_idx_from rest (i + 1) current
        (if g_strcmp0_eq current (name t) then i else active_idx)
  end.

(** The entry [build_theme_section] preselects in the dropdown. *)
Definition build_theme_section (w : ThemeWorld) : N :=
  active_idx_from builtin_themes 0 (theme_name w) 0.

(** A session of the settings panel: the selections notified in turn. *)
Definition choose_themes (sels : list N) (w : ThemeWorld) : ThemeWorld :=
  fold_left (fun w sel => on_theme_dropdown_changed sel w) sels w.

End Themes.

(** Every row of the table: its name is found again, at its own position,
    and comes back from the theme file. *)
Lemma builtin_theme_row : forall i t,
  nth_error Themes.builtin_themes i = Some t ->
  Themes.find_builtin_theme (Themes.name t) = Some t
  /\ Themes.active_idx_from Themes.builtin_themes 0 (Some (Themes.name t)) 0
     = N.of_nat i
  /\ Themes.load_theme_name
       (Some (String.append (Themes.name t) (String newline EmptyString)))
     = Some (Themes.name t).
Proof.
  intros i t.
  do 22 (destruct i as [|i];
         [intros H; injection H as <-; vm_compute; repeat split|]).
  destruct i; discriminate.
Qed.

Lemma find_builtin_theme_name : forall n t,
  Themes.find_builtin_theme n = Some t -> Themes.name t = n.
Proof.
  intros n t H. apply find_some in H. destruct H as [_ H].
  apply String.eqb_eq. exact H.
Qed.

Lemma find_builtin_theme_In : forall n t,
  Themes.find_builtin_theme n = Some t -> In t Themes.builtin_themes.
Proof. intros n t H. apply find_some in H. apply H. Qed.

(** The state [load_builtin_theme] reaches is that of one row. *)
Lemma load_builtin_theme_row : forall n w,
  exists t, In t Themes.builtin_themes
    /\ Themes.theme (Themes.load_builtin_theme n w) = Themes.preset_theme t
    /\ Themes.theme_name (Themes.load_builtin_theme n w)
       = Some (Themes.name t)
    /\ (Themes.find_builtin_theme n = Some t
        \/ Themes.find_builtin_theme n = None
           /\ t = Themes.first_builtin_theme).
Proof.
  intros n w. unfold Themes.load_builtin_theme.
  destruct (Themes.find_builtin_theme n) as [t|] eqn:E.
  - exists t. cbn. rewrite (find_builtin_theme_name _ _ E).
    split; [exact (find_builtin_theme_In _ _ E)|].
    split; [reflexivity|]. split; [reflexivity|]. left. reflexivity.
  - exists Themes.first_builtin_theme. cbn.
    split; [left; reflexivity|].
    split; [reflexivity|]. split; [reflexivity|]. right. split; reflexivity.
Qed.

Lemma load_builtin_theme_conf : forall n w,
  Themes.theme_conf (Themes.load_builtin_theme n w) = Themes.theme_conf w
  /\ Themes.theme_conf_writable (Themes.load_builtin_theme n w)
     = Themes.theme_conf_writable w.
Proof.
  intros n w. unfold Themes.load_builtin_theme.
  destruct (Themes.find_builtin_theme n); split; reflexivity.
Qed.

(** [load_builtin_theme] overwrites the theme fields: the outcome depends on
    the name and the file fields only. *)
Lemma load_builtin_theme_overwrites : forall n w w',
  Themes.theme_conf w = Themes.theme_conf w' ->
  Themes.theme_conf_writable w = Themes.theme_conf_writable w' ->
  Themes.load_builtin_theme n w = Themes.load_builtin_theme n w'.
Proof.
  intros n w w' H1 H2. unfold Themes.load_builtin_theme.
  destruct (Themes.find_builtin_theme n); rewrite H1, H2; reflexivity.
Qed.
Lemma builtin_theme_index : forall t,
  In t Themes.builtin_themes ->
  exists i, nth_error Themes.builtin_themes i = Some t.
Proof. intros t H. apply In_nth_error. exact H. Qed.

(** Two rows of the same name are the same row. *)
Lemma builtin_theme_names_distinct : forall t t',
  In t Themes.builtin_themes -> In t' Themes.builtin_themes ->
  Themes.name t = Themes.name t' -> t = t'.
Proof.
  intros t t' H H' E.
  destruct (builtin_theme_index t H) as [i Hi].
  destruct (builtin_theme_index t' H') as [j Hj].
  destruct (builtin_theme_row i t Hi) as [A _].
  destruct (builtin_theme_row j t' Hj) as [B _].
  rewrite E in A. congruence.
Qed.

(** The theme in memory is the one of a row of the table, under its name. *)
Definition theme_of_row (w : Themes.ThemeWorld) (t : Themes.ThemePreset)
  : Prop :=
  In t Themes.builtin_themes
  /\ Themes.theme w = Themes.preset_theme t
  /\ Themes.theme_name w = Some (Themes.name t).

Lemma load_builtin_theme_of_row : forall n w,
  exists t, theme_of_row (Themes.load_builtin_theme n w) t.
Proof.
  intros n w. destruct (load_builtin_theme_row n w) as [t [A [B [C _]]]].
  exists t. repeat split; assumption.
Qed.

Lemma load_builtin_theme_known : forall t w,
  In t Themes.builtin_themes ->
  theme_of_row (Themes.load_builtin_theme (Themes.name t) w) t.
Proof.
  intros t w H. destruct (builtin_theme_index t H) as [i Hi].
  destruct (builtin_theme_row i t Hi) as [A _].
  unfold Themes.load_builtin_theme. rewrite A. cbn.
  repeat split; auto.
Qed.

Lemma on_theme_dropdown_changed_cases : forall sel w,
  Themes.on_theme_dropdown_changed sel w = w
  \/ exists t, nth_error Themes.builtin_themes (N.to_nat sel) = Some t
       /\ Themes.theme_name w <> Some (Themes.name t)
       /\ Themes.on_theme_dropdown_changed sel w
          = Themes.load_builtin_theme (Themes.name t)
              (Themes.save_theme_name (Themes.name t) w).
Proof.
  intros sel w. unfold Themes.on_theme_dropdown_changed.
  destruct (_ || _)%bool; [left; reflexivity|].
  destruct (nth_error Themes.builtin_themes (N.to_nat sel)) as [t|];
    [|left; reflexivity].
  destruct (g_strcmp0_eq (Themes.theme_name w) (Themes.name t)) eqn:E;
    [left; reflexivity|].
  right. exists t. split; [reflexivity|]. split; [|reflexivity].
  intros H. rewrite H in E. cbn in E. rewrite String.eqb_refl in E.
  discriminate.
Qed.

Lemma on_theme_dropdown_changed_of_row : forall sel w,
  (exists t, theme_of_row w t) ->
  exists t, theme_of_row (Themes.on_theme_dropdown_changed sel w) t.
Proof.
  intros sel w H.
  destruct (on_theme_dropdown_changed_cases sel w) as [E|[t [_ [_ E]]]];
    rewrite E; [exact H|].
  apply load_builtin_theme_of_row.
Qed.

Lemma choose_themes_of_row : forall sels w,
  (exists t, theme_of_row w t) ->
  exists t, theme_of_row (Themes.choose_themes sels w) t.
Proof.
  induction sels as [|sel sels IH]; intros w H; [exact H|].
  apply IH. apply on_theme_dropdown_changed_of_row. exact H.
Qed.

(** X17. The theme survives a restart: after a start-up on any theme file
    and any sequence of selections in the theme dropdown (the file being
    writable), a new start-up on the theme file as it then is loads the
    theme and the theme name the program last had, and the settings panel
    preselects the same entry. *)
Theorem theme_survives_restart : forall conf sels,
  let w := Themes.choose_themes sels (Themes.activate_theme conf true) in
  let w' := Themes.activate_theme (Themes.theme_conf w) true in
  Themes.theme w' = Themes.theme w
  /\ Themes.theme_name w' = Themes.theme_name w
  /\ Themes.build_theme_section w' = Themes.build_theme_section w.
Proof.
  intros conf sels.
  assert (K : forall sels w,
             Themes.activate_theme (Themes.theme_conf w) true = w ->
             Themes.activate_theme
               (Themes.theme_conf (Themes.choose_themes sels w)) true
             = Themes.choose_themes sels w).
  { clear. induction sels as [|sel sels IH]; intros w H; [exact H|].
    apply IH.
    destruct (on_theme_dropdown_changed_cases sel w) as [E|[t [Ht [_ E]]]];
      rewrite E; [exact H|].
    assert (Hw : Themes.theme_conf_writable w = true).
    { rewrite <- H. unfold Themes.activate_theme.
      apply load_builtin_theme_conf. }
    destruct (load_builtin_theme_conf (Themes.name t)
                (Themes.save_theme_name (Themes.name t) w)) as [C _].
    rewrite C. unfold Themes.save_theme_name at 1. rewrite Hw.
    cbn [Themes.theme_conf]. unfold Themes.activate_theme.
    destruct (builtin_theme_row _ t Ht) as [_ [_ L]]. rewrite L.
    apply load_builtin_theme_overwrites.
    - unfold Themes.save_theme_name. rewrite Hw. reflexivity.
    - unfold Themes.save_theme_name. rewrite Hw. cbn. auto. }
  intros w w'. subst w'.
  assert (E : Themes.activate_theme (Themes.theme_conf w) true = w).
  { subst w. apply K. unfold Themes.activate_theme at 1.
    destruct (load_builtin_theme_conf
                (match Themes.load_theme_name conf with
                 | Some n => n
                 | None => "Dracula"
                 end) (Themes.fresh_theme_world conf true)) as [C _].
    unfold Themes.activate_theme. rewrite C. reflexivity. }
  rewrite E. repeat split.
Qed.

(** X18. A selection in the theme dropdown takes effect: on any state the
    program reaches, selecting entry [sel] of the table leaves the program
    with the theme of row [sel] under its name, and the settings panel then
    preselects [sel] -- also when the entry was already the current one and
    the handler returns early, and whether or not the theme file can be
    written. *)
Theorem dropdown_selection_takes_effect : forall conf writable sels sel t,
  nth_error Themes.builtin_themes (N.to_nat sel) = Some t ->
  let w := Themes.on_theme_dropdown_changed sel
             (Themes.choose_themes sels
                (Themes.activate_theme conf writable)) in
  Themes.theme_name w = Some (Themes.name t)
  /\ Themes.theme w = Themes.preset_theme t
  /\ Themes.build_theme_section w = sel.
Proof.
  intros conf writable sels sel t Ht w.
  assert (Hin : In t Themes.builtin_themes) by (eapply nth_error_In; eauto).
  assert (R : theme_of_row w t).
  { subst w.
    set (w0 := Themes.choose_themes sels _).
    assert (J : exists t0, theme_of_row w0 t0).
    { apply choose_themes_of_row. apply load_builtin_theme_of_row. }
    clearbody w0. unfold Themes.on_theme_dropdown_changed.
    assert (Hlt : (N.to_nat sel < 22)%nat).
    { change 22%nat with (List.length Themes.builtin_themes).
      apply nth_error_Some. rewrite Ht. discriminate. }
    assert (Hc : ((sel =? Themes.GTK_INVALID_LIST_POSITION)
                  || (Themes.BUILTIN_THEME_COUNT <=? sel))%N = false).
    { apply orb_false_iff. split.
      - apply N.eqb_neq. unfold Themes.GTK_INVALID_LIST_POSITION. lia.
      - apply N.leb_gt. change Themes.BUILTIN_THEME_COUNT with 22%N. lia. }
    rewrite Hc, Ht.
    destruct (g_strcmp0_eq (Themes.theme_name w0) (Themes.name t)) eqn:E.
    - destruct J as [t0 [A [B C]]]. rewrite C in E. cbn in E.
      apply String.eqb_eq in E.
      rewrite (builtin_theme_names_distinct t0 t A Hin E) in *.
      repeat split; assumption.
    - apply load_builtin_theme_known. exact Hin. }
  destruct R as [_ [B C]]. split; [exact C|]. split; [exact B|].
  unfold Themes.build_theme_section. rewrite C.
  destruct (builtin_theme_row _ t Ht) as [_ [I _]]. rewrite I. lia.
Qed.

Lemma dropdown_selection_takes_effect_witness :
  let w := Themes.on_theme_dropdown_changed 1
             (Themes.choose_themes [3; 40]%N
                (Themes.activate_theme None false)) in
  Themes.theme_name w = Some "Nord"
  /\ Themes.theme_background (Themes.theme w)
     = Themes.gdk_rgba_parse "#2E3440"
  /\ Themes.build_theme_section w = 1%N.
Proof.
  destruct (dropdown_selection_takes_effect None false [3; 40]%N 1%N _
              eq_refl) as [A [B C]].
  split; [exact A|]. split; [rewrite B; reflexivity|exact C].
Defined.

(** X19. The theme file is never trusted: when its first line is not the
    name of a built-in theme -- no file, an empty file, an unknown name, a
    name followed by a carriage return --, start-up loads the first theme of
    the table, Dracula, and leaves the file as it is. *)
Theorem startup_theme_fallback : forall conf writable,
  (forall t, In t Themes.builtin_themes ->
     Themes.load_theme_name conf <> Some (Themes.name t)) ->
  let w := Themes.activate_theme conf writable in
  Themes.theme_name w = Some "Dracula"
  /\ Themes.theme w = Themes.preset_theme Themes.first_builtin_theme
  /\ Themes.theme_conf w = conf.
Proof.
  intros conf writable H w. subst w. unfold Themes.activate_theme.
  set (n := match Themes.load_theme_name conf with
            | Some n => n
            | None => "Dracula"
            end).
  destruct (load_builtin_theme_conf n
              (Themes.fresh_theme_world conf writable)) as [C _].
  split; [|split; [|exact C]];
    unfold Themes.load_builtin_theme;
    destruct (Themes.find_builtin_theme n) as [t|] eqn:E;
    try reflexivity.
  - pose proof (find_builtin_theme_name _ _ E) as Hn.
    pose proof (find_builtin_theme_In _ _ E) as Hi.
    subst n. destruct (Themes.load_theme_name conf) as [m|] eqn:L.
    + exfalso. apply (H t Hi). congruence.
    + cbn. reflexivity.
  - pose proof (find_builtin_theme_name _ _ E) as Hn.
    pose proof (find_builtin_theme_In _ _ E) as Hi.
    subst n. destruct (Themes.load_theme_name conf) as [m|] eqn:L.
    + exfalso. apply (H t Hi). congruence.
    + cbn. vm_compute in E. injection E as <-. reflexivity.
Qed.

(** A theme file written with a carriage return before the newline. *)
Definition crlf_theme_conf : option string :=
  Some (String.append "Nord"
          (String "013"%char (String newline EmptyString))).

Lemma startup_theme_fallback_witness :
  Themes.theme_name (Themes.activate_theme crlf_theme_conf true)
  = Some "Dracula".
Proof.
  apply (startup_theme_fallback crlf_theme_conf true).
  intros t Ht. vm_compute in Ht.
  repeat (destruct Ht as [<-|Ht]; [vm_compute; discriminate|]).
  destruct Ht.
Defined.

(** X20. Whatever the theme file holds when the program starts and whatever
    positions the dropdown notifies afterwards (valid, past the table or
    [GTK_INVALID_LIST_POSITION]), the theme in memory is always marked
    loaded and is the theme of one row of the built-in table, stored under
    that row's name, with the cursor foreground equal to the background. *)
Theorem theme_always_builtin : forall conf writable sels,
  let w := Themes.choose_themes sels (Themes.activate_theme conf writable) in
  exists t, In t Themes.builtin_themes
    /\ Themes.theme_name w = Some (Themes.name t)
    /\ Themes.theme w = Themes.preset_theme t
    /\ Themes.loaded (Themes.theme w) = true
    /\ Themes.cursor_fg (Themes.theme w)
       = Themes.theme_background (Themes.theme w).
Proof.
  intros conf writable sels w.
  destruct (choose_themes_of_row sels (Themes.activate_theme conf writable))
    as [t [A [B C]]].
  { apply load_builtin_theme_of_row. }
  exists t. fold w in B, C. rewrite B.
  split; [exact A|]. split; [exact C|]. repeat split.
Qed.

(** * Window geometry *)

(** [save_window_geometry], [on_window_size_changed],
    [load_window_geometry] and the lines of [activate] and
    [on_window_destroy] that call them. *)

Module Geometry.

(** The window fields of [AppState], what the program asked of the window
    ([default_size]: the last [gtk_window_set_default_size];
    [maximize_called]: whether [gtk_window_maximize] was called) and the
    geometry file: [window_conf] is the text of [window.conf] (if it can be
    read), [window_conf_writable] whether [fopen (path, "w")] succeeds. *)
Record WindowWorld : Type := mkWindowWorld {
  last_width : Z;
  last_height : Z;
  last_maximized : bool;
  default_size : Z * Z;
  maximize_called : bool;
  window_conf : option string;
  window_conf_writable : bool
}.

Definition nl : string := String newline EmptyString.

(** [fprintf (fp, "%d\n%d\n%d\n", ...)] *)
Definition geometry_text (width height : Z) (maximized : bool) : string :=
  String.append (format_d width)
    (String.append nl
       (String.append (format_d height)
          (String.append nl
             (String.append (format_d (if maximized then 1 else 0)) nl)))).

Definition save_window_geometry (w : WindowWorld) : WindowWorld :=
  if (last_width w <=? 0) || (last_height w <=? 0) then w
  else if window_conf_writable w
  then mkWindowWorld (last_width w) (last_height w) (last_maximized w)
         (default_size w) (maximize_called w)
         (Some (geometry_text (last_width w) (last_height w)
                  (last_maximized w)))
         (window_conf_writable w)
  else w.

(** [on_window_size_changed]; [maximized], [width] and [height] are what
    [gtk_window_is_maximized], [gtk_widget_get_width] and
    [gtk_widget_get_height] return when it runs. *)
Definition on_window_size_changed (maximized : bool) (width height : Z)
  (w : WindowWorld) : WindowWorld :=
  let lw := if maximized then last_width w else width in
  let lh := if maximized then last_height w else height in
  mkWindowWorld lw lh maximized (default_size w) (maximize_called w)
    (window_conf w) (window_conf_writable w).

Fixpoint drop_digits (s : string) : string :=
  match s with
  | String c t =>
      match digit_of c with
      | Some _ => drop_digits t
      | None => s
      end
  | EmptyString => s
  end.

(** One ["%d"] of [fscanf]: white space is skipped, then an optional sign
    and at least one digit are read; the number is converted as [strtol]
    does and stored in an [int].  The result is the number and the text
    left to read, or nothing when no number is there. *)
Definition scan_d (s : string) : option (Z * string) :=
  let body := skip_spaces s in
  let digits :=
    match body with
    | String "-" t => t
    | String "+" t => t
    | _ => body
    end in
  match digits with
  | String c _ =>
      match digit_of c with
      | Some _ => Some (to_int (g_ascii_strtoll body), drop_digits digits)
      | None => None
      end
  | EmptyString => None
  end.

(** [fscanf (fp, "%d\n%d\n%d", &width, &height, &maximized) == 3]: the
    three numbers, when all three conversions succeed.  A newline in the
    format skips any white space. *)
Definition fscanf_3d (text : string) : option (Z * Z * Z) :=
  match scan_d text with
  | None => None
  | Some (width, rest) =>
      match scan_d (skip_spaces rest) with
      | None => None
      | Some (height, rest) =>
          match scan_d (skip_spaces rest) with
          | None => None
          | Some (maximized, _) => Some (width, height, maximized)
          end
      end
  end.

Definition load_window_geometry (w : WindowWorld) : WindowWorld :=
  match window_conf w with
  | None => w
  | Some text =>
      match fscanf_3d text with
      | Some (width, height, maximized) =>
          let size :=
            if (0 <? width) && (0 <? height) then (width, height)
            else default_size w in
          let maxi :=
            if negb (maximized =? 0) then true else maximize_called w in
          mkWindowWorld (last_width w) (last_height w) (last_maximized w)
            size maxi (window_conf w) (window_conf_writable w)
      | None => w
      end
  end.

(** The window lines of [activate]: [g_new0], the default size 1200 x 800,
    then [load_window_geometry]. *)
Definition activate_window (conf : option string) (writable : bool)
  : WindowWorld :=
  load_window_geometry
    (mkWindowWorld 0 0 false (1200, 800) false conf writable).

(** A notification of the window: maximized or not, width, height. *)
Definition Notification : Type := (bool * Z * Z)%type.

Definition notify (w : WindowWorld) (e : Notification) : WindowWorld :=
  let '(maximized, width, height) := e in
  on_window_size_changed maximized width height w.

(** A run of the window: start-up, the notifications in turn, then the
    geometry line of [on_window_destroy]. *)
Definition window_session (conf : option string) (writable : bool)
  (events : list Notification) : WindowWorld :=
  save_window_geometry (fold_left notify events (activate_window conf writable)).

End Geometry.

Lemma drop_digits_uint : forall d rest,
  no_digit_ahead rest ->
  Geometry.drop_digits (String.append (NilEmpty.string_of_uint d) rest)
  = rest.
Proof.
  induction d; intros rest H;
    cbn [NilEmpty.string_of_uint String.append Geometry.drop_digits];
    [destruct rest as [|c t]; [reflexivity|];
     cbn in *; rewrite H; reflexivity|..];
    match goal with
    | |- context [digit_of ?c] =>
        let v := eval vm_compute in (digit_of c) in
        change (digit_of c) with v
    end;
    cbv iota beta; apply IHd, H.
Qed.

Lemma scan_d_digit_first : forall s,
  digit_first s ->
  Geometry.scan_d s
  = Some (to_int (g_ascii_strtoll s), Geometry.drop_digits s).
Proof.
  intros [|c t] H; [destruct H|]. cbn in H.
  destruct c as [[] [] [] [] [] [] [] []];
    try (exfalso; apply H; reflexivity); reflexivity.
Qed.

Lemma skip_spaces_digit_first : forall s,
  digit_first s -> skip_spaces s = s.
Proof.
  intros [|c t] H; [destruct H|]. cbn in H.
  destruct c as [[] [] [] [] [] [] [] []];
    try (exfalso; apply H; reflexivity); reflexivity.
Qed.

(** A positive [int] written with ["%d"] is read back by ["%d"], up to the
    text that follows. *)
Lemma scan_d_format_d : forall n rest,
  0 < n -> in_int n -> no_digit_ahead rest ->
  Geometry.scan_d (String.append (format_d n) rest) = Some (n, rest)
  /\ digit_first (String.append (format_d n) rest).
Proof.
  intros n rest Hn Hi Hr. destruct n as [|p|p]; try lia.
  assert (D : digit_first (String.append (format_d (Z.pos p)) rest)).
  { apply string_of_uint_digit_first. }
  split; [|exact D].
  rewrite scan_d_digit_first by exact D.
  rewrite g_ascii_strtoll_format_d; [| |exact Hr].
  - rewrite to_int_small by exact Hi.
    unfold format_d. cbn [Z.to_int NilZero.string_of_int].
    assert (E : NilZero.string_of_uint (Pos.to_uint p)
                = NilEmpty.string_of_uint (Pos.to_uint p)).
    { pose proof (Unsigned.to_uint_nonnil p) as Hnn.
      destruct (Pos.to_uint p); [contradiction|..]; reflexivity. }
    rewrite E, drop_digits_uint by exact Hr. reflexivity.
  - unfold in_int in Hi. unfold G_MININT64, G_MAXINT64. lia.
Qed.
Lemma skip_spaces_nl : forall s,
  digit_first s -> skip_spaces (String.append Geometry.nl s) = s.
Proof.
  intros s H. unfold Geometry.nl. cbn [String.append skip_spaces].
  change (is_space newline) with true. cbv iota.
  apply skip_spaces_digit_first, H.
Qed.

Lemma no_digit_ahead_nl : forall s,
  no_digit_ahead (String.append Geometry.nl s).
Proof. intros s. reflexivity. Qed.

(** The three numbers [save_window_geometry] writes are the three numbers
    [load_window_geometry] reads. *)
Lemma fscanf_3d_geometry_text : forall width height maximized,
  0 < width -> 0 < height -> in_int width -> in_int height ->
  Geometry.fscanf_3d (Geometry.geometry_text width height maximized)
  = Some (width, height, if maximized then 1 else 0).
Proof.
  intros width height maximized Hw Hh Iw Ih.
  unfold Geometry.fscanf_3d, Geometry.geometry_text.
  destruct (scan_d_format_d width
              (String.append Geometry.nl
                 (String.append (format_d height)
                    (String.append Geometry.nl
                       (String.append
                          (format_d (if maximized then 1 else 0))
                          Geometry.nl)))) Hw Iw (no_digit_ahead_nl _))
    as [A _].
  rewrite A.
  destruct (scan_d_format_d height
              (String.append Geometry.nl
                 (String.append
                    (format_d (if maximized then 1 else 0))
                    Geometry.nl)) Hh Ih (no_digit_ahead_nl _))
    as [B D].
  rewrite (skip_spaces_nl _ D), B.
  destruct maximized; reflexivity.
Qed.

(** X21. Window geometry round trip: when the recorded width and height are
    positive and the file can be written, the file [save_window_geometry]
    writes makes the next start-up ask for exactly that default size, and
    maximize the window exactly when the window was recorded as
    maximized. *)
Theorem window_geometry_round_trip : forall w writable,
  0 < Geometry.last_width w -> 0 < Geometry.last_height w ->
  in_int (Geometry.last_width w) -> in_int (Geometry.last_height w) ->
  Geometry.window_conf_writable w = true ->
  let w' := Geometry.activate_window
              (Geometry.window_conf (Geometry.save_window_geometry w))
              writable in
  Geometry.default_size w' = (Geometry.last_width w, Geometry.last_height w)
  /\ Geometry.maximize_called w' = Geometry.last_maximized w.
Proof.
  intros w writable Hw Hh Iw Ih Hwr w'. subst w'.
  unfold Geometry.save_window_geometry.
  assert (G : (Geometry.last_width w <=? 0) || (Geometry.last_height w <=? 0)
              = false).
  { apply orb_false_iff. split; apply Z.leb_gt; assumption. }
  rewrite G, Hwr. cbn [Geometry.window_conf].
  unfold Geometry.activate_window, Geometry.load_window_geometry.
  cbn [Geometry.window_conf].
  rewrite fscanf_3d_geometry_text by assumption.
  assert (P : (0 <? Geometry.last_width w) && (0 <? Geometry.last_height w)
              = true).
  { apply andb_true_iff. split; apply Z.ltb_lt; assumption. }
  rewrite P. cbn [Geometry.default_size Geometry.maximize_called].
  split; [reflexivity|]. destruct (Geometry.last_maximized w); reflexivity.
Qed.

(** A window 1024 x 768, maximized. *)
Definition maximized_window : Geometry.WindowWorld :=
  Geometry.mkWindowWorld 1024 768 true (1200, 800) false None true.

Lemma window_geometry_round_trip_witness :
  let w' := Geometry.activate_window
              (Geometry.window_conf
                 (Geometry.save_window_geometry maximized_window)) true in
  Geometry.default_size w' = (1024, 768)
  /\ Geometry.maximize_called w' = true.
Proof.
  apply (window_geometry_round_trip maximized_window true);
    cbn; unfold in_int; try lia; reflexivity.
Defined.

Lemma notify_files : forall events w,
  Geometry.window_conf (fold_left Geometry.notify events w)
  = Geometry.window_conf w
  /\ Geometry.window_conf_writable (fold_left Geometry.notify events w)
     = Geometry.window_conf_writable w.
Proof.
  induction events as [|[[m wd] ht] events IH]; intros w; [split; reflexivity|].
  cbn [fold_left]. destruct (IH (Geometry.notify w (m, wd, ht))) as [A B].
  rewrite A, B. split; reflexivity.
Qed.

(** While the window stays maximized the recorded size does not move. *)
Lemma notify_maximized : forall events w,
  Forall (fun e : Geometry.Notification => fst (fst e) = true) events ->
  Geometry.last_width (fold_left Geometry.notify events w)
  = Geometry.last_width w
  /\ Geometry.last_height (fold_left Geometry.notify events w)
     = Geometry.last_height w
  /\ Geometry.last_maximized (fold_left Geometry.notify events w)
     = match events with
       | [] => Geometry.last_maximized w
       | _ => true
       end.
Proof.
  induction events as [|[[m wd] ht] events IH]; intros w H;
    [repeat split|].
  inversion H as [|e l Hm Hrest]; subst. cbn in Hm. subst m.
  cbn [fold_left].
  destruct (IH (Geometry.notify w (true, wd, ht)) Hrest) as [A [B C]].
  rewrite A, B, C. split; [reflexivity|]. split; [reflexivity|].
  destruct events; reflexivity.
Qed.

Lemma activate_window_files : forall conf writable,
  Geometry.window_conf (Geometry.activate_window conf writable) = conf
  /\ Geometry.window_conf_writable (Geometry.activate_window conf writable)
     = writable.
Proof.
  intros conf writable.
  unfold Geometry.activate_window, Geometry.load_window_geometry.
  cbn [Geometry.window_conf].
  destruct conf as [text|]; [|split; reflexivity].
  destruct (Geometry.fscanf_3d text) as [[[a b] c]|]; split; reflexivity.
Qed.

(** X22. A window closed while maximized comes back maximized over its
    windowed size: when the last notification of an unmaximized window
    reported a positive size and every later notification found the window
    maximized, the next start-up asks for that size as the default size and
    maximizes the window exactly when such later notifications exist --
    whatever the geometry file held before and whatever was notified
    earlier. *)
Theorem maximized_window_keeps_windowed_size :
  forall conf (pre post : list Geometry.Notification) width height,
  0 < width -> 0 < height -> in_int width -> in_int height ->
  Forall (fun e : Geometry.Notification => fst (fst e) = true) post ->
  let w := Geometry.window_session conf true
             (pre ++ ((false, width, height) : Geometry.Notification) :: post) in
  let w' := Geometry.activate_window (Geometry.window_conf w) true in
  Geometry.default_size w' = (width, height)
  /\ Geometry.maximize_called w'
     = match post with [] => false | _ => true end.
Proof.
  intros conf pre post width height Hw Hh Iw Ih Hp w w'. subst w' w.
  unfold Geometry.window_session. rewrite fold_left_app. cbn [fold_left].
  set (w0 := fold_left Geometry.notify pre
              (Geometry.activate_window conf true)).
  set (w1 := Geometry.notify w0 (false, width, height)).
  destruct (notify_maximized post w1 Hp) as [A [B C]].
  destruct (notify_files post w1) as [_ F].
  assert (F0 : Geometry.window_conf_writable w0 = true).
  { subst w0. destruct (notify_files pre
                          (Geometry.activate_window conf true)) as [_ F0].
    rewrite F0. apply activate_window_files. }
  change (Geometry.last_width w1) with width in A.
  change (Geometry.last_height w1) with height in B.
  change (Geometry.window_conf_writable w1)
    with (Geometry.window_conf_writable w0) in F.
  change (Geometry.last_maximized w1) with false in C.
  rewrite F0 in F.
  set (w2 := fold_left Geometry.notify post w1) in *. clearbody w2.
  assert (R : Geometry.default_size
                 (Geometry.activate_window
                    (Geometry.window_conf
                       (Geometry.save_window_geometry w2)) true)
               = (Geometry.last_width w2, Geometry.last_height w2)
               /\ Geometry.maximize_called
                    (Geometry.activate_window
                       (Geometry.window_conf
                          (Geometry.save_window_geometry w2)) true)
                  = Geometry.last_maximized w2).
  { apply window_geometry_round_trip; rewrite ?A, ?B; assumption. }
  destruct R as [R1 R2].
  rewrite R1, R2, A, B, C. split; reflexivity.
Qed.

Lemma maximized_window_keeps_windowed_size_witness :
  let w := Geometry.window_session None true
             [(false, 800, 600); (true, 1920, 1080)] in
  Geometry.default_size
    (Geometry.activate_window (Geometry.window_conf w) true) = (800, 600)
  /\ Geometry.maximize_called
       (Geometry.activate_window (Geometry.window_conf w) true) = true.
Proof.
  apply (maximized_window_keeps_windowed_size None [] [(true, 1920, 1080)]
           800 600); unfold in_int; try lia.
  repeat constructor.
Defined.

(** X23. A window that is maximized at every notification of a run records
    no size, and [save_window_geometry] then leaves the geometry file as
    the start-up found it. *)
Theorem maximized_run_keeps_geometry_file : forall conf writable events,
  Forall (fun e : Geometry.Notification => fst (fst e) = true) events ->
  Geometry.window_conf (Geometry.window_session conf writable events) = conf.
Proof.
  intros conf writable events H. unfold Geometry.window_session.
  set (w0 := Geometry.activate_window conf writable).
  destruct (notify_maximized events w0 H) as [A _].
  destruct (notify_files events w0) as [F _].
  assert (Z0 : Geometry.last_width w0 = 0).
  { subst w0. unfold Geometry.activate_window, Geometry.load_window_geometry.
    cbn [Geometry.window_conf].
    destruct conf as [text|]; [|reflexivity].
    destruct (Geometry.fscanf_3d text) as [[[a b] c]|]; reflexivity. }
  unfold Geometry.save_window_geometry. rewrite A, Z0.
  cbn [Z.leb Z.compare orb]. rewrite F. subst w0.
  apply activate_window_files.
Qed.

Lemma maximized_run_keeps_geometry_file_witness :
  Geometry.window_conf
    (Geometry.window_session (Some "640 480 1") true [(true, 1920, 1080)])
  = Some "640 480 1".
Proof.
  apply (maximized_run_keeps_geometry_file (Some "640 480 1") true
           [(true, 1920, 1080)]).
  repeat constructor.
Defined.

(** X24. Whatever the geometry file holds, the default size the start-up
    leaves is positive in both directions: numbers that are not both
    positive are not applied, and the size stays 1200 x 800 unless the file
    holds three numbers. *)
Theorem default_size_always_positive : forall conf writable,
  let w := Geometry.activate_window conf writable in
  0 < fst (Geometry.default_size w) /\ 0 < snd (Geometry.default_size w)
  /\ (match conf with
      | Some text => Geometry.fscanf_3d text = None
      | None => True
      end ->
      Geometry.default_size w = (1200, 800)
      /\ Geometry.maximize_called w = false).
Proof.
  intros conf writable w. subst w.
  unfold Geometry.activate_window, Geometry.load_window_geometry.
  cbn [Geometry.window_conf].
  destruct conf as [text|]; [|cbn; repeat split; lia].
  destruct (Geometry.fscanf_3d text) as [[[a b] c]|] eqn:E.
  - cbn [Geometry.default_size Geometry.maximize_called].
    destruct ((0 <? a) && (0 <? b)) eqn:P.
    + apply andb_true_iff in P. destruct P as [P1 P2].
      apply Z.ltb_lt in P1. apply Z.ltb_lt in P2.
      cbn [fst snd]. split; [exact P1|]. split; [exact P2|]. discriminate.
    + cbn [fst snd]. split; [lia|]. split; [lia|]. discriminate.
  - cbn. repeat split; lia.
Qed.

Lemma default_size_always_positive_witness :
  Geometry.default_size (Geometry.activate_window (Some "-5 700") true)
  = (1200, 800).
Proof.
  apply (default_size_always_positive (Some "-5 700") true). reflexivity.
Defined.

(** * Migration of the old configuration directory *)

Module Migration.

(** A path of the file system: nothing there, something that exists but
    cannot be read as a file, or a file with its contents. *)
Inductive FileState : Type :=
| Absent
| Unreadable
| Contents (text : string).

(** The four files [migrate_config_to_data] looks at -- [projects.conf] and
    [theme.conf] in the old configuration directory and in the data
    directory, the two directories being different ones -- and whether
    [g_file_set_contents] succeeds in the data directory. *)
Record ConfigFiles : Type := mkConfigFiles {
  old_projects : FileState;
  old_theme : FileState;
  new_projects : FileState;
  new_theme : FileState;
  data_writable : bool
}.

(** [g_file_test (path, G_FILE_TEST_EXISTS)] *)
Definition g_file_test_exists (f : FileState) : bool :=
  match f with
  | Absent => false
  | _ => true
  end.

Definition g_file_get_contents (f : FileState) : option string :=
  match f with
  | Contents text => Some text
  | _ => None
  end.

(** [g_file_set_contents]: the file as it is afterwards. *)
Definition g_file_set_contents (writable : bool) (f : FileState)
  (contents : string) : FileState :=
  if writable then Contents contents else f.

Definition set_new_projects (fs : ConfigFiles) (f : FileState) : ConfigFiles :=
  mkConfigFiles (old_projects fs) (old_theme fs) f (new_theme fs)
    (data_writable fs).

Definition set_new_theme (fs : ConfigFiles) (f : FileState) : ConfigFiles :=
  mkConfigFiles (old_projects fs) (old_theme fs) (new_projects fs) f
    (data_writable fs).

Definition migrate_config_to_data (fs : ConfigFiles) : ConfigFiles :=
  if negb (g_file_test_exists (new_projects fs)) then
    let fs :=
      if g_file_test_exists (old_projects fs) then
        match g_file_get_contents (old_projects fs) with
        | Some contents =>
            set_new_projects fs
              (g_file_set_contents (data_writable fs) (new_projects fs)
                 contents)
        | None => fs
        end
      else fs in
    if g_file_test_exists (old_theme fs)
       && negb (g_file_test_exists (new_theme fs)) then
      match g_file_get_contents (old_theme fs) with
      | Some contents =>
          set_new_theme fs
            (g_file_set_contents (data_writable fs) (new_theme fs) contents)
      | None => fs
      end
    else fs
  else fs.

End Migration.

(** X25. [migrate_config_to_data] only ever fills gaps: the old directory
    is left as it is, a [projects.conf] or [theme.conf] that already exists
    in the data directory keeps its state, nothing at all happens once the
    data directory has a [projects.conf], and running the migration a
    second time changes nothing more. *)
Theorem migration_fills_gaps_only : forall fs,
  let fs' := Migration.migrate_config_to_data fs in
  Migration.old_projects fs' = Migration.old_projects fs
  /\ Migration.old_theme fs' = Migration.old_theme fs
  /\ (Migration.new_projects fs <> Migration.Absent -> fs' = fs)
  /\ (Migration.new_theme fs <> Migration.Absent ->
      Migration.new_theme fs' = Migration.new_theme fs)
  /\ Migration.migrate_config_to_data fs' = fs'.
Proof.
  intros [op ot np nt wr] fs'. subst fs'.
  unfold Migration.migrate_config_to_data.
  destruct np, op, ot, nt, wr; cbn;
    repeat split; try reflexivity; try congruence.
Qed.

(** The old directory holds both files; the data directory a theme only. *)
Definition half_migrated : Migration.ConfigFiles :=
  Migration.mkConfigFiles (Migration.Contents "/home/u/a")
    (Migration.Contents "Nord") Migration.Absent
    (Migration.Contents "Dracula") true.

Lemma migration_fills_gaps_only_witness :
  Migration.new_theme (Migration.migrate_config_to_data half_migrated)
  = Migration.Contents "Dracula"
  /\ Migration.new_projects (Migration.migrate_config_to_data half_migrated)
     = Migration.Contents "/home/u/a".
Proof.
  destruct (migration_fills_gaps_only half_migrated) as [_ [_ [_ [A _]]]].
  split; [apply A; discriminate|reflexivity].
Defined.

(** * Keyboard shortcuts *)

Definition GDK_SHIFT_MASK : Z := Z.shiftl 1 0.
Definition GDK_CONTROL_MASK : Z := Z.shiftl 1 2.
Definition GDK_KEY_C : Z := 67.
Definition GDK_KEY_c : Z := 99.
Definition GDK_KEY_V : Z := 86.
Definition GDK_KEY_v : Z := 118.

(** What [on_key_pressed] does with a key: FALSE is returned and the key
    goes on to the terminal, or the terminal of a subtab is asked to copy
    or to paste and TRUE is returned. *)
Inductive KeyResult : Type :=
| Propagate
| CopyFrom (subtab : nat)
| PasteInto (subtab : nat).

Definition on_key_pressed (keyval modifiers : Z) (a : AppState) : KeyResult :=
  match active_project a with
  | None => Propagate
  | Some ptr =>
      match find_project a ptr with
      | None => Propagate
      | Some project =>
          match active_subtab project with
          | None => Propagate
          | Some s =>
              let ctrl_shift :=
                Z.land modifiers (Z.lor GDK_CONTROL_MASK GDK_SHIFT_MASK)
                =? Z.lor GDK_CONTROL_MASK GDK_SHIFT_MASK in
              if ctrl_shift && ((keyval =? GDK_KEY_C) || (keyval =? GDK_KEY_c))
              then CopyFrom s
              else if ctrl_shift
                      && ((keyval =? GDK_KEY_V) || (keyval =? GDK_KEY_v))
              then PasteInto s
              else Propagate
          end
      end
  end.

(** The test on the modifiers holds exactly when the Shift bit (bit 0) and
    the Control bit (bit 2) are both set, whatever the other bits. *)
Lemma ctrl_shift_bits : forall modifiers,
  (Z.land modifiers (Z.lor GDK_CONTROL_MASK GDK_SHIFT_MASK)
   =? Z.lor GDK_CONTROL_MASK GDK_SHIFT_MASK)
  = Z.testbit modifiers 0 && Z.testbit modifiers 2.
Proof.
  intros m. change (Z.lor GDK_CONTROL_MASK GDK_SHIFT_MASK) with 5.
  apply eq_true_iff_eq. rewrite Z.eqb_eq, andb_true_iff. split.
  - intros H. split.
    + assert (E : Z.testbit (Z.land m 5) 0 = Z.testbit 5 0) by (rewrite H; auto).
      rewrite Z.land_spec in E. change (Z.testbit 5 0) with true in E.
      rewrite andb_true_r in E. exact E.
    + assert (E : Z.testbit (Z.land m 5) 2 = Z.testbit 5 2) by (rewrite H; auto).
      rewrite Z.land_spec in E. change (Z.testbit 5 2) with true in E.
      rewrite andb_true_r in E. exact E.
  - intros [H0 H2]. apply Z.bits_inj'. intros n Hn. rewrite Z.land_spec.
    destruct (Z.eq_dec n 0) as [->|N0]; [rewrite H0; reflexivity|].
    destruct (Z.eq_dec n 2) as [->|N2]; [rewrite H2; reflexivity|].
    assert (E : Z.testbit 5 n = false).
    { destruct (Z.eq_dec n 1) as [->|N1]; [reflexivity|].
      apply Z.bits_above_log2; [lia|]. change (Z.log2 5) with 2. lia. }
    rewrite E. apply andb_false_r.
Qed.

(** X26. The key handler on any state the program reaches: a key is held
    back from the terminal only when the Shift and the Control bits of the
    modifiers are both set and the key is C, c, V or v, and then the
    terminal asked to copy or paste is that of the active subtab of the
    active project, a subtab that is linked to that project and has not
    been freed.  Every other key -- Control-C without Shift, say -- goes on
    to the terminal. *)
Theorem key_shortcuts_reach_live_terminal :
  forall f now events keyval modifiers,
  let w := run f now events in
  match on_key_pressed keyval modifiers (app w) with
  | Propagate =>
      Z.testbit modifiers 0 = false \/ Z.testbit modifiers 2 = false
      \/ ~ In keyval [GDK_KEY_C; GDK_KEY_c; GDK_KEY_V; GDK_KEY_v]
      \/ (forall p, In p (projects (app w)) ->
            active_project (app w) = Some (project_ptr p) ->
            active_subtab p = None)
  | CopyFrom s | PasteInto s =>
      Z.testbit modifiers 0 = true /\ Z.testbit modifiers 2 = true
      /\ In keyval [GDK_KEY_C; GDK_KEY_c; GDK_KEY_V; GDK_KEY_v]
      /\ (exists p, In p (projects (app w))
            /\ active_project (app w) = Some (project_ptr p)
            /\ active_subtab p = Some s
            /\ In s (map subtab_ptr (subtabs p)))
      /\ ~ In s (freed w)
  end.
Proof.
  intros f now events keyval modifiers w.
  pose proof (run_side f now events) as [_ [_ Ha]].
  destruct (run_Inv2 f now events) as [[[_ [Hnd _]] _] Hok].
  destruct (run_freed_ok f now events) as [_ [_ [_ Hfr]]].
  fold w in Ha, Hnd, Hok, Hfr.
  unfold on_key_pressed. rewrite ctrl_shift_bits.
  destruct (active_project (app w)) as [ptr|] eqn:Eap.
  2:{ right. right. right. intros p Hp. discriminate. }
  destruct (find_project (app w) ptr) as [project|] eqn:Efp.
  2:{ exfalso. apply in_map_iff in Ha. destruct Ha as [p [E Hp]].
      rewrite <- E in Efp.
      rewrite (find_project_unique _ _ Hnd Hp) in Efp. discriminate. }
  pose proof (find_project_In _ _ _ Efp) as [Hin Hptr].
  destruct (active_subtab project) as [s|] eqn:Eas.
  2:{ right. right. right. intros p Hp E. injection E as E.
      assert (Hp' : find_project (app w) (project_ptr p) = Some p)
        by (apply find_project_unique; assumption).
      rewrite <- E in Hp'. rewrite Efp in Hp'. injection Hp' as <-.
      exact Eas. }
  assert (Hlive : In s (map subtab_ptr (subtabs project))).
  { unfold AOK in Hok. rewrite Forall_forall in Hok.
    pose proof (Hok project Hin) as Hp. unfold active_ok in Hp.
    rewrite Eas in Hp. exact Hp. }
  assert (Hnf : ~ In s (freed w)).
  { intros Hf. apply (Hfr s Hf). unfold live, all_subtabs.
    rewrite map_flat_map. apply in_flat_map. exists project. auto. }
  assert (Hex : exists p, In p (projects (app w))
                  /\ Some ptr = Some (project_ptr p)
                  /\ active_subtab p = Some s
                  /\ In s (map subtab_ptr (subtabs p))).
  { exists project. rewrite Hptr. auto. }
  destruct (Z.testbit modifiers 0) eqn:B0; [|left; reflexivity].
  destruct (Z.testbit modifiers 2) eqn:B2; [|right; left; reflexivity].
  cbn [andb].
  destruct (keyval =? GDK_KEY_C) eqn:K1.
  { apply Z.eqb_eq in K1. cbn [orb]. repeat split; auto. left. auto. }
  destruct (keyval =? GDK_KEY_c) eqn:K2.
  { apply Z.eqb_eq in K2. cbn [orb]. repeat split; auto.
    right. left. auto. }
  cbn [orb].
  destruct (keyval =? GDK_KEY_V) eqn:K3.
  { apply Z.eqb_eq in K3. cbn [orb]. repeat split; auto.
    right. right. left. auto. }
  destruct (keyval =? GDK_KEY_v) eqn:K4.
  { apply Z.eqb_eq in K4. cbn [orb]. repeat split; auto.
    right. right. right. left. auto. }
  cbn [orb]. right. right. left.
  apply Z.eqb_neq in K1, K2, K3, K4.
  intros [E|[E|[E|[E|[]]]]]; congruence.
Qed.
